(** * Busta_IM: stock, production and purchasing lifecycles

    A shallow embedding of the Django service functions of
    [backend/inventory/models.py], [backend/production/models.py] and
    [backend/purchasing/models.py], and the properties of the stock and
    order engine proved about them.

    Conventions of the embedding.
    - Every [DecimalField(max_digits=12, decimal_places=3)] column is a
      number of thousandths, held as a [Z]; sums, differences and
      comparisons of such columns are exact in Python's [Decimal], so they
      are the operations of [Z].  The widths of the columns (12 digits) and
      of the decimal context (28 digits) are not modelled.
    - The only place where the source rounds, [Decimal.quantize], is
      modelled on general decimals (module [Decimal]).
    - The database is a record of tables; a service function is a
      computation in a state-and-exception monad whose state survives an
      exception, and [transaction.atomic()] is the combinator that puts
      the initial state back when its body raises.
    - [timezone.now()] is a parameter [now] of the functions that read it. *)

From stdpp Require Import base numbers option list gmap strings.

Local Open Scope Z_scope.

(** ** Python's [Decimal], as far as the source uses it *)

Module Decimal.

(** The decimal [coef * 10 ^ exp]. *)
Record t := mk { coef : Z; exp : Z }.

(** [Decimal(n)] for an [int]. *)
Definition of_int (n : Z) : t := mk n 0.

(** The value of a three-places column read from the database. *)
Definition of_milli (m : Z) : t := mk m (-3).

(** [a * b]: coefficients multiply, exponents add. *)
Definition mul (a b : t) : t := mk (coef a * coef b) (exp a + exp b).

(** [n / d] rounded to the nearest integer, ties to the even neighbour
    (ROUND_HALF_EVEN, the rounding of the default context), for [0 < d]. *)
Definition round_half_even (n d : Z) : Z :=
  let q := n `div` d in
  let r := n `mod` d in
  if 2 * r <? d then q
  else if d <? 2 * r then q + 1
  else if Z.even q then q else q + 1.

(** [a.quantize(Decimal("0.001"))], the result given in thousandths. *)
Definition quantize_milli (a : t) : Z :=
  if 0 <=? exp a + 3 then coef a * 10 ^ (exp a + 3)
  else round_half_even (coef a) (10 ^ (- (exp a + 3))).

End Decimal.

(** ** Models *)

(** A user is known by its primary key. *)
Abbreviation user := Z (only parsing).

Module Partner.
Inductive PartnerType := SUPPLIER | BUYER | BOTH.
Record t := mk { id : Z; name : string; partner_type : PartnerType }.
End Partner.

Module RawMaterial.
Record t := mk {
  id : Z;
  name : string;
  unit : string;
  current_stock : Z;
  vendor_id : Z
}.

(** [m.current_stock = s] on the in-memory object. *)
Definition set_current_stock (s : Z) (m : t) : t :=
  mk (id m) (name m) (unit m) s (vendor_id m).
End RawMaterial.

(** The [reason] column: a caller's text or one of the f-strings of the
    service functions, kept with its arguments. *)
Inductive reason :=
  | ReasonText (s : string)
  | ConsumedByProductionOrder (order_id : Z)
  | ReleasedForProductionOrder (order_id : Z)
  | RevertedByCancellingProductionOrder (order_id : Z)
  | ReceivedAgainstPurchaseOrder (order_id : Z) (material_name : string).

Module InventoryLedger.
Inductive TxnType := IN | OUT | ADJUST.
Record t := mk {
  material : Z;
  txn_type : TxnType;
  quantity : Z;
  unit : string;
  reason_ : reason;
  reference_type : string;
  reference_id : Z;
  created_by : user
}.
End InventoryLedger.

Module BOMItem.
Record t := mk { product : Z; material_id : Z; qty_per_unit : Decimal.t }.
End BOMItem.

Module ProductionOrder.
Inductive Status := AWAITING_RM_RELEASE | PLANNED | IN_PROGRESS | COMPLETED | CANCELLED.
Record t := mk {
  id : Z;
  product : Z;
  quantity : Z;
  planned_qty : Z;
  raw_material_released : bool;
  status : Status;
  notes : string;
  created_by : user
}.

Definition set_status (s : Status) (o : t) : t :=
  mk (id o) (product o) (quantity o) (planned_qty o) (raw_material_released o) s
     (notes o) (created_by o).
Definition set_raw_material_released (b : bool) (o : t) : t :=
  mk (id o) (product o) (quantity o) (planned_qty o) b (status o)
     (notes o) (created_by o).
End ProductionOrder.

Module ProductionConsumption.
Record t := mk { production_order : Z; material_id : Z; required_qty : Z }.
End ProductionConsumption.

Module PurchaseOrder.
Inductive Status := OPEN | PARTIALLY_RECEIVED | RECEIVED | CANCELLED.
Record t := mk {
  id : Z;
  vendor : Z;
  order_date : string;
  status : Status;
  notes : string;
  created_by : user;
  received_by : option user;
  received_at : option Z;
  cancelled_by : option user;
  cancelled_at : option Z
}.

Definition set_status (s : Status) (o : t) : t :=
  mk (id o) (vendor o) (order_date o) s (notes o) (created_by o)
     (received_by o) (received_at o) (cancelled_by o) (cancelled_at o).
Definition set_received (by_ : option user) (at_ : option Z) (o : t) : t :=
  mk (id o) (vendor o) (order_date o) (status o) (notes o) (created_by o)
     by_ at_ (cancelled_by o) (cancelled_at o).
Definition set_cancelled (by_ : option user) (at_ : option Z) (o : t) : t :=
  mk (id o) (vendor o) (order_date o) (status o) (notes o) (created_by o)
     (received_by o) (received_at o) by_ at_.
End PurchaseOrder.

Module PurchaseOrderItem.
Record t := mk {
  id : Z;
  purchase_order : Z;
  material_id : Z;
  quantity : Z;
  received_quantity : Z;
  unit : string
}.

Definition set_received_quantity (q : Z) (i : t) : t :=
  mk (id i) (purchase_order i) (material_id i) (quantity i) q (unit i).

(** The [pending_quantity] property. *)
Definition pending_quantity (i : t) : Z :=
  let pending := quantity i - received_quantity i in
  if 0 <? pending then pending else 0.
End PurchaseOrderItem.

Module PurchaseLineInput.
Record t := mk { material : RawMaterial.t; quantity : Z }.
End PurchaseLineInput.

(** ** The database *)

(** Tables looked up by primary key are finite maps; tables that the
    source iterates are lists in the order of their [Meta.ordering]
    (for [id] orderings, the order of creation).  The [_seq] fields are
    the last primary key handed out by each auto-increment column. *)
Record DB := mkDB {
  partners : gmap Z Partner.t;
  raw_materials : gmap Z RawMaterial.t;
  inventory_ledger : list InventoryLedger.t;
  bom_items : list BOMItem.t;
  production_orders : gmap Z ProductionOrder.t;
  production_order_seq : Z;
  production_consumptions : list ProductionConsumption.t;
  purchase_orders : gmap Z PurchaseOrder.t;
  purchase_order_seq : Z;
  purchase_order_items : list PurchaseOrderItem.t;
  purchase_order_item_seq : Z
}.

Definition set_raw_materials (f : gmap Z RawMaterial.t → gmap Z RawMaterial.t) (db : DB) : DB :=
  mkDB (partners db) (f (raw_materials db)) (inventory_ledger db) (bom_items db)
       (production_orders db) (production_order_seq db) (production_consumptions db)
       (purchase_orders db) (purchase_order_seq db) (purchase_order_items db)
       (purchase_order_item_seq db).

Definition set_inventory_ledger (f : list InventoryLedger.t → list InventoryLedger.t) (db : DB) : DB :=
  mkDB (partners db) (raw_materials db) (f (inventory_ledger db)) (bom_items db)
       (production_orders db) (production_order_seq db) (production_consumptions db)
       (purchase_orders db) (purchase_order_seq db) (purchase_order_items db)
       (purchase_order_item_seq db).

Definition set_production_orders (f : gmap Z ProductionOrder.t → gmap Z ProductionOrder.t)
    (seq : Z) (db : DB) : DB :=
  mkDB (partners db) (raw_materials db) (inventory_ledger db) (bom_items db)
       (f (production_orders db)) seq (production_consumptions db)
       (purchase_orders db) (purchase_order_seq db) (purchase_order_items db)
       (purchase_order_item_seq db).

Definition set_production_consumptions
    (f : list ProductionConsumption.t → list ProductionConsumption.t) (db : DB) : DB :=
  mkDB (partners db) (raw_materials db) (inventory_ledger db) (bom_items db)
       (production_orders db) (production_order_seq db) (f (production_consumptions db))
       (purchase_orders db) (purchase_order_seq db) (purchase_order_items db)
       (purchase_order_item_seq db).

Definition set_purchase_orders (f : gmap Z PurchaseOrder.t → gmap Z PurchaseOrder.t)
    (seq : Z) (db : DB) : DB :=
  mkDB (partners db) (raw_materials db) (inventory_ledger db) (bom_items db)
       (production_orders db) (production_order_seq db) (production_consumptions db)
       (f (purchase_orders db)) seq (purchase_order_items db)
       (purchase_order_item_seq db).

Definition set_purchase_order_items
    (f : list PurchaseOrderItem.t → list PurchaseOrderItem.t) (seq : Z) (db : DB) : DB :=
  mkDB (partners db) (raw_materials db) (inventory_ledger db) (bom_items db)
       (production_orders db) (production_order_seq db) (production_consumptions db)
       (purchase_orders db) (purchase_order_seq db) (f (purchase_order_items db)) seq.

(** ** Exceptions *)

(** One line of the list that the shortage loops join with ["; "]. *)
Inductive shortage :=
  | Short (name : string) (required : Z) (unit : string) (available : Z)
  | MissingFromInventory (material_id : Z).

(** The text of an exception: a literal, or an f-string with its arguments. *)
Inductive message :=
  | Msg (text : string)
  | MsgShortages (prefix : string) (shortages : list shortage)
  | MsgExceedsPending (material_name : string) (pending : Z).

Inductive exn :=
  | ValueError (m : message)
  | ValidationError (m : message)
  | DoesNotExist
  | KeyError (key : Z).

(** ** The monad of service functions *)

Definition M (A : Type) : Type := DB → (exn + A) * DB.

Global Instance M_ret : MRet M := λ A a db, (inr a, db).

Global Instance M_bind : MBind M := λ A B f m db,
  match m db with
  | (inl e, db') => (inl e, db')
  | (inr a, db') => f a db'
  end.

Definition raise {A} (e : exn) : M A := λ db, (inl e, db).
Definition get_db : M DB := λ db, (inr db, db).
Definition modify_db (f : DB → DB) : M () := λ db, (inr (), f db).

(** [with transaction.atomic(): body]: an exception leaving the block
    rolls every write of the block back. *)
Definition atomic {A} (body : M A) : M A := λ db,
  match body db with
  | (inl e, _) => (inl e, db)
  | (inr a, db') => (inr a, db')
  end.

(** [for x in xs: body(x)], threading the local variables [s] that the
    body rebinds. *)
Fixpoint for_each {A S} (xs : list A) (body : A → S → M S) (s : S) : M S :=
  match xs with
  | [] => mret s
  | x :: xs' => s' ← body x s; for_each xs' body s'
  end.

(** ** Queries and writes of the ORM *)

(** [RawMaterial.objects.select_for_update().get(pk=pk)] *)
Definition RawMaterial_get (pk : Z) : M RawMaterial.t :=
  db ← get_db;
  match raw_materials db !! pk with
  | Some m => mret m
  | None => raise DoesNotExist
  end.

(** [{m.id: m for m in RawMaterial.objects.select_for_update().filter(id__in=ids)}] *)
Definition RawMaterial_by_id (ids : list Z) : M (gmap Z RawMaterial.t) :=
  db ← get_db;
  mret (filter (λ kv, kv.1 ∈ ids) (raw_materials db)).

(** [material.save(update_fields=["current_stock"])]:
    [UPDATE ... SET current_stock = ... WHERE id = material.id]. *)
Definition RawMaterial_save_current_stock (m : RawMaterial.t) : M () :=
  modify_db (set_raw_materials
    (alter (RawMaterial.set_current_stock (RawMaterial.current_stock m)) (RawMaterial.id m))).

(** [InventoryLedger.objects.create(...)] *)
Definition InventoryLedger_create (e : InventoryLedger.t) : M () :=
  modify_db (set_inventory_ledger (λ l, l ++ [e])).

(** [materials[key]] on a dict of materials. *)
Definition getitem (materials : gmap Z RawMaterial.t) (key : Z) : M RawMaterial.t :=
  match materials !! key with
  | Some m => mret m
  | None => raise (KeyError key)
  end.

(** ** inventory/models.py *)

(** [adjust_stock(material, delta, reason, created_by)]: the row is locked,
    a balance below zero is refused, and one ledger row is written. *)
Definition adjust_stock (material : RawMaterial.t) (delta : Z) (reason_ : string)
    (created_by : user) : M RawMaterial.t :=
  if bool_decide (delta = 0) then
    raise (ValueError (Msg "Adjustment quantity cannot be zero."))
  else
    atomic (
      locked ← RawMaterial_get (RawMaterial.id material);
      let new_stock := RawMaterial.current_stock locked + delta in
      if new_stock <? 0 then
        raise (ValueError (Msg "Stock cannot become negative."))
      else
        let locked := RawMaterial.set_current_stock new_stock locked in
        RawMaterial_save_current_stock locked;;
        InventoryLedger_create (InventoryLedger.mk
          (RawMaterial.id locked)
          (if 0 <? delta then InventoryLedger.IN else InventoryLedger.OUT)
          (Z.abs delta)
          (RawMaterial.unit locked)
          (ReasonText reason_)
          "manual_adjustment"
          (RawMaterial.id locked)
          created_by);;
        mret locked).

(** ** production/models.py *)

Global Instance ProductionOrder_Status_eq_dec : EqDecision ProductionOrder.Status.
Proof. solve_decision. Defined.

(** [list(BOMItem.objects.select_related("material").filter(product=product))] *)
Definition BOMItem_filter (product : Z) : M (list BOMItem.t) :=
  db ← get_db;
  mret (filter (λ b, BOMItem.product b = product) (bom_items db)).

(** [ProductionOrder.objects.create(...)]: the row gets the next key. *)
Definition ProductionOrder_create (product quantity planned_qty : Z)
    (raw_material_released : bool) (status : ProductionOrder.Status)
    (notes : string) (created_by : user) : M ProductionOrder.t :=
  db ← get_db;
  let pk := production_order_seq db + 1 in
  let order := ProductionOrder.mk pk product quantity planned_qty
                 raw_material_released status notes created_by in
  modify_db (set_production_orders (insert pk order) pk);;
  mret order.

(** [ProductionOrder.objects.select_for_update().get(pk=pk)] *)
Definition ProductionOrder_get (pk : Z) : M ProductionOrder.t :=
  db ← get_db;
  match production_orders db !! pk with
  | Some o => mret o
  | None => raise DoesNotExist
  end.

(** [order.save(update_fields=[...])]: [copy] carries the listed fields
    of the object over to the stored row. *)
Definition ProductionOrder_save (copy : ProductionOrder.t → ProductionOrder.t)
    (order : ProductionOrder.t) : M () :=
  db ← get_db;
  modify_db (set_production_orders (alter copy (ProductionOrder.id order))
               (production_order_seq db)).

(** [ProductionConsumption.objects.create(...)] *)
Definition ProductionConsumption_create (c : ProductionConsumption.t) : M () :=
  modify_db (set_production_consumptions (λ l, l ++ [c])).

(** [list(order.consumptions.select_related("material"))], ordered by id. *)
Definition consumptions_of (order_pk : Z) : M (list ProductionConsumption.t) :=
  db ← get_db;
  mret (filter (λ c, ProductionConsumption.production_order c = order_pk)
          (production_consumptions db)).

(** [create_production_order_and_deduct_stock]: check every BOM line,
    then deduct, in one transaction. *)
Definition create_production_order_and_deduct_stock (product : Z) (quantity : Z)
    (notes : string) (created_by : user) : M ProductionOrder.t :=
  bom_items ← BOMItem_filter product;
  match bom_items with
  | [] => raise (ValidationError (Msg "No BOM defined for selected product."))
  | _ =>
    let material_ids := BOMItem.material_id <$> bom_items in
    atomic (
      materials ← RawMaterial_by_id material_ids;
      checked ← for_each bom_items (λ item '(shortages, requirements),
        material ← getitem materials (BOMItem.material_id item);
        let required := Decimal.quantize_milli
          (Decimal.mul (BOMItem.qty_per_unit item) (Decimal.of_int quantity)) in
        let requirements := requirements ++ [(item, required)] in
        if RawMaterial.current_stock material <? required then
          mret (shortages ++ [Short (RawMaterial.name material) required
                                (RawMaterial.unit material)
                                (RawMaterial.current_stock material)],
                requirements)
        else mret (shortages, requirements)) ([], []);
      let '(shortages, requirements) := checked in
      match shortages with
      | _ :: _ => raise (ValidationError (MsgShortages "Insufficient stock. " shortages))
      | [] =>
        order ← ProductionOrder_create product quantity
          (Decimal.quantize_milli (Decimal.of_int quantity))
          true ProductionOrder.PLANNED notes created_by;
        for_each requirements (λ '(item, required) materials,
          material ← getitem materials (BOMItem.material_id item);
          let material := RawMaterial.set_current_stock
            (RawMaterial.current_stock material - required) material in
          RawMaterial_save_current_stock material;;
          ProductionConsumption_create (ProductionConsumption.mk
            (ProductionOrder.id order) (RawMaterial.id material) required);;
          InventoryLedger_create (InventoryLedger.mk
            (RawMaterial.id material) InventoryLedger.OUT required
            (RawMaterial.unit material)
            (ConsumedByProductionOrder (ProductionOrder.id order))
            "production_order" (ProductionOrder.id order) created_by);;
          mret (<[BOMItem.material_id item := material]> materials)) materials;;
        mret order
      end)
  end.

(** [create_production_order_with_rm_request]: the order and its
    consumption lines, with no stock read or written. *)
Definition create_production_order_with_rm_request (product : Z) (quantity : Z)
    (notes : string) (created_by : user) : M ProductionOrder.t :=
  bom_items ← BOMItem_filter product;
  match bom_items with
  | [] => raise (ValidationError (Msg "No BOM defined for selected product."))
  | _ =>
    atomic (
      order ← ProductionOrder_create product quantity
        (Decimal.quantize_milli (Decimal.of_int quantity))
        false ProductionOrder.AWAITING_RM_RELEASE notes created_by;
      for_each bom_items (λ item _,
        let required := Decimal.quantize_milli
          (Decimal.mul (BOMItem.qty_per_unit item) (Decimal.of_int quantity)) in
        ProductionConsumption_create (ProductionConsumption.mk
          (ProductionOrder.id order) (BOMItem.material_id item) required)) ();;
      mret order)
  end.

(** [release_raw_materials_for_production_order]: the stock check and
    the deduction of a requested order. *)
Definition release_raw_materials_for_production_order
    (production_order : ProductionOrder.t) (released_by : user) : M ProductionOrder.t :=
  atomic (
    locked_order ← ProductionOrder_get (ProductionOrder.id production_order);
    if bool_decide (ProductionOrder.status locked_order ≠ ProductionOrder.AWAITING_RM_RELEASE) then
      raise (ValidationError (Msg "This production order is not awaiting raw material release."))
    else if ProductionOrder.raw_material_released locked_order then
      raise (ValidationError (Msg "Raw materials are already released for this production order."))
    else
      consumptions ← consumptions_of (ProductionOrder.id locked_order);
      match consumptions with
      | [] => raise (ValidationError (Msg "No raw material requirements found for this production order."))
      | _ =>
        let material_ids := ProductionConsumption.material_id <$> consumptions in
        materials ← RawMaterial_by_id material_ids;
        let shortages := foldl (λ shortages consumption,
          match materials !! ProductionConsumption.material_id consumption with
          | None =>
            shortages ++ [MissingFromInventory (ProductionConsumption.material_id consumption)]
          | Some material =>
            if RawMaterial.current_stock material <? ProductionConsumption.required_qty consumption
            then shortages ++ [Short (RawMaterial.name material)
                                 (ProductionConsumption.required_qty consumption)
                                 (RawMaterial.unit material)
                                 (RawMaterial.current_stock material)]
            else shortages
          end) [] consumptions in
        match shortages with
        | _ :: _ =>
          raise (ValidationError (MsgShortages "Insufficient stock for release. " shortages))
        | [] =>
          for_each consumptions (λ consumption materials,
            material ← getitem materials (ProductionConsumption.material_id consumption);
            let material := RawMaterial.set_current_stock
              (RawMaterial.current_stock material
               - ProductionConsumption.required_qty consumption) material in
            RawMaterial_save_current_stock material;;
            InventoryLedger_create (InventoryLedger.mk
              (RawMaterial.id material) InventoryLedger.OUT
              (ProductionConsumption.required_qty consumption)
              (RawMaterial.unit material)
              (ReleasedForProductionOrder (ProductionOrder.id locked_order))
              "production_order" (ProductionOrder.id locked_order) released_by);;
            mret (<[ProductionConsumption.material_id consumption := material]> materials))
            materials;;
          let locked_order := ProductionOrder.set_status ProductionOrder.PLANNED
            (ProductionOrder.set_raw_material_released true locked_order) in
          ProductionOrder_save (λ row,
            ProductionOrder.set_status (ProductionOrder.status locked_order)
              (ProductionOrder.set_raw_material_released
                 (ProductionOrder.raw_material_released locked_order) row)) locked_order;;
          mret locked_order
        end
      end).

(** [cancel_production_order]: stock is given back only if it was released. *)
Definition cancel_production_order (production_order : ProductionOrder.t)
    (cancelled_by : user) : M ProductionOrder.t :=
  atomic (
    locked_order ← ProductionOrder_get (ProductionOrder.id production_order);
    if bool_decide (ProductionOrder.status locked_order = ProductionOrder.CANCELLED) then
      raise (ValidationError (Msg "Production order is already cancelled."))
    else if bool_decide (ProductionOrder.status locked_order = ProductionOrder.COMPLETED) then
      raise (ValidationError (Msg "Completed production order cannot be cancelled."))
    else
      (if ProductionOrder.raw_material_released locked_order then
         consumptions ← consumptions_of (ProductionOrder.id locked_order);
         let material_ids := ProductionConsumption.material_id <$> consumptions in
         materials ← RawMaterial_by_id material_ids;
         for_each consumptions (λ consumption materials,
           match materials !! ProductionConsumption.material_id consumption with
           | None => mret materials
           | Some material =>
             let material := RawMaterial.set_current_stock
               (RawMaterial.current_stock material
                + ProductionConsumption.required_qty consumption) material in
             RawMaterial_save_current_stock material;;
             InventoryLedger_create (InventoryLedger.mk
               (RawMaterial.id material) InventoryLedger.IN
               (ProductionConsumption.required_qty consumption)
               (RawMaterial.unit material)
               (RevertedByCancellingProductionOrder (ProductionOrder.id locked_order))
               "production_order" (ProductionOrder.id locked_order) cancelled_by);;
             mret (<[ProductionConsumption.material_id consumption := material]> materials)
           end) materials;;
         mret ()
       else mret ());;
      let locked_order := ProductionOrder.set_status ProductionOrder.CANCELLED locked_order in
      ProductionOrder_save (λ row,
        ProductionOrder.set_status (ProductionOrder.status locked_order) row) locked_order;;
      mret locked_order).

(** ** purchasing/models.py *)

Global Instance PurchaseOrder_Status_eq_dec : EqDecision PurchaseOrder.Status.
Proof. solve_decision. Defined.

Global Instance Partner_PartnerType_eq_dec : EqDecision Partner.PartnerType.
Proof. solve_decision. Defined.

(** A Python [dict] with integer keys, in insertion order.  A dict has
    no repeated key; [dict_set] keeps it so. *)
Definition dict (V : Type) : Type := list (Z * V).

(** [d.get(key, default)] *)
Fixpoint dict_get {V} (d : dict V) (key : Z) (default : V) : V :=
  match d with
  | [] => default
  | (k, v) :: d' => if bool_decide (k = key) then v else dict_get d' key default
  end.

(** [d[key] = v] *)
Fixpoint dict_set {V} (key : Z) (v : V) (d : dict V) : dict V :=
  match d with
  | [] => [(key, v)]
  | (k, v') :: d' =>
    if bool_decide (k = key) then (k, v) :: d' else (k, v') :: dict_set key v d'
  end.

(** [grouped[key].append(x)] on a [defaultdict(list)] *)
Fixpoint grouped_append {V} (key : Z) (x : V) (d : dict (list V)) : dict (list V) :=
  match d with
  | [] => [(key, [x])]
  | (k, xs) :: d' =>
    if bool_decide (k = key) then (k, xs ++ [x]) :: d'
    else (k, xs) :: grouped_append key x d'
  end.

(** [Partner.objects.get(pk=pk)] *)
Definition Partner_get (pk : Z) : M Partner.t :=
  db ← get_db;
  match partners db !! pk with
  | Some p => mret p
  | None => raise DoesNotExist
  end.

(** [PurchaseOrder.objects.create(vendor=..., order_date=..., notes=...,
    created_by=...)]; the other columns take their defaults. *)
Definition PurchaseOrder_create (vendor : Partner.t) (order_date notes : string)
    (created_by : user) : M PurchaseOrder.t :=
  db ← get_db;
  let pk := purchase_order_seq db + 1 in
  let order := PurchaseOrder.mk pk (Partner.id vendor) order_date PurchaseOrder.OPEN
                 notes created_by None None None None in
  modify_db (set_purchase_orders (insert pk order) pk);;
  mret order.

(** [PurchaseOrderItem.objects.create(purchase_order=..., material=...,
    quantity=..., unit=...)] *)
Definition PurchaseOrderItem_create (purchase_order : PurchaseOrder.t)
    (material : RawMaterial.t) (quantity : Z) (unit_ : string) : M () :=
  db ← get_db;
  let pk := purchase_order_item_seq db + 1 in
  modify_db (set_purchase_order_items
    (λ l, l ++ [PurchaseOrderItem.mk pk (PurchaseOrder.id purchase_order)
                  (RawMaterial.id material) quantity 0 unit_]) pk).

(** [PurchaseOrder.objects.select_for_update().get(pk=pk)] *)
Definition PurchaseOrder_get (pk : Z) : M PurchaseOrder.t :=
  db ← get_db;
  match purchase_orders db !! pk with
  | Some o => mret o
  | None => raise DoesNotExist
  end.

(** [order.save(update_fields=[...])] *)
Definition PurchaseOrder_save (copy : PurchaseOrder.t → PurchaseOrder.t)
    (order : PurchaseOrder.t) : M () :=
  db ← get_db;
  modify_db (set_purchase_orders (alter copy (PurchaseOrder.id order))
               (purchase_order_seq db)).

(** [list(order.items...)], ordered by id. *)
Definition items_of (order_pk : Z) : M (list PurchaseOrderItem.t) :=
  db ← get_db;
  mret (filter (λ i, PurchaseOrderItem.purchase_order i = order_pk)
          (purchase_order_items db)).

(** [item.save(update_fields=["received_quantity"])] *)
Definition PurchaseOrderItem_save_received_quantity (item : PurchaseOrderItem.t) : M () :=
  db ← get_db;
  modify_db (set_purchase_order_items
    (fmap (λ row,
       if bool_decide (PurchaseOrderItem.id row = PurchaseOrderItem.id item)
       then PurchaseOrderItem.set_received_quantity
              (PurchaseOrderItem.received_quantity item) row
       else row))
    (purchase_order_item_seq db)).

(** [item.material.name] of an item loaded with [select_related("material")];
    the foreign key is protected, so the row is there. *)
Definition related_material_name (rows : gmap Z RawMaterial.t)
    (item : PurchaseOrderItem.t) : string :=
  match rows !! PurchaseOrderItem.material_id item with
  | Some m => RawMaterial.name m
  | None => ""
  end.

(** [create_grouped_purchase_orders_with_vendor]: one order for each
    vendor, in the order the vendors first appear. *)
Definition create_grouped_purchase_orders_with_vendor (order_date notes : string)
    (created_by : user) (lines : list PurchaseLineInput.t) (vendor : option Partner.t)
    : M (list PurchaseOrder.t) :=
  match lines with
  | [] => raise (ValidationError (Msg "Add at least one raw material line item."))
  | _ =>
    if existsb (λ line, PurchaseLineInput.quantity line <=? 0) lines then
      raise (ValidationError (Msg "Quantity must be greater than zero."))
    else
      match vendor with
      | Some vendor =>
        if bool_decide (Partner.partner_type vendor ∉ [Partner.SUPPLIER; Partner.BOTH]) then
          raise (ValidationError (Msg "Selected vendor is not valid for purchase orders."))
        else
          atomic (
            order ← PurchaseOrder_create vendor order_date notes created_by;
            for_each lines (λ line _,
              PurchaseOrderItem_create order (PurchaseLineInput.material line)
                (PurchaseLineInput.quantity line)
                (RawMaterial.unit (PurchaseLineInput.material line))) ();;
            mret [order])
      | None =>
        let grouped := foldl (λ grouped line,
          grouped_append (RawMaterial.vendor_id (PurchaseLineInput.material line)) line grouped)
          [] lines in
        atomic (
          for_each grouped (λ '(vendor_id, vendor_lines) created_orders,
            grouped_vendor ← Partner_get vendor_id;
            order ← PurchaseOrder_create grouped_vendor order_date notes created_by;
            for_each vendor_lines (λ line _,
              PurchaseOrderItem_create order (PurchaseLineInput.material line)
                (PurchaseLineInput.quantity line)
                (RawMaterial.unit (PurchaseLineInput.material line))) ();;
            mret (created_orders ++ [order])) [])
      end
  end.

(** [create_grouped_purchase_orders]: the same, each line under the
    vendor of its material. *)
Definition create_grouped_purchase_orders (order_date notes : string)
    (created_by : user) (lines : list PurchaseLineInput.t) : M (list PurchaseOrder.t) :=
  create_grouped_purchase_orders_with_vendor order_date notes created_by lines None.

(** [_derive_status(items)] *)
Definition _derive_status (items : list PurchaseOrderItem.t) : PurchaseOrder.Status :=
  let all_received := forallb (λ item,
    PurchaseOrderItem.quantity item <=? PurchaseOrderItem.received_quantity item) items in
  let any_received := existsb (λ item, 0 <? PurchaseOrderItem.received_quantity item) items in
  if all_received then PurchaseOrder.RECEIVED
  else if any_received then PurchaseOrder.PARTIALLY_RECEIVED
  else PurchaseOrder.OPEN.

(** [receive_purchase_order]: [line_quantities] is [None] when the
    caller gives no map; [now] is [timezone.now()]. *)
Definition receive_purchase_order (now : Z) (purchase_order : PurchaseOrder.t)
    (received_by : user) (line_quantities : option (dict Z)) : M PurchaseOrder.t :=
  atomic (
    locked_order ← PurchaseOrder_get (PurchaseOrder.id purchase_order);
    if bool_decide (PurchaseOrder.status locked_order = PurchaseOrder.CANCELLED) then
      raise (ValidationError (Msg "Cancelled purchase order cannot be received."))
    else if bool_decide (PurchaseOrder.status locked_order = PurchaseOrder.RECEIVED) then
      raise (ValidationError (Msg "Purchase order is already fully received."))
    else
      items ← items_of (PurchaseOrder.id locked_order);
      related ← (db ← get_db; mret (raw_materials db));
      match items with
      | [] => raise (ValidationError (Msg "Purchase order has no line items to receive."))
      | _ =>
        quantities ←
          match line_quantities with
          | Some ((_ :: _) as line_quantities) =>
            match filter (λ kv, 0 < kv.2) line_quantities with
            | [] => raise (ValidationError (Msg "Enter at least one quantity greater than zero."))
            | quantities => mret quantities
            end
          | _ =>
            match foldl (λ quantities item,
                    if 0 <? PurchaseOrderItem.pending_quantity item
                    then dict_set (PurchaseOrderItem.id item)
                           (PurchaseOrderItem.pending_quantity item) quantities
                    else quantities) [] items with
            | [] => raise (ValidationError (Msg "No pending quantities left to receive."))
            | quantities => mret quantities
            end
          end;
        let item_map : gmap Z PurchaseOrderItem.t :=
          foldl (λ d item, <[PurchaseOrderItem.id item := item]> d) ∅ items in
        if existsb (λ kv, bool_decide (item_map !! kv.1 = None)) quantities then
          raise (ValidationError (Msg "Invalid purchase order item in receive payload."))
        else
          for_each quantities (λ '(item_id, qty) _,
            match item_map !! item_id with
            | None => raise (KeyError item_id)
            | Some item =>
              if PurchaseOrderItem.pending_quantity item <? qty then
                raise (ValidationError (MsgExceedsPending
                  (related_material_name related item)
                  (PurchaseOrderItem.pending_quantity item)))
              else mret ()
            end) ();;
          let material_ids := PurchaseOrderItem.material_id <$> items in
          materials ← RawMaterial_by_id material_ids;
          looped ← for_each items (λ item '(materials, items),
            let receive_qty := dict_get quantities (PurchaseOrderItem.id item) 0 in
            if receive_qty <=? 0 then mret (materials, items ++ [item])
            else
              material ← getitem materials (PurchaseOrderItem.material_id item);
              let material := RawMaterial.set_current_stock
                (RawMaterial.current_stock material + receive_qty) material in
              RawMaterial_save_current_stock material;;
              let item := PurchaseOrderItem.set_received_quantity
                (PurchaseOrderItem.received_quantity item + receive_qty) item in
              PurchaseOrderItem_save_received_quantity item;;
              InventoryLedger_create (InventoryLedger.mk
                (RawMaterial.id material) InventoryLedger.IN receive_qty
                (PurchaseOrderItem.unit item)
                (ReceivedAgainstPurchaseOrder (PurchaseOrder.id locked_order)
                   (related_material_name related item))
                "purchase_order" (PurchaseOrder.id locked_order) received_by);;
              mret (<[PurchaseOrderItem.material_id item := material]> materials,
                    items ++ [item])) (materials, []);
          let items := looped.2 in
          let new_status := _derive_status items in
          let locked_order := PurchaseOrder.set_status new_status locked_order in
          if bool_decide (new_status = PurchaseOrder.RECEIVED) then
            let locked_order :=
              PurchaseOrder.set_received (Some received_by) (Some now) locked_order in
            PurchaseOrder_save (λ row,
              PurchaseOrder.set_received (PurchaseOrder.received_by locked_order)
                (PurchaseOrder.received_at locked_order)
                (PurchaseOrder.set_status (PurchaseOrder.status locked_order) row))
              locked_order;;
            mret locked_order
          else
            PurchaseOrder_save (λ row,
              PurchaseOrder.set_status (PurchaseOrder.status locked_order) row)
              locked_order;;
            mret locked_order
      end).

(** [cancel_purchase_order] *)
Definition cancel_purchase_order (now : Z) (purchase_order : PurchaseOrder.t)
    (cancelled_by : user) : M PurchaseOrder.t :=
  atomic (
    locked_order ← PurchaseOrder_get (PurchaseOrder.id purchase_order);
    if bool_decide (PurchaseOrder.status locked_order = PurchaseOrder.RECEIVED) then
      raise (ValidationError (Msg "Fully received purchase order cannot be cancelled."))
    else if bool_decide (PurchaseOrder.status locked_order = PurchaseOrder.CANCELLED) then
      raise (ValidationError (Msg "Purchase order is already cancelled."))
    else
      let locked_order := PurchaseOrder.set_cancelled (Some cancelled_by) (Some now)
        (PurchaseOrder.set_status PurchaseOrder.CANCELLED locked_order) in
      PurchaseOrder_save (λ row,
        PurchaseOrder.set_cancelled (PurchaseOrder.cancelled_by locked_order)
          (PurchaseOrder.cancelled_at locked_order)
          (PurchaseOrder.set_status (PurchaseOrder.status locked_order) row))
        locked_order;;
      mret locked_order).

(** [reopen_purchase_order] *)
Definition reopen_purchase_order (purchase_order : PurchaseOrder.t) : M PurchaseOrder.t :=
  atomic (
    locked_order ← PurchaseOrder_get (PurchaseOrder.id purchase_order);
    if bool_decide (PurchaseOrder.status locked_order ≠ PurchaseOrder.CANCELLED) then
      raise (ValidationError (Msg "Only cancelled purchase orders can be reopened."))
    else
      items ← items_of (PurchaseOrder.id locked_order);
      match items with
      | [] => raise (ValidationError (Msg "Purchase order has no line items."))
      | _ =>
        let pending_exists :=
          existsb (λ item, 0 <? PurchaseOrderItem.pending_quantity item) items in
        if negb pending_exists then
          raise (ValidationError (Msg "Fully received purchase order cannot be reopened."))
        else
          let has_receipts :=
            existsb (λ item, 0 <? PurchaseOrderItem.received_quantity item) items in
          let locked_order := PurchaseOrder.set_cancelled None None
            (PurchaseOrder.set_status
               (if has_receipts then PurchaseOrder.PARTIALLY_RECEIVED else PurchaseOrder.OPEN)
               locked_order) in
          PurchaseOrder_save (λ row,
            PurchaseOrder.set_cancelled (PurchaseOrder.cancelled_by locked_order)
              (PurchaseOrder.cancelled_at locked_order)
              (PurchaseOrder.set_status (PurchaseOrder.status locked_order) row))
            locked_order;;
          mret locked_order
      end).

(** ** production/models.py: rejecting a request *)

(** [reject_raw_materials_for_production_order]: a requested order is
    cancelled; no stock is read or written. *)
Definition reject_raw_materials_for_production_order
    (production_order : ProductionOrder.t) : M ProductionOrder.t :=
  atomic (
    locked_order ← ProductionOrder_get (ProductionOrder.id production_order);
    if bool_decide (ProductionOrder.status locked_order ≠ ProductionOrder.AWAITING_RM_RELEASE) then
      raise (ValidationError (Msg "This production order is not awaiting raw material release."))
    else if ProductionOrder.raw_material_released locked_order then
      raise (ValidationError (Msg "Raw materials are already released for this production order."))
    else
      let locked_order := ProductionOrder.set_status ProductionOrder.CANCELLED locked_order in
      ProductionOrder_save (λ row,
        ProductionOrder.set_status (ProductionOrder.status locked_order) row) locked_order;;
      mret locked_order).

(** ** purchasing/models.py: what the pages offer for an order *)

(** The properties [can_receive], [can_cancel] and [can_reopen] of a
    purchase order. *)
Definition can_receive (o : PurchaseOrder.t) : bool :=
  bool_decide (PurchaseOrder.status o ∈ [PurchaseOrder.OPEN; PurchaseOrder.PARTIALLY_RECEIVED]).

Definition can_cancel (o : PurchaseOrder.t) : bool :=
  bool_decide (PurchaseOrder.status o ∈ [PurchaseOrder.OPEN; PurchaseOrder.PARTIALLY_RECEIVED]).

Definition can_reopen (o : PurchaseOrder.t) : bool :=
  bool_decide (PurchaseOrder.status o = PurchaseOrder.CANCELLED).

(** ** purchasing/forms.py *)



(** ** production/models.py: finished goods *)

(** The reason of a finished-stock ledger row, an f-string kept with its
    argument. *)
Inductive finished_reason :=
  | CompletedProductionOrder (order_id : Z).

Module FinishedStockLedger.
Inductive TxnType := IN | OUT | ADJUST.
Record t := mk {
  product : Z;
  txn_type : TxnType;
  quantity : Z;
  reason_ : finished_reason;
  reference_type : string;
  reference_id : Z;
  created_by : user
}.
End FinishedStockLedger.

(** The columns of a production order that are written when it is
    completed; until then they hold their defaults. *)
Module Completion.
Record t := mk {
  produced_qty : Z;
  scrap_qty : Z;
  completed_by : option user;
  completed_at : option Z
}.

Definition default : t := mk 0 0 None None.
End Completion.

(** The [variance_qty] property of a production order. *)
Definition variance_qty (order : ProductionOrder.t) (completion : Completion.t) : Z :=
  Completion.produced_qty completion - ProductionOrder.planned_qty order.

(** The database with the finished-goods tables.  [FinishedStock] has
    one row for a product at most (a one-to-one field), so the table is
    a map from the product to its [current_stock]; [completions] holds
    the completion columns of the production orders, by order. *)
Record Plant := mkPlant {
  stock_db : DB;
  finished_stock : gmap Z Z;
  finished_stock_ledger : list FinishedStockLedger.t;
  completions : gmap Z Completion.t
}.

Definition MP (A : Type) : Type := Plant → (exn + A) * Plant.

Global Instance MP_ret : MRet MP := λ A a p, (inr a, p).

Global Instance MP_bind : MBind MP := λ A B f m p,
  match m p with
  | (inl e, p') => (inl e, p')
  | (inr a, p') => f a p'
  end.

Definition raiseP {A} (e : exn) : MP A := λ p, (inl e, p).
Definition modify_plant (f : Plant → Plant) : MP () := λ p, (inr (), f p).

(** A computation on the tables of [DB], run on the whole database. *)
Definition lift {A} (m : M A) : MP A := λ p,
  match m (stock_db p) with
  | (r, db') =>
    (r, mkPlant db' (finished_stock p) (finished_stock_ledger p) (completions p))
  end.

(** [with transaction.atomic(): body] on the whole database. *)
Definition atomicP {A} (body : MP A) : MP A := λ p,
  match body p with
  | (inl e, _) => (inl e, p)
  | (inr a, p') => (inr a, p')
  end.

(** [FinishedStock.objects.select_for_update().get_or_create(product=...,
    defaults={"current_stock": Decimal("0")})] *)
Definition FinishedStock_get_or_create (product : Z) : MP Z := λ p,
  match finished_stock p !! product with
  | Some current_stock => (inr current_stock, p)
  | None =>
    (inr 0, mkPlant (stock_db p) (<[product := 0]> (finished_stock p))
              (finished_stock_ledger p) (completions p))
  end.

(** [finished_stock.save()] *)
Definition FinishedStock_save (product current_stock : Z) : MP () :=
  modify_plant (λ p, mkPlant (stock_db p) (<[product := current_stock]> (finished_stock p))
                       (finished_stock_ledger p) (completions p)).

(** [FinishedStockLedger.objects.create(...)] *)
Definition FinishedStockLedger_create (e : FinishedStockLedger.t) : MP () :=
  modify_plant (λ p, mkPlant (stock_db p) (finished_stock p)
                       (finished_stock_ledger p ++ [e]) (completions p)).

(** The completion columns of [locked_order.save(update_fields=[...])]:
    an [UPDATE] of the row of the order, if there is one. *)
Definition Completion_save (order_pk : Z) (c : Completion.t) : MP () :=
  modify_plant (λ p,
    match production_orders (stock_db p) !! order_pk with
    | Some _ =>
      mkPlant (stock_db p) (finished_stock p) (finished_stock_ledger p)
        (<[order_pk := c]> (completions p))
    | None => p
    end).

(** The completion columns of an order. *)
Definition completion_of (p : Plant) (order_pk : Z) : Completion.t :=
  default Completion.default (completions p !! order_pk).

(** [complete_production_order]: the order is returned with its
    completion columns; [now] is [timezone.now()]. *)
Definition complete_production_order (now : Z) (production_order : ProductionOrder.t)
    (produced_qty scrap_qty : Decimal.t) (completed_by : user)
    : MP (ProductionOrder.t * Completion.t) :=
  let produced := Decimal.quantize_milli produced_qty in
  let scrap := Decimal.quantize_milli scrap_qty in
  if produced <=? 0 then
    raiseP (ValidationError (Msg "Produced quantity must be greater than zero."))
  else if scrap <? 0 then
    raiseP (ValidationError (Msg "Scrap quantity cannot be negative."))
  else
    atomicP (
      locked_order ← lift (ProductionOrder_get (ProductionOrder.id production_order));
      if bool_decide (ProductionOrder.status locked_order = ProductionOrder.CANCELLED) then
        raiseP (ValidationError (Msg "Cancelled production order cannot be completed."))
      else if bool_decide (ProductionOrder.status locked_order = ProductionOrder.COMPLETED) then
        raiseP (ValidationError (Msg "Production order is already completed."))
      else
        finished_stock ← FinishedStock_get_or_create (ProductionOrder.product locked_order);
        let finished_stock := finished_stock + produced in
        FinishedStock_save (ProductionOrder.product locked_order) finished_stock;;
        FinishedStockLedger_create (FinishedStockLedger.mk
          (ProductionOrder.product locked_order) FinishedStockLedger.IN produced
          (CompletedProductionOrder (ProductionOrder.id locked_order))
          "production_order" (ProductionOrder.id locked_order) completed_by);;
        let locked_order := ProductionOrder.set_status ProductionOrder.COMPLETED locked_order in
        let completion := Completion.mk produced scrap (Some completed_by) (Some now) in
        lift (ProductionOrder_save (λ row,
          ProductionOrder.set_status (ProductionOrder.status locked_order) row) locked_order);;
        Completion_save (ProductionOrder.id locked_order) completion;;
        mret (locked_order, completion)).

(** ** inventory/models.py: MRO items

    The strings of these functions are ASCII text, on which
    [str.strip()] and [str.upper()] are the functions below. *)

(** The ASCII characters that [str.strip()] takes off: tab to carriage
    return, the four separators, and the space. *)
Definition is_space (c : Ascii.ascii) : bool :=
  let n := Ascii.N_of_ascii c in
  ((9 <=? n)%N && (n <=? 13)%N) || ((28 <=? n)%N && (n <=? 32)%N).

Fixpoint lstrip (s : string) : string :=
  match s with
  | EmptyString => EmptyString
  | String c s' => if is_space c then lstrip s' else s
  end.

Fixpoint rstrip (s : string) : string :=
  match s with
  | EmptyString => EmptyString
  | String c s' =>
    match rstrip s' with
    | EmptyString => if is_space c then EmptyString else String c EmptyString
    | rest => String c rest
    end
  end.

(** [s.strip()] *)
Definition strip (s : string) : string := rstrip (lstrip s).

Definition upper_char (c : Ascii.ascii) : Ascii.ascii :=
  let n := Ascii.N_of_ascii c in
  if ((97 <=? n)%N && (n <=? 122)%N) then Ascii.ascii_of_N (n - 32) else c.

(** [s.upper()] *)
Fixpoint upper (s : string) : string :=
  match s with
  | EmptyString => EmptyString
  | String c s' => String (upper_char c) (upper s')
  end.

(** [a or b] on strings. *)
Definition or_else (a b : string) : string :=
  match a with EmptyString => b | _ => a end.

Module MROItem.
Record t := mk {
  id : Z;
  name : string;
  mro_id : string;
  code : string;
  item_type : string;
  unit : string;
  cost_per_unit : Z;
  current_stock : Z;
  reorder_level : Z;
  location : string;
  vendor : Z
}.

Definition set_current_stock (q : Z) (i : t) : t :=
  mk (id i) (name i) (mro_id i) (code i) (item_type i) (unit i) (cost_per_unit i) q
    (reorder_level i) (location i) (vendor i).

(** The columns that [update_mro_item_details] saves, copied from [src]. *)
Definition set_details (src i : t) : t :=
  mk (id i) (name src) (mro_id src) (code src) (item_type src) (unit src)
    (cost_per_unit src) (current_stock i) (reorder_level src) (location src) (vendor src).

(** The [is_low_stock] property. *)
Definition is_low_stock (i : t) : bool := current_stock i <=? reorder_level i.
End MROItem.

Module MROInventoryLedger.
Inductive TxnType := IN | OUT | ADJUST.
Record t := mk {
  item : Z;
  txn_type : TxnType;
  quantity : Z;
  unit : string;
  reason_ : string;
  reference_type : string;
  reference_id : Z;
  created_by : user
}.
End MROInventoryLedger.

(** The MRO tables. *)
Record Workshop := mkWorkshop {
  mro_items : gmap Z MROItem.t;
  mro_item_seq : Z;
  mro_ledger : list MROInventoryLedger.t
}.

(** What these functions end with when they fail: an exception of
    their own, or the [IntegrityError] of the unique [mro_id] column. *)
Inductive error :=
  | Exn (e : exn)
  | IntegrityError.

Definition MW (A : Type) : Type := Workshop → (error + A) * Workshop.

Global Instance MW_ret : MRet MW := λ A a w, (inr a, w).

Global Instance MW_bind : MBind MW := λ A B f m w,
  match m w with
  | (inl e, w') => (inl e, w')
  | (inr a, w') => f a w'
  end.

Definition raiseW {A} (e : error) : MW A := λ w, (inl e, w).
Definition get_workshop : MW Workshop := λ w, (inr w, w).
Definition modify_workshop (f : Workshop → Workshop) : MW () := λ w, (inr (), f w).

(** [with transaction.atomic(): body] on the MRO tables. *)
Definition atomicW {A} (body : MW A) : MW A := λ w,
  match body w with
  | (inl e, _) => (inl e, w)
  | (inr a, w') => (inr a, w')
  end.

(** Whether a row other than [pk] bears the MRO id. *)
Definition mro_id_taken (w : Workshop) (resolved_mro_id : string) (pk : option Z) : bool :=
  existsb (λ kv, bool_decide (MROItem.mro_id kv.2 = resolved_mro_id)
                 && negb (bool_decide (Some kv.1 = pk)))
    (map_to_list (mro_items w)).

(** [MROItem.objects.create(...)]: the next key, and the unique
    [mro_id]. *)
Definition MROItem_create (name mro_id code item_type unit_ : string) (cost_per_unit
    current_stock reorder_level : Z) (location : string) (vendor : Partner.t)
    : MW MROItem.t :=
  w ← get_workshop;
  if mro_id_taken w mro_id None then raiseW IntegrityError
  else
    let pk := mro_item_seq w + 1 in
    let item := MROItem.mk pk name mro_id code item_type unit_ cost_per_unit current_stock
                  reorder_level location (Partner.id vendor) in
    modify_workshop (λ w, mkWorkshop (<[pk := item]> (mro_items w)) pk (mro_ledger w));;
    mret item.

(** [MROItem.objects.select_for_update().get(pk=pk)] *)
Definition MROItem_get (pk : Z) : MW MROItem.t :=
  w ← get_workshop;
  match mro_items w !! pk with
  | Some item => mret item
  | None => raiseW (Exn DoesNotExist)
  end.

(** [locked.save(update_fields=[...])] with the columns of the details. *)
Definition MROItem_save_details (locked : MROItem.t) : MW () :=
  w ← get_workshop;
  if mro_id_taken w (MROItem.mro_id locked) (Some (MROItem.id locked))
  then raiseW IntegrityError
  else
    modify_workshop (λ w,
      mkWorkshop (alter (MROItem.set_details locked) (MROItem.id locked) (mro_items w))
        (mro_item_seq w) (mro_ledger w)).

(** [locked.save(update_fields=["current_stock"])] *)
Definition MROItem_save_current_stock (locked : MROItem.t) : MW () :=
  modify_workshop (λ w,
    mkWorkshop
      (alter (MROItem.set_current_stock (MROItem.current_stock locked)) (MROItem.id locked)
         (mro_items w))
      (mro_item_seq w) (mro_ledger w)).

(** [MROInventoryLedger.objects.create(...)] *)
Definition MROInventoryLedger_create (e : MROInventoryLedger.t) : MW () :=
  modify_workshop (λ w, mkWorkshop (mro_items w) (mro_item_seq w) (mro_ledger w ++ [e])).

(** [vendor.partner_type not in {SUPPLIER, BOTH}] *)
Definition not_a_supplier (vendor : Partner.t) : bool :=
  bool_decide (Partner.partner_type vendor ∉ [Partner.SUPPLIER; Partner.BOTH]).

(** [create_mro_item_with_opening_stock] *)
Definition create_mro_item_with_opening_stock (name mro_id code item_type unit_ : string)
    (cost_per_unit : Z) (vendor : Partner.t) (location : string)
    (opening_stock reorder_level : Z) (created_by : user) : MW MROItem.t :=
  if not_a_supplier vendor then
    raiseW (Exn (ValueError (Msg "Selected partner is not a supplier.")))
  else
    let resolved_mro_id := upper (strip mro_id) in
    let resolved_code := or_else (upper (strip code)) resolved_mro_id in
    if bool_decide (resolved_mro_id = EmptyString) then
      raiseW (Exn (ValueError (Msg "MRO ID is required.")))
    else if bool_decide (resolved_code = EmptyString) then
      raiseW (Exn (ValueError (Msg "Item code could not be resolved.")))
    else
      atomicW (
        item ← MROItem_create name resolved_mro_id resolved_code item_type unit_
                 cost_per_unit opening_stock reorder_level (strip location) vendor;
        (if 0 <? opening_stock then
           MROInventoryLedger_create (MROInventoryLedger.mk
             (MROItem.id item) MROInventoryLedger.IN opening_stock (MROItem.unit item)
             "Opening stock" "opening_stock" (MROItem.id item) created_by)
         else mret ());;
        mret item).

(** [update_mro_item_details] *)
Definition update_mro_item_details (item : MROItem.t) (name mro_id code item_type
    unit_ : string) (cost_per_unit : Z) (vendor : Partner.t) (location : string)
    (reorder_level : Z) : MW MROItem.t :=
  if not_a_supplier vendor then
    raiseW (Exn (ValueError (Msg "Selected partner is not a supplier.")))
  else
    let resolved_mro_id := upper (strip mro_id) in
    let resolved_code := or_else (upper (strip code)) resolved_mro_id in
    if bool_decide (resolved_mro_id = EmptyString) then
      raiseW (Exn (ValueError (Msg "MRO ID is required.")))
    else if bool_decide (resolved_code = EmptyString) then
      raiseW (Exn (ValueError (Msg "Item code could not be resolved.")))
    else
      atomicW (
        locked ← MROItem_get (MROItem.id item);
        let locked := MROItem.mk (MROItem.id locked) name resolved_mro_id resolved_code
                        item_type unit_ cost_per_unit (MROItem.current_stock locked)
                        reorder_level (strip location) (Partner.id vendor) in
        MROItem_save_details locked;;
        mret locked).

(** [adjust_mro_stock] *)
Definition adjust_mro_stock (item : MROItem.t) (delta : Z) (reason_ : string)
    (created_by : user) : MW MROItem.t :=
  if bool_decide (delta = 0) then
    raiseW (Exn (ValueError (Msg "Adjustment quantity cannot be zero.")))
  else
    atomicW (
      locked ← MROItem_get (MROItem.id item);
      let new_stock := MROItem.current_stock locked + delta in
      if new_stock <? 0 then
        raiseW (Exn (ValueError (Msg "Stock cannot become negative.")))
      else
        let locked := MROItem.set_current_stock new_stock locked in
        MROItem_save_current_stock locked;;
        MROInventoryLedger_create (MROInventoryLedger.mk
          (MROItem.id locked)
          (if 0 <? delta then MROInventoryLedger.IN else MROInventoryLedger.OUT)
          (Z.abs delta) (MROItem.unit locked) reason_ "manual_adjustment"
          (MROItem.id locked) created_by);;
        mret locked).

(** * Observations

    What the properties below say of a database: balances, ledger sums,
    the rows of an order, and the values that the loops of the service
    functions compute. *)

(** The balance of a material account. *)
Definition balance (db : DB) (pk : Z) : option Z :=
  RawMaterial.current_stock <$> raw_materials db !! pk.

(** The primary key of a row is the key it is stored under. *)
Definition pk_consistent (rows : gmap Z RawMaterial.t) : Prop :=
  map_Forall (λ k m, RawMaterial.id m = k) rows.

(** One stock movement and a list of them, on the table. *)
Definition move_stock (rows : gmap Z RawMaterial.t) (mv : Z * Z) : gmap Z RawMaterial.t :=
  alter (λ m, RawMaterial.set_current_stock (RawMaterial.current_stock m + mv.2) m) mv.1 rows.

(** The rows after a list of movements, applied from left to right. *)
Definition apply_moves (moves : list (Z * Z)) (rows : gmap Z RawMaterial.t)
    : gmap Z RawMaterial.t :=
  foldl move_stock rows moves.

(** The sum of the movements of one material. *)
Fixpoint total_for (pk : Z) (moves : list (Z * Z)) : Z :=
  match moves with
  | [] => 0
  | (k, q) :: moves' => (if bool_decide (k = pk) then q else 0) + total_for pk moves'
  end.

(** The requirement of a BOM line for an ordered quantity, as both
    creation paths compute it. *)
Definition required_for (quantity : Z) (item : BOMItem.t) : Z :=
  Decimal.quantize_milli (Decimal.mul (BOMItem.qty_per_unit item) (Decimal.of_int quantity)).

(** The shortage line of a BOM line, if its material is short. *)
Definition bom_shortage (rows : gmap Z RawMaterial.t) (quantity : Z) (item : BOMItem.t)
    : option shortage :=
  m ← rows !! BOMItem.material_id item;
  if RawMaterial.current_stock m <? required_for quantity item
  then Some (Short (RawMaterial.name m) (required_for quantity item)
               (RawMaterial.unit m) (RawMaterial.current_stock m))
  else None.

(** The unit of a stored material. *)
Definition unit_of (rows : gmap Z RawMaterial.t) (pk : Z) : string :=
  match rows !! pk with Some m => RawMaterial.unit m | None => "" end.

(** The consumption line and the ledger entry written for one requirement. *)
Definition consumption_line (order_pk : Z) (mv : Z * Z) : ProductionConsumption.t :=
  ProductionConsumption.mk order_pk mv.1 mv.2.

(** The ledger row written for one movement. *)
Definition movement_entry (rows : gmap Z RawMaterial.t) (txn : InventoryLedger.TxnType)
    (why : reason) (reference_type : string) (reference_id : Z) (actor : Z) (mv : Z * Z)
    : InventoryLedger.t :=
  InventoryLedger.mk mv.1 txn mv.2 (unit_of rows mv.1) why reference_type reference_id actor.

(** The requirements of a BOM as (material, quantity) pairs. *)
Definition requirement_of (ir : BOMItem.t * Z) : Z * Z := (BOMItem.material_id ir.1, ir.2).

(** The opposite movement. *)
Definition negate (mv : Z * Z) : Z * Z := (mv.1, - mv.2).

(** The BOM lines of a product, and the deductions for [quantity] units. *)
Definition bom_of (db : DB) (product : Z) : list BOMItem.t :=
  filter (λ b, BOMItem.product b = product) (bom_items db).

Definition bom_moves (quantity : Z) (bom : list BOMItem.t) : list (Z * Z) :=
  (λ item, (BOMItem.material_id item, required_for quantity item)) <$> bom.

(** Every line of a BOM points to a stored material (the foreign key
    is protected). *)
Definition bom_materials_exist (db : DB) (bom : list BOMItem.t) : Prop :=
  Forall (λ item, is_Some (raw_materials db !! BOMItem.material_id item)) bom.

(** The consumption lines of a production order, and the quantity each asks for. *)
Definition lines_of (db : DB) (order_pk : Z) : list ProductionConsumption.t :=
  filter (λ c, ProductionConsumption.production_order c = order_pk)
    (production_consumptions db).

Definition line_move (c : ProductionConsumption.t) : Z * Z :=
  (ProductionConsumption.material_id c, ProductionConsumption.required_qty c).

(** The shortage line of a stored consumption line, if any. *)
Definition line_shortage (rows : gmap Z RawMaterial.t) (c : ProductionConsumption.t)
    : option shortage :=
  match rows !! ProductionConsumption.material_id c with
  | None => Some (MissingFromInventory (ProductionConsumption.material_id c))
  | Some m =>
    if RawMaterial.current_stock m <? ProductionConsumption.required_qty c
    then Some (Short (RawMaterial.name m) (ProductionConsumption.required_qty c)
                 (RawMaterial.unit m) (RawMaterial.current_stock m))
    else None
  end.

(** The signed quantity of an entry and the net movement that a ledger
    records for one material. *)
Definition signed_quantity (e : InventoryLedger.t) : Z :=
  match InventoryLedger.txn_type e with
  | InventoryLedger.IN => InventoryLedger.quantity e
  | InventoryLedger.OUT => - InventoryLedger.quantity e
  | InventoryLedger.ADJUST => 0
  end.

(** The net movement that the ledger records for a material. *)
Fixpoint ledger_net (pk : Z) (ledger : list InventoryLedger.t) : Z :=
  match ledger with
  | [] => 0
  | e :: ledger' =>
    (if bool_decide (InventoryLedger.material e = pk) then signed_quantity e else 0)
    + ledger_net pk ledger'
  end.

(** A BOM line is short when the balance of its material is below
    its requirement. *)
Definition is_short (db : DB) (quantity : Z) (item : BOMItem.t) : Prop :=
  ∃ b, balance db (BOMItem.material_id item) = Some b ∧ b < required_for quantity item.

Global Instance is_short_dec db quantity item : Decision (is_short db quantity item).
Proof.
  unfold is_short.
  destruct (balance db (BOMItem.material_id item)) as [b|].
  - destruct (decide (b < required_for quantity item)) as [Hlt|Hge].
    + left. eauto.
    + right. intros (b' & [= <-] & ?). done.
  - right. intros (b' & ? & ?). done.
Defined.

(** A stored line is covered when its material is stored with a
    balance of at least the required quantity. *)
Definition covered (db : DB) (mv : Z * Z) : Prop :=
  ∃ b, balance db mv.1 = Some b ∧ mv.2 ≤ b.

(** The item rows of a purchase order. *)
Definition lines_of_purchase_order (db : DB) (pk : Z) : list PurchaseOrderItem.t :=
  filter (λ i, PurchaseOrderItem.purchase_order i = pk) (purchase_order_items db).

(** The vendor of a requested line, and the lines under each vendor. *)
Definition line_vendor (line : PurchaseLineInput.t) : Z :=
  RawMaterial.vendor_id (PurchaseLineInput.material line).

Definition group_lines (lines : list PurchaseLineInput.t) : dict (list PurchaseLineInput.t) :=
  foldl (λ grouped line, grouped_append (line_vendor line) line grouped) [] lines.

(** The rows written for the lines of one order, and for a list of
    groups, from given values of the two sequences. *)
Fixpoint new_items (item_seq order_pk : Z) (lines : list PurchaseLineInput.t)
    : list PurchaseOrderItem.t :=
  match lines with
  | [] => []
  | line :: lines' =>
    PurchaseOrderItem.mk (item_seq + 1) order_pk
      (RawMaterial.id (PurchaseLineInput.material line)) (PurchaseLineInput.quantity line) 0
      (RawMaterial.unit (PurchaseLineInput.material line))
    :: new_items (item_seq + 1) order_pk lines'
  end.

(** The orders and the item rows created for the groups, with the keys
    the two sequences give them. *)
Fixpoint grouped_orders (order_date notes : string) (created_by : Z) (order_seq : Z)
    (groups : dict (list PurchaseLineInput.t)) : list PurchaseOrder.t :=
  match groups with
  | [] => []
  | (v, _) :: groups' =>
    PurchaseOrder.mk (order_seq + 1) v order_date PurchaseOrder.OPEN notes created_by
      None None None None
    :: grouped_orders order_date notes created_by (order_seq + 1) groups'
  end.

Fixpoint grouped_items (order_seq item_seq : Z) (groups : dict (list PurchaseLineInput.t))
    : list PurchaseOrderItem.t :=
  match groups with
  | [] => []
  | (_, lines) :: groups' =>
    new_items item_seq (order_seq + 1) lines
    ++ grouped_items (order_seq + 1) (item_seq + Z.of_nat (length lines)) groups'
  end.

(** The table of orders after the new ones are inserted. *)
Definition insert_orders (orders : list PurchaseOrder.t) (table : gmap Z PurchaseOrder.t)
    : gmap Z PurchaseOrder.t :=
  foldl (λ t o, <[PurchaseOrder.id o := o]> t) table orders.

(** An item row that carries a purchase line under an order. *)
Definition item_of_line (order_pk : Z) (line : PurchaseLineInput.t)
    (item : PurchaseOrderItem.t) : Prop :=
  PurchaseOrderItem.purchase_order item = order_pk
  ∧ PurchaseOrderItem.material_id item = RawMaterial.id (PurchaseLineInput.material line)
  ∧ PurchaseOrderItem.quantity item = PurchaseLineInput.quantity line
  ∧ PurchaseOrderItem.received_quantity item = 0
  ∧ PurchaseOrderItem.unit item = RawMaterial.unit (PurchaseLineInput.material line).

(** [{item.id: item for item in items}] *)
Definition item_map_of (items : list PurchaseOrderItem.t) : gmap Z PurchaseOrderItem.t :=
  foldl (λ d item, <[PurchaseOrderItem.id item := item]> d) ∅ items.

(** The positive entries of an explicit map of quantities, and the
    pending quantities taken when none is given. *)
Definition positive_entries (line_quantities : dict Z) : dict Z :=
  filter (λ kv, 0 < kv.2) line_quantities.

Definition pending_entries (items : list PurchaseOrderItem.t) : dict Z :=
  foldl (λ quantities item,
    if 0 <? PurchaseOrderItem.pending_quantity item
    then dict_set (PurchaseOrderItem.id item)
           (PurchaseOrderItem.pending_quantity item) quantities
    else quantities) [] items.

(** The quantity received on a line, the line after the receipt, the
    lines that receive, and what is written for them. *)
Definition receive_qty (quantities : dict Z) (item : PurchaseOrderItem.t) : Z :=
  dict_get quantities (PurchaseOrderItem.id item) 0.

Definition receive_line (quantities : dict Z) (item : PurchaseOrderItem.t)
    : PurchaseOrderItem.t :=
  if receive_qty quantities item <=? 0 then item
  else PurchaseOrderItem.set_received_quantity
         (PurchaseOrderItem.received_quantity item + receive_qty quantities item) item.

Definition accepted (quantities : dict Z) (items : list PurchaseOrderItem.t)
    : list PurchaseOrderItem.t :=
  filter (λ item, 0 < receive_qty quantities item) items.

Definition receipt_move (quantities : dict Z) (item : PurchaseOrderItem.t) : Z * Z :=
  (PurchaseOrderItem.material_id item, receive_qty quantities item).

Definition receipt_entry (related : gmap Z RawMaterial.t) (order_pk received_by : Z)
    (quantities : dict Z) (item : PurchaseOrderItem.t) : InventoryLedger.t :=
  InventoryLedger.mk (PurchaseOrderItem.material_id item) InventoryLedger.IN
    (receive_qty quantities item) (PurchaseOrderItem.unit item)
    (ReceivedAgainstPurchaseOrder order_pk (related_material_name related item))
    "purchase_order" order_pk received_by.

(** The item table after the lines in [done] are saved. *)
Definition save_rows (quantities : dict Z) (done : list PurchaseOrderItem.t)
    (table : list PurchaseOrderItem.t) : list PurchaseOrderItem.t :=
  (λ row, if bool_decide (PurchaseOrderItem.id row ∈ PurchaseOrderItem.id <$> done)
          then receive_line quantities row else row) <$> table.

(** The quantities that a call resolves to, or the message of its failure. *)
Definition resolve_quantities (line_quantities : option (dict Z))
    (items : list PurchaseOrderItem.t) : message + dict Z :=
  match line_quantities with
  | Some ((_ :: _) as line_quantities) =>
    match positive_entries line_quantities with
    | [] => inl (Msg "Enter at least one quantity greater than zero.")
    | quantities => inr quantities
    end
  | _ =>
    match pending_entries items with
    | [] => inl (Msg "No pending quantities left to receive.")
    | quantities => inr quantities
    end
  end.

(** The message for the first quantity that exceeds the pending
    quantity of its line. *)
Fixpoint first_excess (item_map : gmap Z PurchaseOrderItem.t)
    (related : gmap Z RawMaterial.t) (quantities : dict Z) : option message :=
  match quantities with
  | [] => None
  | (item_id, qty) :: quantities' =>
    match item_map !! item_id with
    | Some item =>
      if PurchaseOrderItem.pending_quantity item <? qty
      then Some (MsgExceedsPending (related_material_name related item)
                   (PurchaseOrderItem.pending_quantity item))
      else first_excess item_map related quantities'
    | None => None
    end
  end.

(** The order after a receipt that leaves its lines as [items]. *)
Definition received_order (now received_by : Z) (items : list PurchaseOrderItem.t)
    (stored : PurchaseOrder.t) : PurchaseOrder.t :=
  let new_status := _derive_status items in
  if bool_decide (new_status = PurchaseOrder.RECEIVED)
  then PurchaseOrder.set_received (Some received_by) (Some now)
         (PurchaseOrder.set_status new_status stored)
  else PurchaseOrder.set_status new_status stored.

(** Every line of an order points to a stored material. *)
Definition item_materials_exist (db : DB) (items : list PurchaseOrderItem.t) : Prop :=
  Forall (λ item, is_Some (raw_materials db !! PurchaseOrderItem.material_id item)) items.


Global Instance covered_dec db mv : Decision (covered db mv).
Proof.
  unfold covered.
  destruct (balance db mv.1) as [b|].
  - destruct (decide (mv.2 ≤ b)) as [Hle|Hgt].
    + left. eauto.
    + right. intros (b' & [= <-] & ?). done.
  - right. intros (b' & ? & ?). done.
Defined.

(** The row of a purchase order after a cancellation, and after it is
    reopened with [items] as its lines. *)
Definition cancelled_order (now actor : Z) (row : PurchaseOrder.t) : PurchaseOrder.t :=
  PurchaseOrder.set_cancelled (Some actor) (Some now)
    (PurchaseOrder.set_status PurchaseOrder.CANCELLED row).

Definition reopened_order (items : list PurchaseOrderItem.t) (row : PurchaseOrder.t)
    : PurchaseOrder.t :=
  PurchaseOrder.set_cancelled None None
    (PurchaseOrder.set_status
       (if existsb (λ item, 0 <? PurchaseOrderItem.received_quantity item) items
        then PurchaseOrder.PARTIALLY_RECEIVED else PurchaseOrder.OPEN) row).




(** ** Calls, and what every call keeps *)

(** A call of one of the service functions, with its arguments. *)
Inductive call :=
  | AdjustStock (material : RawMaterial.t) (delta : Z) (reason_ : string) (actor : Z)
  | CreateAndDeduct (product quantity : Z) (notes : string) (actor : Z)
  | CreateWithRequest (product quantity : Z) (notes : string) (actor : Z)
  | Release (order : ProductionOrder.t) (actor : Z)
  | Reject (order : ProductionOrder.t)
  | Complete (now : Z) (order : ProductionOrder.t) (produced_qty scrap_qty : Decimal.t)
      (actor : Z)
  | CancelProduction (order : ProductionOrder.t) (actor : Z)
  | CreatePurchaseOrders (order_date notes : string) (actor : Z)
      (lines : list PurchaseLineInput.t) (vendor : option Partner.t)
  | Receive (now : Z) (order : PurchaseOrder.t) (actor : Z)
      (line_quantities : option (dict Z))
  | CancelPurchase (now : Z) (order : PurchaseOrder.t) (actor : Z)
  | Reopen (order : PurchaseOrder.t).

(** The exception of a result, if it is one. *)
Definition failure {A} (r : exn + A) : option exn :=
  match r with inl e => Some e | inr _ => None end.

(** The exception a computation ends with, if any, and the database it leaves. *)
Definition outcome {A} (m : MP A) (p : Plant) : option exn * Plant :=
  (failure (m p).1, (m p).2).

Definition run (c : call) : Plant → option exn * Plant :=
  match c with
  | AdjustStock material delta reason_ actor =>
    outcome (lift (adjust_stock material delta reason_ actor))
  | CreateAndDeduct product quantity notes actor =>
    outcome (lift (create_production_order_and_deduct_stock product quantity notes actor))
  | CreateWithRequest product quantity notes actor =>
    outcome (lift (create_production_order_with_rm_request product quantity notes actor))
  | Release order actor =>
    outcome (lift (release_raw_materials_for_production_order order actor))
  | Reject order =>
    outcome (lift (reject_raw_materials_for_production_order order))
  | Complete now order produced_qty scrap_qty actor =>
    outcome (complete_production_order now order produced_qty scrap_qty actor)
  | CancelProduction order actor =>
    outcome (lift (cancel_production_order order actor))
  | CreatePurchaseOrders order_date notes actor lines vendor =>
    outcome (lift (create_grouped_purchase_orders_with_vendor order_date notes actor
                     lines vendor))
  | Receive now order actor line_quantities =>
    outcome (lift (receive_purchase_order now order actor line_quantities))
  | CancelPurchase now order actor =>
    outcome (lift (cancel_purchase_order now order actor))
  | Reopen order =>
    outcome (lift (reopen_purchase_order order))
  end.

(** The database after a call, and after a list of calls made one
    after the other, whether they succeed or fail. *)
Definition after (c : call) (p : Plant) : Plant := (run c p).2.

Definition after_all (calls : list call) (p : Plant) : Plant :=
  foldl (λ p c, after c p) p calls.

(** What the schema guarantees of the tables: a row is stored under its
    primary key; the material of a BOM line, of a consumption line and
    of a purchase line is stored; the keys that the rows bear were
    handed out by the sequences; and no two purchase lines share a key. *)
Record well_formed (db : DB) : Prop := {
  wf_materials : pk_consistent (raw_materials db);
  wf_partners : map_Forall (λ k p, Partner.id p = k) (partners db);
  wf_orders : map_Forall (λ k o, ProductionOrder.id o = k) (production_orders db);
  wf_purchase_orders : map_Forall (λ k o, PurchaseOrder.id o = k) (purchase_orders db);
  wf_bom :
    Forall (λ b, is_Some (raw_materials db !! BOMItem.material_id b)) (bom_items db);
  wf_lines :
    Forall (λ c, is_Some (raw_materials db !! ProductionConsumption.material_id c)
                 ∧ ProductionConsumption.production_order c ≤ production_order_seq db)
      (production_consumptions db);
  wf_items :
    Forall (λ i, is_Some (raw_materials db !! PurchaseOrderItem.material_id i)
                 ∧ PurchaseOrderItem.id i ≤ purchase_order_item_seq db
                 ∧ PurchaseOrderItem.purchase_order i ≤ purchase_order_seq db)
      (purchase_order_items db);
  wf_item_ids : NoDup (PurchaseOrderItem.id <$> purchase_order_items db)
}.

(** The materials that the lines of a request for purchase orders name
    are stored ones; the other calls take any arguments. *)
Definition call_ok (db : DB) (c : call) : Prop :=
  match c with
  | CreatePurchaseOrders _ _ _ lines _ =>
    Forall (λ line, is_Some (raw_materials db
                               !! RawMaterial.id (PurchaseLineInput.material line))) lines
  | _ => True
  end.

(** A purchase line at two moments: the same line, with no less received. *)
Definition same_line (i i' : PurchaseOrderItem.t) : Prop :=
  PurchaseOrderItem.id i' = PurchaseOrderItem.id i
  ∧ PurchaseOrderItem.purchase_order i' = PurchaseOrderItem.purchase_order i
  ∧ PurchaseOrderItem.material_id i' = PurchaseOrderItem.material_id i
  ∧ PurchaseOrderItem.quantity i' = PurchaseOrderItem.quantity i
  ∧ PurchaseOrderItem.unit i' = PurchaseOrderItem.unit i
  ∧ PurchaseOrderItem.received_quantity i ≤ PurchaseOrderItem.received_quantity i'.

(** How the database of a later moment relates to that of an earlier
    one: partners and BOMs are the same; the stock moved by a list of
    movements of which the new ledger rows are the record; consumption
    lines and purchase lines were only added, and the purchase lines
    that were there received no less. *)
Record step (db db' : DB) : Prop := {
  step_partners : partners db' = partners db;
  step_bom : bom_items db' = bom_items db;
  step_stock :
    ∃ moves entries,
      raw_materials db' = apply_moves moves (raw_materials db)
      ∧ inventory_ledger db' = inventory_ledger db ++ entries
      ∧ ∀ pk, ledger_net pk entries = total_for pk moves;
  step_lines :
    ∃ new, production_consumptions db' = production_consumptions db ++ new;
  step_items :
    ∃ kept new,
      purchase_order_items db' = kept ++ new
      ∧ Forall2 same_line (purchase_order_items db) kept
}.

(** ** Stock that is never negative *)

(** What the columns and constraints of the models say of the stored
    quantities: no balance is negative; a BOM has one line per product
    and material ([unique_together]) and no negative quantity per unit;
    the consumption lines of an order ask for non-negative quantities
    of distinct materials. *)
Record stock_sound (db : DB) : Prop := {
  ss_balances : map_Forall (λ _ m, 0 ≤ RawMaterial.current_stock m) (raw_materials db);
  ss_bom_qty : Forall (λ b, 0 ≤ Decimal.coef (BOMItem.qty_per_unit b)) (bom_items db);
  ss_bom_unique :
    NoDup ((λ b, (BOMItem.product b, BOMItem.material_id b)) <$> bom_items db);
  ss_lines_qty :
    Forall (λ c, 0 ≤ ProductionConsumption.required_qty c) (production_consumptions db);
  ss_lines_unique :
    ∀ pk, NoDup (ProductionConsumption.material_id <$> lines_of db pk)
}.

(** The ordered quantity of a new production order is not negative
    ([PositiveIntegerField]). *)
Definition quantity_ok (c : call) : Prop :=
  match c with
  | CreateAndDeduct _ quantity _ _ | CreateWithRequest _ quantity _ _ => 0 ≤ quantity
  | _ => True
  end.

(** ** Finished goods, and orders that are closed *)

(** The quantity that a list of finished-stock ledger rows records for
    a product. *)
Fixpoint finished_total (product : Z) (ledger : list FinishedStockLedger.t) : Z :=
  match ledger with
  | [] => 0
  | e :: ledger' =>
    (if bool_decide (FinishedStockLedger.product e = product)
     then FinishedStockLedger.quantity e else 0)
    + finished_total product ledger'
  end.

(** The finished stock of a product; a product without a row has none. *)
Definition finished_balance (p : Plant) (product : Z) : Z :=
  default 0 (finished_stock p !! product).

(** A production order that is closed, and a purchase order that is. *)
Definition closed (o : ProductionOrder.t) : Prop :=
  ProductionOrder.status o = ProductionOrder.CANCELLED
  ∨ ProductionOrder.status o = ProductionOrder.COMPLETED.

Definition fully_received (o : PurchaseOrder.t) : Prop :=
  PurchaseOrder.status o = PurchaseOrder.RECEIVED.

(** The keys of the stored orders were handed out by the sequences. *)
Definition keys_bounded (db : DB) : Prop :=
  map_Forall (λ k _, k ≤ production_order_seq db) (production_orders db)
  ∧ map_Forall (λ k _, k ≤ purchase_order_seq db) (purchase_orders db).

(** A table at two moments: every row is still there, and the rows
    that were [frozen] are what they were. *)
Definition rows_kept {A} (frozen : A → Prop) (m m' : gmap Z A) : Prop :=
  ∀ pk o, m !! pk = Some o → ∃ o', m' !! pk = Some o' ∧ (frozen o → o' = o).

(** ** MRO items *)

(** A call of one of the three MRO service functions. *)
Inductive mro_call :=
  | CreateItem (name mro_id code item_type unit_ : string) (cost_per_unit : Z)
      (vendor : Partner.t) (location : string) (opening_stock reorder_level : Z) (actor : Z)
  | UpdateItem (item : MROItem.t) (name mro_id code item_type unit_ : string)
      (cost_per_unit : Z) (vendor : Partner.t) (location : string) (reorder_level : Z)
  | AdjustItem (item : MROItem.t) (delta : Z) (reason_ : string) (actor : Z).

(** The tables after a call, and after a list of calls made one after
    the other, whether they succeed or fail. *)
Definition mro_after (c : mro_call) (w : Workshop) : Workshop :=
  match c with
  | CreateItem name mro_id code item_type unit_ cost_per_unit vendor location opening_stock
      reorder_level actor =>
    (create_mro_item_with_opening_stock name mro_id code item_type unit_ cost_per_unit
       vendor location opening_stock reorder_level actor w).2
  | UpdateItem item name mro_id code item_type unit_ cost_per_unit vendor location
      reorder_level =>
    (update_mro_item_details item name mro_id code item_type unit_ cost_per_unit vendor
       location reorder_level w).2
  | AdjustItem item delta reason_ actor => (adjust_mro_stock item delta reason_ actor w).2
  end.

Definition mro_after_all (calls : list mro_call) (w : Workshop) : Workshop :=
  foldl (λ w c, mro_after c w) w calls.

(** The net movement that the MRO ledger records for an item. *)
Definition mro_signed_quantity (e : MROInventoryLedger.t) : Z :=
  match MROInventoryLedger.txn_type e with
  | MROInventoryLedger.IN => MROInventoryLedger.quantity e
  | MROInventoryLedger.OUT => - MROInventoryLedger.quantity e
  | MROInventoryLedger.ADJUST => 0
  end.

Fixpoint mro_net (pk : Z) (ledger : list MROInventoryLedger.t) : Z :=
  match ledger with
  | [] => 0
  | e :: ledger' =>
    (if bool_decide (MROInventoryLedger.item e = pk) then mro_signed_quantity e else 0)
    + mro_net pk ledger'
  end.

(** A string that [strip] and [upper] leave as it is. *)
Definition normalised (s : string) : Prop := upper (strip s) = s.

(** A string that is empty or begins with a character that is not a
    space. *)
Definition starts_clean (s : string) : Prop :=
  match s with EmptyString => True | String c _ => is_space c = false end.

(** The MRO tables in order: an item is stored under its key, which the
    sequence handed out; its stock is not negative and is the net of
    its ledger rows; its MRO id and its code are not empty and are
    normalised; no two items bear the same MRO id; and every ledger row
    is for a key that was handed out, with a positive quantity. *)
Record workshop_ok (w : Workshop) : Prop := {
  wo_keys :
    map_Forall (λ k i, MROItem.id i = k ∧ k ≤ mro_item_seq w) (mro_items w);
  wo_stock :
    map_Forall (λ k i, 0 ≤ MROItem.current_stock i
                       ∧ MROItem.current_stock i = mro_net k (mro_ledger w)) (mro_items w);
  wo_ids :
    map_Forall (λ _ i, MROItem.mro_id i ≠ EmptyString ∧ normalised (MROItem.mro_id i)
                       ∧ MROItem.code i ≠ EmptyString ∧ normalised (MROItem.code i))
      (mro_items w);
  wo_unique :
    ∀ k1 k2 i1 i2, mro_items w !! k1 = Some i1 → mro_items w !! k2 = Some i2 →
      MROItem.mro_id i1 = MROItem.mro_id i2 → k1 = k2;
  wo_ledger :
    Forall (λ e, MROInventoryLedger.item e ≤ mro_item_seq w
                 ∧ 0 < MROInventoryLedger.quantity e) (mro_ledger w)
}.

(** The opening stock of a new item is not negative. *)
Definition mro_call_ok (c : mro_call) : Prop :=
  match c with
  | CreateItem _ _ _ _ _ _ _ _ opening_stock _ _ => 0 ≤ opening_stock
  | _ => True
  end.

(** * A worked example

    A small database: two suppliers, two materials, a product with a
    BOM of two lines, and a purchase order of one line of 10 kg. *)

Module Example.

Definition steel : RawMaterial.t := RawMaterial.mk 1 "steel" "kg" 5000 7.
Definition cloth : RawMaterial.t := RawMaterial.mk 2 "cloth" "m" 2000 8.

Definition purchase_order : PurchaseOrder.t :=
  PurchaseOrder.mk 1 7 "2026-02-20" PurchaseOrder.OPEN "Restock" 1 None None None None.

Definition db : DB := mkDB
  (<[7 := Partner.mk 7 "A" Partner.SUPPLIER]> (<[8 := Partner.mk 8 "B" Partner.BOTH]> ∅))
  (<[1 := steel]> (<[2 := cloth]> ∅))
  []
  [BOMItem.mk 1 1 (Decimal.of_milli 1500); BOMItem.mk 1 2 (Decimal.of_milli 250)]
  ∅ 0 []
  (<[1 := purchase_order]> ∅) 1
  [PurchaseOrderItem.mk 1 1 1 10000 0 "kg"] 1.

(** The same after a receipt of 4 of the 10 kg. *)
Definition partial_order : PurchaseOrder.t :=
  PurchaseOrder.mk 1 7 "2026-02-20" PurchaseOrder.PARTIALLY_RECEIVED "Restock" 1
    None None None None.

Definition db_partial : DB := mkDB
  (partners db) (<[1 := RawMaterial.set_current_stock 9000 steel]> (<[2 := cloth]> ∅))
  [InventoryLedger.mk 1 InventoryLedger.IN 4000 "kg" (ReceivedAgainstPurchaseOrder 1 "steel")
     "purchase_order" 1 1]
  (bom_items db) ∅ 0 []
  (<[1 := partial_order]> ∅) 1
  [PurchaseOrderItem.mk 1 1 1 10000 4000 "kg"] 1.

(** And with that order cancelled. *)
Definition cancelled_order : PurchaseOrder.t :=
  PurchaseOrder.mk 1 7 "2026-02-20" PurchaseOrder.CANCELLED "Restock" 1 None None
    (Some 1) (Some 100).

Definition db_cancelled : DB := mkDB
  (partners db) (raw_materials db_partial) (inventory_ledger db_partial)
  (bom_items db) ∅ 0 []
  (<[1 := cancelled_order]> ∅) 1
  (purchase_order_items db_partial) 1.


End Example.

(** * Further examples

    The example database after a request for two units of product 1
    and after one for ten units, which the stock cannot cover; the
    first with the empty finished-goods tables; and a material whose
    vendor is not stored. *)

Module Scenario.

Definition requested_order : ProductionOrder.t :=
  ProductionOrder.mk 1 1 2 2000 false ProductionOrder.AWAITING_RM_RELEASE "batch" 1.

Definition db_requested : DB := mkDB
  (partners Example.db) (raw_materials Example.db) [] (bom_items Example.db)
  (<[1 := requested_order]> ∅) 1
  [ProductionConsumption.mk 1 1 3000; ProductionConsumption.mk 1 2 500]
  (purchase_orders Example.db) 1 (purchase_order_items Example.db) 1.

Definition large_order : ProductionOrder.t :=
  ProductionOrder.mk 1 1 10 10000 false ProductionOrder.AWAITING_RM_RELEASE "batch" 1.

Definition db_large_request : DB := mkDB
  (partners Example.db) (raw_materials Example.db) [] (bom_items Example.db)
  (<[1 := large_order]> ∅) 1
  [ProductionConsumption.mk 1 1 15000; ProductionConsumption.mk 1 2 2500]
  (purchase_orders Example.db) 1 (purchase_order_items Example.db) 1.

Definition plant : Plant := mkPlant db_requested ∅ [] ∅.

Definition felt : RawMaterial.t := RawMaterial.mk 3 "felt" "m" 0 99.


End Scenario.

(** * A day of calls

    On the database with the request for two units: the release of its
    materials; an adjustment that the stock cannot cover; the receipt
    of the whole purchase order; a request for two purchase orders; an
    order for one unit with its stock taken at once; the completion of
    the first order; and an attempt to cancel it afterwards. *)

Module Day.

Definition calls : list call := [
  Release Scenario.requested_order 1;
  AdjustStock Example.steel (-9000) "count" 1;
  Receive 50 Example.purchase_order 2 None;
  CreatePurchaseOrders "2026-03-01" "Restock" 1
    [PurchaseLineInput.mk Example.steel 25000; PurchaseLineInput.mk Example.cloth 12500] None;
  CreateAndDeduct 1 1 "rush" 1;
  Complete 60 Scenario.requested_order (Decimal.of_int 2) (Decimal.of_int 0) 1;
  CancelProduction Scenario.requested_order 1
].

(** The database in the evening, and the calls of the night: attempts
    on the completed order and on the received purchase order, and a
    new request. *)
Definition evening : Plant := after_all calls Scenario.plant.

Definition late_calls : list call := [
  CancelProduction Scenario.requested_order 1;
  Complete 70 Scenario.requested_order (Decimal.of_int 5) (Decimal.of_int 0) 1;
  Release Scenario.requested_order 1;
  Reject Scenario.requested_order;
  Receive 80 Example.purchase_order 2 None;
  CancelPurchase 90 Example.purchase_order 1;
  Reopen Example.purchase_order;
  CreateWithRequest 1 3 "next" 1
].

End Day.

(** * The MRO store

    An empty store; a drill with an opening stock of 3 pieces; and a
    list of calls: the drill, a second item under the drill's MRO id, a
    belt without stock, an issue of one drill, an issue of five, and
    two edits of the belt, the first to the MRO id of the drill. *)

Module Store.

Definition supplier : Partner.t := Partner.mk 7 "A" Partner.SUPPLIER.

Definition empty : Workshop := mkWorkshop ∅ 0 [].

Definition drill : MROItem.t :=
  MROItem.mk 1 "Drill" "DR-1" "DR-1" "tool" "pieces" 2500 3000 1000 "bin 4" 7.

Definition belt : MROItem.t :=
  MROItem.mk 2 "Belt" "BL-2" "B2" "machine_spare" "pieces" 900 0 2000 "" 7.

Definition with_drill : Workshop :=
  mkWorkshop (<[1 := drill]> ∅) 1
    [MROInventoryLedger.mk 1 MROInventoryLedger.IN 3000 "pieces" "Opening stock"
       "opening_stock" 1 1].

Definition calls : list mro_call := [
  CreateItem "Drill" " dr-1 " "" "tool" "pieces" 2500 supplier "bin 4 " 3000 1000 1;
  CreateItem "Drill bit" "DR-1" "x" "tool" "pieces" 100 supplier "" 0 0 1;
  CreateItem "Belt" "bl-2" "b2" "machine_spare" "pieces" 900 supplier "" 0 2000 1;
  AdjustItem drill (-1000) "issued" 1;
  AdjustItem drill (-5000) "issued" 1;
  UpdateItem belt "Belt" "dr-1" "" "machine_spare" "pieces" 900 supplier "" 2000;
  UpdateItem belt "V-belt" "bl-2" "" "machine_spare" "pieces" 950 supplier "rack 1" 2000
].

End Store.

(** * Properties *)

(** ** Running computations *)

Lemma run_bind {A B} (m : M A) (f : A → M B) db :
  (m ≫= f) db =
  match m db with
  | (inl e, db') => (inl e, db')
  | (inr a, db') => f a db'
  end.
Proof. reflexivity. Qed.

Lemma run_ret {A} (a : A) (db : DB) : (mret a : M A) db = (inr a, db).
Proof. reflexivity. Qed.

Lemma getitem_run (materials : gmap Z RawMaterial.t) k m db :
  materials !! k = Some m → getitem materials k db = (inr m, db).
Proof. intros H. unfold getitem. rewrite H. reflexivity. Qed.

Lemma bind_ok {A B} (m : M A) (f : A → M B) db a db' :
  m db = (inr a, db') → (m ≫= f) db = f a db'.
Proof. intros H. rewrite run_bind, H. reflexivity. Qed.

Lemma bind_err {A B} (m : M A) (f : A → M B) db e db' :
  m db = (inl e, db') → (m ≫= f) db = (inl e, db').
Proof. intros H. rewrite run_bind, H. reflexivity. Qed.

Lemma atomic_ok {A} (body : M A) db a db' :
  body db = (inr a, db') → atomic body db = (inr a, db').
Proof. intros H. unfold atomic. rewrite H. reflexivity. Qed.

Lemma atomic_err {A} (body : M A) db e db' :
  body db = (inl e, db') → atomic body db = (inl e, db).
Proof. intros H. unfold atomic. rewrite H. reflexivity. Qed.

(** Whatever the body of a transaction does, a failure leaves the
    database as it was. *)
Lemma atomic_failure_rolls_back {A} (body : M A) db e db' :
  atomic body db = (inl e, db') → db' = db.
Proof.
  unfold atomic. destruct (body db) as [[e'|a] db'']; intros H; congruence.
Qed.

(** The loop rule: an invariant [P] of the elements done so far, the
    local variables and the database, kept by every iteration that ends
    normally, holds of the whole list at the end of the loop. *)
Lemma for_each_invariant {A S} (P : list A → S → DB → Prop)
    (body : A → S → M S) (xs : list A) (s : S) (db : DB) :
  P [] s db →
  (∀ done x rest s db, xs = done ++ x :: rest → P done s db →
     ∃ s' db', body x s db = (inr s', db') ∧ P (done ++ [x]) s' db') →
  ∃ s' db', for_each xs body s db = (inr s', db') ∧ P xs s' db'.
Proof.
  intros H0 Hstep.
  cut (∀ rest done s db, xs = done ++ rest → P done s db →
         ∃ s' db', for_each rest body s db = (inr s', db') ∧ P xs s' db').
  { intros Hgen. apply (Hgen xs [] s db); [reflexivity | exact H0]. }
  clear s db H0. intros rest.
  induction rest as [|x rest IH]; intros done s db Hxs HP.
  - rewrite app_nil_r in Hxs. subst done. simpl. eauto.
  - destruct (Hstep done x rest s db Hxs HP) as (s' & db' & Hb & HP').
    simpl. rewrite (bind_ok _ _ _ _ _ Hb).
    apply (IH (done ++ [x])); [|exact HP'].
    rewrite <- app_assoc. exact Hxs.
Qed.

(** ** Stock rows *)

Lemma total_for_app pk l1 l2 : total_for pk (l1 ++ l2) = total_for pk l1 + total_for pk l2.
Proof. induction l1 as [|[k q] l1 IH]; simpl; [done | rewrite IH; lia]. Qed.

Lemma total_for_notin pk moves : pk ∉ moves.*1 → total_for pk moves = 0.
Proof.
  induction moves as [|[k q] moves IH]; simpl; [done|].
  intros Hn. apply not_elem_of_cons in Hn as [Hne Hn].
  rewrite bool_decide_eq_false_2 by congruence. rewrite IH by done. done.
Qed.

Lemma total_for_nodup pk q moves :
  NoDup moves.*1 → (pk, q) ∈ moves → total_for pk moves = q.
Proof.
  induction moves as [|[k q'] moves IH]; simpl; intros Hnd Hin.
  - by apply elem_of_nil in Hin.
  - apply NoDup_cons in Hnd as [Hk Hnd].
    apply elem_of_cons in Hin as [Heq | Hin].
    + injection Heq as <- <-. rewrite bool_decide_eq_true_2 by done.
      rewrite total_for_notin by done. lia.
    + rewrite bool_decide_eq_false_2.
      * rewrite IH by done. lia.
      * intros ->. apply Hk. apply (list_elem_of_fmap_2 fst) in Hin. exact Hin.
Qed.

Lemma lookup_move_stock rows mv pk :
  RawMaterial.current_stock <$> move_stock rows mv !! pk
  = (λ b, b + total_for pk [mv]) <$> (RawMaterial.current_stock <$> rows !! pk).
Proof.
  destruct mv as [k q]. unfold move_stock. simpl.
  destruct (decide (k = pk)) as [->|Hne].
  - rewrite lookup_alter_eq, bool_decide_eq_true_2 by done.
    destruct (rows !! pk); simpl; [f_equal; lia | done].
  - rewrite lookup_alter_ne, bool_decide_eq_false_2 by done.
    destruct (rows !! pk); simpl; [f_equal; lia | done].
Qed.

Lemma lookup_apply_moves moves rows pk :
  RawMaterial.current_stock <$> apply_moves moves rows !! pk
  = (λ b, b + total_for pk moves) <$> (RawMaterial.current_stock <$> rows !! pk).
Proof.
  unfold apply_moves. revert rows.
  induction moves as [|mv moves IH]; intros rows.
  - simpl. destruct (rows !! pk); simpl; [f_equal; lia | done].
  - change (foldl move_stock rows (mv :: moves)) with (foldl move_stock (move_stock rows mv) moves).
    rewrite IH, lookup_move_stock.
    change (mv :: moves) with ([mv] ++ moves). rewrite total_for_app.
    destruct (rows !! pk); simpl; [f_equal; lia | done].
Qed.

Lemma apply_moves_snoc moves mv rows :
  apply_moves (moves ++ [mv]) rows = move_stock (apply_moves moves rows) mv.
Proof. unfold apply_moves. rewrite foldl_app. reflexivity. Qed.

Lemma pk_consistent_move_stock rows mv :
  pk_consistent rows → pk_consistent (move_stock rows mv).
Proof.
  destruct mv as [k0 q]. unfold pk_consistent, move_stock. simpl. intros H k m Hl.
  apply lookup_alter_Some in Hl as [(-> & m' & Hm' & ->) | (_ & Hm)].
  - simpl. exact (H _ _ Hm').
  - exact (H _ _ Hm).
Qed.

(** The dict [materials] of a service function holds the very rows of
    the table: what is saved from an object of the dict is the row
    moved by the same quantity. *)
Lemma save_from_dict (materials rows : gmap Z RawMaterial.t) k m q :
  materials ⊆ rows → pk_consistent rows → materials !! k = Some m →
  let m' := RawMaterial.set_current_stock (RawMaterial.current_stock m + q) m in
  alter (RawMaterial.set_current_stock (RawMaterial.current_stock m')) (RawMaterial.id m') rows
  = move_stock rows (k, q)
  ∧ <[k := m']> materials ⊆ move_stock rows (k, q)
  ∧ RawMaterial.id m = k.
Proof.
  intros Hsub Hpk Hm m'.
  assert (rows !! k = Some m) as Hr by (eapply lookup_weaken; eauto).
  assert (RawMaterial.id m = k) as Hid by exact (Hpk _ _ Hr).
  assert (move_stock rows (k, q) = <[k := m']> rows) as Hmv.
  { unfold move_stock. simpl. apply map_eq. intros j.
    destruct (decide (k = j)) as [->|Hne].
    - rewrite lookup_alter_eq, lookup_insert_eq, Hr. done.
    - rewrite lookup_alter_ne, lookup_insert_ne by done. done. }
  split; [|split; [|done]].
  - rewrite Hmv. simpl. rewrite Hid. apply map_eq. intros j.
    destruct (decide (k = j)) as [->|Hne].
    + rewrite lookup_alter_eq, lookup_insert_eq, Hr. done.
    + rewrite lookup_alter_ne, lookup_insert_ne by done. done.
  - rewrite Hmv. by apply insert_mono.
Qed.

Lemma by_id_subseteq (ids : list Z) (rows : gmap Z RawMaterial.t) :
  filter (λ kv : Z * RawMaterial.t, kv.1 ∈ ids) rows ⊆ rows.
Proof. apply map_filter_subseteq. Qed.

Lemma by_id_lookup (ids : list Z) (rows : gmap Z RawMaterial.t) k :
  k ∈ ids → filter (λ kv : Z * RawMaterial.t, kv.1 ∈ ids) rows !! k = rows !! k.
Proof.
  intros Hk. destruct (rows !! k) as [m|] eqn:Hr.
  - apply map_lookup_filter_Some. done.
  - apply map_lookup_filter_None. left. done.
Qed.

(** ** Production: requirements, shortages and the stock loops *)

Lemma unit_of_move_stock rows mv pk : unit_of (move_stock rows mv) pk = unit_of rows pk.
Proof.
  destruct mv as [k q]. unfold unit_of, move_stock. simpl.
  destruct (decide (k = pk)) as [->|Hne].
  - rewrite lookup_alter_eq. destruct (rows !! pk); done.
  - rewrite lookup_alter_ne by done. done.
Qed.

Lemma unit_of_apply_moves moves rows pk : unit_of (apply_moves moves rows) pk = unit_of rows pk.
Proof.
  unfold apply_moves. revert rows. induction moves as [|mv moves IH]; intros rows; [done|].
  simpl. rewrite IH. apply unit_of_move_stock.
Qed.

Lemma pk_consistent_apply_moves moves rows :
  pk_consistent rows → pk_consistent (apply_moves moves rows).
Proof.
  unfold apply_moves. revert rows. induction moves as [|mv moves IH]; intros rows H; [done|].
  simpl. apply IH. by apply pk_consistent_move_stock.
Qed.

Lemma is_Some_apply_moves moves rows pk :
  is_Some (apply_moves moves rows !! pk) ↔ is_Some (rows !! pk).
Proof.
  pose proof (lookup_apply_moves moves rows pk) as H.
  destruct (apply_moves moves rows !! pk), (rows !! pk); simpl in H; try done.
  all: split; intros [? ?]; done.
Qed.

Lemma unit_of_dict (materials rows : gmap Z RawMaterial.t) k m :
  materials ⊆ rows → materials !! k = Some m → RawMaterial.unit m = unit_of rows k.
Proof.
  intros Hsub Hm. unfold unit_of. by rewrite (lookup_weaken _ _ _ _ Hm Hsub).
Qed.

(** The shortage loop of [create_production_order_and_deduct_stock]. *)
Lemma check_loop_run (quantity : Z) (materials : gmap Z RawMaterial.t)
    (items : list BOMItem.t) sh0 rq0 db :
  Forall (λ item, is_Some (materials !! BOMItem.material_id item)) items →
  for_each items (λ item '(shortages, requirements),
      material ← getitem materials (BOMItem.material_id item);
      let required := Decimal.quantize_milli
        (Decimal.mul (BOMItem.qty_per_unit item) (Decimal.of_int quantity)) in
      let requirements := requirements ++ [(item, required)] in
      if RawMaterial.current_stock material <? required then
        mret (shortages ++ [Short (RawMaterial.name material) required
                              (RawMaterial.unit material)
                              (RawMaterial.current_stock material)],
              requirements)
      else mret (shortages, requirements)) (sh0, rq0) db
  = (inr (sh0 ++ omap (bom_shortage materials quantity) items,
          rq0 ++ map (λ item, (item, required_for quantity item)) items), db).
Proof.
  intros Hall. revert sh0 rq0.
  induction Hall as [|item items [m Hm] _ IH]; intros sh0 rq0.
  - simpl. rewrite !app_nil_r. reflexivity.
  - simpl. rewrite !run_bind, (getitem_run _ _ _ _ Hm).
    unfold bom_shortage at 1. rewrite Hm. simpl.
    fold (required_for quantity item).
    destruct (RawMaterial.current_stock m <? required_for quantity item);
      rewrite run_ret, IH, <- !app_assoc; reflexivity.
Qed.

(** Running the writes of a loop body, and projecting the result. *)
Ltac mcompute :=
  cbv beta iota zeta delta [mbind M_bind mret M_ret raise get_db modify_db
    RawMaterial_save_current_stock ProductionConsumption_create InventoryLedger_create
    PurchaseOrderItem_save_received_quantity].

Ltac dbsimpl :=
  unfold set_raw_materials, set_inventory_ledger, set_production_orders,
    set_production_consumptions, set_purchase_orders, set_purchase_order_items;
  cbn [partners raw_materials inventory_ledger bom_items production_orders
    production_order_seq production_consumptions purchase_orders purchase_order_seq
    purchase_order_items purchase_order_item_seq
    RawMaterial.id RawMaterial.name RawMaterial.unit RawMaterial.current_stock
    RawMaterial.vendor_id RawMaterial.set_current_stock].

(** The deduction loop of [create_production_order_and_deduct_stock]. *)
Lemma deduct_loop_run (order : ProductionOrder.t) (created_by : Z)
    (requirements : list (BOMItem.t * Z)) (materials : gmap Z RawMaterial.t) db :
  materials ⊆ raw_materials db →
  pk_consistent (raw_materials db) →
  Forall (λ ir, is_Some (materials !! BOMItem.material_id ir.1)) requirements →
  ∃ materials',
    for_each requirements (λ '(item, required) materials,
      material ← getitem materials (BOMItem.material_id item);
      let material := RawMaterial.set_current_stock
        (RawMaterial.current_stock material - required) material in
      RawMaterial_save_current_stock material;;
      ProductionConsumption_create (ProductionConsumption.mk
        (ProductionOrder.id order) (RawMaterial.id material) required);;
      InventoryLedger_create (InventoryLedger.mk
        (RawMaterial.id material) InventoryLedger.OUT required
        (RawMaterial.unit material)
        (ConsumedByProductionOrder (ProductionOrder.id order))
        "production_order" (ProductionOrder.id order) created_by);;
      mret (<[BOMItem.material_id item := material]> materials)) materials db
    = (inr materials',
       mkDB (partners db)
         (apply_moves (negate <$> (requirement_of <$> requirements)) (raw_materials db))
         (inventory_ledger db ++
            (movement_entry (raw_materials db) InventoryLedger.OUT
               (ConsumedByProductionOrder (ProductionOrder.id order))
               "production_order" (ProductionOrder.id order) created_by
             <$> (requirement_of <$> requirements)))
         (bom_items db) (production_orders db) (production_order_seq db)
         (production_consumptions db ++
            (consumption_line (ProductionOrder.id order) <$> (requirement_of <$> requirements)))
         (purchase_orders db) (purchase_order_seq db) (purchase_order_items db)
         (purchase_order_item_seq db)).
Proof.
  intros Hsub Hpk Hall.
  match goal with |- ∃ materials', for_each _ ?body _ _ = _ =>
    destruct (for_each_invariant (λ done s dbc,
      s ⊆ raw_materials dbc
      ∧ (∀ k, is_Some (materials !! k) → is_Some (s !! k))
      ∧ dbc = mkDB (partners db)
         (apply_moves (negate <$> (requirement_of <$> done)) (raw_materials db))
         (inventory_ledger db ++
            (movement_entry (raw_materials db) InventoryLedger.OUT
               (ConsumedByProductionOrder (ProductionOrder.id order))
               "production_order" (ProductionOrder.id order) created_by
             <$> (requirement_of <$> done)))
         (bom_items db) (production_orders db) (production_order_seq db)
         (production_consumptions db ++
            (consumption_line (ProductionOrder.id order) <$> (requirement_of <$> done)))
         (purchase_orders db) (purchase_order_seq db) (purchase_order_items db)
         (purchase_order_item_seq db))
      body requirements materials db) as (s' & db' & Hrun & _ & _ & ->)
  end.
  - split; [done|]. split; [done|]. simpl. rewrite !app_nil_r. by destruct db.
  - intros done [item required] rest s dbc Hreq (Hs & Hdom & ->).
    assert (is_Some (s !! BOMItem.material_id item)) as [m Hm].
    { apply Hdom. rewrite Forall_forall in Hall.
      apply (Hall (item, required)). rewrite Hreq. set_solver. }
    simpl in Hs.
    destruct (save_from_dict _ _ _ _ (- required) Hs
                (pk_consistent_apply_moves _ _ Hpk) Hm) as (Hsave & Hsub' & Hid).
    simpl in Hsave, Hsub'.
    eexists _, _. split.
    + rewrite !run_bind, (getitem_run _ _ _ _ Hm). mcompute. reflexivity.
    + dbsimpl.
      change (RawMaterial.current_stock m - required)
        with (RawMaterial.current_stock m + - required).
      rewrite Hsave. split; [exact Hsub'|]. split.
      { intros k Hk. destruct (decide (BOMItem.material_id item = k)) as [->|Hne].
        - rewrite lookup_insert_eq. done.
        - rewrite lookup_insert_ne by done. auto. }
      rewrite !fmap_app. cbn [fmap list_fmap]. rewrite apply_moves_snoc.
      rewrite Hid, (unit_of_dict _ _ _ _ Hs Hm), unit_of_apply_moves.
      rewrite <- !app_assoc. reflexivity.
  - eauto.
Qed.

Lemma bom_shortage_by_id (rows : gmap Z RawMaterial.t) quantity (bom items : list BOMItem.t) :
  items ⊆ bom →
  omap (bom_shortage (filter (λ kv : Z * RawMaterial.t, kv.1 ∈ BOMItem.material_id <$> bom) rows)
          quantity) items
  = omap (bom_shortage rows quantity) items.
Proof.
  induction items as [|item items IH]; intros Hsub; [done|].
  cbn [omap list_omap]. rewrite IH by set_solver.
  assert (bom_shortage (filter (λ kv : Z * RawMaterial.t, kv.1 ∈ BOMItem.material_id <$> bom) rows)
            quantity item = bom_shortage rows quantity item) as ->; [|done].
  unfold bom_shortage.
  rewrite by_id_lookup by (apply list_elem_of_fmap_2, Hsub; set_solver). done.
Qed.

(** What [create_production_order_and_deduct_stock] returns and writes. *)
Lemma create_immediate_run db product quantity notes created_by :
  bom_of db product ≠ [] →
  pk_consistent (raw_materials db) →
  bom_materials_exist db (bom_of db product) →
  create_production_order_and_deduct_stock product quantity notes created_by db =
  match omap (bom_shortage (raw_materials db) quantity) (bom_of db product) with
  | [] =>
    let order := ProductionOrder.mk (production_order_seq db + 1) product quantity
                   (Decimal.quantize_milli (Decimal.of_int quantity))
                   true ProductionOrder.PLANNED notes created_by in
    let moves := bom_moves quantity (bom_of db product) in
    (inr order,
     mkDB (partners db)
       (apply_moves (negate <$> moves) (raw_materials db))
       (inventory_ledger db ++
          (movement_entry (raw_materials db) InventoryLedger.OUT
             (ConsumedByProductionOrder (ProductionOrder.id order))
             "production_order" (ProductionOrder.id order) created_by <$> moves))
       (bom_items db)
       (<[ProductionOrder.id order := order]> (production_orders db))
       (production_order_seq db + 1)
       (production_consumptions db ++ (consumption_line (ProductionOrder.id order) <$> moves))
       (purchase_orders db) (purchase_order_seq db) (purchase_order_items db)
       (purchase_order_item_seq db))
  | shortages =>
    (inl (ValidationError (MsgShortages "Insufficient stock. " shortages)), db)
  end.
Proof.
  intros Hne Hpk Hfk.
  unfold create_production_order_and_deduct_stock.
  rewrite run_bind. change (BOMItem_filter product db) with (inr (bom_of db product) : exn + _, db).
  cbv beta iota.
  set (bom := bom_of db product) in *.
  assert (Forall (λ item, is_Some
            (filter (λ kv : Z * RawMaterial.t, kv.1 ∈ BOMItem.material_id <$> bom)
               (raw_materials db) !! BOMItem.material_id item)) bom) as Hdict.
  { apply Forall_forall. intros item Hin.
    rewrite by_id_lookup by (by apply list_elem_of_fmap_2).
    unfold bom_materials_exist in Hfk. rewrite Forall_forall in Hfk. auto. }
  destruct bom as [|b bom'] eqn:Hbom; [done|]. rewrite <- Hbom in *. clear Hne.
  rewrite <- (bom_shortage_by_id _ _ bom bom) by done.
  destruct (omap _ bom) as [|sh shs] eqn:Hsh.
  - apply atomic_ok.
    rewrite run_bind.
    change (RawMaterial_by_id (BOMItem.material_id <$> bom) db)
      with (inr (filter (λ kv : Z * RawMaterial.t, kv.1 ∈ BOMItem.material_id <$> bom)
                   (raw_materials db)) : exn + _, db).
    cbv beta iota.
    rewrite run_bind, (check_loop_run _ _ _ _ _ _ Hdict), Hsh. cbn [app].
    rewrite run_bind.
    match goal with |- context [ProductionOrder_create ?a ?b ?c ?d ?e ?f ?g db] =>
      change (ProductionOrder_create a b c d e f g db) with
        (inr (ProductionOrder.mk (production_order_seq db + 1) a b c d e f g) : exn + _,
         set_production_orders
           (insert (production_order_seq db + 1)
              (ProductionOrder.mk (production_order_seq db + 1) a b c d e f g))
           (production_order_seq db + 1) db)
    end.
    cbv beta iota.
    match goal with |- (for_each ?reqs ?body ?s ≫= _) ?d = _ =>
      destruct (deduct_loop_run
        (ProductionOrder.mk (production_order_seq db + 1) product quantity
           (Decimal.quantize_milli (Decimal.of_int quantity)) true ProductionOrder.PLANNED
           notes created_by) created_by reqs s d) as (s' & Hrun)
    end.
    + apply by_id_subseteq.
    + exact Hpk.
    + apply Forall_fmap. exact Hdict.
    + erewrite bind_ok by exact Hrun. rewrite run_ret.
      dbsimpl. cbn [ProductionOrder.id]. unfold bom_moves. rewrite <- !list_fmap_compose. reflexivity.
  - eapply atomic_err.
    rewrite run_bind.
    change (RawMaterial_by_id (BOMItem.material_id <$> bom) db)
      with (inr (filter (λ kv : Z * RawMaterial.t, kv.1 ∈ BOMItem.material_id <$> bom)
                   (raw_materials db)) : exn + _, db).
    cbv beta iota.
    rewrite run_bind, (check_loop_run _ _ _ _ _ _ Hdict), Hsh. cbn [app]. reflexivity.
Qed.

Lemma rm_request_loop_run (order_pk quantity : Z) (items : list BOMItem.t) db :
  for_each items (λ item _,
      let required := Decimal.quantize_milli
        (Decimal.mul (BOMItem.qty_per_unit item) (Decimal.of_int quantity)) in
      ProductionConsumption_create (ProductionConsumption.mk
        order_pk (BOMItem.material_id item) required)) () db
  = (inr (),
     set_production_consumptions
       (λ l, l ++ (consumption_line order_pk <$> bom_moves quantity items)) db).
Proof.
  revert db. induction items as [|item items IH]; intros db.
  - simpl. unfold set_production_consumptions. rewrite app_nil_r. by destruct db.
  - simpl. rewrite run_bind. mcompute. rewrite IH. dbsimpl.
    rewrite <- app_assoc. reflexivity.
Qed.

(** What [create_production_order_with_rm_request] returns and writes. *)
Lemma create_rm_request_run db product quantity notes created_by :
  bom_of db product ≠ [] →
  create_production_order_with_rm_request product quantity notes created_by db =
  let order := ProductionOrder.mk (production_order_seq db + 1) product quantity
                 (Decimal.quantize_milli (Decimal.of_int quantity))
                 false ProductionOrder.AWAITING_RM_RELEASE notes created_by in
  (inr order,
   mkDB (partners db) (raw_materials db) (inventory_ledger db) (bom_items db)
     (<[ProductionOrder.id order := order]> (production_orders db))
     (production_order_seq db + 1)
     (production_consumptions db ++
        (consumption_line (ProductionOrder.id order)
           <$> bom_moves quantity (bom_of db product)))
     (purchase_orders db) (purchase_order_seq db) (purchase_order_items db)
     (purchase_order_item_seq db)).
Proof.
  intros Hne. unfold create_production_order_with_rm_request.
  rewrite run_bind. change (BOMItem_filter product db) with (inr (bom_of db product) : exn + _, db).
  cbv beta iota.
  destruct (bom_of db product) as [|b bom'] eqn:Hbom; [done|]. rewrite <- Hbom. clear Hne.
  apply atomic_ok. rewrite run_bind.
  match goal with |- context [ProductionOrder_create ?a ?b ?c ?d ?e ?f ?g db] =>
    change (ProductionOrder_create a b c d e f g db) with
      (inr (ProductionOrder.mk (production_order_seq db + 1) a b c d e f g) : exn + _,
       set_production_orders
         (insert (production_order_seq db + 1)
            (ProductionOrder.mk (production_order_seq db + 1) a b c d e f g))
         (production_order_seq db + 1) db)
  end.
  cbv beta iota. rewrite run_bind. cbn [ProductionOrder.id].
  rewrite rm_request_loop_run. rewrite run_ret. dbsimpl. reflexivity.
Qed.

(** *** Release and cancellation *)

Lemma release_shortages_run (materials : gmap Z RawMaterial.t)
    (lines : list ProductionConsumption.t) acc :
  foldl (λ shortages consumption,
    match materials !! ProductionConsumption.material_id consumption with
    | None =>
      shortages ++ [MissingFromInventory (ProductionConsumption.material_id consumption)]
    | Some material =>
      if RawMaterial.current_stock material <? ProductionConsumption.required_qty consumption
      then shortages ++ [Short (RawMaterial.name material)
                           (ProductionConsumption.required_qty consumption)
                           (RawMaterial.unit material)
                           (RawMaterial.current_stock material)]
      else shortages
    end) acc lines
  = acc ++ omap (line_shortage materials) lines.
Proof.
  revert acc. induction lines as [|c lines IH]; intros acc.
  - simpl. by rewrite app_nil_r.
  - cbn [foldl omap list_omap]. rewrite IH. unfold line_shortage at 2.
    destruct (materials !! ProductionConsumption.material_id c) as [m|].
    + destruct (RawMaterial.current_stock m <? ProductionConsumption.required_qty c).
      * rewrite <- app_assoc. done.
      * done.
    + rewrite <- app_assoc. done.
Qed.

Lemma line_shortage_by_id (rows : gmap Z RawMaterial.t)
    (lines items : list ProductionConsumption.t) :
  items ⊆ lines →
  omap (line_shortage
          (filter (λ kv : Z * RawMaterial.t, kv.1 ∈ ProductionConsumption.material_id <$> lines)
             rows)) items
  = omap (line_shortage rows) items.
Proof.
  induction items as [|c items IH]; intros Hsub; [done|].
  cbn [omap list_omap]. rewrite IH by set_solver.
  assert (line_shortage (filter (λ kv : Z * RawMaterial.t,
              kv.1 ∈ ProductionConsumption.material_id <$> lines) rows) c
          = line_shortage rows c) as ->; [|done].
  unfold line_shortage.
  rewrite by_id_lookup by (apply list_elem_of_fmap_2, Hsub; set_solver). done.
Qed.

Lemma line_shortage_None rows c :
  line_shortage rows c = None ↔
  ∃ m, rows !! ProductionConsumption.material_id c = Some m
       ∧ ProductionConsumption.required_qty c ≤ RawMaterial.current_stock m.
Proof.
  unfold line_shortage.
  destruct (rows !! ProductionConsumption.material_id c) as [m|].
  - destruct (Z.ltb_spec (RawMaterial.current_stock m) (ProductionConsumption.required_qty c)).
    + split; [done|]. intros (m' & [= <-] & ?). lia.
    + split; [eauto|done].
  - split; [done|]. intros (m' & ? & ?). done.
Qed.

Lemma omap_nil_Forall {A B} (f : A → option B) (l : list A) :
  omap f l = [] ↔ Forall (λ x, f x = None) l.
Proof.
  induction l as [|x l IH]; [done|].
  cbn [omap list_omap]. destruct (f x) eqn:Hx.
  - split; [done|]. intros H. apply Forall_cons in H as [? ?]. congruence.
  - rewrite IH. split; [by constructor |]. intros H. by apply Forall_cons in H as [_ ?].
Qed.

(** The deduction loop of [release_raw_materials_for_production_order]. *)
Lemma release_loop_run (order_pk : Z) (released_by : Z)
    (lines : list ProductionConsumption.t) (materials : gmap Z RawMaterial.t) db :
  materials ⊆ raw_materials db →
  pk_consistent (raw_materials db) →
  Forall (λ c, is_Some (materials !! ProductionConsumption.material_id c)) lines →
  ∃ materials',
    for_each lines (λ consumption materials,
      material ← getitem materials (ProductionConsumption.material_id consumption);
      let material := RawMaterial.set_current_stock
        (RawMaterial.current_stock material
         - ProductionConsumption.required_qty consumption) material in
      RawMaterial_save_current_stock material;;
      InventoryLedger_create (InventoryLedger.mk
        (RawMaterial.id material) InventoryLedger.OUT
        (ProductionConsumption.required_qty consumption)
        (RawMaterial.unit material)
        (ReleasedForProductionOrder order_pk)
        "production_order" order_pk released_by);;
      mret (<[ProductionConsumption.material_id consumption := material]> materials))
      materials db
    = (inr materials',
       mkDB (partners db)
         (apply_moves (negate <$> (line_move <$> lines)) (raw_materials db))
         (inventory_ledger db ++
            (movement_entry (raw_materials db) InventoryLedger.OUT
               (ReleasedForProductionOrder order_pk)
               "production_order" order_pk released_by <$> (line_move <$> lines)))
         (bom_items db) (production_orders db) (production_order_seq db)
         (production_consumptions db)
         (purchase_orders db) (purchase_order_seq db) (purchase_order_items db)
         (purchase_order_item_seq db)).
Proof.
  intros Hsub Hpk Hall.
  match goal with |- ∃ materials', for_each _ ?body _ _ = _ =>
    destruct (for_each_invariant (λ done s dbc,
      s ⊆ raw_materials dbc
      ∧ (∀ k, is_Some (materials !! k) → is_Some (s !! k))
      ∧ dbc = mkDB (partners db)
         (apply_moves (negate <$> (line_move <$> done)) (raw_materials db))
         (inventory_ledger db ++
            (movement_entry (raw_materials db) InventoryLedger.OUT
               (ReleasedForProductionOrder order_pk)
               "production_order" order_pk released_by <$> (line_move <$> done)))
         (bom_items db) (production_orders db) (production_order_seq db)
         (production_consumptions db)
         (purchase_orders db) (purchase_order_seq db) (purchase_order_items db)
         (purchase_order_item_seq db))
      body lines materials db) as (s' & db' & Hrun & _ & _ & ->)
  end.
  - split; [done|]. split; [done|]. simpl. rewrite !app_nil_r. by destruct db.
  - intros done c rest s dbc Hreq (Hs & Hdom & ->).
    assert (is_Some (s !! ProductionConsumption.material_id c)) as [m Hm].
    { apply Hdom. rewrite Forall_forall in Hall. apply (Hall c). rewrite Hreq. set_solver. }
    simpl in Hs.
    destruct (save_from_dict _ _ _ _ (- ProductionConsumption.required_qty c) Hs
                (pk_consistent_apply_moves _ _ Hpk) Hm) as (Hsave & Hsub' & Hid).
    simpl in Hsave, Hsub'.
    eexists _, _. split.
    + rewrite !run_bind, (getitem_run _ _ _ _ Hm). mcompute. reflexivity.
    + dbsimpl.
      change (RawMaterial.current_stock m - ProductionConsumption.required_qty c)
        with (RawMaterial.current_stock m + - ProductionConsumption.required_qty c).
      rewrite Hsave. split; [exact Hsub'|]. split.
      { intros k Hk.
        destruct (decide (ProductionConsumption.material_id c = k)) as [->|Hne].
        - rewrite lookup_insert_eq. done.
        - rewrite lookup_insert_ne by done. auto. }
      rewrite !fmap_app. cbn [fmap list_fmap]. rewrite apply_moves_snoc.
      rewrite Hid, (unit_of_dict _ _ _ _ Hs Hm), unit_of_apply_moves.
      rewrite <- !app_assoc. reflexivity.
  - eauto.
Qed.

(** The credit loop of [cancel_production_order], every material of
    the lines being stored. *)
Lemma cancel_loop_run (order_pk : Z) (cancelled_by : Z)
    (lines : list ProductionConsumption.t) (materials : gmap Z RawMaterial.t) db :
  materials ⊆ raw_materials db →
  pk_consistent (raw_materials db) →
  Forall (λ c, is_Some (materials !! ProductionConsumption.material_id c)) lines →
  ∃ materials',
    for_each lines (λ consumption materials,
      match materials !! ProductionConsumption.material_id consumption with
      | None => mret materials
      | Some material =>
        let material := RawMaterial.set_current_stock
          (RawMaterial.current_stock material
           + ProductionConsumption.required_qty consumption) material in
        RawMaterial_save_current_stock material;;
        InventoryLedger_create (InventoryLedger.mk
          (RawMaterial.id material) InventoryLedger.IN
          (ProductionConsumption.required_qty consumption)
          (RawMaterial.unit material)
          (RevertedByCancellingProductionOrder order_pk)
          "production_order" order_pk cancelled_by);;
        mret (<[ProductionConsumption.material_id consumption := material]> materials)
      end) materials db
    = (inr materials',
       mkDB (partners db)
         (apply_moves (line_move <$> lines) (raw_materials db))
         (inventory_ledger db ++
            (movement_entry (raw_materials db) InventoryLedger.IN
               (RevertedByCancellingProductionOrder order_pk)
               "production_order" order_pk cancelled_by <$> (line_move <$> lines)))
         (bom_items db) (production_orders db) (production_order_seq db)
         (production_consumptions db)
         (purchase_orders db) (purchase_order_seq db) (purchase_order_items db)
         (purchase_order_item_seq db)).
Proof.
  intros Hsub Hpk Hall.
  match goal with |- ∃ materials', for_each _ ?body _ _ = _ =>
    destruct (for_each_invariant (λ done s dbc,
      s ⊆ raw_materials dbc
      ∧ (∀ k, is_Some (materials !! k) → is_Some (s !! k))
      ∧ dbc = mkDB (partners db)
         (apply_moves (line_move <$> done) (raw_materials db))
         (inventory_ledger db ++
            (movement_entry (raw_materials db) InventoryLedger.IN
               (RevertedByCancellingProductionOrder order_pk)
               "production_order" order_pk cancelled_by <$> (line_move <$> done)))
         (bom_items db) (production_orders db) (production_order_seq db)
         (production_consumptions db)
         (purchase_orders db) (purchase_order_seq db) (purchase_order_items db)
         (purchase_order_item_seq db))
      body lines materials db) as (s' & db' & Hrun & _ & _ & ->)
  end.
  - split; [done|]. split; [done|]. simpl. rewrite !app_nil_r. by destruct db.
  - intros done c rest s dbc Hreq (Hs & Hdom & ->).
    assert (is_Some (s !! ProductionConsumption.material_id c)) as [m Hm].
    { apply Hdom. rewrite Forall_forall in Hall. apply (Hall c). rewrite Hreq. set_solver. }
    simpl in Hs.
    destruct (save_from_dict _ _ _ _ (ProductionConsumption.required_qty c) Hs
                (pk_consistent_apply_moves _ _ Hpk) Hm) as (Hsave & Hsub' & Hid).
    simpl in Hsave, Hsub'.
    eexists _, _. split.
    + rewrite Hm. mcompute. reflexivity.
    + dbsimpl. rewrite Hsave. split; [exact Hsub'|]. split.
      { intros k Hk.
        destruct (decide (ProductionConsumption.material_id c = k)) as [->|Hne].
        - rewrite lookup_insert_eq. done.
        - rewrite lookup_insert_ne by done. auto. }
      rewrite !fmap_app. cbn [fmap list_fmap]. rewrite apply_moves_snoc.
      rewrite Hid, (unit_of_dict _ _ _ _ Hs Hm), unit_of_apply_moves.
      rewrite <- !app_assoc. reflexivity.
  - eauto.
Qed.

(** What [release_raw_materials_for_production_order] returns and
    writes for an order that awaits release. *)
Lemma release_run db (order stored : ProductionOrder.t) released_by :
  production_orders db !! ProductionOrder.id order = Some stored →
  ProductionOrder.id stored = ProductionOrder.id order →
  ProductionOrder.status stored = ProductionOrder.AWAITING_RM_RELEASE →
  ProductionOrder.raw_material_released stored = false →
  lines_of db (ProductionOrder.id order) ≠ [] →
  pk_consistent (raw_materials db) →
  release_raw_materials_for_production_order order released_by db =
  let pk := ProductionOrder.id order in
  let lines := lines_of db pk in
  match omap (line_shortage (raw_materials db)) lines with
  | [] =>
    (inr (ProductionOrder.set_status ProductionOrder.PLANNED
            (ProductionOrder.set_raw_material_released true stored)),
     mkDB (partners db)
       (apply_moves (negate <$> (line_move <$> lines)) (raw_materials db))
       (inventory_ledger db ++
          (movement_entry (raw_materials db) InventoryLedger.OUT
             (ReleasedForProductionOrder pk) "production_order" pk released_by
           <$> (line_move <$> lines)))
       (bom_items db)
       (alter (λ row, ProductionOrder.set_status ProductionOrder.PLANNED
                        (ProductionOrder.set_raw_material_released true row))
          pk (production_orders db))
       (production_order_seq db) (production_consumptions db)
       (purchase_orders db) (purchase_order_seq db) (purchase_order_items db)
       (purchase_order_item_seq db))
  | shortages =>
    (inl (ValidationError (MsgShortages "Insufficient stock for release. " shortages)), db)
  end.
Proof.
  intros Hst Hid Hstatus Hrel Hne Hpk.
  unfold release_raw_materials_for_production_order.
  cbv zeta.
  set (lines := lines_of db (ProductionOrder.id order)) in *.
  rewrite <- (line_shortage_by_id _ lines lines) by done.
  assert (∀ A (k : ProductionOrder.t → M A),
            (ProductionOrder_get (ProductionOrder.id order) ≫= k) db = k stored db) as Hget.
  { intros A k. apply bind_ok. unfold ProductionOrder_get. rewrite run_bind.
    change (get_db db) with (inr db : exn + _, db). cbv beta iota. rewrite Hst. reflexivity. }
  assert (∀ A (k : list ProductionConsumption.t → M A),
            (consumptions_of (ProductionOrder.id stored) ≫= k) db = k lines db) as Hcons.
  { intros A k. apply bind_ok. rewrite Hid. reflexivity. }
  assert (∀ A (k : gmap Z RawMaterial.t → M A),
            (RawMaterial_by_id (ProductionConsumption.material_id <$> lines) ≫= k) db
            = k (filter (λ kv : Z * RawMaterial.t,
                   kv.1 ∈ ProductionConsumption.material_id <$> lines) (raw_materials db)) db)
    as Hby.
  { intros A k. apply bind_ok. reflexivity. }
  destruct (omap _ lines) as [|sh shs] eqn:Hsh.
  - apply atomic_ok. rewrite Hget, Hstatus, Hrel.
    rewrite bool_decide_eq_false_2 by (intros H; by apply H).
    rewrite Hcons. destruct lines as [|c lines'] eqn:Hlines; [done|]. rewrite <- Hlines in *.
    rewrite Hby, release_shortages_run, Hsh. cbn [app].
    assert (Forall (λ c, is_Some
              (filter (λ kv : Z * RawMaterial.t,
                 kv.1 ∈ ProductionConsumption.material_id <$> lines) (raw_materials db)
               !! ProductionConsumption.material_id c)) lines) as Hdict.
    { apply omap_nil_Forall in Hsh. eapply Forall_impl; [exact Hsh|].
      intros c0 Hc. apply line_shortage_None in Hc as (m & Hm & _). eauto. }
    match goal with |- (for_each ?ls ?body ?s ≫= _) ?d = _ =>
      destruct (release_loop_run (ProductionOrder.id stored) released_by ls s d)
        as (s' & Hrun)
    end.
    + apply by_id_subseteq.
    + exact Hpk.
    + exact Hdict.
    + erewrite bind_ok by exact Hrun.
      rewrite run_bind. unfold ProductionOrder_save at 1. rewrite run_bind.
      mcompute. dbsimpl.
      cbn [ProductionOrder.id ProductionOrder.status ProductionOrder.raw_material_released
           ProductionOrder.set_status ProductionOrder.set_raw_material_released].
      rewrite Hid. reflexivity.
  - eapply atomic_err. rewrite Hget, Hstatus, Hrel.
    rewrite bool_decide_eq_false_2 by (intros H; by apply H).
    rewrite Hcons. destruct lines as [|c lines'] eqn:Hlines; [done|]. rewrite <- Hlines in *.
    rewrite Hby, release_shortages_run, Hsh. cbn [app]. reflexivity.
Qed.

(** What [cancel_production_order] returns and writes for an order
    whose raw materials were released. *)
Lemma cancel_released_run db (order stored : ProductionOrder.t) cancelled_by :
  production_orders db !! ProductionOrder.id order = Some stored →
  ProductionOrder.id stored = ProductionOrder.id order →
  ProductionOrder.status stored ≠ ProductionOrder.CANCELLED →
  ProductionOrder.status stored ≠ ProductionOrder.COMPLETED →
  ProductionOrder.raw_material_released stored = true →
  pk_consistent (raw_materials db) →
  Forall (λ c, is_Some (raw_materials db !! ProductionConsumption.material_id c))
    (lines_of db (ProductionOrder.id order)) →
  cancel_production_order order cancelled_by db =
  let pk := ProductionOrder.id order in
  let lines := lines_of db pk in
  (inr (ProductionOrder.set_status ProductionOrder.CANCELLED stored),
   mkDB (partners db)
     (apply_moves (line_move <$> lines) (raw_materials db))
     (inventory_ledger db ++
        (movement_entry (raw_materials db) InventoryLedger.IN
           (RevertedByCancellingProductionOrder pk) "production_order" pk cancelled_by
         <$> (line_move <$> lines)))
     (bom_items db)
     (alter (ProductionOrder.set_status ProductionOrder.CANCELLED) pk (production_orders db))
     (production_order_seq db) (production_consumptions db)
     (purchase_orders db) (purchase_order_seq db) (purchase_order_items db)
     (purchase_order_item_seq db)).
Proof.
  intros Hst Hid Hnc Hnd Hrel Hpk Hfk.
  unfold cancel_production_order. cbv zeta.
  set (lines := lines_of db (ProductionOrder.id order)) in *.
  apply atomic_ok.
  erewrite bind_ok; cycle 1.
  { unfold ProductionOrder_get. rewrite run_bind.
    change (get_db db) with (inr db : exn + _, db). cbv beta iota. rewrite Hst. reflexivity. }
  rewrite !bool_decide_eq_false_2 by done. rewrite Hrel.
  rewrite run_bind.
  erewrite (bind_ok (consumptions_of _)); cycle 1.
  { rewrite Hid. reflexivity. }
  fold lines.
  erewrite (bind_ok (RawMaterial_by_id _)) by reflexivity.
  match goal with |- context [(for_each ?ls ?body ?s ≫= _) ?d] =>
    destruct (cancel_loop_run (ProductionOrder.id stored) cancelled_by ls s d)
      as (s' & Hrun)
  end.
  - apply by_id_subseteq.
  - exact Hpk.
  - apply Forall_forall. intros c Hc.
    rewrite by_id_lookup by (by apply list_elem_of_fmap_2).
    rewrite Forall_forall in Hfk. auto.
  - erewrite (bind_ok (for_each _ _ _)) by exact Hrun.
    rewrite run_ret. cbv beta iota.
    rewrite run_bind. unfold ProductionOrder_save at 1. rewrite run_bind.
    mcompute. dbsimpl.
    cbn [ProductionOrder.id ProductionOrder.status ProductionOrder.set_status].
    rewrite Hid. reflexivity.
Qed.

(** ** Observations on the ledger *)

Lemma ledger_net_app pk l1 l2 :
  ledger_net pk (l1 ++ l2) = ledger_net pk l1 + ledger_net pk l2.
Proof. induction l1 as [|e l1 IH]; simpl; [done | rewrite IH; lia]. Qed.

Lemma ledger_net_out rows why rt ri actor pk moves :
  ledger_net pk (movement_entry rows InventoryLedger.OUT why rt ri actor <$> moves)
  = - total_for pk moves.
Proof.
  induction moves as [|[k q] moves IH]; [done|].
  rewrite fmap_cons. cbn [ledger_net total_for]. rewrite IH.
  unfold movement_entry, signed_quantity. simpl. case_bool_decide; lia.
Qed.

Lemma ledger_net_in rows why rt ri actor pk moves :
  ledger_net pk (movement_entry rows InventoryLedger.IN why rt ri actor <$> moves)
  = total_for pk moves.
Proof.
  induction moves as [|[k q] moves IH]; [done|].
  rewrite fmap_cons. cbn [ledger_net total_for]. rewrite IH.
  unfold movement_entry, signed_quantity. simpl. case_bool_decide; lia.
Qed.

Lemma total_for_negate pk moves : total_for pk (negate <$> moves) = - total_for pk moves.
Proof.
  induction moves as [|[k q] moves IH]; [done|].
  rewrite fmap_cons. cbn [total_for negate fst snd]. rewrite IH.
  case_bool_decide; lia.
Qed.

Lemma balance_apply_moves db db' moves pk :
  raw_materials db' = apply_moves moves (raw_materials db) →
  balance db' pk = (λ b, b + total_for pk moves) <$> balance db pk.
Proof. intros H. unfold balance. rewrite H. apply lookup_apply_moves. Qed.

Lemma lines_of_app_fresh (db : DB) pk (new old : list ProductionConsumption.t) :
  Forall (λ c, ProductionConsumption.production_order c ≠ pk) old →
  Forall (λ c, ProductionConsumption.production_order c = pk) new →
  filter (λ c, ProductionConsumption.production_order c = pk) (old ++ new) = new.
Proof.
  intros Hold Hnew. rewrite filter_app.
  assert (filter (λ c, ProductionConsumption.production_order c = pk) old = []) as ->.
  { induction Hold as [|c old Hc _ IH]; [done|]. rewrite filter_cons_False by done. done. }
  simpl. induction Hnew as [|c new Hc _ IH]; [done|].
  rewrite filter_cons_True by done. by rewrite IH.
Qed.




Lemma Forall2_fmap_same {A B} (f : A → B) (P : A → B → Prop) (l : list A) :
  (∀ x, x ∈ l → P x (f x)) → Forall2 P l (f <$> l).
Proof.
  intros H. apply Forall2_fmap_r. apply Forall_Forall2_diag.
  apply Forall_forall. exact H.
Qed.

(** ** Claims on production orders *)


(** ** Claims on stock adjustment *)

(** C1. For a stored material and a non-zero [delta], [adjust_stock]
    fails when the balance would become negative, and then the database
    is as it was; otherwise it stores the balance plus [delta] and
    appends one ledger entry, of quantity [|delta|], IN for a positive
    and OUT for a negative [delta]. *)
Theorem adjust_stock_keeps_balance_non_negative db material delta reason_ created_by b :
  pk_consistent (raw_materials db) →
  balance db (RawMaterial.id material) = Some b →
  delta ≠ 0 →
  (b + delta < 0 →
     adjust_stock material delta reason_ created_by db
     = (inl (ValueError (Msg "Stock cannot become negative.")), db))
  ∧ (0 ≤ b + delta →
     ∃ locked db' e,
       adjust_stock material delta reason_ created_by db = (inr locked, db')
       ∧ RawMaterial.current_stock locked = b + delta
       ∧ balance db' (RawMaterial.id material) = Some (b + delta)
       ∧ (∀ pk, pk ≠ RawMaterial.id material → balance db' pk = balance db pk)
       ∧ inventory_ledger db' = inventory_ledger db ++ [e]
       ∧ InventoryLedger.material e = RawMaterial.id material
       ∧ InventoryLedger.quantity e = Z.abs delta
       ∧ (0 < delta → InventoryLedger.txn_type e = InventoryLedger.IN)
       ∧ (delta < 0 → InventoryLedger.txn_type e = InventoryLedger.OUT)).
Proof.
  intros Hpk Hb Hd. unfold balance in Hb.
  destruct (raw_materials db !! RawMaterial.id material) as [locked|] eqn:Hl; [|done].
  simpl in Hb. injection Hb as <-.
  pose proof (Hpk _ _ Hl) as Hid. simpl in Hid.
  unfold adjust_stock. rewrite bool_decide_eq_false_2 by done.
  assert (∀ A (k : RawMaterial.t → M A),
            (RawMaterial_get (RawMaterial.id material) ≫= k) db = k locked db) as Hget.
  { intros A k. apply bind_ok. unfold RawMaterial_get. rewrite run_bind.
    change (get_db db) with (inr db : exn + _, db). cbv beta iota. rewrite Hl. reflexivity. }
  split.
  - intros Hneg. apply (atomic_err _ _ _ db). rewrite Hget. cbv zeta.
    destruct (Z.ltb_spec (RawMaterial.current_stock locked + delta) 0); [done | lia].
  - intros Hpos. eexists _, _, _. split.
    + apply atomic_ok. rewrite Hget. cbv zeta.
      destruct (Z.ltb_spec (RawMaterial.current_stock locked + delta) 0); [lia|].
      rewrite !run_bind. mcompute. reflexivity.
    + dbsimpl. unfold balance. cbn [raw_materials inventory_ledger InventoryLedger.material
        InventoryLedger.quantity InventoryLedger.txn_type].
      rewrite Hid. split; [done|]. split.
      { rewrite lookup_alter_eq, Hl. done. }
      split.
      { intros pk Hne. rewrite lookup_alter_ne by done. done. }
      split; [done|]. split; [done|]. split; [done|].
      split; intros Hs; destruct (Z.ltb_spec 0 delta); done || lia.
Qed.

(** The lines that a creation writes belong to the new order. *)
Lemma consumption_lines_of_order pk (moves : list (Z * Z)) :
  Forall (λ c, ProductionConsumption.production_order c = pk) (consumption_line pk <$> moves).
Proof. apply Forall_fmap, Forall_forall. done. Qed.

Lemma line_move_consumption_line pk (moves : list (Z * Z)) :
  line_move <$> (consumption_line pk <$> moves) = moves.
Proof.
  rewrite <- list_fmap_compose. rewrite <- (list_fmap_id moves) at 2.
  apply list_fmap_ext. intros _ [k q] _. reflexivity.
Qed.




(** C4. After a successful [create_production_order_and_deduct_stock],
    [cancel_production_order] on the new order puts every balance back
    to its value before the creation, writes one IN ledger entry per
    consumption line for the quantity of the line, and leaves the net
    movement of every material in the ledger as it was. *)
Theorem create_then_cancel_restores_stock
    db product quantity notes created_by cancelled_by order db1 :
  bom_of db product ≠ [] →
  pk_consistent (raw_materials db) →
  bom_materials_exist db (bom_of db product) →
  Forall (λ c, ProductionConsumption.production_order c ≠ production_order_seq db + 1)
    (production_consumptions db) →
  create_production_order_and_deduct_stock product quantity notes created_by db
  = (inr order, db1) →
  ∃ order' db2 entries,
    cancel_production_order order cancelled_by db1 = (inr order', db2)
    ∧ ProductionOrder.status order' = ProductionOrder.CANCELLED
    ∧ production_orders db2 !! ProductionOrder.id order = Some order'
    ∧ (∀ pk, balance db2 pk = balance db pk)
    ∧ inventory_ledger db2 = inventory_ledger db1 ++ entries
    ∧ Forall2 (λ c e,
          InventoryLedger.material e = ProductionConsumption.material_id c
          ∧ InventoryLedger.txn_type e = InventoryLedger.IN
          ∧ InventoryLedger.quantity e = ProductionConsumption.required_qty c
          ∧ InventoryLedger.reference_id e = ProductionOrder.id order)
        (lines_of db1 (ProductionOrder.id order)) entries
    ∧ (∀ pk, ledger_net pk (inventory_ledger db2) = ledger_net pk (inventory_ledger db)).
Proof.
  intros Hne Hpk Hfk Hfresh Hcreate.
  rewrite (create_immediate_run db product quantity notes created_by Hne Hpk Hfk) in Hcreate.
  destruct (omap (bom_shortage (raw_materials db) quantity) (bom_of db product)); [|done].
  cbv zeta in Hcreate. injection Hcreate as <- <-.
  set (moves := bom_moves quantity (bom_of db product)) in *.
  set (pk := production_order_seq db + 1) in *.
  set (order := ProductionOrder.mk pk product quantity
                  (Decimal.quantize_milli (Decimal.of_int quantity)) true
                  ProductionOrder.PLANNED notes created_by) in *.
  cbn [ProductionOrder.id order].
  match goal with |- ∃ _ _ _, cancel_production_order _ _ ?d = _ ∧ _ => set (db1 := d) end.
  assert (lines_of db1 pk = consumption_line pk <$> moves) as Hlines.
  { unfold lines_of, db1. cbn [production_consumptions].
    apply (lines_of_app_fresh db); [exact Hfresh | apply consumption_lines_of_order]. }
  assert (production_orders db1 !! ProductionOrder.id order = Some order) as Hst
    by apply lookup_insert_eq.
  assert (pk_consistent (raw_materials db1)) as Hpk1
    by (apply pk_consistent_apply_moves; exact Hpk).
  assert (Forall (λ c, is_Some (raw_materials db1 !! ProductionConsumption.material_id c))
            (lines_of db1 (ProductionOrder.id order))) as Hfk1.
  { cbn [ProductionOrder.id order]. rewrite Hlines. apply Forall_fmap.
    unfold moves, bom_moves. apply Forall_fmap.
    eapply Forall_impl; [exact Hfk|]. intros item Hitem. cbn.
    unfold db1. cbn [raw_materials]. by apply is_Some_apply_moves. }
  pose proof (cancel_released_run db1 order order cancelled_by Hst eq_refl
                ltac:(done) ltac:(done) eq_refl Hpk1 Hfk1) as Hcancel.
  cbv zeta in Hcancel. cbn [ProductionOrder.id order] in Hcancel.
  rewrite Hlines, line_move_consumption_line in Hcancel.
  eexists _, _, _. split; [exact Hcancel|].
  cbn [ProductionOrder.status ProductionOrder.set_status production_orders inventory_ledger].
  split; [reflexivity|].
  split. { rewrite lookup_alter_eq. cbn [ProductionOrder.id order] in Hst. rewrite Hst. done. }
  split.
  { intros k. erewrite balance_apply_moves by reflexivity.
    erewrite (balance_apply_moves db db1) by reflexivity.
    rewrite total_for_negate. destruct (balance db k); simpl; [f_equal; lia | done]. }
  split; [reflexivity|]. split.
  { rewrite Hlines, Forall2_fmap_l. apply Forall2_fmap_same. intros mv _. cbn. auto. }
  intros k. unfold db1. cbn [inventory_ledger raw_materials].
  rewrite !ledger_net_app, ledger_net_out, ledger_net_in. lia.
Qed.

(** ** Rounding *)

Lemma round_half_even_nearest n d :
  0 < d →
  2 * Z.abs (Decimal.round_half_even n d * d - n) ≤ d
  ∧ (2 * Z.abs (Decimal.round_half_even n d * d - n) = d →
     Z.even (Decimal.round_half_even n d) = true).
Proof.
  intros Hd. unfold Decimal.round_half_even.
  pose proof (Z.div_mod n d ltac:(lia)) as Hdm.
  pose proof (Z.mod_pos_bound n d Hd) as Hm.
  set (q := n `div` d) in *. set (r := n `mod` d) in *.
  destruct (Z.ltb_spec (2 * r) d) as [Hlt|Hge].
  - replace (q * d - n) with (- r) by lia. split; lia.
  - destruct (Z.ltb_spec d (2 * r)) as [Hgt|Hle].
    + replace ((q + 1) * d - n) with (d - r) by lia. split; lia.
    + assert (2 * r = d) as Htie by lia.
      destruct (Z.even q) eqn:Hev.
      * replace (q * d - n) with (- r) by lia. split; [lia | done].
      * replace ((q + 1) * d - n) with (d - r) by lia. split; [lia|].
        intros _. rewrite Z.even_add, Hev. reflexivity.
Qed.


Lemma required_for_three_places quantity (item : BOMItem.t) m :
  BOMItem.qty_per_unit item = Decimal.of_milli m →
  required_for quantity item = m * quantity.
Proof.
  intros H. unfold required_for. rewrite H.
  unfold Decimal.quantize_milli, Decimal.mul, Decimal.of_milli, Decimal.of_int. simpl. lia.
Qed.


(** ** Claims on purchase orders *)

Lemma PurchaseOrder_get_run {A} db pk stored (k : PurchaseOrder.t → M A) :
  purchase_orders db !! pk = Some stored →
  (PurchaseOrder_get pk ≫= k) db = k stored db.
Proof.
  intros H. apply bind_ok. unfold PurchaseOrder_get. rewrite run_bind.
  change (get_db db) with (inr db : exn + _, db). cbv beta iota. rewrite H. reflexivity.
Qed.

Lemma PurchaseOrder_save_run copy order db :
  PurchaseOrder_save copy order db
  = (inr (), set_purchase_orders (alter copy (PurchaseOrder.id order))
               (purchase_order_seq db) db).
Proof. reflexivity. Qed.

(** Some line still has a pending quantity. *)
Lemma pending_exists_iff (items : list PurchaseOrderItem.t) :
  existsb (λ item, 0 <? PurchaseOrderItem.pending_quantity item) items = true ↔
  Exists (λ item, PurchaseOrderItem.received_quantity item < PurchaseOrderItem.quantity item)
    items.
Proof.
  rewrite existsb_exists, Exists_exists. split.
  - intros (item & Hin & Hp). exists item. split; [by apply list_elem_of_In|].
    unfold PurchaseOrderItem.pending_quantity in Hp.
    destruct (Z.ltb_spec 0 (PurchaseOrderItem.quantity item
                            - PurchaseOrderItem.received_quantity item)); [lia|].
    by apply Z.ltb_lt in Hp.
  - intros (item & Hin & Hp). exists item. split; [by apply list_elem_of_In|].
    unfold PurchaseOrderItem.pending_quantity.
    destruct (Z.ltb_spec 0 (PurchaseOrderItem.quantity item
                            - PurchaseOrderItem.received_quantity item)); [|lia].
    apply Z.ltb_lt. lia.
Qed.

Lemma has_receipts_iff (items : list PurchaseOrderItem.t) :
  existsb (λ item, 0 <? PurchaseOrderItem.received_quantity item) items = true ↔
  Exists (λ item, 0 < PurchaseOrderItem.received_quantity item) items.
Proof.
  rewrite existsb_exists, Exists_exists. split.
  - intros (item & Hin & Hp). exists item. split; [by apply list_elem_of_In|].
    by apply Z.ltb_lt.
  - intros (item & Hin & Hp). exists item. split; [by apply list_elem_of_In|].
    by apply Z.ltb_lt.
Qed.

(** C7. [cancel_purchase_order] succeeds from OPEN and
    PARTIALLY_RECEIVED only: it fails on a RECEIVED and on a CANCELLED
    order; on success it stamps canceller and time and touches neither
    lines nor balances.  [reopen_purchase_order] succeeds from CANCELLED
    only and fails when no line has anything pending; on success the
    status is PARTIALLY_RECEIVED if a line has receipts and OPEN
    otherwise, canceller and time are cleared, lines and balances are
    untouched. *)
Theorem cancel_and_reopen_purchase_order db now order stored actor :
  purchase_orders db !! PurchaseOrder.id order = Some stored →
  PurchaseOrder.id stored = PurchaseOrder.id order →
  let pk := PurchaseOrder.id order in
  let items := lines_of_purchase_order db pk in
  (PurchaseOrder.status stored = PurchaseOrder.RECEIVED →
     cancel_purchase_order now order actor db
     = (inl (ValidationError (Msg "Fully received purchase order cannot be cancelled.")), db))
  ∧ (PurchaseOrder.status stored = PurchaseOrder.CANCELLED →
     cancel_purchase_order now order actor db
     = (inl (ValidationError (Msg "Purchase order is already cancelled.")), db))
  ∧ (PurchaseOrder.status stored = PurchaseOrder.OPEN
     ∨ PurchaseOrder.status stored = PurchaseOrder.PARTIALLY_RECEIVED →
     ∃ order' db',
       cancel_purchase_order now order actor db = (inr order', db')
       ∧ PurchaseOrder.status order' = PurchaseOrder.CANCELLED
       ∧ PurchaseOrder.cancelled_by order' = Some actor
       ∧ PurchaseOrder.cancelled_at order' = Some now
       ∧ purchase_orders db' !! pk = Some order'
       ∧ purchase_order_items db' = purchase_order_items db
       ∧ raw_materials db' = raw_materials db
       ∧ inventory_ledger db' = inventory_ledger db)
  ∧ (PurchaseOrder.status stored ≠ PurchaseOrder.CANCELLED →
     reopen_purchase_order order db
     = (inl (ValidationError (Msg "Only cancelled purchase orders can be reopened.")), db))
  ∧ (PurchaseOrder.status stored = PurchaseOrder.CANCELLED →
     items = [] →
     reopen_purchase_order order db
     = (inl (ValidationError (Msg "Purchase order has no line items.")), db))
  ∧ (PurchaseOrder.status stored = PurchaseOrder.CANCELLED →
     items ≠ [] →
     Forall (λ item, PurchaseOrderItem.quantity item ≤ PurchaseOrderItem.received_quantity item)
       items →
     reopen_purchase_order order db
     = (inl (ValidationError (Msg "Fully received purchase order cannot be reopened.")), db))
  ∧ (PurchaseOrder.status stored = PurchaseOrder.CANCELLED →
     Exists (λ item, PurchaseOrderItem.received_quantity item < PurchaseOrderItem.quantity item)
       items →
     ∃ order' db',
       reopen_purchase_order order db = (inr order', db')
       ∧ (Exists (λ item, 0 < PurchaseOrderItem.received_quantity item) items →
          PurchaseOrder.status order' = PurchaseOrder.PARTIALLY_RECEIVED)
       ∧ (Forall (λ item, PurchaseOrderItem.received_quantity item ≤ 0) items →
          PurchaseOrder.status order' = PurchaseOrder.OPEN)
       ∧ PurchaseOrder.cancelled_by order' = None
       ∧ PurchaseOrder.cancelled_at order' = None
       ∧ purchase_orders db' !! pk = Some order'
       ∧ purchase_order_items db' = purchase_order_items db
       ∧ raw_materials db' = raw_materials db
       ∧ inventory_ledger db' = inventory_ledger db).
Proof.
  intros Hst Hid pk items.
  assert (∀ A (k : list PurchaseOrderItem.t → M A),
            (items_of (PurchaseOrder.id stored) ≫= k) db = k items db) as Hitems.
  { intros A k. apply bind_ok. rewrite Hid. reflexivity. }
  repeat split.
  - intros Hs. eapply atomic_err.
    rewrite (PurchaseOrder_get_run _ _ _ _ Hst), Hs. reflexivity.
  - intros Hs. eapply atomic_err.
    rewrite (PurchaseOrder_get_run _ _ _ _ Hst), Hs. reflexivity.
  - intros Hs. eexists _, _. split.
    + apply atomic_ok. rewrite (PurchaseOrder_get_run _ _ _ _ Hst).
      rewrite !bool_decide_eq_false_2 by (destruct Hs as [-> | ->]; done).
      cbv zeta. rewrite run_bind, PurchaseOrder_save_run. cbv beta iota.
      rewrite run_ret. reflexivity.
    + cbn. rewrite Hid. fold pk. rewrite lookup_alter_eq.
      unfold pk. rewrite Hst. cbn. done.
  - intros Hs. eapply atomic_err.
    rewrite (PurchaseOrder_get_run _ _ _ _ Hst).
    rewrite bool_decide_eq_true_2 by done. reflexivity.
  - intros Hs Hnil. eapply atomic_err.
    rewrite (PurchaseOrder_get_run _ _ _ _ Hst).
    rewrite bool_decide_eq_false_2 by (intros H; by apply H).
    rewrite Hitems, Hnil. reflexivity.
  - intros Hs Hne Hfull. eapply atomic_err.
    rewrite (PurchaseOrder_get_run _ _ _ _ Hst).
    rewrite bool_decide_eq_false_2 by (intros H; by apply H).
    rewrite Hitems. destruct items as [|i items'] eqn:Hi; [done|]. rewrite <- Hi in *.
    cbv zeta.
    destruct (existsb _ items) eqn:Hp.
    + apply pending_exists_iff in Hp. apply Exists_exists in Hp as (item & Hin & Hlt).
      rewrite Forall_forall in Hfull. specialize (Hfull _ Hin). lia.
    + reflexivity.
  - intros Hs Hpend.
    assert (items ≠ []) as Hne by (intros Hnil; rewrite Hnil in Hpend; by apply Exists_nil in Hpend).
    apply pending_exists_iff in Hpend.
    eexists _, _. split.
    + apply atomic_ok. rewrite (PurchaseOrder_get_run _ _ _ _ Hst).
      rewrite bool_decide_eq_false_2 by (intros H; by apply H).
      rewrite Hitems. destruct items as [|i items'] eqn:Hi; [done|]. rewrite <- Hi in *.
      cbv zeta. rewrite Hpend. cbn [negb].
      rewrite run_bind, PurchaseOrder_save_run. cbv beta iota.
      rewrite run_ret. reflexivity.
    + cbn. rewrite Hid. fold pk. rewrite lookup_alter_eq.
      unfold pk. rewrite Hst. cbn.
      split.
      { intros Hrec. rewrite (proj2 (has_receipts_iff items) Hrec). done. }
      split; [|done].
      intros Hnone.
      destruct (existsb (λ item, 0 <? PurchaseOrderItem.received_quantity item) items)
        eqn:Hr; [|done].
      apply (proj1 (has_receipts_iff items)) in Hr.
      apply Exists_exists in Hr as (item & Hin & Hlt).
      rewrite Forall_forall in Hnone. specialize (Hnone _ Hin). lia.
Qed.

(** *** Grouping purchase lines by vendor *)

Lemma grouped_append_keys {V} key (x : V) (d : dict (list V)) :
  (grouped_append key x d).*1 = if bool_decide (key ∈ d.*1) then d.*1 else d.*1 ++ [key].
Proof.
  induction d as [|[k xs] d IH]; [done|].
  cbn [grouped_append]. destruct (decide (k = key)) as [->|Hk].
  - rewrite bool_decide_eq_true_2 by done. rewrite !fmap_cons. cbn [fst].
    rewrite bool_decide_eq_true_2 by apply list_elem_of_here. done.
  - rewrite bool_decide_eq_false_2 by done. rewrite !fmap_cons, IH. cbn [fst].
    assert (key ∈ k :: d.*1 ↔ key ∈ d.*1) as Hiff
      by (rewrite elem_of_cons; split; [intros [?|?]; [congruence | done] | by right]).
    rewrite (bool_decide_ext _ _ Hiff). by destruct (bool_decide (key ∈ d.*1)).
Qed.

Lemma grouped_append_get {V} key (x : V) (d : dict (list V)) k :
  dict_get (grouped_append key x d) k []
  = if bool_decide (key = k) then dict_get d k [] ++ [x] else dict_get d k [].
Proof.
  induction d as [|[k' xs] d IH].
  - cbn [grouped_append dict_get]. repeat case_bool_decide; done.
  - cbn [grouped_append]. destruct (decide (k' = key)) as [->|Hne].
    + rewrite bool_decide_eq_true_2 by done. cbn [dict_get].
      repeat case_bool_decide; done.
    + rewrite bool_decide_eq_false_2 by done. cbn [dict_get]. rewrite IH.
      repeat case_bool_decide; congruence.
Qed.

Lemma dict_get_elem_of {V} (d : dict V) k v default :
  NoDup d.*1 → (k, v) ∈ d → dict_get d k default = v.
Proof.
  induction d as [|[k' v'] d IH]; intros Hnd Hin.
  - by apply elem_of_nil in Hin.
  - cbn [dict_get]. apply NoDup_cons in Hnd as [Hk Hnd].
    apply elem_of_cons in Hin as [[= <- <-] | Hin].
    + by rewrite bool_decide_eq_true_2.
    + rewrite bool_decide_eq_false_2; [by apply IH|].
      intros ->. apply Hk. apply (list_elem_of_fmap_2 fst) in Hin. exact Hin.
Qed.

(** The groups: one per vendor of the lines, each holding the lines of
    its vendor in their order. *)
Lemma group_lines_spec (lines : list PurchaseLineInput.t) :
  NoDup (group_lines lines).*1
  ∧ (∀ v, v ∈ (group_lines lines).*1 ↔ v ∈ line_vendor <$> lines)
  ∧ (∀ v, dict_get (group_lines lines) v [] = filter (λ line, line_vendor line = v) lines).
Proof.
  unfold group_lines. induction lines as [|line lines IH] using rev_ind.
  - split; [constructor|]. split; [|done]. intros v. done.
  - destruct IH as (Hnd & Hkeys & Hget). rewrite foldl_app. cbn [foldl].
    rewrite grouped_append_keys. split; [|split].
    + case_bool_decide as Hin; [done|].
      apply NoDup_app. split; [done|]. split; [|apply NoDup_singleton].
      intros k Hk ->%list_elem_of_singleton. done.
    + intros v. rewrite fmap_app. cbn [fmap list_fmap].
      case_bool_decide as Hin.
      * rewrite elem_of_app, list_elem_of_singleton, Hkeys.
        split; [auto|]. intros [?| ->]; [done|]. by apply Hkeys.
      * rewrite !elem_of_app, !list_elem_of_singleton, Hkeys. done.
    + intros v. rewrite grouped_append_get, Hget, filter_app.
      case_bool_decide as Hv.
      * rewrite (filter_cons_True _ line) by done. done.
      * rewrite (filter_cons_False _ line) by done. by rewrite app_nil_r.
Qed.

Lemma group_lines_member (lines : list PurchaseLineInput.t) v ls :
  (v, ls) ∈ group_lines lines → ls = filter (λ line, line_vendor line = v) lines.
Proof.
  intros Hin. destruct (group_lines_spec lines) as (Hnd & _ & Hget).
  rewrite <- Hget. symmetry. by apply dict_get_elem_of.
Qed.

Lemma new_items_loop_run (order : PurchaseOrder.t) (lines : list PurchaseLineInput.t) db :
  for_each lines (λ line _,
      PurchaseOrderItem_create order (PurchaseLineInput.material line)
        (PurchaseLineInput.quantity line)
        (RawMaterial.unit (PurchaseLineInput.material line))) () db
  = (inr (),
     set_purchase_order_items
       (λ l, l ++ new_items (purchase_order_item_seq db) (PurchaseOrder.id order) lines)
       (purchase_order_item_seq db + Z.of_nat (length lines)) db).
Proof.
  revert db. induction lines as [|line lines IH]; intros db.
  - cbn [for_each new_items length]. unfold set_purchase_order_items.
    rewrite app_nil_r, Z.add_0_r. by destruct db.
  - cbn [for_each new_items]. rewrite run_bind.
    change (PurchaseOrderItem_create order (PurchaseLineInput.material line)
              (PurchaseLineInput.quantity line)
              (RawMaterial.unit (PurchaseLineInput.material line)) db)
      with (inr () : exn + (),
            set_purchase_order_items
              (λ l, l ++ [PurchaseOrderItem.mk (purchase_order_item_seq db + 1)
                            (PurchaseOrder.id order)
                            (RawMaterial.id (PurchaseLineInput.material line))
                            (PurchaseLineInput.quantity line) 0
                            (RawMaterial.unit (PurchaseLineInput.material line))])
              (purchase_order_item_seq db + 1) db).
    cbv beta iota. rewrite IH. dbsimpl. rewrite <- app_assoc. cbn [app].
    replace (purchase_order_item_seq db + 1 + Z.of_nat (length lines))
      with (purchase_order_item_seq db + Z.of_nat (length (line :: lines)))
      by (cbn [length]; lia).
    reflexivity.
Qed.

Lemma grouped_loop_run (order_date notes : string) (created_by : Z)
    (groups : dict (list PurchaseLineInput.t)) created db :
  Forall (λ g, ∃ p, partners db !! g.1 = Some p ∧ Partner.id p = g.1) groups →
  for_each groups (λ '(vendor_id, vendor_lines) created_orders,
      grouped_vendor ← Partner_get vendor_id;
      order ← PurchaseOrder_create grouped_vendor order_date notes created_by;
      for_each vendor_lines (λ line _,
        PurchaseOrderItem_create order (PurchaseLineInput.material line)
          (PurchaseLineInput.quantity line)
          (RawMaterial.unit (PurchaseLineInput.material line))) ();;
      mret (created_orders ++ [order])) created db
  = (inr (created ++ grouped_orders order_date notes created_by (purchase_order_seq db) groups),
     mkDB (partners db) (raw_materials db) (inventory_ledger db) (bom_items db)
       (production_orders db) (production_order_seq db) (production_consumptions db)
       (insert_orders
          (grouped_orders order_date notes created_by (purchase_order_seq db) groups)
          (purchase_orders db))
       (purchase_order_seq db + Z.of_nat (length groups))
       (purchase_order_items db
          ++ grouped_items (purchase_order_seq db) (purchase_order_item_seq db) groups)
       (purchase_order_item_seq db
        + Z.of_nat (length (grouped_items (purchase_order_seq db)
                              (purchase_order_item_seq db) groups)))).
Proof.
  intros Hall. revert created db Hall.
  induction groups as [|[v lines] groups IH]; intros created db Hall.
  - cbn. rewrite !app_nil_r, !Z.add_0_r. by destruct db.
  - apply Forall_cons in Hall as [(p & Hp & Hpid) Hall].
    cbn [for_each]. rewrite run_bind. cbv beta iota.
    rewrite run_bind.
    assert (Partner_get v db = (inr p, db)) as ->.
    { unfold Partner_get. rewrite run_bind.
      change (get_db db) with (inr db : exn + _, db). cbv beta iota.
      cbn [fst] in Hp. rewrite Hp. reflexivity. }
    cbv beta iota. rewrite run_bind.
    change (PurchaseOrder_create p order_date notes created_by db)
      with (inr (PurchaseOrder.mk (purchase_order_seq db + 1) (Partner.id p) order_date
                   PurchaseOrder.OPEN notes created_by None None None None) : exn + _,
            set_purchase_orders
              (insert (purchase_order_seq db + 1)
                 (PurchaseOrder.mk (purchase_order_seq db + 1) (Partner.id p) order_date
                    PurchaseOrder.OPEN notes created_by None None None None))
              (purchase_order_seq db + 1) db).
    cbv beta iota. rewrite run_bind, new_items_loop_run. cbv beta iota. rewrite run_ret.
    rewrite IH by exact Hall.
    dbsimpl. cbn [PurchaseOrder.id grouped_orders grouped_items length fst] in *.
    rewrite Hpid. unfold insert_orders. cbn [foldl PurchaseOrder.id].
    rewrite <- !app_assoc. cbn [app]. rewrite length_app.
    f_equal. f_equal; try lia.
    assert (∀ n, length (new_items (purchase_order_item_seq db)
                           (purchase_order_seq db + 1) lines) = n → length lines = n) as Hl.
    { clear. generalize (purchase_order_item_seq db) (purchase_order_seq db + 1).
      induction lines as [|l lines IH]; intros s o n; cbn; [done|].
      destruct n; [done|]. intros [= H]. f_equal. eauto. }
    rewrite (Hl _ eq_refl) at 1. lia.
Qed.

Lemma new_items_spec item_seq order_pk lines :
  Forall2 (item_of_line order_pk) lines (new_items item_seq order_pk lines).
Proof.
  revert item_seq. induction lines as [|line lines IH]; intros item_seq; [constructor|].
  cbn [new_items]. constructor; [|apply IH]. by repeat split.
Qed.

Lemma new_items_order item_seq order_pk lines :
  Forall (λ it, PurchaseOrderItem.purchase_order it = order_pk)
    (new_items item_seq order_pk lines).
Proof.
  revert item_seq. induction lines as [|line lines IH]; intros item_seq; [constructor|].
  cbn [new_items]. constructor; [done | apply IH].
Qed.

Lemma grouped_orders_ids order_date notes created_by order_seq groups :
  Forall (λ o, order_seq < PurchaseOrder.id o)
    (grouped_orders order_date notes created_by order_seq groups)
  ∧ NoDup (PurchaseOrder.id <$>
             grouped_orders order_date notes created_by order_seq groups).
Proof.
  revert order_seq. induction groups as [|[v ls] groups IH]; intros order_seq.
  - split; constructor.
  - cbn [grouped_orders]. destruct (IH (order_seq + 1)) as [Hlt Hnd]. split.
    + constructor; [cbn; lia|]. eapply Forall_impl; [exact Hlt|].
      intros o Ho. simpl in Ho. lia.
    + rewrite fmap_cons. apply NoDup_cons. split; [|exact Hnd].
      cbn [PurchaseOrder.id]. intros Hin.
      apply list_elem_of_fmap in Hin as (o & Hid & Ho).
      rewrite Forall_forall in Hlt. specialize (Hlt o Ho). lia.
Qed.

Lemma grouped_orders_vendor order_date notes created_by order_seq groups :
  PurchaseOrder.vendor <$> grouped_orders order_date notes created_by order_seq groups
  = groups.*1.
Proof.
  revert order_seq. induction groups as [|[v ls] groups IH]; intros order_seq; [done|].
  cbn [grouped_orders]. rewrite !fmap_cons, IH. done.
Qed.

Lemma grouped_items_order order_seq item_seq groups :
  Forall (λ it, order_seq < PurchaseOrderItem.purchase_order it)
    (grouped_items order_seq item_seq groups).
Proof.
  revert order_seq item_seq. induction groups as [|[v ls] groups IH];
    intros order_seq item_seq; [constructor|].
  cbn [grouped_items]. apply Forall_app. split.
  - eapply Forall_impl; [apply new_items_order|]. intros it ->. lia.
  - eapply Forall_impl; [apply IH|]. intros it Hit. simpl in Hit. lia.
Qed.

Lemma filter_nil_Forall {A} (P : A → Prop) `{∀ x, Decision (P x)} (l : list A) :
  Forall (λ x, ¬ P x) l → filter P l = [].
Proof.
  induction 1 as [|x l Hx _ IH]; [done|]. by rewrite filter_cons_False.
Qed.

Lemma filter_all_Forall {A} (P : A → Prop) `{∀ x, Decision (P x)} (l : list A) :
  Forall P l → filter P l = l.
Proof.
  induction 1 as [|x l Hx _ IH]; [done|]. rewrite filter_cons_True by done. by rewrite IH.
Qed.

(** Each created order holds exactly the rows of its group. *)
Lemma grouped_items_of_orders order_date notes created_by groups :
  ∀ order_seq item_seq (older : list PurchaseOrderItem.t),
    Forall (λ it, PurchaseOrderItem.purchase_order it ≤ order_seq) older →
    Forall2 (λ g o,
        PurchaseOrder.vendor o = g.1
        ∧ PurchaseOrder.status o = PurchaseOrder.OPEN
        ∧ Forall2 (item_of_line (PurchaseOrder.id o)) g.2
            (filter (λ it, PurchaseOrderItem.purchase_order it = PurchaseOrder.id o)
               (older ++ grouped_items order_seq item_seq groups)))
      groups (grouped_orders order_date notes created_by order_seq groups).
Proof.
  induction groups as [|[v ls] groups IH]; intros order_seq item_seq older Hold;
    [constructor|].
  cbn [grouped_orders grouped_items]. constructor.
  - cbn [PurchaseOrder.vendor PurchaseOrder.status PurchaseOrder.id fst snd].
    split; [done|]. split; [done|].
    rewrite !filter_app.
    rewrite (filter_nil_Forall _ older)
      by (eapply Forall_impl; [exact Hold|]; intros it Hit; simpl in *; lia).
    rewrite (filter_all_Forall _ (new_items _ _ _)) by apply new_items_order.
    rewrite (filter_nil_Forall _ (grouped_items _ _ _)).
    + rewrite app_nil_r. cbn [app]. apply new_items_spec.
    + eapply Forall_impl; [apply grouped_items_order|]. intros it Hit. simpl in *. lia.
  - rewrite app_assoc. apply IH. apply Forall_app. split.
    + eapply Forall_impl; [exact Hold|]. intros it Hit. simpl in *. lia.
    + eapply Forall_impl; [apply new_items_order|]. intros it ->. lia.
Qed.

Lemma insert_orders_lookup (orders : list PurchaseOrder.t) (table : gmap Z PurchaseOrder.t) o :
  NoDup (PurchaseOrder.id <$> orders) → o ∈ orders →
  insert_orders orders table !! PurchaseOrder.id o = Some o.
Proof.
  unfold insert_orders. revert table.
  induction orders as [|o' orders IH] using rev_ind; intros table Hnd Hin.
  - by apply elem_of_nil in Hin.
  - rewrite foldl_app. cbn [foldl].
    rewrite fmap_app in Hnd. apply NoDup_app in Hnd as (Hnd & Hdisj & _).
    apply elem_of_app in Hin as [Hin | ->%list_elem_of_singleton].
    + rewrite lookup_insert_ne; [by apply IH|].
      intros Heq. apply (Hdisj (PurchaseOrder.id o)).
      * by apply list_elem_of_fmap_2.
      * rewrite <- Heq. cbn. set_solver.
    + apply lookup_insert_eq.
Qed.

(** C9. Without a vendor, [create_grouped_purchase_orders] on lines of
    positive quantities creates one OPEN order per distinct vendor of
    the materials of the lines, and each order holds exactly the lines
    of its vendor. *)
Theorem grouped_orders_partition_lines_by_vendor db order_date notes created_by lines :
  lines ≠ [] →
  Forall (λ line, 0 < PurchaseLineInput.quantity line) lines →
  Forall (λ line, ∃ p, partners db !! line_vendor line = Some p
                       ∧ Partner.id p = line_vendor line) lines →
  Forall (λ it, PurchaseOrderItem.purchase_order it ≤ purchase_order_seq db)
    (purchase_order_items db) →
  ∃ orders db',
    create_grouped_purchase_orders order_date notes created_by lines db = (inr orders, db')
    ∧ NoDup (PurchaseOrder.vendor <$> orders)
    ∧ (∀ v, v ∈ PurchaseOrder.vendor <$> orders ↔ v ∈ line_vendor <$> lines)
    ∧ length orders = length (remove_dups (line_vendor <$> lines))
    ∧ NoDup (PurchaseOrder.id <$> orders)
    ∧ Forall (λ o,
          purchase_orders db' !! PurchaseOrder.id o = Some o
          ∧ PurchaseOrder.status o = PurchaseOrder.OPEN
          ∧ Forall2 (item_of_line (PurchaseOrder.id o))
              (filter (λ line, line_vendor line = PurchaseOrder.vendor o) lines)
              (lines_of_purchase_order db' (PurchaseOrder.id o))) orders
    ∧ raw_materials db' = raw_materials db
    ∧ inventory_ledger db' = inventory_ledger db.
Proof.
  intros Hne Hpos Hfk Hold.
  destruct (group_lines_spec lines) as (Hnd & Hkeys & Hget).
  assert (Forall (λ g, ∃ p, partners db !! g.1 = Some p ∧ Partner.id p = g.1)
            (group_lines lines)) as Hgfk.
  { apply Forall_forall. intros [v ls] Hin. cbn [fst].
    assert (v ∈ (group_lines lines).*1) as Hv by (apply (list_elem_of_fmap_2 fst) in Hin; done).
    apply Hkeys, list_elem_of_fmap in Hv as (line & -> & Hline).
    rewrite Forall_forall in Hfk. auto. }
  eexists _, _. split.
  - unfold create_grouped_purchase_orders, create_grouped_purchase_orders_with_vendor.
    destruct lines as [|l0 lines'] eqn:Hl; [done|]. rewrite <- Hl in *.
    assert (existsb (λ line, PurchaseLineInput.quantity line <=? 0) lines = false) as ->.
    { apply not_true_is_false. intros Hex. apply existsb_exists in Hex as (line & Hin & Hq).
      rewrite Forall_forall in Hpos. apply list_elem_of_In, Hpos in Hin.
      apply Z.leb_le in Hq. lia. }
    apply atomic_ok. fold (group_lines lines).
    apply (grouped_loop_run order_date notes created_by (group_lines lines) [] db Hgfk).
  - cbn [app raw_materials inventory_ledger purchase_orders].
    pose proof (grouped_orders_ids order_date notes created_by (purchase_order_seq db)
                  (group_lines lines)) as [Hids Hidnd].
    rewrite grouped_orders_vendor.
    split; [exact Hnd|]. split; [exact Hkeys|]. split.
    { rewrite <- (length_fmap PurchaseOrder.vendor), grouped_orders_vendor.
      apply Permutation_length, NoDup_Permutation; [exact Hnd | apply NoDup_remove_dups |].
      intros v. rewrite Hkeys, elem_of_remove_dups. done. }
    split; [exact Hidnd|]. split; [|done].
    pose proof (grouped_items_of_orders order_date notes created_by (group_lines lines)
                  (purchase_order_seq db) (purchase_order_item_seq db)
                  (purchase_order_items db) Hold) as Hall.
    apply Forall_forall. intros o Ho.
    split; [by apply insert_orders_lookup|].
    apply list_elem_of_lookup in Ho as [i Hi].
    destruct (Forall2_lookup_r _ _ _ _ _ Hall Hi) as ([v ls] & Hg & Hv & Hs & Hitems).
    cbn [fst snd] in *. split; [exact Hs|].
    unfold lines_of_purchase_order. cbn [purchase_order_items].
    rewrite Hv. apply list_elem_of_lookup_2, group_lines_member in Hg. rewrite <- Hg.
    exact Hitems.
Qed.

(** *** Receiving *)

Lemma item_map_of_Some items k item :
  item_map_of items !! k = Some item → item ∈ items ∧ PurchaseOrderItem.id item = k.
Proof.
  unfold item_map_of. induction items as [|x items IH] using rev_ind.
  - cbn. by rewrite lookup_empty.
  - rewrite foldl_app. cbn [foldl].
    destruct (decide (PurchaseOrderItem.id x = k)) as [<-|Hne].
    + rewrite lookup_insert_eq. intros [= <-].
      split; [apply elem_of_app; right; apply list_elem_of_here | done].
    + rewrite lookup_insert_ne by done. intros H. apply IH in H as [? ?].
      split; [apply elem_of_app; by left | done].
Qed.

Lemma item_map_of_None items k :
  item_map_of items !! k = None → k ∉ PurchaseOrderItem.id <$> items.
Proof.
  unfold item_map_of. induction items as [|x items IH] using rev_ind.
  - intros _. cbn. apply not_elem_of_nil.
  - rewrite foldl_app. cbn [foldl].
    destruct (decide (PurchaseOrderItem.id x = k)) as [<-|Hne].
    + by rewrite lookup_insert_eq.
    + rewrite lookup_insert_ne by done. intros H. apply IH in H.
      rewrite fmap_app. cbn [fmap list_fmap]. rewrite elem_of_app, list_elem_of_singleton.
      intros [?|?]; [done | congruence].
Qed.

(** The loop of [receive_purchase_order] that compares each quantity
    with the pending quantity of its line. *)
Lemma exceed_loop_ok (item_map : gmap Z PurchaseOrderItem.t)
    (related : gmap Z RawMaterial.t) (quantities : dict Z) db :
  Forall (λ kv, ∃ item, item_map !! kv.1 = Some item
                        ∧ kv.2 ≤ PurchaseOrderItem.pending_quantity item) quantities →
  for_each quantities (λ '(item_id, qty) _,
      match item_map !! item_id with
      | None => raise (KeyError item_id)
      | Some item =>
        if PurchaseOrderItem.pending_quantity item <? qty then
          raise (ValidationError (MsgExceedsPending
            (related_material_name related item)
            (PurchaseOrderItem.pending_quantity item)))
        else mret ()
      end) () db
  = (inr (), db).
Proof.
  induction 1 as [|[k q] quantities (item & Hitem & Hle) _ IH]; [done|].
  cbn [for_each]. rewrite run_bind. cbn [fst snd] in *. rewrite Hitem.
  destruct (Z.ltb_spec (PurchaseOrderItem.pending_quantity item) q); [lia|].
  rewrite run_ret. exact IH.
Qed.


Lemma unknown_ids_false (item_map : gmap Z PurchaseOrderItem.t) (quantities : dict Z) :
  existsb (λ kv, bool_decide (item_map !! kv.1 = None)) quantities = false ↔
  Forall (λ kv, is_Some (item_map !! kv.1)) quantities.
Proof.
  induction quantities as [|kv quantities IH]; [done|].
  cbn [existsb]. rewrite orb_false_iff, IH, Forall_cons.
  rewrite bool_decide_eq_false, <- not_eq_None_Some. done.
Qed.

Lemma match_nonempty {A B} (l : list A) (a b : B) :
  l ≠ [] → match l with [] => a | _ :: _ => b end = b.
Proof. by destruct l. Qed.


(** Running [receive_purchase_order] on an order that can receive, up
    to the resolution of the quantities. *)
Ltac receive_prefix Hst Hs Hitems :=
  unfold receive_purchase_order;
  rewrite (PurchaseOrder_get_run _ _ _ _ Hst);
  rewrite !bool_decide_eq_false_2 by (destruct Hs as [Hs' | Hs']; rewrite Hs'; done);
  rewrite Hitems;
  rewrite run_bind;
  match goal with |- context [(get_db ≫= ?k) ?d] =>
    change ((get_db ≫= k) d) with (k d d)
  end;
  cbv beta iota; rewrite run_ret.




Lemma receive_line_id quantities item :
  PurchaseOrderItem.id (receive_line quantities item) = PurchaseOrderItem.id item.
Proof. unfold receive_line. by destruct (_ <=? _). Qed.

Lemma receive_line_order quantities item :
  PurchaseOrderItem.purchase_order (receive_line quantities item)
  = PurchaseOrderItem.purchase_order item.
Proof. unfold receive_line. by destruct (_ <=? _). Qed.

Lemma same_id_same_row (table : list PurchaseOrderItem.t) r x :
  NoDup (PurchaseOrderItem.id <$> table) → r ∈ table → x ∈ table →
  PurchaseOrderItem.id r = PurchaseOrderItem.id x → r = x.
Proof.
  intros Hnd Hr Hx Hid.
  apply list_elem_of_lookup in Hr as [i Hi]. apply list_elem_of_lookup in Hx as [j Hj].
  assert (i = j) as ->.
  { eapply (NoDup_lookup _ _ _ _ Hnd); rewrite list_lookup_fmap.
    - rewrite Hi. reflexivity.
    - rewrite Hj. cbn. by rewrite Hid. }
  congruence.
Qed.

(** The receiving loop of [receive_purchase_order]. *)
Lemma receive_loop_run (related : gmap Z RawMaterial.t) (order_pk received_by : Z)
    (quantities : dict Z) (items : list PurchaseOrderItem.t)
    (materials : gmap Z RawMaterial.t) db :
  materials ⊆ raw_materials db →
  pk_consistent (raw_materials db) →
  Forall (λ item, is_Some (materials !! PurchaseOrderItem.material_id item)) items →
  NoDup (PurchaseOrderItem.id <$> purchase_order_items db) →
  NoDup (PurchaseOrderItem.id <$> items) →
  (∀ item, item ∈ items → item ∈ purchase_order_items db) →
  ∃ materials',
    for_each items (λ item '(materials, items),
      let receive_qty := dict_get quantities (PurchaseOrderItem.id item) 0 in
      if receive_qty <=? 0 then mret (materials, items ++ [item])
      else
        material ← getitem materials (PurchaseOrderItem.material_id item);
        let material := RawMaterial.set_current_stock
          (RawMaterial.current_stock material + receive_qty) material in
        RawMaterial_save_current_stock material;;
        let item := PurchaseOrderItem.set_received_quantity
          (PurchaseOrderItem.received_quantity item + receive_qty) item in
        PurchaseOrderItem_save_received_quantity item;;
        InventoryLedger_create (InventoryLedger.mk
          (RawMaterial.id material) InventoryLedger.IN receive_qty
          (PurchaseOrderItem.unit item)
          (ReceivedAgainstPurchaseOrder order_pk (related_material_name related item))
          "purchase_order" order_pk received_by);;
        mret (<[PurchaseOrderItem.material_id item := material]> materials,
              items ++ [item])) (materials, []) db
    = (inr (materials', receive_line quantities <$> items),
       mkDB (partners db)
         (apply_moves (receipt_move quantities <$> accepted quantities items)
            (raw_materials db))
         (inventory_ledger db ++
            (receipt_entry related order_pk received_by quantities
             <$> accepted quantities items))
         (bom_items db) (production_orders db) (production_order_seq db)
         (production_consumptions db)
         (purchase_orders db) (purchase_order_seq db)
         (save_rows quantities items (purchase_order_items db))
         (purchase_order_item_seq db)).
Proof.
  intros Hsub Hpk Hall Hndt Hndi Hrows.
  match goal with |- ∃ materials', for_each _ ?body _ _ = _ =>
    destruct (for_each_invariant (λ done s dbc,
      s.1 ⊆ raw_materials dbc
      ∧ (∀ k, is_Some (materials !! k) → is_Some (s.1 !! k))
      ∧ s.2 = receive_line quantities <$> done
      ∧ dbc = mkDB (partners db)
         (apply_moves (receipt_move quantities <$> accepted quantities done)
            (raw_materials db))
         (inventory_ledger db ++
            (receipt_entry related order_pk received_by quantities
             <$> accepted quantities done))
         (bom_items db) (production_orders db) (production_order_seq db)
         (production_consumptions db)
         (purchase_orders db) (purchase_order_seq db)
         (save_rows quantities done (purchase_order_items db))
         (purchase_order_item_seq db))
      body items (materials, []) db) as ([s' acc] & db' & Hrun & _ & _ & Hacc & ->)
  end.
  - cbn [fst snd]. split; [done|]. split; [done|]. split; [done|].
    unfold accepted, save_rows. cbn. rewrite app_nil_r.
    rewrite (list_fmap_ext _ id (purchase_order_items db)).
    + rewrite list_fmap_id. by destruct db.
    + intros i r _. rewrite bool_decide_eq_false_2; [done | apply not_elem_of_nil].
  - intros done x rest [s acc] dbc Hitems (Hs & Hdom & Hacc & ->). cbn [fst snd] in *.
    assert (x ∈ items) as Hx
      by (rewrite Hitems; apply elem_of_app; right; apply list_elem_of_here).
    assert (∀ k, k ≠ PurchaseOrderItem.id x →
              k ∈ PurchaseOrderItem.id <$> done ++ [x]
              ↔ k ∈ PurchaseOrderItem.id <$> done) as Hother.
    { intros k Hk. rewrite fmap_app, elem_of_app. cbn [fmap list_fmap].
      rewrite list_elem_of_singleton. split; [intros [?|?]; [done | congruence] | by left]. }
    assert (PurchaseOrderItem.id x ∈ PurchaseOrderItem.id <$> done ++ [x]) as Hlast.
    { rewrite fmap_app, elem_of_app. right. apply list_elem_of_here. }
    assert (PurchaseOrderItem.id x ∉ PurchaseOrderItem.id <$> done) as Hfresh.
    { rewrite Hitems, fmap_app, fmap_cons in Hndi.
      apply NoDup_app in Hndi as (_ & Hdisj & _). intros Hin.
      apply (Hdisj _ Hin). apply list_elem_of_here. }
    assert (∀ r, r ∈ purchase_order_items db →
              PurchaseOrderItem.id r = PurchaseOrderItem.id x → r = x) as Hsame.
    { intros r Hr Hid. exact (same_id_same_row _ r x Hndt Hr (Hrows x Hx) Hid). }
    fold (receive_qty quantities x).
    destruct (Z.leb_spec (receive_qty quantities x) 0) as [Hle|Hgt].
    + eexists _, _. split; [reflexivity|]. cbn [fst snd].
      split; [done|]. split; [done|]. split.
      { rewrite fmap_app, Hacc. cbn [fmap list_fmap]. unfold receive_line.
        destruct (Z.leb_spec (receive_qty quantities x) 0); [done | lia]. }
      unfold accepted. rewrite filter_app, (filter_cons_False _ x) by lia.
      rewrite filter_nil, app_nil_r. f_equal.
      unfold save_rows. apply list_fmap_ext. intros i r Hr.
      apply list_elem_of_lookup_2 in Hr.
      destruct (decide (PurchaseOrderItem.id r = PurchaseOrderItem.id x)) as [Hid|Hne].
      * rewrite (Hsame r Hr Hid).
        rewrite (bool_decide_eq_false_2
                   (PurchaseOrderItem.id x ∈ PurchaseOrderItem.id <$> done) Hfresh).
        rewrite (bool_decide_eq_true_2 _ Hlast).
        unfold receive_line.
        destruct (Z.leb_spec (receive_qty quantities x) 0); [done | lia].
      * rewrite (bool_decide_ext _ _ (Hother _ Hne)). done.
    + assert (is_Some (s !! PurchaseOrderItem.material_id x)) as [m Hm].
      { apply Hdom. rewrite Forall_forall in Hall. by apply Hall. }
      destruct (save_from_dict _ _ _ _ (receive_qty quantities x) Hs
                  (pk_consistent_apply_moves _ _ Hpk) Hm) as (Hsave & Hsub' & Hid).
      simpl in Hsave, Hsub'.
      eexists _, _. split.
      * rewrite !run_bind, (getitem_run _ _ _ _ Hm). mcompute. reflexivity.
      * dbsimpl. cbn [fst snd PurchaseOrderItem.id PurchaseOrderItem.unit
                      PurchaseOrderItem.received_quantity PurchaseOrderItem.material_id
                      PurchaseOrderItem.set_received_quantity].
        rewrite Hsave. split; [exact Hsub'|]. split.
        { intros k Hk.
          destruct (decide (PurchaseOrderItem.material_id x = k)) as [->|Hne].
          - rewrite lookup_insert_eq. done.
          - rewrite lookup_insert_ne by done. auto. }
        split.
        { rewrite fmap_app, Hacc. cbn [fmap list_fmap]. unfold receive_line.
          destruct (Z.leb_spec (receive_qty quantities x) 0); [lia | done]. }
        unfold accepted. rewrite filter_app, (filter_cons_True _ x) by lia.
        rewrite filter_nil, !fmap_app. cbn [fmap list_fmap]. rewrite apply_moves_snoc.
        rewrite Hid, <- !app_assoc.
        f_equal.
        unfold save_rows. rewrite <- list_fmap_compose. apply list_fmap_ext.
        intros i r Hr. apply list_elem_of_lookup_2 in Hr. cbn [compose].
        destruct (decide (PurchaseOrderItem.id r = PurchaseOrderItem.id x)) as [Hidr|Hne].
        -- rewrite (Hsame r Hr Hidr).
           rewrite (bool_decide_eq_false_2
                      (PurchaseOrderItem.id x ∈ PurchaseOrderItem.id <$> done) Hfresh).
           rewrite (bool_decide_eq_true_2 (PurchaseOrderItem.id x = PurchaseOrderItem.id x))
             by done.
           rewrite (bool_decide_eq_true_2 _ Hlast).
           unfold receive_line.
           destruct (Z.leb_spec (receive_qty quantities x) 0); [lia | done].
        -- rewrite (bool_decide_ext _ _ (Hother _ Hne)).
           destruct (bool_decide (PurchaseOrderItem.id r ∈ PurchaseOrderItem.id <$> done)).
           ++ rewrite receive_line_id. rewrite bool_decide_eq_false_2 by done. done.
           ++ rewrite bool_decide_eq_false_2 by done. done.
  - cbn [fst snd] in Hacc. subst acc. eauto.
Qed.

Lemma exceed_loop_run (item_map : gmap Z PurchaseOrderItem.t)
    (related : gmap Z RawMaterial.t) (quantities : dict Z) db :
  Forall (λ kv, is_Some (item_map !! kv.1)) quantities →
  for_each quantities (λ '(item_id, qty) _,
      match item_map !! item_id with
      | None => raise (KeyError item_id)
      | Some item =>
        if PurchaseOrderItem.pending_quantity item <? qty then
          raise (ValidationError (MsgExceedsPending
            (related_material_name related item)
            (PurchaseOrderItem.pending_quantity item)))
        else mret ()
      end) () db
  = match first_excess item_map related quantities with
    | Some m => (inl (ValidationError m), db)
    | None => (inr (), db)
    end.
Proof.
  induction 1 as [|[k q] quantities [item Hitem] _ IH]; [done|].
  cbn [for_each first_excess]. rewrite run_bind. cbn [fst snd] in *. rewrite Hitem.
  destruct (PurchaseOrderItem.pending_quantity item <? q); [reflexivity|].
  rewrite run_ret. exact IH.
Qed.

Lemma first_excess_None (item_map : gmap Z PurchaseOrderItem.t) related quantities :
  Forall (λ kv, is_Some (item_map !! kv.1)) quantities →
  first_excess item_map related quantities = None →
  Forall (λ kv, ∃ item, item_map !! kv.1 = Some item
                        ∧ kv.2 ≤ PurchaseOrderItem.pending_quantity item) quantities.
Proof.
  induction 1 as [|[k q] quantities [item Hitem] _ IH]; [constructor|].
  cbn [first_excess fst snd] in *. rewrite Hitem.
  destruct (Z.ltb_spec (PurchaseOrderItem.pending_quantity item) q); [done|].
  intros Hnone. constructor; [|by apply IH]. exists item. done.
Qed.

Lemma alter_as_insert {A} (f : A → A) (m : gmap Z A) k x :
  m !! k = Some x → alter f k m = <[k := f x]> m.
Proof.
  intros H. apply map_eq. intros j. destruct (decide (k = j)) as [->|Hne].
  - by rewrite lookup_alter_eq, lookup_insert_eq, H.
  - by rewrite lookup_alter_ne, lookup_insert_ne.
Qed.

(** What [receive_purchase_order] returns and writes on an order that
    can receive. *)
Lemma receive_run db now order stored received_by line_quantities :
  purchase_orders db !! PurchaseOrder.id order = Some stored →
  PurchaseOrder.id stored = PurchaseOrder.id order →
  PurchaseOrder.status stored = PurchaseOrder.OPEN
  ∨ PurchaseOrder.status stored = PurchaseOrder.PARTIALLY_RECEIVED →
  pk_consistent (raw_materials db) →
  NoDup (PurchaseOrderItem.id <$> purchase_order_items db) →
  item_materials_exist db (lines_of_purchase_order db (PurchaseOrder.id order)) →
  receive_purchase_order now order received_by line_quantities db =
  let pk := PurchaseOrder.id order in
  let items := lines_of_purchase_order db pk in
  match items with
  | [] => (inl (ValidationError (Msg "Purchase order has no line items to receive.")), db)
  | _ =>
    match resolve_quantities line_quantities items with
    | inl m => (inl (ValidationError m), db)
    | inr quantities =>
      if existsb (λ kv, bool_decide (item_map_of items !! kv.1 = None)) quantities
      then (inl (ValidationError (Msg "Invalid purchase order item in receive payload.")), db)
      else
        match first_excess (item_map_of items) (raw_materials db) quantities with
        | Some m => (inl (ValidationError m), db)
        | None =>
          let order' :=
            received_order now received_by (receive_line quantities <$> items) stored in
          (inr order',
           mkDB (partners db)
             (apply_moves (receipt_move quantities <$> accepted quantities items)
                (raw_materials db))
             (inventory_ledger db ++
                (receipt_entry (raw_materials db) pk received_by quantities
                 <$> accepted quantities items))
             (bom_items db) (production_orders db) (production_order_seq db)
             (production_consumptions db)
             (<[pk := order']> (purchase_orders db)) (purchase_order_seq db)
             (save_rows quantities items (purchase_order_items db))
             (purchase_order_item_seq db))
        end
    end
  end.
Proof.
  intros Hst Hid Hs Hpk Hnd Hfk. cbv zeta.
  set (items := lines_of_purchase_order db (PurchaseOrder.id order)) in *.
  assert (∀ A (k : list PurchaseOrderItem.t → M A),
            (items_of (PurchaseOrder.id stored) ≫= k) db = k items db) as Hitems.
  { intros A k. apply bind_ok. rewrite Hid. reflexivity. }
  destruct (decide (items = [])) as [Hnil|Hine].
  { rewrite Hnil. apply (atomic_err _ _ _ db). receive_prefix Hst Hs Hitems.
    rewrite Hnil. reflexivity. }
  rewrite (match_nonempty items _ _ Hine).
  assert (∀ A (k : dict Z → M A) d,
    ((match line_quantities with
      | Some ((_ :: _) as line_quantities) =>
        match filter (λ kv : Z * Z, 0 < kv.2) line_quantities with
        | [] => raise (ValidationError (Msg "Enter at least one quantity greater than zero."))
        | quantities => mret quantities
        end
      | _ =>
        match foldl (λ quantities item,
                if 0 <? PurchaseOrderItem.pending_quantity item
                then dict_set (PurchaseOrderItem.id item)
                       (PurchaseOrderItem.pending_quantity item) quantities
                else quantities) [] items with
        | [] => raise (ValidationError (Msg "No pending quantities left to receive."))
        | quantities => mret quantities
        end
      end) ≫= k) d
    = match resolve_quantities line_quantities items with
      | inl m => (inl (ValidationError m), d)
      | inr quantities => k quantities d
      end) as Hresolve.
  { intros A k d. rewrite run_bind. unfold resolve_quantities.
    fold (pending_entries items).
    destruct line_quantities as [[|kv lq]|].
    - destruct (pending_entries items); reflexivity.
    - fold (positive_entries (kv :: lq)).
      destruct (positive_entries (kv :: lq)); reflexivity.
    - destruct (pending_entries items); reflexivity. }
  destruct (resolve_quantities line_quantities items) as [m|quantities] eqn:Hres.
  { apply (atomic_err _ _ _ db). receive_prefix Hst Hs Hitems.
    rewrite (match_nonempty items _ _ Hine), Hresolve, ?Hres; cbv beta iota. reflexivity. }
  destruct (existsb (λ kv, bool_decide (item_map_of items !! kv.1 = None)) quantities)
    eqn:Hunknown.
  { apply (atomic_err _ _ _ db). receive_prefix Hst Hs Hitems.
    rewrite (match_nonempty items _ _ Hine), Hresolve, ?Hres; cbv beta iota.
    fold (item_map_of items). rewrite Hunknown. reflexivity. }
  pose proof (proj1 (unknown_ids_false _ _) Hunknown) as Hknown.
  pose proof (exceed_loop_run (item_map_of items) (raw_materials db) quantities db Hknown)
    as Hloop.
  destruct (first_excess (item_map_of items) (raw_materials db) quantities) as [m|] eqn:Hex.
  { apply (atomic_err _ _ _ db). receive_prefix Hst Hs Hitems.
    rewrite (match_nonempty items _ _ Hine), Hresolve, ?Hres; cbv beta iota.
    fold (item_map_of items). rewrite Hunknown.
    erewrite bind_err by exact Hloop. reflexivity. }
  apply atomic_ok. receive_prefix Hst Hs Hitems.
  rewrite (match_nonempty items _ _ Hine), Hresolve, ?Hres; cbv beta iota.
  fold (item_map_of items). rewrite Hunknown.
  erewrite bind_ok by exact Hloop.
  erewrite (bind_ok (RawMaterial_by_id _)) by reflexivity.
  assert (NoDup (PurchaseOrderItem.id <$> items)) as Hndi.
  { eapply sublist_NoDup; [exact Hnd|]. apply fmap_sublist, sublist_filter. }
  match goal with |- (for_each ?ls ?body (?m, []) ≫= _) ?d = _ =>
    destruct (receive_loop_run (raw_materials db) (PurchaseOrder.id stored) received_by
                quantities items m d) as (s' & Hrun)
  end.
  - apply by_id_subseteq.
  - exact Hpk.
  - apply Forall_forall. intros item Hin.
    rewrite by_id_lookup by (by apply list_elem_of_fmap_2).
    unfold item_materials_exist in Hfk. rewrite Forall_forall in Hfk. auto.
  - exact Hnd.
  - exact Hndi.
  - intros item Hin. apply list_elem_of_filter in Hin as [_ Hin]. exact Hin.
  - erewrite bind_ok by exact Hrun. cbn [snd].
    unfold received_order. cbv zeta.
    destruct (bool_decide (_derive_status (receive_line quantities <$> items)
                           = PurchaseOrder.RECEIVED)).
    + rewrite run_bind, PurchaseOrder_save_run. cbv beta iota. rewrite run_ret.
      dbsimpl. cbn [PurchaseOrder.id PurchaseOrder.status PurchaseOrder.received_by
                    PurchaseOrder.received_at PurchaseOrder.set_status
                    PurchaseOrder.set_received].
      rewrite Hid. erewrite alter_as_insert by exact Hst. reflexivity.
    + rewrite run_bind, PurchaseOrder_save_run. cbv beta iota. rewrite run_ret.
      dbsimpl. cbn [PurchaseOrder.id PurchaseOrder.status PurchaseOrder.set_status].
      rewrite Hid. erewrite alter_as_insert by exact Hst. reflexivity.
Qed.

(** ** What a receipt takes as the quantity of a line *)

Lemma dict_get_notin {V} (d : dict V) k default :
  k ∉ d.*1 → dict_get d k default = default.
Proof.
  induction d as [|[k' v] d IH]; [done|]. rewrite fmap_cons, not_elem_of_cons.
  intros [Hne Hnin]. cbn [dict_get]. cbn [fst] in Hne.
  rewrite bool_decide_eq_false_2 by congruence. by apply IH.
Qed.

Lemma dict_get_set {V} (d : dict V) k v k' default :
  dict_get (dict_set k v d) k' default
  = if bool_decide (k = k') then v else dict_get d k' default.
Proof.
  induction d as [|[k0 v0] d IH].
  - cbn [dict_set dict_get]. done.
  - cbn [dict_set]. destruct (decide (k0 = k)) as [->|Hne].
    + rewrite bool_decide_eq_true_2 by done. cbn [dict_get].
      repeat case_bool_decide; done.
    + rewrite bool_decide_eq_false_2 by done. cbn [dict_get]. rewrite IH.
      repeat case_bool_decide; congruence.
Qed.

(** With an explicit map, the quantity received on a line is its entry
    if that is positive, and nothing otherwise. *)
Lemma receive_qty_positive_entries (line_quantities : dict Z) item :
  NoDup line_quantities.*1 →
  receive_qty (positive_entries line_quantities) item
  = Z.max 0 (dict_get line_quantities (PurchaseOrderItem.id item) 0).
Proof.
  unfold receive_qty, positive_entries, dict. generalize (PurchaseOrderItem.id item) as k.
  intros k. induction line_quantities as [|[k' v] lq IH]; intros Hnd; [done|].
  rewrite fmap_cons in Hnd. apply NoDup_cons in Hnd as [Hk' Hnd]. cbn [fst] in Hk'.
  destruct (decide (0 < v)) as [Hv|Hv].
  - rewrite filter_cons_True by done. cbn [dict_get]. case_bool_decide; [lia | by apply IH].
  - rewrite filter_cons_False by done. rewrite IH by done. cbn [dict_get].
    case_bool_decide as Hkk; [|done]. subst k'.
    rewrite dict_get_notin by done. lia.
Qed.

Lemma pending_quantity_nonneg item : 0 ≤ PurchaseOrderItem.pending_quantity item.
Proof. unfold PurchaseOrderItem.pending_quantity. case_match; lia. Qed.

Lemma dict_get_pending_entries (items : list PurchaseOrderItem.t) :
  NoDup (PurchaseOrderItem.id <$> items) →
  (∀ k, k ∉ PurchaseOrderItem.id <$> items → dict_get (pending_entries items) k 0 = 0)
  ∧ (∀ item, item ∈ items →
       dict_get (pending_entries items) (PurchaseOrderItem.id item) 0
       = PurchaseOrderItem.pending_quantity item).
Proof.
  unfold pending_entries.
  induction items as [|x items IH] using rev_ind; intros Hnd.
  { split; [done|]. intros item Hin. by apply elem_of_nil in Hin. }
  rewrite fmap_app in Hnd. apply NoDup_app in Hnd as (Hnd & Hx & _).
  destruct (IH Hnd) as [IHout IHin]. clear IH.
  assert (PurchaseOrderItem.id x ∉ PurchaseOrderItem.id <$> items) as Hfresh.
  { intros Hin. apply (Hx _ Hin). cbn. apply list_elem_of_here. }
  rewrite foldl_app. cbn [foldl].
  set (quantities := foldl _ ([] : dict Z) items) in *.
  assert (∀ k,
    dict_get (if 0 <? PurchaseOrderItem.pending_quantity x
              then dict_set (PurchaseOrderItem.id x)
                     (PurchaseOrderItem.pending_quantity x) quantities
              else quantities) k 0
    = if bool_decide (PurchaseOrderItem.id x = k)
      then PurchaseOrderItem.pending_quantity x
      else dict_get quantities k 0) as Hget.
  { intros k. destruct (Z.ltb_spec 0 (PurchaseOrderItem.pending_quantity x)) as [Hp|Hp].
    - apply dict_get_set.
    - case_bool_decide as Hk; [|done]. subst k. rewrite IHout by done.
      pose proof (pending_quantity_nonneg x). lia. }
  split.
  - intros k Hk. rewrite Hget. rewrite fmap_app, elem_of_app in Hk.
    rewrite bool_decide_eq_false_2.
    + apply IHout. tauto.
    + intros <-. apply Hk. right. cbn. apply list_elem_of_here.
  - intros item Hin. rewrite Hget. apply elem_of_app in Hin as [Hin|Hin].
    + rewrite bool_decide_eq_false_2; [by apply IHin|].
      intros Heq. apply Hfresh. rewrite Heq. by apply list_elem_of_fmap_2.
    + apply list_elem_of_singleton in Hin as ->. by rewrite bool_decide_eq_true_2.
Qed.

(** Without a map, the quantity received on a line is what is pending on it. *)
Lemma receive_qty_pending_entries (items : list PurchaseOrderItem.t) item :
  NoDup (PurchaseOrderItem.id <$> items) → item ∈ items →
  receive_qty (pending_entries items) item = PurchaseOrderItem.pending_quantity item.
Proof. intros Hnd Hin. by apply dict_get_pending_entries. Qed.

Lemma save_rows_same_order quantities (items table : list PurchaseOrderItem.t) pk :
  (∀ r, r ∈ table → PurchaseOrderItem.purchase_order r = pk →
        PurchaseOrderItem.id r ∈ PurchaseOrderItem.id <$> items) →
  filter (λ i, PurchaseOrderItem.purchase_order i = pk) (save_rows quantities items table)
  = receive_line quantities <$> filter (λ i, PurchaseOrderItem.purchase_order i = pk) table.
Proof.
  unfold save_rows. induction table as [|r table IH]; intros Hin; [done|].
  rewrite fmap_cons.
  assert (PurchaseOrderItem.purchase_order
            (if bool_decide (PurchaseOrderItem.id r ∈ PurchaseOrderItem.id <$> items)
             then receive_line quantities r else r)
          = PurchaseOrderItem.purchase_order r) as Hpo.
  { case_bool_decide; [apply receive_line_order | done]. }
  destruct (decide (PurchaseOrderItem.purchase_order r = pk)) as [Hr|Hr].
  - rewrite !filter_cons_True by congruence. rewrite fmap_cons.
    rewrite bool_decide_eq_true_2 by (apply Hin; [apply list_elem_of_here | done]).
    f_equal. apply IH. intros r' Hr'. apply Hin. by apply list_elem_of_further.
  - rewrite !filter_cons_False by congruence.
    apply IH. intros r' Hr'. apply Hin. by apply list_elem_of_further.
Qed.


Lemma derive_status_cases (items : list PurchaseOrderItem.t) :
  (Forall (λ item, PurchaseOrderItem.quantity item ≤ PurchaseOrderItem.received_quantity item)
     items → _derive_status items = PurchaseOrder.RECEIVED)
  ∧ (Exists (λ item, PurchaseOrderItem.received_quantity item < PurchaseOrderItem.quantity item)
       items →
     (Exists (λ item, 0 < PurchaseOrderItem.received_quantity item) items →
      _derive_status items = PurchaseOrder.PARTIALLY_RECEIVED)
     ∧ (Forall (λ item, PurchaseOrderItem.received_quantity item ≤ 0) items →
        _derive_status items = PurchaseOrder.OPEN)).
Proof.
  unfold _derive_status. split.
  - intros Hall.
    assert (forallb (λ item, PurchaseOrderItem.quantity item
                             <=? PurchaseOrderItem.received_quantity item) items = true) as ->;
      [|done].
    apply forallb_forall. intros item Hin. apply Z.leb_le.
    rewrite Forall_forall in Hall. apply Hall. by apply list_elem_of_In.
  - intros Hex.
    assert (forallb (λ item, PurchaseOrderItem.quantity item
                             <=? PurchaseOrderItem.received_quantity item) items = false) as ->.
    { apply not_true_is_false. intros Hall.
      apply Exists_exists in Hex as (item & Hin & Hlt).
      rewrite forallb_forall in Hall. apply list_elem_of_In, Hall, Z.leb_le in Hin. lia. }
    split.
    + intros Hrec. by rewrite (proj2 (has_receipts_iff items) Hrec).
    + intros Hnone.
      destruct (existsb (λ item, 0 <? PurchaseOrderItem.received_quantity item) items)
        eqn:Hr; [|done].
      apply (proj1 (has_receipts_iff items)) in Hr.
      apply Exists_exists in Hr as (item & Hin & Hlt).
      rewrite Forall_forall in Hnone. specialize (Hnone _ Hin). lia.
Qed.


(** * The claims on the example *)

(** The example database is well formed. *)
Lemma example_pk_consistent : pk_consistent (raw_materials Example.db).
Proof.
  unfold pk_consistent. cbn [raw_materials Example.db].
  apply map_Forall_insert_2; [reflexivity|].
  apply map_Forall_insert_2; [reflexivity|]. apply map_Forall_empty.
Defined.

Lemma example_bom_materials_exist :
  bom_materials_exist Example.db (bom_of Example.db 1).
Proof. repeat constructor; eexists; reflexivity. Defined.

(** Taking 0.600 kg of steel out of the example stock. *)
Lemma adjust_stock_witness :
  pk_consistent (raw_materials Example.db)
  ∧ balance Example.db (RawMaterial.id Example.steel) = Some 5000
  ∧ -600 ≠ 0
  ∧ ∃ locked db' e,
      adjust_stock Example.steel (-600) "count" 1 Example.db = (inr locked, db')
      ∧ balance db' 1 = Some 4400
      ∧ inventory_ledger db' = [e]
      ∧ InventoryLedger.quantity e = 600
      ∧ InventoryLedger.txn_type e = InventoryLedger.OUT.
Proof.
  split; [exact example_pk_consistent|]. split; [reflexivity|]. split; [lia|].
  destruct (adjust_stock_keeps_balance_non_negative Example.db Example.steel (-600) "count" 1
              5000 example_pk_consistent eq_refl ltac:(lia)) as [_ Hok].
  destruct (Hok ltac:(lia)) as (locked & db' & e & Hrun & _ & Hbal & _ & Hl & _ & Hq & _ & Hout).
  exists locked, db', e. split; [exact Hrun|]. split; [exact Hbal|].
  split; [exact Hl|]. split; [exact Hq|]. apply Hout. lia.
Defined.

Lemma example_bom : bom_of Example.db 1 ≠ [].
Proof. discriminate. Defined.




(** Creating and cancelling an order for two units of product 1. *)
Lemma create_then_cancel_witness :
  bom_of Example.db 1 ≠ []
  ∧ pk_consistent (raw_materials Example.db)
  ∧ bom_materials_exist Example.db (bom_of Example.db 1)
  ∧ ∃ order db1 order' db2,
      create_production_order_and_deduct_stock 1 2 "batch" 1 Example.db = (inr order, db1)
      ∧ balance db1 1 = Some 2000
      ∧ cancel_production_order order 1 db1 = (inr order', db2)
      ∧ ProductionOrder.status order' = ProductionOrder.CANCELLED
      ∧ balance db2 1 = Some 5000
      ∧ balance db2 2 = Some 2000
      ∧ ledger_net 1 (inventory_ledger db2) = 0
      ∧ length (inventory_ledger db2) = 4%nat.
Proof.
  split; [exact example_bom|]. split; [exact example_pk_consistent|].
  split; [exact example_bom_materials_exist|].
  pose (result := create_production_order_and_deduct_stock 1 2 "batch" 1 Example.db).
  assert (∃ order db1, result = (inr order, db1)) as (order & db1 & Hcreate).
  { vm_compute. eexists _, _. reflexivity. }
  unfold result in Hcreate.
  destruct (create_then_cancel_restores_stock Example.db 1 2 "batch" 1 1 order db1
              example_bom example_pk_consistent example_bom_materials_exist
              ltac:(constructor) Hcreate)
    as (order' & db2 & entries & Hcancel & Hst & _ & Hbal & Hledger & Hall & Hnet).
  exists order, db1, order', db2. split; [exact Hcreate|].
  assert ((inr order, db1)
          = create_production_order_and_deduct_stock 1 2 "batch" 1 Example.db) as Heq
    by (symmetry; exact Hcreate).
  vm_compute in Heq. injection Heq as -> ->.
  split; [reflexivity|]. split; [exact Hcancel|]. split; [exact Hst|].
  split; [rewrite Hbal; reflexivity|]. split; [rewrite Hbal; reflexivity|].
  split; [rewrite Hnet; reflexivity|].
  rewrite Hledger, length_app. apply Forall2_length in Hall. rewrite <- Hall. reflexivity.
Defined.


Lemma example_lines_have_vendors :
  Forall (λ line, ∃ p, partners Example.db !! line_vendor line = Some p
                       ∧ Partner.id p = line_vendor line)
    [PurchaseLineInput.mk Example.steel 25000; PurchaseLineInput.mk Example.cloth 12500].
Proof. repeat constructor; eexists; split; reflexivity. Defined.

(** Lines for steel and cloth, of two vendors. *)
Lemma grouped_orders_witness :
  [PurchaseLineInput.mk Example.steel 25000; PurchaseLineInput.mk Example.cloth 12500] ≠ []
  ∧ ∃ orders db',
      create_grouped_purchase_orders "2026-02-20" "Restock" 1
        [PurchaseLineInput.mk Example.steel 25000; PurchaseLineInput.mk Example.cloth 12500]
        Example.db = (inr orders, db')
      ∧ length orders = 2%nat
      ∧ PurchaseOrder.vendor <$> orders = [7; 8]
      ∧ length (purchase_order_items db') = 3%nat.
Proof.
  split; [discriminate|].
  destruct (grouped_orders_partition_lines_by_vendor Example.db "2026-02-20" "Restock" 1
              [PurchaseLineInput.mk Example.steel 25000; PurchaseLineInput.mk Example.cloth 12500]
              ltac:(discriminate)
              ltac:(repeat constructor)
              example_lines_have_vendors
              ltac:(repeat constructor; cbn; lia))
    as (orders & db' & Hrun & _ & _ & Hlen & _).
  exists orders, db'. split; [exact Hrun|]. split; [rewrite Hlen; reflexivity|].
  assert ((inr orders, db')
          = create_grouped_purchase_orders "2026-02-20" "Restock" 1
              [PurchaseLineInput.mk Example.steel 25000;
               PurchaseLineInput.mk Example.cloth 12500] Example.db) as Heq
    by (symmetry; exact Hrun).
  vm_compute in Heq. injection Heq as -> ->. split; reflexivity.
Defined.

Lemma example_partial_pk_consistent : pk_consistent (raw_materials Example.db_partial).
Proof.
  unfold pk_consistent. cbn [raw_materials Example.db_partial].
  apply map_Forall_insert_2; [reflexivity|].
  apply map_Forall_insert_2; [reflexivity|]. apply map_Forall_empty.
Defined.



(** Cancelling and reopening the example order. *)
Lemma cancel_reopen_witness :
  purchase_orders Example.db_cancelled !! 1 = Some Example.cancelled_order
  ∧ (∃ order' db',
       reopen_purchase_order Example.cancelled_order Example.db_cancelled = (inr order', db')
       ∧ PurchaseOrder.status order' = PurchaseOrder.PARTIALLY_RECEIVED
       ∧ PurchaseOrder.cancelled_by order' = None
       ∧ purchase_order_items db' = purchase_order_items Example.db_cancelled)
  ∧ (∃ order' db',
       cancel_purchase_order 100 Example.partial_order 1 Example.db_partial = (inr order', db')
       ∧ PurchaseOrder.status order' = PurchaseOrder.CANCELLED
       ∧ raw_materials db' = raw_materials Example.db_partial).
Proof.
  split; [reflexivity|]. split.
  - destruct (cancel_and_reopen_purchase_order Example.db_cancelled 0 Example.cancelled_order
                Example.cancelled_order 1 eq_refl eq_refl)
      as (_ & _ & _ & _ & _ & _ & Hreopen).
    destruct (Hreopen eq_refl) as (order' & db' & Hrun & Hpart & _ & Hby & _ & _ & Hitems & _).
    { apply Exists_cons_hd. cbn. lia. }
    exists order', db'. split; [exact Hrun|]. split.
    + apply Hpart. apply Exists_cons_hd. cbn. lia.
    + split; [exact Hby | exact Hitems].
  - destruct (cancel_and_reopen_purchase_order Example.db_partial 100 Example.partial_order
                Example.partial_order 1 eq_refl eq_refl)
      as (_ & _ & Hcancel & _).
    destruct (Hcancel (or_intror eq_refl))
      as (order' & db' & Hrun & Hst & _ & _ & _ & _ & Hrows & _).
    exists order', db'. split; [exact Hrun|]. split; [exact Hst | exact Hrows].
Defined.


(** Receiving 4 of the 10 kg of the example order, then cancelling it. *)
Example first_receipt :
  receive_purchase_order 0 Example.purchase_order 1 (Some [(1, 4000)]) Example.db
  = (inr Example.partial_order, Example.db_partial).
Proof. vm_compute. reflexivity. Qed.

Example cancel_partial :
  cancel_purchase_order 100 Example.partial_order 1 Example.db_partial
  = (inr Example.cancelled_order, Example.db_cancelled).
Proof. vm_compute. reflexivity. Qed.

(** * Further properties

    ** Production orders: reject, release and cancel *)

Lemma ProductionOrder_get_run {A} db pk stored (k : ProductionOrder.t → M A) :
  production_orders db !! pk = Some stored →
  (ProductionOrder_get pk ≫= k) db = k stored db.
Proof.
  intros Hst. apply bind_ok. unfold ProductionOrder_get. rewrite run_bind.
  change (get_db db) with (inr db : exn + _, db). cbv beta iota. rewrite Hst. reflexivity.
Qed.

Lemma ProductionOrder_get_missing {A} db pk (k : ProductionOrder.t → M A) :
  production_orders db !! pk = None →
  (ProductionOrder_get pk ≫= k) db = (inl DoesNotExist, db).
Proof.
  intros Hst. apply bind_err. unfold ProductionOrder_get. rewrite run_bind.
  change (get_db db) with (inr db : exn + _, db). cbv beta iota. rewrite Hst. reflexivity.
Qed.

Lemma ProductionOrder_save_run copy order db :
  ProductionOrder_save copy order db
  = (inr (), set_production_orders (alter copy (ProductionOrder.id order))
               (production_order_seq db) db).
Proof. reflexivity. Qed.

(** [reject_raw_materials_for_production_order], whatever the order. *)
Lemma reject_run db (order : ProductionOrder.t) :
  reject_raw_materials_for_production_order order db =
  match production_orders db !! ProductionOrder.id order with
  | None => (inl DoesNotExist, db)
  | Some stored =>
    if bool_decide (ProductionOrder.status stored ≠ ProductionOrder.AWAITING_RM_RELEASE) then
      (inl (ValidationError
              (Msg "This production order is not awaiting raw material release.")), db)
    else if ProductionOrder.raw_material_released stored then
      (inl (ValidationError
              (Msg "Raw materials are already released for this production order.")), db)
    else
      (inr (ProductionOrder.set_status ProductionOrder.CANCELLED stored),
       set_production_orders
         (alter (ProductionOrder.set_status ProductionOrder.CANCELLED)
            (ProductionOrder.id stored))
         (production_order_seq db) db)
  end.
Proof.
  unfold reject_raw_materials_for_production_order.
  destruct (production_orders db !! ProductionOrder.id order) as [stored|] eqn:Hst.
  - case_bool_decide as Hs.
    + eapply atomic_err. rewrite (ProductionOrder_get_run _ _ _ _ Hst).
      rewrite bool_decide_eq_true_2 by done. reflexivity.
    + destruct (ProductionOrder.raw_material_released stored) eqn:Hrel.
      * eapply atomic_err. rewrite (ProductionOrder_get_run _ _ _ _ Hst).
        rewrite bool_decide_eq_false_2 by (intros Hn; by apply Hn). rewrite Hrel. reflexivity.
      * apply atomic_ok. rewrite (ProductionOrder_get_run _ _ _ _ Hst).
        rewrite bool_decide_eq_false_2 by (intros Hn; by apply Hn). rewrite Hrel. reflexivity.
  - eapply atomic_err. apply ProductionOrder_get_missing. exact Hst.
Qed.

(** [cancel_production_order] on an order whose materials were not released. *)
Lemma cancel_unreleased_run db (order stored : ProductionOrder.t) cancelled_by :
  production_orders db !! ProductionOrder.id order = Some stored →
  ProductionOrder.status stored ≠ ProductionOrder.CANCELLED →
  ProductionOrder.status stored ≠ ProductionOrder.COMPLETED →
  ProductionOrder.raw_material_released stored = false →
  cancel_production_order order cancelled_by db =
  (inr (ProductionOrder.set_status ProductionOrder.CANCELLED stored),
   set_production_orders
     (alter (ProductionOrder.set_status ProductionOrder.CANCELLED) (ProductionOrder.id stored))
     (production_order_seq db) db).
Proof.
  intros Hst Hc Hd Hrel. unfold cancel_production_order. apply atomic_ok.
  rewrite (ProductionOrder_get_run _ _ _ _ Hst).
  rewrite !bool_decide_eq_false_2 by done. rewrite Hrel. reflexivity.
Qed.

(** The guards of [cancel_production_order] and of
    [release_raw_materials_for_production_order]. *)
Lemma cancel_production_guard db (order stored : ProductionOrder.t) cancelled_by :
  production_orders db !! ProductionOrder.id order = Some stored →
  (ProductionOrder.status stored = ProductionOrder.CANCELLED →
     cancel_production_order order cancelled_by db
     = (inl (ValidationError (Msg "Production order is already cancelled.")), db))
  ∧ (ProductionOrder.status stored = ProductionOrder.COMPLETED →
     cancel_production_order order cancelled_by db
     = (inl (ValidationError (Msg "Completed production order cannot be cancelled.")), db)).
Proof.
  intros Hst. unfold cancel_production_order. split; intros Hs.
  - eapply atomic_err. rewrite (ProductionOrder_get_run _ _ _ _ Hst), Hs. reflexivity.
  - eapply atomic_err. rewrite (ProductionOrder_get_run _ _ _ _ Hst), Hs. reflexivity.
Qed.

Lemma release_guard db (order stored : ProductionOrder.t) released_by :
  production_orders db !! ProductionOrder.id order = Some stored →
  (ProductionOrder.status stored ≠ ProductionOrder.AWAITING_RM_RELEASE →
     release_raw_materials_for_production_order order released_by db
     = (inl (ValidationError
               (Msg "This production order is not awaiting raw material release.")), db))
  ∧ (ProductionOrder.status stored = ProductionOrder.AWAITING_RM_RELEASE →
     ProductionOrder.raw_material_released stored = true →
     release_raw_materials_for_production_order order released_by db
     = (inl (ValidationError
               (Msg "Raw materials are already released for this production order.")), db))
  ∧ (ProductionOrder.status stored = ProductionOrder.AWAITING_RM_RELEASE →
     ProductionOrder.raw_material_released stored = false →
     lines_of db (ProductionOrder.id stored) = [] →
     release_raw_materials_for_production_order order released_by db
     = (inl (ValidationError
               (Msg "No raw material requirements found for this production order.")), db)).
Proof.
  intros Hst. unfold release_raw_materials_for_production_order. repeat split.
  - intros Hs. eapply atomic_err. rewrite (ProductionOrder_get_run _ _ _ _ Hst).
    rewrite bool_decide_eq_true_2 by done. reflexivity.
  - intros Hs Hrel. eapply atomic_err. rewrite (ProductionOrder_get_run _ _ _ _ Hst).
    rewrite bool_decide_eq_false_2 by (rewrite Hs; intros H; by apply H).
    rewrite Hrel. reflexivity.
  - intros Hs Hrel Hlines. eapply atomic_err. rewrite (ProductionOrder_get_run _ _ _ _ Hst).
    rewrite bool_decide_eq_false_2 by (rewrite Hs; intros H; by apply H).
    rewrite Hrel.
    erewrite bind_ok; [|reflexivity].
    fold (lines_of db (ProductionOrder.id stored)). rewrite Hlines. reflexivity.
Qed.

(** X1. [reject_raw_materials_for_production_order] goes through only
    for an order that awaits its materials and has none released: the
    order becomes CANCELLED and nothing else in the database changes.
    In every other state it fails and changes nothing. *)
Theorem reject_cancels_only_a_pending_request db order stored :
  production_orders db !! ProductionOrder.id order = Some stored →
  ProductionOrder.id stored = ProductionOrder.id order →
  (ProductionOrder.status stored ≠ ProductionOrder.AWAITING_RM_RELEASE →
     reject_raw_materials_for_production_order order db
     = (inl (ValidationError
               (Msg "This production order is not awaiting raw material release.")), db))
  ∧ (ProductionOrder.status stored = ProductionOrder.AWAITING_RM_RELEASE →
     ProductionOrder.raw_material_released stored = true →
     reject_raw_materials_for_production_order order db
     = (inl (ValidationError
               (Msg "Raw materials are already released for this production order.")), db))
  ∧ (ProductionOrder.status stored = ProductionOrder.AWAITING_RM_RELEASE →
     ProductionOrder.raw_material_released stored = false →
     ∃ order' db',
       reject_raw_materials_for_production_order order db = (inr order', db')
       ∧ order' = ProductionOrder.set_status ProductionOrder.CANCELLED stored
       ∧ db' = set_production_orders (<[ProductionOrder.id order := order']>)
                 (production_order_seq db) db).
Proof.
  intros Hst Hid. rewrite reject_run, Hst. repeat split.
  - intros Hs. by rewrite bool_decide_eq_true_2.
  - intros Hs Hrel. rewrite bool_decide_eq_false_2 by (intros Hn; by apply Hn).
    by rewrite Hrel.
  - intros Hs Hrel. rewrite bool_decide_eq_false_2 by (intros Hn; by apply Hn).
    rewrite Hrel. eexists _, _. split; [reflexivity|]. split; [reflexivity|].
    rewrite Hid. unfold set_production_orders. f_equal.
    by apply alter_as_insert.
Qed.


(** X3. Cancelling a production order whose materials were never
    released (an order that still awaits them, say) only sets its
    status: no balance moves and no ledger row is written. *)
Theorem cancel_before_release_moves_no_stock db order stored cancelled_by :
  production_orders db !! ProductionOrder.id order = Some stored →
  ProductionOrder.id stored = ProductionOrder.id order →
  ProductionOrder.raw_material_released stored = false →
  ProductionOrder.status stored ≠ ProductionOrder.CANCELLED →
  ProductionOrder.status stored ≠ ProductionOrder.COMPLETED →
  ∃ order' db',
    cancel_production_order order cancelled_by db = (inr order', db')
    ∧ ProductionOrder.status order' = ProductionOrder.CANCELLED
    ∧ ProductionOrder.raw_material_released order' = false
    ∧ production_orders db' = <[ProductionOrder.id order := order']> (production_orders db)
    ∧ raw_materials db' = raw_materials db
    ∧ inventory_ledger db' = inventory_ledger db
    ∧ production_consumptions db' = production_consumptions db.
Proof.
  intros Hst Hid Hrel Hc Hd.
  rewrite (cancel_unreleased_run db order stored cancelled_by Hst Hc Hd Hrel).
  eexists _, _. split; [reflexivity|].
  cbn [ProductionOrder.status ProductionOrder.raw_material_released
       ProductionOrder.set_status].
  split; [reflexivity|]. split; [exact Hrel|].
  unfold set_production_orders.
  cbn [production_orders raw_materials inventory_ledger production_consumptions].
  split; [|done]. rewrite Hid. by apply alter_as_insert.
Qed.

(** What a successful release says of the order and of the database. *)
Lemma release_ok_inv db (order stored : ProductionOrder.t) released_by order1 db1 :
  production_orders db !! ProductionOrder.id order = Some stored →
  ProductionOrder.id stored = ProductionOrder.id order →
  pk_consistent (raw_materials db) →
  release_raw_materials_for_production_order order released_by db = (inr order1, db1) →
  let pk := ProductionOrder.id order in
  let lines := lines_of db pk in
  ProductionOrder.status stored = ProductionOrder.AWAITING_RM_RELEASE
  ∧ ProductionOrder.raw_material_released stored = false
  ∧ lines ≠ []
  ∧ omap (line_shortage (raw_materials db)) lines = []
  ∧ order1 = ProductionOrder.set_status ProductionOrder.PLANNED
               (ProductionOrder.set_raw_material_released true stored)
  ∧ db1 = mkDB (partners db)
       (apply_moves (negate <$> (line_move <$> lines)) (raw_materials db))
       (inventory_ledger db ++
          (movement_entry (raw_materials db) InventoryLedger.OUT
             (ReleasedForProductionOrder pk) "production_order" pk released_by
           <$> (line_move <$> lines)))
       (bom_items db)
       (alter (λ row, ProductionOrder.set_status ProductionOrder.PLANNED
                        (ProductionOrder.set_raw_material_released true row))
          pk (production_orders db))
       (production_order_seq db) (production_consumptions db)
       (purchase_orders db) (purchase_order_seq db) (purchase_order_items db)
       (purchase_order_item_seq db).
Proof.
  intros Hst Hid Hpk Hrun. cbv zeta.
  destruct (release_guard db order stored released_by Hst) as (Hg1 & Hg2 & Hg3).
  destruct (decide (ProductionOrder.status stored = ProductionOrder.AWAITING_RM_RELEASE))
    as [Hs|Hs]; [|rewrite (Hg1 Hs) in Hrun; done].
  destruct (ProductionOrder.raw_material_released stored) eqn:Hrel;
    [rewrite (Hg2 Hs eq_refl) in Hrun; done|].
  destruct (decide (lines_of db (ProductionOrder.id order) = [])) as [Hl|Hl].
  { rewrite Hg3 in Hrun; [done..|]. by rewrite Hid. }
  rewrite (release_run db order stored released_by Hst Hid Hs Hrel Hl Hpk) in Hrun.
  cbv zeta in Hrun.
  destruct (omap _ (lines_of db (ProductionOrder.id order))) eqn:Hsh; [|done].
  injection Hrun as <- <-. done.
Qed.

Lemma line_shortage_covered db c :
  line_shortage (raw_materials db) c = None ↔ covered db (line_move c).
Proof.
  rewrite line_shortage_None. unfold covered, balance, line_move. cbn [fst snd].
  split.
  - intros (m & Hm & Hle). exists (RawMaterial.current_stock m). by rewrite Hm.
  - intros (b & Hb & Hle).
    destruct (raw_materials db !! ProductionConsumption.material_id c) as [m|]; [|done].
    exists m. split; [done|]. injection Hb as <-. done.
Qed.

(** X4. Releasing the materials of an order and then cancelling the
    order puts every balance back to its value before the release: the
    cancellation writes one IN ledger entry per consumption line for
    the quantity of the line, and the ledger's net movement of every
    material is what it was. *)
Theorem release_then_cancel_restores_stock
    db order stored released_by cancelled_by order1 db1 :
  production_orders db !! ProductionOrder.id order = Some stored →
  ProductionOrder.id stored = ProductionOrder.id order →
  pk_consistent (raw_materials db) →
  release_raw_materials_for_production_order order released_by db = (inr order1, db1) →
  ∃ order2 db2 entries,
    cancel_production_order order cancelled_by db1 = (inr order2, db2)
    ∧ ProductionOrder.status order2 = ProductionOrder.CANCELLED
    ∧ production_orders db2 !! ProductionOrder.id order = Some order2
    ∧ (∀ pk, balance db2 pk = balance db pk)
    ∧ inventory_ledger db2 = inventory_ledger db1 ++ entries
    ∧ Forall2 (λ c e,
          InventoryLedger.material e = ProductionConsumption.material_id c
          ∧ InventoryLedger.txn_type e = InventoryLedger.IN
          ∧ InventoryLedger.quantity e = ProductionConsumption.required_qty c
          ∧ InventoryLedger.reference_id e = ProductionOrder.id order)
        (lines_of db (ProductionOrder.id order)) entries
    ∧ (∀ pk, ledger_net pk (inventory_ledger db2) = ledger_net pk (inventory_ledger db)).
Proof.
  intros Hst Hid Hpk Hrun.
  destruct (release_ok_inv db order stored released_by order1 db1 Hst Hid Hpk Hrun)
    as (Hs & Hrel & Hl & Hsh & -> & Hdb1).
  set (pk := ProductionOrder.id order) in *.
  set (lines := lines_of db pk) in *.
  set (stored1 := ProductionOrder.set_status ProductionOrder.PLANNED
                    (ProductionOrder.set_raw_material_released true stored)).
  assert (production_orders db1 !! ProductionOrder.id order = Some stored1) as Hst1.
  { rewrite Hdb1. cbn [production_orders]. fold pk. rewrite lookup_alter_eq.
    fold pk in Hst. by rewrite Hst. }
  assert (pk_consistent (raw_materials db1)) as Hpk1.
  { rewrite Hdb1. cbn [raw_materials]. by apply pk_consistent_apply_moves. }
  assert (lines_of db1 pk = lines) as Hlines1 by (rewrite Hdb1; reflexivity).
  assert (Forall (λ c, is_Some (raw_materials db1 !! ProductionConsumption.material_id c))
            (lines_of db1 (ProductionOrder.id order))) as Hfk1.
  { fold pk. rewrite Hlines1. apply omap_nil_Forall in Hsh.
    eapply Forall_impl; [exact Hsh|]. intros c Hc.
    apply line_shortage_None in Hc as (m & Hm & _).
    rewrite Hdb1. cbn [raw_materials]. apply is_Some_apply_moves. eauto. }
  pose proof (cancel_released_run db1 order stored1 cancelled_by Hst1 Hid
                ltac:(done) ltac:(done) eq_refl Hpk1 Hfk1) as Hcancel.
  cbv zeta in Hcancel. fold pk in Hcancel. rewrite Hlines1 in Hcancel.
  eexists _, _, _. split; [exact Hcancel|].
  cbn [ProductionOrder.status ProductionOrder.set_status production_orders inventory_ledger].
  split; [reflexivity|].
  split. { rewrite lookup_alter_eq. fold pk in Hst1. by rewrite Hst1. }
  split.
  { intros k. erewrite balance_apply_moves by reflexivity.
    erewrite (balance_apply_moves db db1) by (rewrite Hdb1; reflexivity).
    rewrite total_for_negate. destruct (balance db k); simpl; [f_equal; lia | done]. }
  split; [reflexivity|]. split.
  { apply Forall2_fmap_r, Forall2_fmap_r. apply Forall_Forall2_diag.
    apply Forall_forall. intros c _. cbn. auto. }
  intros k. rewrite Hdb1. cbn [inventory_ledger raw_materials].
  rewrite !ledger_net_app, ledger_net_out, ledger_net_in. lia.
Qed.

Lemma for_each_preserves {A S T} (proj : DB → T) (body : A → S → M S) (xs : list A) :
  (∀ x s db s' db', body x s db = (inr s', db') → proj db' = proj db) →
  ∀ s db s' db', for_each xs body s db = (inr s', db') → proj db' = proj db.
Proof.
  intros Hbody. induction xs as [|x xs IH]; intros s db s' db' Hrun.
  - cbn in Hrun. injection Hrun as _ <-. done.
  - cbn [for_each] in Hrun. rewrite run_bind in Hrun.
    destruct (body x s db) as [[e|s1] db1] eqn:Hx; [done|].
    rewrite (IH _ _ _ _ Hrun). eauto.
Qed.

(** What a successful cancellation says of the order and of the table
    of orders. *)
Lemma cancel_production_ok_inv db (order stored : ProductionOrder.t) cancelled_by order1 db1 :
  production_orders db !! ProductionOrder.id order = Some stored →
  cancel_production_order order cancelled_by db = (inr order1, db1) →
  ProductionOrder.status stored ≠ ProductionOrder.CANCELLED
  ∧ ProductionOrder.status stored ≠ ProductionOrder.COMPLETED
  ∧ order1 = ProductionOrder.set_status ProductionOrder.CANCELLED stored
  ∧ production_orders db1
    = alter (ProductionOrder.set_status ProductionOrder.CANCELLED)
        (ProductionOrder.id stored) (production_orders db)
  ∧ production_order_seq db1 = production_order_seq db
  ∧ production_consumptions db1 = production_consumptions db.
Proof.
  intros Hst Hrun.
  destruct (cancel_production_guard db order stored cancelled_by Hst) as [Hg1 Hg2].
  destruct (decide (ProductionOrder.status stored = ProductionOrder.CANCELLED))
    as [Hc|Hc]; [rewrite (Hg1 Hc) in Hrun; done|].
  destruct (decide (ProductionOrder.status stored = ProductionOrder.COMPLETED))
    as [Hd|Hd]; [rewrite (Hg2 Hd) in Hrun; done|].
  split; [done|]. split; [done|].
  destruct (ProductionOrder.raw_material_released stored) eqn:Hrel.
  - unfold cancel_production_order, atomic in Hrun.
    rewrite (ProductionOrder_get_run _ _ _ _ Hst) in Hrun.
    rewrite !bool_decide_eq_false_2 in Hrun by done. rewrite Hrel in Hrun.
    rewrite run_bind in Hrun.
    match type of Hrun with
    | context [(consumptions_of ?i ≫= ?k) ?d] =>
      destruct ((consumptions_of i ≫= k) d) as [[e|[]] db'] eqn:Hloop
    end; [done|].
    cbv beta iota in Hrun. rewrite run_bind, ProductionOrder_save_run in Hrun.
    cbv beta iota in Hrun. rewrite run_ret in Hrun. injection Hrun as <- <-.
    rewrite !run_bind in Hloop.
    change (consumptions_of (ProductionOrder.id stored) db)
      with (inr (lines_of db (ProductionOrder.id stored)) : exn + _, db) in Hloop.
    cbv beta iota in Hloop. rewrite run_bind in Hloop.
    match type of Hloop with
    | context [RawMaterial_by_id ?ids ?d] =>
      change (RawMaterial_by_id ids d)
        with (inr (filter (λ kv : Z * RawMaterial.t, kv.1 ∈ ids) (raw_materials d))
                : exn + _, d) in Hloop
    end.
    cbv beta iota in Hloop. rewrite run_bind in Hloop.
    match type of Hloop with
    | context [for_each ?xs ?body ?s ?d] =>
      destruct (for_each xs body s d) as [[e|s'] db''] eqn:Hfor; [done|];
      pose proof (for_each_preserves
                    (λ d, (production_orders d, production_order_seq d,
                           production_consumptions d)) body xs) as Hpres
    end.
    cbn in Hloop. injection Hloop as <-.
    specialize (Hpres ltac:(
      intros c mats d mats' d' Hb; cbv beta in Hb;
      destruct (mats !! ProductionConsumption.material_id c);
      [revert Hb; mcompute; intros [= _ <-]; reflexivity
      |injection Hb as _ <-; reflexivity]) _ _ _ _ Hfor).
    injection Hpres as Hp1 Hp2 Hp3.
    unfold set_production_orders. cbn [production_orders production_order_seq
      production_consumptions ProductionOrder.id ProductionOrder.set_status].
    rewrite Hp1, Hp2, Hp3. done.
  - rewrite (cancel_unreleased_run db order stored cancelled_by Hst Hc Hd Hrel) in Hrun.
    injection Hrun as <- <-. done.
Qed.

(** X5. Neither a release nor a cancellation can be played twice: after
    a successful release a second release of the order fails, so the
    materials are deducted once; after a successful cancellation a
    second one fails, so they are credited back once.  The failing
    call changes nothing. *)
Theorem release_and_cancel_are_not_repeatable db order stored actor order1 db1 :
  production_orders db !! ProductionOrder.id order = Some stored →
  ProductionOrder.id stored = ProductionOrder.id order →
  pk_consistent (raw_materials db) →
  (release_raw_materials_for_production_order order actor db = (inr order1, db1) →
   ∀ again,
     release_raw_materials_for_production_order order again db1
     = (inl (ValidationError
               (Msg "This production order is not awaiting raw material release.")), db1))
  ∧ (cancel_production_order order actor db = (inr order1, db1) →
     ∀ again,
       cancel_production_order order again db1
       = (inl (ValidationError (Msg "Production order is already cancelled.")), db1)).
Proof.
  intros Hst Hid Hpk. split.
  - intros Hrun again.
    destruct (release_ok_inv db order stored actor order1 db1 Hst Hid Hpk Hrun)
      as (_ & _ & _ & _ & _ & Hdb1).
    assert (production_orders db1 !! ProductionOrder.id order
            = Some (ProductionOrder.set_status ProductionOrder.PLANNED
                      (ProductionOrder.set_raw_material_released true stored))) as Hst1.
    { rewrite Hdb1. cbn [production_orders]. rewrite lookup_alter_eq. by rewrite Hst. }
    by apply (proj1 (release_guard db1 order _ again Hst1)).
  - intros Hrun again.
    assert (production_orders db1 !! ProductionOrder.id order
            = Some (ProductionOrder.set_status ProductionOrder.CANCELLED stored)) as Hst1.
    { destruct (cancel_production_ok_inv db order stored actor order1 db1 Hst Hrun)
        as (_ & _ & _ & -> & _). rewrite Hid, lookup_alter_eq. by rewrite Hst. }
    by apply (proj1 (cancel_production_guard db1 order _ again Hst1)).
Qed.

(** ** Purchase orders *)

Lemma PurchaseOrder_get_missing {A} db pk (k : PurchaseOrder.t → M A) :
  purchase_orders db !! pk = None →
  (PurchaseOrder_get pk ≫= k) db = (inl DoesNotExist, db).
Proof.
  intros Hst. apply bind_err. unfold PurchaseOrder_get. rewrite run_bind.
  change (get_db db) with (inr db : exn + _, db). cbv beta iota. rewrite Hst. reflexivity.
Qed.

(** [cancel_purchase_order] and [reopen_purchase_order] on a stored order. *)
Lemma cancel_purchase_run db now (order stored : PurchaseOrder.t) actor :
  purchase_orders db !! PurchaseOrder.id order = Some stored →
  cancel_purchase_order now order actor db =
  if bool_decide (PurchaseOrder.status stored = PurchaseOrder.RECEIVED) then
    (inl (ValidationError (Msg "Fully received purchase order cannot be cancelled.")), db)
  else if bool_decide (PurchaseOrder.status stored = PurchaseOrder.CANCELLED) then
    (inl (ValidationError (Msg "Purchase order is already cancelled.")), db)
  else
    (inr (cancelled_order now actor stored),
     set_purchase_orders (alter (cancelled_order now actor) (PurchaseOrder.id stored))
       (purchase_order_seq db) db).
Proof.
  intros Hst. unfold cancel_purchase_order.
  case_bool_decide as Hr.
  { eapply atomic_err. rewrite (PurchaseOrder_get_run _ _ _ _ Hst), Hr. reflexivity. }
  case_bool_decide as Hc.
  { eapply atomic_err. rewrite (PurchaseOrder_get_run _ _ _ _ Hst), Hc. reflexivity. }
  apply atomic_ok. rewrite (PurchaseOrder_get_run _ _ _ _ Hst).
  rewrite !bool_decide_eq_false_2 by done.
  cbv zeta. rewrite run_bind, PurchaseOrder_save_run. cbv beta iota.
  rewrite run_ret. reflexivity.
Qed.

Lemma reopen_run db (order stored : PurchaseOrder.t) :
  purchase_orders db !! PurchaseOrder.id order = Some stored →
  reopen_purchase_order order db =
  let items := lines_of_purchase_order db (PurchaseOrder.id stored) in
  if bool_decide (PurchaseOrder.status stored ≠ PurchaseOrder.CANCELLED) then
    (inl (ValidationError (Msg "Only cancelled purchase orders can be reopened.")), db)
  else
    match items with
    | [] => (inl (ValidationError (Msg "Purchase order has no line items.")), db)
    | _ =>
      if negb (existsb (λ item, 0 <? PurchaseOrderItem.pending_quantity item) items) then
        (inl (ValidationError (Msg "Fully received purchase order cannot be reopened.")), db)
      else
        (inr (reopened_order items stored),
         set_purchase_orders (alter (reopened_order items) (PurchaseOrder.id stored))
           (purchase_order_seq db) db)
    end.
Proof.
  intros Hst. unfold reopen_purchase_order. cbv zeta.
  set (items := lines_of_purchase_order db (PurchaseOrder.id stored)).
  assert (∀ A (k : list PurchaseOrderItem.t → M A),
            (items_of (PurchaseOrder.id stored) ≫= k) db = k items db) as Hitems.
  { intros A k. apply bind_ok. reflexivity. }
  case_bool_decide as Hs.
  { eapply atomic_err. rewrite (PurchaseOrder_get_run _ _ _ _ Hst).
    rewrite bool_decide_eq_true_2 by done. reflexivity. }
  destruct items as [|i items'] eqn:Hi.
  { eapply atomic_err. rewrite (PurchaseOrder_get_run _ _ _ _ Hst).
    rewrite bool_decide_eq_false_2 by (intros Hn; by apply Hn).
    rewrite Hitems. reflexivity. }
  rewrite <- Hi in *. assert (items ≠ []) as Hne by (rewrite Hi; done). clear Hi.
  destruct (existsb (λ item, 0 <? PurchaseOrderItem.pending_quantity item) items) eqn:Hp;
    cbn [negb].
  - apply atomic_ok. rewrite (PurchaseOrder_get_run _ _ _ _ Hst).
    rewrite bool_decide_eq_false_2 by (intros Hn; by apply Hn).
    rewrite Hitems, (match_nonempty items _ _ Hne).
    cbv zeta. rewrite Hp. cbn [negb].
    rewrite run_bind, PurchaseOrder_save_run. cbv beta iota.
    rewrite run_ret. reflexivity.
  - eapply atomic_err. rewrite (PurchaseOrder_get_run _ _ _ _ Hst).
    rewrite bool_decide_eq_false_2 by (intros Hn; by apply Hn).
    rewrite Hitems, (match_nonempty items _ _ Hne).
    cbv zeta. rewrite Hp. reflexivity.
Qed.

Lemma derive_status_not_received (items : list PurchaseOrderItem.t) :
  _derive_status items ≠ PurchaseOrder.RECEIVED →
  items ≠ []
  ∧ existsb (λ item, 0 <? PurchaseOrderItem.pending_quantity item) items = true
  ∧ _derive_status items
    = (if existsb (λ item, 0 <? PurchaseOrderItem.received_quantity item) items
       then PurchaseOrder.PARTIALLY_RECEIVED else PurchaseOrder.OPEN).
Proof.
  unfold _derive_status. cbv zeta.
  destruct (forallb _ items) eqn:Hall; [done|]. intros _.
  split; [by destruct items|]. split; [|done].
  apply pending_exists_iff.
  induction items as [|i items IH]; [done|].
  cbn [forallb] in Hall. apply andb_false_iff in Hall as [Hi|Hrest].
  - apply Exists_cons_hd. apply Z.leb_gt in Hi. lia.
  - apply Exists_cons_tl. by apply IH.
Qed.

Lemma derive_status_not_cancelled (items : list PurchaseOrderItem.t) :
  _derive_status items ≠ PurchaseOrder.CANCELLED.
Proof. unfold _derive_status. cbv zeta. by repeat case_match. Qed.

(** X6. A cancellation followed by a reopening is a round trip: for an
    order whose status is the one its lines give and that was never
    cancelled before, [cancel_purchase_order] and then
    [reopen_purchase_order] return the order and the whole database to
    what they were. *)
Theorem cancel_then_reopen_restores_the_order db now order stored actor :
  purchase_orders db !! PurchaseOrder.id order = Some stored →
  PurchaseOrder.id stored = PurchaseOrder.id order →
  PurchaseOrder.cancelled_by stored = None →
  PurchaseOrder.cancelled_at stored = None →
  PurchaseOrder.status stored
  = _derive_status (lines_of_purchase_order db (PurchaseOrder.id order)) →
  PurchaseOrder.status stored ≠ PurchaseOrder.RECEIVED →
  ∃ order1 db1,
    cancel_purchase_order now order actor db = (inr order1, db1)
    ∧ PurchaseOrder.status order1 = PurchaseOrder.CANCELLED
    ∧ PurchaseOrder.cancelled_by order1 = Some actor
    ∧ reopen_purchase_order order db1 = (inr stored, db).
Proof.
  intros Hst Hid Hby Hat Hderived Hnr.
  set (pk := PurchaseOrder.id order) in *.
  set (items := lines_of_purchase_order db pk) in *.
  assert (PurchaseOrder.status stored ≠ PurchaseOrder.CANCELLED) as Hnc
    by (rewrite Hderived; apply derive_status_not_cancelled).
  rewrite (cancel_purchase_run db now order stored actor Hst).
  rewrite (bool_decide_eq_false_2 _ Hnr), (bool_decide_eq_false_2 _ Hnc).
  rewrite Hderived in Hnr.
  destruct (derive_status_not_received items Hnr) as (Hne & Hpend & Hstatus).
  set (db1 := set_purchase_orders _ _ db).
  exists (cancelled_order now actor stored), db1.
  split; [reflexivity|]. split; [reflexivity|]. split; [reflexivity|].
  assert (purchase_orders db1 !! PurchaseOrder.id order
          = Some (cancelled_order now actor stored)) as Hst1.
  { unfold db1, set_purchase_orders. cbn [purchase_orders]. rewrite Hid. fold pk.
    rewrite lookup_alter_eq. by rewrite Hst. }
  rewrite (reopen_run db1 order _ Hst1). cbv zeta.
  change (PurchaseOrder.id (cancelled_order now actor stored)) with (PurchaseOrder.id stored).
  rewrite Hid. fold pk.
  change (lines_of_purchase_order db1 pk) with items.
  rewrite (match_nonempty items _ _ Hne), Hpend. cbn [negb].
  assert (reopened_order items (cancelled_order now actor stored) = stored) as Hback.
  { unfold reopened_order, cancelled_order, PurchaseOrder.set_cancelled,
      PurchaseOrder.set_status. cbn. rewrite <- Hstatus, <- Hderived.
    destruct stored. cbn in *. by subst. }
  rewrite Hback. f_equal.
  unfold db1, set_purchase_orders. cbn. rewrite Hid. fold pk.
  assert (alter (reopened_order items) pk
            (alter (cancelled_order now actor) pk (purchase_orders db))
          = purchase_orders db) as ->; [|by destruct db].
  apply map_eq. intros k. destruct (decide (k = pk)) as [->|Hk].
  - rewrite !lookup_alter_eq, Hst. cbn. by rewrite Hback.
  - by rewrite !lookup_alter_ne.
Qed.

Lemma no_bad_quantity (lines : list PurchaseLineInput.t) :
  existsb (λ line, PurchaseLineInput.quantity line <=? 0) lines = false
  ↔ Forall (λ line, 0 < PurchaseLineInput.quantity line) lines.
Proof.
  induction lines as [|l lines IH]; [by split|].
  cbn [existsb]. rewrite orb_false_iff, Forall_cons, IH, Z.leb_gt. done.
Qed.

Lemma supplier_check (vendor : Partner.t) :
  bool_decide (Partner.partner_type vendor ∉ [Partner.SUPPLIER; Partner.BOTH])
  = bool_decide (Partner.partner_type vendor = Partner.BUYER).
Proof. by destruct (Partner.partner_type vendor). Qed.

Lemma PurchaseOrder_create_run (vendor : Partner.t) order_date notes created_by db :
  PurchaseOrder_create vendor order_date notes created_by db
  = let order := PurchaseOrder.mk (purchase_order_seq db + 1) (Partner.id vendor) order_date
                   PurchaseOrder.OPEN notes created_by None None None None in
    (inr order,
     set_purchase_orders (insert (purchase_order_seq db + 1) order)
       (purchase_order_seq db + 1) db).
Proof. reflexivity. Qed.

(** [create_grouped_purchase_orders_with_vendor] under a given vendor. *)
Lemma create_with_vendor_run db order_date notes created_by lines (vendor : Partner.t) :
  lines ≠ [] →
  Forall (λ line, 0 < PurchaseLineInput.quantity line) lines →
  Partner.partner_type vendor ≠ Partner.BUYER →
  create_grouped_purchase_orders_with_vendor order_date notes created_by lines (Some vendor) db
  = let order := PurchaseOrder.mk (purchase_order_seq db + 1) (Partner.id vendor) order_date
                   PurchaseOrder.OPEN notes created_by None None None None in
    (inr [order],
     mkDB (partners db) (raw_materials db) (inventory_ledger db) (bom_items db)
       (production_orders db) (production_order_seq db) (production_consumptions db)
       (<[PurchaseOrder.id order := order]> (purchase_orders db))
       (purchase_order_seq db + 1)
       (purchase_order_items db
          ++ new_items (purchase_order_item_seq db) (PurchaseOrder.id order) lines)
       (purchase_order_item_seq db + Z.of_nat (length lines))).
Proof.
  intros Hne Hpos Hsup. unfold create_grouped_purchase_orders_with_vendor.
  rewrite (match_nonempty lines _ _ Hne).
  rewrite (proj2 (no_bad_quantity lines) Hpos), supplier_check.
  rewrite bool_decide_eq_false_2 by done.
  apply atomic_ok. erewrite bind_ok; [|apply PurchaseOrder_create_run].
  cbv zeta. erewrite bind_ok; [|apply new_items_loop_run]. reflexivity.
Qed.

(** X7. With a vendor given, every line goes into one order under that
    vendor, in the order of the request and whatever the vendors of the
    materials are; no stock moves.  The vendor has to be a supplier. *)
Theorem explicit_vendor_gets_one_order db order_date notes created_by lines vendor :
  lines ≠ [] →
  Forall (λ line, 0 < PurchaseLineInput.quantity line) lines →
  Forall (λ it, PurchaseOrderItem.purchase_order it ≤ purchase_order_seq db)
    (purchase_order_items db) →
  (Partner.partner_type vendor = Partner.BUYER →
     create_grouped_purchase_orders_with_vendor order_date notes created_by lines
       (Some vendor) db
     = (inl (ValidationError (Msg "Selected vendor is not valid for purchase orders.")), db))
  ∧ (Partner.partner_type vendor ≠ Partner.BUYER →
     ∃ order db',
       create_grouped_purchase_orders_with_vendor order_date notes created_by lines
         (Some vendor) db = (inr [order], db')
       ∧ PurchaseOrder.vendor order = Partner.id vendor
       ∧ PurchaseOrder.status order = PurchaseOrder.OPEN
       ∧ purchase_orders db' = <[PurchaseOrder.id order := order]> (purchase_orders db)
       ∧ Forall2 (item_of_line (PurchaseOrder.id order)) lines
           (lines_of_purchase_order db' (PurchaseOrder.id order))
       ∧ (∀ other, other ≠ PurchaseOrder.id order →
            lines_of_purchase_order db' other = lines_of_purchase_order db other)
       ∧ raw_materials db' = raw_materials db
       ∧ inventory_ledger db' = inventory_ledger db).
Proof.
  intros Hne Hpos Hfresh. split.
  - intros Hb. unfold create_grouped_purchase_orders_with_vendor.
    rewrite (match_nonempty lines _ _ Hne).
    rewrite (proj2 (no_bad_quantity lines) Hpos), supplier_check.
    by rewrite bool_decide_eq_true_2.
  - intros Hsup.
    rewrite (create_with_vendor_run db order_date notes created_by lines vendor Hne Hpos Hsup).
    cbv zeta. eexists _, _. split; [reflexivity|].
    cbn [PurchaseOrder.vendor PurchaseOrder.status PurchaseOrder.id purchase_orders
         raw_materials inventory_ledger].
    split; [reflexivity|]. split; [reflexivity|]. split; [reflexivity|].
    set (pk := purchase_order_seq db + 1).
    split; [|split; [|done]].
    + unfold lines_of_purchase_order. cbn [purchase_order_items].
      rewrite filter_app, filter_nil_Forall, filter_all_Forall.
      * apply new_items_spec.
      * apply new_items_order.
      * eapply Forall_impl; [exact Hfresh|]. intros it Hit. cbn in *. lia.
    + intros other Hother. unfold lines_of_purchase_order. cbn [purchase_order_items].
      rewrite filter_app, (filter_nil_Forall _ (new_items _ _ _)), app_nil_r; [done|].
      eapply Forall_impl; [apply new_items_order|]. intros it Hit. cbn in *. congruence.
Qed.

(** X8. The lines are checked before anything is written, and in this
    order: an empty list of lines, then a quantity that is not
    positive; both with and without a vendor, and before the vendor is
    looked at. *)
Theorem purchase_lines_are_checked_first db order_date notes created_by lines vendor :
  (lines = [] →
     create_grouped_purchase_orders_with_vendor order_date notes created_by lines vendor db
     = (inl (ValidationError (Msg "Add at least one raw material line item.")), db))
  ∧ (lines ≠ [] →
     Exists (λ line, PurchaseLineInput.quantity line ≤ 0) lines →
     create_grouped_purchase_orders_with_vendor order_date notes created_by lines vendor db
     = (inl (ValidationError (Msg "Quantity must be greater than zero.")), db)).
Proof.
  unfold create_grouped_purchase_orders_with_vendor. split.
  - intros ->. reflexivity.
  - intros Hne Hbad. rewrite (match_nonempty lines _ _ Hne).
    destruct (existsb _ lines) eqn:Hex; [done|].
    apply no_bad_quantity in Hex. apply Exists_exists in Hbad as (l & Hin & Hq).
    rewrite Forall_forall in Hex. specialize (Hex _ Hin). cbn in Hex. lia.
Qed.

Lemma grouped_loop_missing_vendor (order_date notes : string) (created_by : Z)
    (groups : dict (list PurchaseLineInput.t)) :
  ∀ created db,
    Exists (λ g, partners db !! g.1 = None) groups →
    ∃ db',
      for_each groups (λ '(vendor_id, vendor_lines) created_orders,
        grouped_vendor ← Partner_get vendor_id;
        order ← PurchaseOrder_create grouped_vendor order_date notes created_by;
        for_each vendor_lines (λ line _,
          PurchaseOrderItem_create order (PurchaseLineInput.material line)
            (PurchaseLineInput.quantity line)
            (RawMaterial.unit (PurchaseLineInput.material line))) ();;
        mret (created_orders ++ [order])) created db
      = (inl DoesNotExist, db').
Proof.
  induction groups as [|[v ls] groups IH]; intros created db Hex.
  { by apply Exists_nil in Hex. }
  cbn [for_each]. rewrite run_bind.
  destruct (partners db !! v) as [p|] eqn:Hp.
  - assert (Exists (λ g, partners db !! g.1 = None) groups) as Hex'.
    { apply Exists_cons in Hex as [Hhd|Htl]; [cbn in Hhd; congruence | done]. }
    erewrite (bind_ok (Partner_get v)); last first.
    { unfold Partner_get. rewrite run_bind.
      change (get_db db) with (inr db : exn + _, db). cbv beta iota. rewrite Hp. reflexivity. }
    erewrite bind_ok; [|apply PurchaseOrder_create_run]. cbv zeta.
    erewrite bind_ok; [|apply new_items_loop_run].
    rewrite run_ret. apply IH. exact Hex'.
  - exists db. erewrite (bind_err (Partner_get v)); [reflexivity|].
    unfold Partner_get. rewrite run_bind.
    change (get_db db) with (inr db : exn + _, db). cbv beta iota. rewrite Hp. reflexivity.
Qed.

(** X9. Without a vendor, the orders of a request are created together
    or not at all: when the vendor of one of the materials is not a
    stored partner, the call fails and none of the orders of the other
    vendors is kept. *)
Theorem unknown_vendor_leaves_no_order db order_date notes created_by lines :
  Forall (λ line, 0 < PurchaseLineInput.quantity line) lines →
  Exists (λ line, partners db !! line_vendor line = None) lines →
  create_grouped_purchase_orders order_date notes created_by lines db
  = (inl DoesNotExist, db).
Proof.
  intros Hpos Hex.
  assert (lines ≠ []) as Hne by (intros ->; by apply Exists_nil in Hex).
  unfold create_grouped_purchase_orders, create_grouped_purchase_orders_with_vendor.
  rewrite (match_nonempty lines _ _ Hne), (proj2 (no_bad_quantity lines) Hpos).
  fold (group_lines lines).
  destruct (grouped_loop_missing_vendor order_date notes created_by (group_lines lines) [] db)
    as [db' Hloop].
  { apply Exists_exists in Hex as (line & Hin & Hnone).
    destruct (group_lines_spec lines) as (_ & Hkeys & _).
    assert (line_vendor line ∈ (group_lines lines).*1) as Hk.
    { apply Hkeys. by apply list_elem_of_fmap_2. }
    apply list_elem_of_fmap in Hk as (g & Hg & Hgin).
    apply Exists_exists. exists g. split; [done|]. by rewrite <- Hg. }
  by apply (atomic_err _ _ _ db').
Qed.

(** ** Receiving *)

Lemma dict_set_elem_of {V} (d : dict V) k v k' v' :
  (k', v') ∈ dict_set k v d → (k', v') = (k, v) ∨ (k', v') ∈ d.
Proof.
  induction d as [|[k0 v0] d IH]; cbn [dict_set].
  - intros Hin. apply list_elem_of_singleton in Hin. by left.
  - case_bool_decide as Hk.
    + intros Hin. apply elem_of_cons in Hin as [Hin|Hin]; [left; congruence|].
      right. by apply elem_of_cons; right.
    + intros Hin. apply elem_of_cons in Hin as [Hin|Hin].
      * right. rewrite Hin. apply list_elem_of_here.
      * destruct (IH Hin) as [?|?]; [by left|]. right. by apply elem_of_cons; right.
Qed.

Lemma dict_get_elem_of_or_default {V} (d : dict V) k default :
  dict_get d k default = default ∨ (k, dict_get d k default) ∈ d.
Proof.
  induction d as [|[k0 v0] d IH]; [by left|]. cbn [dict_get].
  case_bool_decide as Hk.
  - right. subst. apply list_elem_of_here.
  - destruct IH as [?|?]; [by left|]. right. by apply elem_of_cons; right.
Qed.

Lemma pending_entries_elem_of (items : list PurchaseOrderItem.t) k v :
  (k, v) ∈ pending_entries items →
  ∃ item, item ∈ items ∧ PurchaseOrderItem.id item = k
          ∧ PurchaseOrderItem.pending_quantity item = v.
Proof.
  unfold pending_entries.
  induction items as [|x items IH] using rev_ind.
  { intros Hin. by apply elem_of_nil in Hin. }
  rewrite foldl_app. cbn [foldl]. intros Hin.
  assert ((k, v) = (PurchaseOrderItem.id x, PurchaseOrderItem.pending_quantity x)
          ∨ (k, v) ∈ foldl (λ quantities item,
                       if 0 <? PurchaseOrderItem.pending_quantity item
                       then dict_set (PurchaseOrderItem.id item)
                              (PurchaseOrderItem.pending_quantity item) quantities
                       else quantities) ([] : dict Z) items) as [Heq|Hold].
  { destruct (0 <? PurchaseOrderItem.pending_quantity x); [|by right].
    by apply dict_set_elem_of. }
  - injection Heq as -> ->. exists x. split; [|done]. apply elem_of_app. right.
    apply list_elem_of_here.
  - destruct (IH Hold) as (item & Hi & ?). exists item. split; [|done].
    apply elem_of_app. by left.
Qed.

Lemma item_map_of_lookup (items : list PurchaseOrderItem.t) item :
  NoDup (PurchaseOrderItem.id <$> items) → item ∈ items →
  item_map_of items !! PurchaseOrderItem.id item = Some item.
Proof.
  intros Hnd Hin.
  destruct (item_map_of items !! PurchaseOrderItem.id item) as [item'|] eqn:Hl.
  - apply item_map_of_Some in Hl as [Hin' Hid]. f_equal.
    by apply (same_id_same_row items).
  - apply item_map_of_None in Hl. exfalso. apply Hl. by apply list_elem_of_fmap_2.
Qed.

Lemma first_excess_ok (item_map : gmap Z PurchaseOrderItem.t) related quantities :
  Forall (λ kv, ∃ item, item_map !! kv.1 = Some item
                        ∧ kv.2 ≤ PurchaseOrderItem.pending_quantity item) quantities →
  first_excess item_map related quantities = None.
Proof.
  induction 1 as [|[k v] quantities (item & Hitem & Hle) _ IH]; [done|].
  cbn [first_excess]. cbn [fst snd] in *. rewrite Hitem.
  destruct (Z.ltb_spec (PurchaseOrderItem.pending_quantity item) v); [lia | done].
Qed.

Lemma lines_of_purchase_order_NoDup db pk :
  NoDup (PurchaseOrderItem.id <$> purchase_order_items db) →
  NoDup (PurchaseOrderItem.id <$> lines_of_purchase_order db pk).
Proof.
  intros Hnd. eapply sublist_NoDup; [exact Hnd|].
  apply fmap_sublist. unfold lines_of_purchase_order. apply sublist_filter.
Qed.

(** What a successful receipt says of the quantities it took and of the
    database. *)
Lemma receive_ok_inv db now order stored received_by line_quantities order' db' :
  purchase_orders db !! PurchaseOrder.id order = Some stored →
  PurchaseOrder.id stored = PurchaseOrder.id order →
  pk_consistent (raw_materials db) →
  NoDup (PurchaseOrderItem.id <$> purchase_order_items db) →
  item_materials_exist db (lines_of_purchase_order db (PurchaseOrder.id order)) →
  receive_purchase_order now order received_by line_quantities db = (inr order', db') →
  let pk := PurchaseOrder.id order in
  let items := lines_of_purchase_order db pk in
  ∃ quantities,
    (PurchaseOrder.status stored = PurchaseOrder.OPEN
     ∨ PurchaseOrder.status stored = PurchaseOrder.PARTIALLY_RECEIVED)
    ∧ items ≠ []
    ∧ resolve_quantities line_quantities items = inr quantities
    ∧ Forall (λ kv, ∃ item, item ∈ items ∧ PurchaseOrderItem.id item = kv.1
                            ∧ kv.2 ≤ PurchaseOrderItem.pending_quantity item) quantities
    ∧ order' = received_order now received_by (receive_line quantities <$> items) stored
    ∧ lines_of_purchase_order db' pk = receive_line quantities <$> items
    ∧ db' = mkDB (partners db)
         (apply_moves (receipt_move quantities <$> accepted quantities items)
            (raw_materials db))
         (inventory_ledger db ++
            (receipt_entry (raw_materials db) pk received_by quantities
             <$> accepted quantities items))
         (bom_items db) (production_orders db) (production_order_seq db)
         (production_consumptions db)
         (<[pk := order']> (purchase_orders db)) (purchase_order_seq db)
         (save_rows quantities items (purchase_order_items db))
         (purchase_order_item_seq db).
Proof.
  intros Hst Hid Hpk Hnd Hfk Hrun. cbv zeta.
  set (pk := PurchaseOrder.id order) in *.
  set (items := lines_of_purchase_order db pk) in *.
  assert (PurchaseOrder.status stored = PurchaseOrder.OPEN
          ∨ PurchaseOrder.status stored = PurchaseOrder.PARTIALLY_RECEIVED) as Hs.
  { destruct (PurchaseOrder.status stored) eqn:Hstatus; [by left | by right | |].
    - exfalso. unfold receive_purchase_order in Hrun.
      erewrite atomic_err in Hrun; [done|].
      rewrite (PurchaseOrder_get_run _ _ _ _ Hst), Hstatus. reflexivity.
    - exfalso. unfold receive_purchase_order in Hrun.
      erewrite atomic_err in Hrun; [done|].
      rewrite (PurchaseOrder_get_run _ _ _ _ Hst), Hstatus. reflexivity. }
  rewrite (receive_run db now order stored received_by line_quantities
             Hst Hid Hs Hpk Hnd Hfk) in Hrun.
  cbv zeta in Hrun. fold pk items in Hrun.
  destruct items as [|i0 items0] eqn:Hi; [done|]. rewrite <- Hi in *.
  assert (items ≠ []) as Hne by (rewrite Hi; done). clear Hi.
  destruct (resolve_quantities line_quantities items) as [m|quantities] eqn:Hres; [done|].
  destruct (existsb _ quantities) eqn:Hunknown; [done|].
  destruct (first_excess _ _ quantities) eqn:Hex; [done|].
  injection Hrun as <- <-. exists quantities.
  split; [exact Hs|]. split; [exact Hne|]. split; [reflexivity|].
  assert (NoDup (PurchaseOrderItem.id <$> items)) as Hndi
    by apply lines_of_purchase_order_NoDup, Hnd.
  split.
  { apply unknown_ids_false in Hunknown.
    pose proof (first_excess_None _ _ _ Hunknown Hex) as Hall.
    eapply Forall_impl; [exact Hall|]. intros kv (item & Hitem & Hle).
    apply item_map_of_Some in Hitem as [Hin Hidk]. eauto. }
  split; [reflexivity|]. split; [|reflexivity].
  unfold lines_of_purchase_order at 1. cbn [purchase_order_items].
  apply save_rows_same_order. intros r Hr Hrpk.
  apply list_elem_of_fmap_2. unfold items, lines_of_purchase_order.
  apply list_elem_of_filter. done.
Qed.

Lemma receive_line_received quantities item :
  PurchaseOrderItem.received_quantity (receive_line quantities item)
  = PurchaseOrderItem.received_quantity item + Z.max 0 (receive_qty quantities item).
Proof.
  unfold receive_line.
  destruct (Z.leb_spec (receive_qty quantities item) 0); cbn; lia.
Qed.

Lemma receive_line_quantity quantities item :
  PurchaseOrderItem.quantity (receive_line quantities item) = PurchaseOrderItem.quantity item.
Proof. unfold receive_line. by case_match. Qed.

Lemma receive_line_material quantities item :
  PurchaseOrderItem.material_id (receive_line quantities item)
  = PurchaseOrderItem.material_id item.
Proof. unfold receive_line. by case_match. Qed.

Lemma pending_quantity_max item :
  PurchaseOrderItem.received_quantity item + PurchaseOrderItem.pending_quantity item
  = Z.max (PurchaseOrderItem.received_quantity item) (PurchaseOrderItem.quantity item).
Proof.
  unfold PurchaseOrderItem.pending_quantity. cbv zeta.
  destruct (Z.ltb_spec 0 (PurchaseOrderItem.quantity item
                          - PurchaseOrderItem.received_quantity item)); lia.
Qed.

Lemma Forall2_Forall_transfer {A B} (R : A → B → Prop) (P : A → Prop) (Q : B → Prop) l k :
  Forall2 R l k → (∀ x y, R x y → P x → Q y) → Forall P l → Forall Q k.
Proof.
  intros HR Himp. induction HR as [|x y l k Hxy _ IH]; intros HP; [constructor|].
  apply Forall_cons in HP as [Hx Hl]. constructor; eauto.
Qed.

(** X10. A receipt never takes a line back and never takes it past the
    ordered quantity: after a successful [receive_purchase_order],
    whatever the map, the received quantity of every line of the order
    is at least what it was and at most the larger of what it was and
    the ordered quantity; the ordered quantity and the material of a
    line do not change.  So lines that were within their order stay
    within it. *)
Theorem receive_never_over_receives
    db now order stored received_by line_quantities order' db' :
  purchase_orders db !! PurchaseOrder.id order = Some stored →
  PurchaseOrder.id stored = PurchaseOrder.id order →
  pk_consistent (raw_materials db) →
  NoDup (PurchaseOrderItem.id <$> purchase_order_items db) →
  item_materials_exist db (lines_of_purchase_order db (PurchaseOrder.id order)) →
  receive_purchase_order now order received_by line_quantities db = (inr order', db') →
  Forall2 (λ item item',
      PurchaseOrderItem.id item' = PurchaseOrderItem.id item
      ∧ PurchaseOrderItem.material_id item' = PurchaseOrderItem.material_id item
      ∧ PurchaseOrderItem.quantity item' = PurchaseOrderItem.quantity item
      ∧ PurchaseOrderItem.received_quantity item
        ≤ PurchaseOrderItem.received_quantity item'
      ∧ PurchaseOrderItem.received_quantity item'
        ≤ Z.max (PurchaseOrderItem.received_quantity item) (PurchaseOrderItem.quantity item))
    (lines_of_purchase_order db (PurchaseOrder.id order))
    (lines_of_purchase_order db' (PurchaseOrder.id order))
  ∧ (Forall (λ item, PurchaseOrderItem.received_quantity item
                     ≤ PurchaseOrderItem.quantity item)
       (lines_of_purchase_order db (PurchaseOrder.id order)) →
     Forall (λ item, PurchaseOrderItem.received_quantity item
                     ≤ PurchaseOrderItem.quantity item)
       (lines_of_purchase_order db' (PurchaseOrder.id order))).
Proof.
  intros Hst Hid Hpk Hnd Hfk Hrun.
  destruct (receive_ok_inv db now order stored received_by line_quantities order' db'
              Hst Hid Hpk Hnd Hfk Hrun)
    as (quantities & _ & _ & _ & Hall & _ & Hlines & _).
  set (items := lines_of_purchase_order db (PurchaseOrder.id order)) in *.
  assert (NoDup (PurchaseOrderItem.id <$> items)) as Hndi
    by apply lines_of_purchase_order_NoDup, Hnd.
  assert (∀ item, item ∈ items →
            Z.max 0 (receive_qty quantities item)
            ≤ PurchaseOrderItem.pending_quantity item) as Hbound.
  { intros item Hin. pose proof (pending_quantity_nonneg item).
    unfold receive_qty.
    destruct (dict_get_elem_of_or_default quantities (PurchaseOrderItem.id item) 0)
      as [->|Hk]; [lia|].
    rewrite Forall_forall in Hall. destruct (Hall _ Hk) as (item' & Hin' & Hid' & Hle).
    cbn [fst snd] in *.
    assert (item' = item) as -> by (by apply (same_id_same_row items)). lia. }
  assert (Forall2 (λ item item',
      PurchaseOrderItem.id item' = PurchaseOrderItem.id item
      ∧ PurchaseOrderItem.material_id item' = PurchaseOrderItem.material_id item
      ∧ PurchaseOrderItem.quantity item' = PurchaseOrderItem.quantity item
      ∧ PurchaseOrderItem.received_quantity item
        ≤ PurchaseOrderItem.received_quantity item'
      ∧ PurchaseOrderItem.received_quantity item'
        ≤ Z.max (PurchaseOrderItem.received_quantity item) (PurchaseOrderItem.quantity item))
    items (lines_of_purchase_order db' (PurchaseOrder.id order))) as Hrows.
  { rewrite Hlines. apply Forall2_fmap_same. intros item Hin.
    rewrite receive_line_id, receive_line_material, receive_line_quantity,
      receive_line_received.
    pose proof (Hbound item Hin). pose proof (pending_quantity_max item). lia. }
  split; [exact Hrows|].
  intros Hle. eapply Forall2_Forall_transfer; [exact Hrows | | exact Hle].
  intros item item' (_ & _ & Hq & _ & Hmax) Hi. cbn in *. lia.
Qed.

Lemma pending_entries_nonempty (items : list PurchaseOrderItem.t) :
  NoDup (PurchaseOrderItem.id <$> items) →
  Exists (λ item, PurchaseOrderItem.received_quantity item < PurchaseOrderItem.quantity item)
    items →
  pending_entries items ≠ [].
Proof.
  intros Hnd Hex Hnil. apply Exists_exists in Hex as (item & Hin & Hlt).
  pose proof (proj2 (dict_get_pending_entries items Hnd) item Hin) as Hget.
  rewrite Hnil in Hget. cbn in Hget.
  unfold PurchaseOrderItem.pending_quantity in Hget. cbv zeta in Hget.
  destruct (Z.ltb_spec 0 (PurchaseOrderItem.quantity item
                          - PurchaseOrderItem.received_quantity item)); lia.
Qed.

Lemma pending_entries_empty (items : list PurchaseOrderItem.t) :
  Forall (λ item, PurchaseOrderItem.quantity item ≤ PurchaseOrderItem.received_quantity item)
    items →
  pending_entries items = [].
Proof.
  unfold pending_entries. intros Hall.
  cut (∀ acc : dict Z,
         foldl (λ quantities item,
                  if 0 <? PurchaseOrderItem.pending_quantity item
                  then dict_set (PurchaseOrderItem.id item)
                         (PurchaseOrderItem.pending_quantity item) quantities
                  else quantities) acc items = acc); [by intros ->|].
  induction Hall as [|item items Hle _ IH]; intros acc; [done|].
  cbn [foldl].
  assert ((0 <? PurchaseOrderItem.pending_quantity item) = false) as ->; [|apply IH].
  apply Z.ltb_ge. unfold PurchaseOrderItem.pending_quantity. cbv zeta.
  destruct (Z.ltb_spec 0 (PurchaseOrderItem.quantity item
                          - PurchaseOrderItem.received_quantity item)); lia.
Qed.

Lemma total_for_filter {A} (f : A → Z * Z) (P : A → Prop) `{∀ x, Decision (P x)}
    (l : list A) pk :
  (∀ x, x ∈ l → ¬ P x → (f x).2 = 0) →
  total_for pk (f <$> filter P l) = total_for pk (f <$> l).
Proof.
  induction l as [|x l IH]; intros Hz; [done|].
  assert (∀ x0, x0 ∈ l → ¬ P x0 → (f x0).2 = 0) as Hz'
    by (intros x0 Hx0; apply Hz; by apply elem_of_cons; right).
  destruct (decide (P x)) as [HP|HP].
  - rewrite filter_cons_True by done. rewrite !fmap_cons.
    destruct (f x) as [k q] eqn:Hfx. cbn [total_for]. by rewrite IH.
  - rewrite filter_cons_False by done. rewrite fmap_cons.
    pose proof (Hz x ltac:(apply list_elem_of_here) HP) as Hq.
    destruct (f x) as [k q] eqn:Hfx. cbn [total_for]. cbn in Hq. subst q.
    rewrite IH by done. by case_bool_decide.
Qed.

(** X11. With no map, [receive_purchase_order] receives what is pending
    on every line: the order becomes RECEIVED with its receiver and time
    recorded, every line ends at the larger of its ordered and received
    quantities, and each material is credited with the pending
    quantities of its lines.  When nothing is pending the call fails
    and changes nothing. *)
Theorem receive_without_a_map_completes_the_order db now order stored received_by :
  purchase_orders db !! PurchaseOrder.id order = Some stored →
  PurchaseOrder.id stored = PurchaseOrder.id order →
  PurchaseOrder.status stored = PurchaseOrder.OPEN
  ∨ PurchaseOrder.status stored = PurchaseOrder.PARTIALLY_RECEIVED →
  pk_consistent (raw_materials db) →
  NoDup (PurchaseOrderItem.id <$> purchase_order_items db) →
  item_materials_exist db (lines_of_purchase_order db (PurchaseOrder.id order)) →
  let pk := PurchaseOrder.id order in
  let items := lines_of_purchase_order db pk in
  (items ≠ [] →
   Forall (λ item, PurchaseOrderItem.quantity item ≤ PurchaseOrderItem.received_quantity item)
     items →
   receive_purchase_order now order received_by None db
   = (inl (ValidationError (Msg "No pending quantities left to receive.")), db))
  ∧ (Exists (λ item, PurchaseOrderItem.received_quantity item
                     < PurchaseOrderItem.quantity item) items →
     ∃ order' db',
       receive_purchase_order now order received_by None db = (inr order', db')
       ∧ PurchaseOrder.status order' = PurchaseOrder.RECEIVED
       ∧ PurchaseOrder.received_by order' = Some received_by
       ∧ PurchaseOrder.received_at order' = Some now
       ∧ purchase_orders db' !! pk = Some order'
       ∧ Forall2 (λ item item',
             PurchaseOrderItem.id item' = PurchaseOrderItem.id item
             ∧ PurchaseOrderItem.quantity item' = PurchaseOrderItem.quantity item
             ∧ PurchaseOrderItem.received_quantity item'
               = Z.max (PurchaseOrderItem.received_quantity item)
                   (PurchaseOrderItem.quantity item))
           items (lines_of_purchase_order db' pk)
       ∧ ∀ k, balance db' k
              = (λ b, b + total_for k
                            ((λ item, (PurchaseOrderItem.material_id item,
                                       PurchaseOrderItem.pending_quantity item)) <$> items))
                <$> balance db k).
Proof.
  intros Hst Hid Hs Hpk Hnd Hfk pk items.
  assert (NoDup (PurchaseOrderItem.id <$> items)) as Hndi
    by apply lines_of_purchase_order_NoDup, Hnd.
  pose proof (receive_run db now order stored received_by None Hst Hid Hs Hpk Hnd Hfk)
    as Hrun. cbv zeta in Hrun. fold pk items in Hrun.
  split.
  - intros Hne Hfull. rewrite Hrun, (match_nonempty items _ _ Hne).
    unfold resolve_quantities. by rewrite (pending_entries_empty items Hfull).
  - intros Hpend.
    assert (items ≠ []) as Hne by (intros Hnil; rewrite Hnil in Hpend; by apply Exists_nil in Hpend).
    rewrite (match_nonempty items _ _ Hne) in Hrun.
    pose proof (pending_entries_nonempty items Hndi Hpend) as Hq.
    set (quantities := pending_entries items) in *.
    assert (resolve_quantities None items = inr quantities) as Hres.
    { unfold resolve_quantities. fold quantities. by destruct quantities. }
    rewrite Hres in Hrun.
    assert (Forall (λ kv, ∃ item, item_map_of items !! kv.1 = Some item
                          ∧ kv.2 ≤ PurchaseOrderItem.pending_quantity item) quantities)
      as Hok.
    { apply Forall_forall. intros [k v] Hin.
      apply pending_entries_elem_of in Hin as (item & Hitem & <- & <-).
      exists item. split; [by apply item_map_of_lookup | done]. }
    assert (existsb (λ kv, bool_decide (item_map_of items !! kv.1 = None)) quantities
            = false) as Hknown.
    { apply unknown_ids_false. eapply Forall_impl; [exact Hok|].
      intros kv (item & Hitem & _). eauto. }
    rewrite Hknown, (first_excess_ok _ _ _ Hok) in Hrun.
    assert (∀ item, item ∈ items →
              receive_qty quantities item = PurchaseOrderItem.pending_quantity item) as Hqty
      by (intros item Hin; by apply receive_qty_pending_entries).
    assert (Forall (λ item, PurchaseOrderItem.quantity item
                            ≤ PurchaseOrderItem.received_quantity item)
              (receive_line quantities <$> items)) as Hfull.
    { apply Forall_fmap, Forall_forall. intros item Hin. cbn.
      rewrite receive_line_quantity, receive_line_received, (Hqty item Hin).
      pose proof (pending_quantity_nonneg item). pose proof (pending_quantity_max item).
      lia. }
    pose proof (proj1 (derive_status_cases _) Hfull) as Hstatus.
    eexists _, _. split; [exact Hrun|].
    unfold received_order. rewrite Hstatus. rewrite bool_decide_eq_true_2 by done.
    cbn [PurchaseOrder.status PurchaseOrder.received_by PurchaseOrder.received_at
         PurchaseOrder.set_received PurchaseOrder.set_status purchase_orders].
    split; [reflexivity|]. split; [reflexivity|]. split; [reflexivity|].
    split; [apply lookup_insert_eq|]. split.
    + unfold lines_of_purchase_order at 1. cbn [purchase_order_items].
      rewrite save_rows_same_order.
      * apply Forall2_fmap_same. intros item Hin.
        rewrite receive_line_id, receive_line_quantity, receive_line_received,
          (Hqty item Hin).
        pose proof (pending_quantity_nonneg item). pose proof (pending_quantity_max item).
        split; [done|]. split; [done|]. lia.
      * intros r Hr Hrpk. apply list_elem_of_fmap_2. unfold items, lines_of_purchase_order.
        apply list_elem_of_filter. done.
    + intros k. erewrite balance_apply_moves by reflexivity.
      assert (total_for k (receipt_move quantities <$> accepted quantities items)
              = total_for k ((λ item, (PurchaseOrderItem.material_id item,
                                       PurchaseOrderItem.pending_quantity item)) <$> items))
        as ->; [|done].
      unfold accepted. rewrite total_for_filter.
      * f_equal. apply list_fmap_ext. intros i item Hin. unfold receipt_move.
        rewrite Hqty; [done|]. by eapply list_elem_of_lookup_2.
      * intros item Hin Hno. unfold receipt_move. cbn [snd].
        rewrite (Hqty item Hin) in *. pose proof (pending_quantity_nonneg item). lia.
Qed.

Lemma receive_guard db now (order stored : PurchaseOrder.t) received_by line_quantities :
  purchase_orders db !! PurchaseOrder.id order = Some stored →
  (PurchaseOrder.status stored = PurchaseOrder.CANCELLED →
     receive_purchase_order now order received_by line_quantities db
     = (inl (ValidationError (Msg "Cancelled purchase order cannot be received.")), db))
  ∧ (PurchaseOrder.status stored = PurchaseOrder.RECEIVED →
     receive_purchase_order now order received_by line_quantities db
     = (inl (ValidationError (Msg "Purchase order is already fully received.")), db)).
Proof.
  intros Hst. unfold receive_purchase_order. split; intros Hs.
  - eapply atomic_err. rewrite (PurchaseOrder_get_run _ _ _ _ Hst), Hs. reflexivity.
  - eapply atomic_err. rewrite (PurchaseOrder_get_run _ _ _ _ Hst), Hs. reflexivity.
Qed.

(** X12. The flags that the pages read from an order say what the
    service functions then accept: [cancel_purchase_order] succeeds
    exactly when [can_cancel] holds of the stored order, a receipt can
    succeed only when [can_receive] holds and a reopening only when
    [can_reopen] holds; when a flag is off, the call fails and changes
    nothing. *)
Theorem purchase_order_flags_are_the_guards
    db now order stored actor line_quantities :
  purchase_orders db !! PurchaseOrder.id order = Some stored →
  (can_cancel stored = true
   ↔ ∃ order' db', cancel_purchase_order now order actor db = (inr order', db'))
  ∧ (can_cancel stored = false →
     ∃ msg, cancel_purchase_order now order actor db = (inl (ValidationError msg), db))
  ∧ ((∃ order' db',
        receive_purchase_order now order actor line_quantities db = (inr order', db')) →
     can_receive stored = true)
  ∧ (can_receive stored = false →
     ∃ msg, receive_purchase_order now order actor line_quantities db
            = (inl (ValidationError msg), db))
  ∧ ((∃ order' db', reopen_purchase_order order db = (inr order', db')) →
     can_reopen stored = true)
  ∧ (can_reopen stored = false →
     reopen_purchase_order order db
     = (inl (ValidationError (Msg "Only cancelled purchase orders can be reopened.")), db)).
Proof.
  intros Hst. unfold can_cancel, can_receive, can_reopen.
  pose proof (cancel_purchase_run db now order stored actor Hst) as Hcancel.
  pose proof (reopen_run db order stored Hst) as Hreopen. cbv zeta in Hreopen.
  destruct (receive_guard db now order stored actor line_quantities Hst) as [Hrc Hrr].
  destruct (PurchaseOrder.status stored) eqn:Hs; cbn in Hcancel, Hreopen;
    (split; [split|split; [|split; [|split; [|split]]]]).
  all: try (intros _; rewrite Hcancel; by eauto).
  all: try (intros _; exact Hreopen).
  all: try (intros; done).
  all: try (intros (? & ? & H); rewrite ?Hcancel, ?Hreopen in H; done).
  all: try (intros (? & ? & H); rewrite (Hrc eq_refl) in H; done).
  all: try (intros (? & ? & H); rewrite (Hrr eq_refl) in H; done).
  all: try (intros _; rewrite (Hrc eq_refl); by eauto).
  all: try (intros _; rewrite (Hrr eq_refl); by eauto).
Qed.

Lemma shortages_of_uncovered_lines db (lines : list ProductionConsumption.t) :
  Forall2 (λ c sh,
      match raw_materials db !! ProductionConsumption.material_id c with
      | None => sh = MissingFromInventory (ProductionConsumption.material_id c)
      | Some m =>
        RawMaterial.current_stock m < ProductionConsumption.required_qty c
        ∧ sh = Short (RawMaterial.name m) (ProductionConsumption.required_qty c)
                 (RawMaterial.unit m) (RawMaterial.current_stock m)
      end)
    (filter (λ c, ¬ covered db (line_move c)) lines)
    (omap (line_shortage (raw_materials db)) lines).
Proof.
  induction lines as [|c lines IH]; [constructor|].
  cbn [omap list_omap]. fold (omap (line_shortage (raw_materials db)) lines).
  destruct (line_shortage (raw_materials db) c) as [sh|] eqn:Hsh.
  - rewrite filter_cons_True; last first.
    { intros Hc. apply line_shortage_covered in Hc. congruence. }
    constructor; [|exact IH].
    unfold line_shortage in Hsh.
    destruct (raw_materials db !! ProductionConsumption.material_id c) as [m|];
      [|congruence].
    destruct (Z.ltb_spec (RawMaterial.current_stock m)
                (ProductionConsumption.required_qty c)); [|done].
    split; [done | congruence].
  - rewrite filter_cons_False; [exact IH|].
    intros Hc. apply Hc. by apply line_shortage_covered.
Qed.

(** X13. A release that falls short names every line it cannot cover,
    in the order of the lines: one entry with the material's name, the
    required quantity, the unit and the balance for a material that is
    short, and one entry with the material's key for a material that is
    no longer stored.  Nothing is written. *)
Theorem release_lists_every_shortage db order stored released_by :
  production_orders db !! ProductionOrder.id order = Some stored →
  ProductionOrder.id stored = ProductionOrder.id order →
  ProductionOrder.status stored = ProductionOrder.AWAITING_RM_RELEASE →
  ProductionOrder.raw_material_released stored = false →
  pk_consistent (raw_materials db) →
  let short := filter (λ c, ¬ covered db (line_move c))
                 (lines_of db (ProductionOrder.id order)) in
  short ≠ [] →
  ∃ shortages,
    release_raw_materials_for_production_order order released_by db
    = (inl (ValidationError (MsgShortages "Insufficient stock for release. " shortages)), db)
    ∧ Forall2 (λ c sh,
          match raw_materials db !! ProductionConsumption.material_id c with
          | None => sh = MissingFromInventory (ProductionConsumption.material_id c)
          | Some m =>
            RawMaterial.current_stock m < ProductionConsumption.required_qty c
            ∧ sh = Short (RawMaterial.name m) (ProductionConsumption.required_qty c)
                     (RawMaterial.unit m) (RawMaterial.current_stock m)
          end) short shortages.
Proof.
  intros Hst Hid Hs Hrel Hpk short Hshort.
  assert (lines_of db (ProductionOrder.id order) ≠ []) as Hne.
  { intros Hnil. apply Hshort. unfold short. by rewrite Hnil. }
  pose proof (shortages_of_uncovered_lines db (lines_of db (ProductionOrder.id order)))
    as Hall. fold short in Hall.
  rewrite (release_run db order stored released_by Hst Hid Hs Hrel Hne Hpk). cbv zeta.
  destruct (omap _ (lines_of db (ProductionOrder.id order))) as [|sh shs] eqn:Hsh.
  - apply Forall2_nil_inv_r in Hall. done.
  - exists (sh :: shs). done.
Qed.

(** X14. A call on an order that is not stored ends with [DoesNotExist]
    and writes nothing, for each of the service functions that start
    by locking the order. *)
Theorem missing_order_is_reported db :
  (∀ order actor,
     production_orders db !! ProductionOrder.id order = None →
     release_raw_materials_for_production_order order actor db = (inl DoesNotExist, db)
     ∧ reject_raw_materials_for_production_order order db = (inl DoesNotExist, db)
     ∧ cancel_production_order order actor db = (inl DoesNotExist, db))
  ∧ (∀ order now actor line_quantities,
       purchase_orders db !! PurchaseOrder.id order = None →
       receive_purchase_order now order actor line_quantities db = (inl DoesNotExist, db)
       ∧ cancel_purchase_order now order actor db = (inl DoesNotExist, db)
       ∧ reopen_purchase_order order db = (inl DoesNotExist, db)).
Proof.
  split.
  - intros order actor Hnone. repeat split.
    + eapply atomic_err. by apply ProductionOrder_get_missing.
    + rewrite reject_run, Hnone. reflexivity.
    + eapply atomic_err. by apply ProductionOrder_get_missing.
  - intros order now actor lq Hnone. repeat split.
    + eapply atomic_err. by apply PurchaseOrder_get_missing.
    + eapply atomic_err. by apply PurchaseOrder_get_missing.
    + eapply atomic_err. by apply PurchaseOrder_get_missing.
Qed.

(** ** The receive form *)














(** ** Completing a production order *)

Lemma runP_bind {A B} (m : MP A) (f : A → MP B) p :
  (m ≫= f) p =
  match m p with
  | (inl e, p') => (inl e, p')
  | (inr a, p') => f a p'
  end.
Proof. reflexivity. Qed.

Lemma lift_run {A} (m : M A) p :
  lift m p = ((m (stock_db p)).1,
              mkPlant (m (stock_db p)).2 (finished_stock p) (finished_stock_ledger p)
                (completions p)).
Proof. unfold lift. by destruct (m (stock_db p)). Qed.

Lemma atomicP_failure_rolls_back {A} (body : MP A) p e p' :
  atomicP body p = (inl e, p') → p' = p.
Proof. unfold atomicP. destruct (body p) as [[?|?] ?]; congruence. Qed.

Ltac pcompute :=
  cbv beta iota zeta delta [mbind MP_bind mret MP_ret raiseP modify_plant lift
    FinishedStock_save FinishedStockLedger_create Completion_save ProductionOrder_save
    M_bind M_ret get_db modify_db].

(** [complete_production_order] on a stored order: the checks in the
    order of the source, then the writes. *)
Lemma complete_run p now (order stored : ProductionOrder.t) produced_qty scrap_qty actor :
  production_orders (stock_db p) !! ProductionOrder.id order = Some stored →
  ProductionOrder.id stored = ProductionOrder.id order →
  complete_production_order now order produced_qty scrap_qty actor p =
  let produced := Decimal.quantize_milli produced_qty in
  let scrap := Decimal.quantize_milli scrap_qty in
  let db := stock_db p in
  if produced <=? 0 then
    (inl (ValidationError (Msg "Produced quantity must be greater than zero.")), p)
  else if scrap <? 0 then
    (inl (ValidationError (Msg "Scrap quantity cannot be negative.")), p)
  else if bool_decide (ProductionOrder.status stored = ProductionOrder.CANCELLED) then
    (inl (ValidationError (Msg "Cancelled production order cannot be completed.")), p)
  else if bool_decide (ProductionOrder.status stored = ProductionOrder.COMPLETED) then
    (inl (ValidationError (Msg "Production order is already completed.")), p)
  else
    let completion := Completion.mk produced scrap (Some actor) (Some now) in
    (inr (ProductionOrder.set_status ProductionOrder.COMPLETED stored, completion),
     mkPlant
       (set_production_orders
          (alter (ProductionOrder.set_status ProductionOrder.COMPLETED)
             (ProductionOrder.id order))
          (production_order_seq db) db)
       (<[ProductionOrder.product stored
          := default 0 (finished_stock p !! ProductionOrder.product stored) + produced]>
          (finished_stock p))
       (finished_stock_ledger p ++
          [FinishedStockLedger.mk (ProductionOrder.product stored) FinishedStockLedger.IN
             produced (CompletedProductionOrder (ProductionOrder.id order))
             "production_order" (ProductionOrder.id order) actor])
       (<[ProductionOrder.id order := completion]> (completions p))).
Proof.
  intros Hst Hid. unfold complete_production_order. cbv zeta.
  destruct (Decimal.quantize_milli produced_qty <=? 0); [reflexivity|].
  destruct (Decimal.quantize_milli scrap_qty <? 0); [reflexivity|].
  assert (lift (ProductionOrder_get (ProductionOrder.id order)) p = (inr stored, p)) as Hget.
  { rewrite lift_run. unfold ProductionOrder_get. rewrite run_bind.
    change (get_db (stock_db p)) with (inr (stock_db p) : exn + _, stock_db p).
    cbv beta iota. rewrite Hst. cbn. by destruct p. }
  unfold atomicP. rewrite runP_bind, Hget.
  case_bool_decide as Hc; [reflexivity|].
  case_bool_decide as Hd; [reflexivity|].
  rewrite !runP_bind. unfold FinishedStock_get_or_create.
  destruct (finished_stock p !! ProductionOrder.product stored) as [cur|] eqn:Hfs.
  - pcompute. cbn [stock_db finished_stock finished_stock_ledger completions].
    unfold set_production_orders.
    cbn [production_orders production_order_seq ProductionOrder.id ProductionOrder.status
         ProductionOrder.set_status].
    rewrite Hid, lookup_alter_eq, Hst. cbn. reflexivity.
  - pcompute. cbn [stock_db finished_stock finished_stock_ledger completions].
    unfold set_production_orders.
    cbn [production_orders production_order_seq ProductionOrder.id ProductionOrder.status
         ProductionOrder.set_status].
    rewrite Hid, lookup_alter_eq, Hst. cbn. rewrite insert_insert_eq. reflexivity.
Qed.

(** X17. [complete_production_order] on an order that is neither
    cancelled nor completed, with a produced quantity that is positive
    and a scrap quantity that is not negative once rounded to three
    places: the order becomes COMPLETED and records the two quantities,
    who completed it and when; the finished stock of its product grows
    by the produced quantity, from zero if the product had none, and
    one IN row of that quantity is written to the finished-stock
    ledger.  No raw material moves.  Whether the materials of the order
    were released is not looked at.  A cancelled or completed order is
    refused. *)
Theorem complete_credits_the_finished_stock
    p now order stored produced_qty scrap_qty actor :
  production_orders (stock_db p) !! ProductionOrder.id order = Some stored →
  ProductionOrder.id stored = ProductionOrder.id order →
  let produced := Decimal.quantize_milli produced_qty in
  let scrap := Decimal.quantize_milli scrap_qty in
  0 < produced →
  0 ≤ scrap →
  (ProductionOrder.status stored = ProductionOrder.CANCELLED →
     complete_production_order now order produced_qty scrap_qty actor p
     = (inl (ValidationError (Msg "Cancelled production order cannot be completed.")), p))
  ∧ (ProductionOrder.status stored = ProductionOrder.COMPLETED →
     complete_production_order now order produced_qty scrap_qty actor p
     = (inl (ValidationError (Msg "Production order is already completed.")), p))
  ∧ (ProductionOrder.status stored ≠ ProductionOrder.CANCELLED →
     ProductionOrder.status stored ≠ ProductionOrder.COMPLETED →
     ∃ order' completion p' e,
       complete_production_order now order produced_qty scrap_qty actor p
       = (inr (order', completion), p')
       ∧ order' = ProductionOrder.set_status ProductionOrder.COMPLETED stored
       ∧ completion = Completion.mk produced scrap (Some actor) (Some now)
       ∧ variance_qty order' completion = produced - ProductionOrder.planned_qty stored
       ∧ production_orders (stock_db p') !! ProductionOrder.id order = Some order'
       ∧ completion_of p' (ProductionOrder.id order) = completion
       ∧ finished_stock p' !! ProductionOrder.product stored
         = Some (default 0 (finished_stock p !! ProductionOrder.product stored) + produced)
       ∧ (∀ other, other ≠ ProductionOrder.product stored →
            finished_stock p' !! other = finished_stock p !! other)
       ∧ finished_stock_ledger p' = finished_stock_ledger p ++ [e]
       ∧ FinishedStockLedger.product e = ProductionOrder.product stored
       ∧ FinishedStockLedger.txn_type e = FinishedStockLedger.IN
       ∧ FinishedStockLedger.quantity e = produced
       ∧ FinishedStockLedger.reference_id e = ProductionOrder.id order
       ∧ raw_materials (stock_db p') = raw_materials (stock_db p)
       ∧ inventory_ledger (stock_db p') = inventory_ledger (stock_db p)
       ∧ production_consumptions (stock_db p') = production_consumptions (stock_db p)).
Proof.
  intros Hst Hid produced scrap Hprod Hscrap.
  rewrite (complete_run p now order stored produced_qty scrap_qty actor Hst Hid).
  cbv zeta. fold produced scrap.
  destruct (Z.leb_spec produced 0); [lia|]. destruct (Z.ltb_spec scrap 0); [lia|].
  split; [|split].
  - intros ->. reflexivity.
  - intros ->. reflexivity.
  - intros Hc Hd. rewrite !bool_decide_eq_false_2 by done.
    eexists _, _, _, _. split; [reflexivity|].
    cbn [stock_db finished_stock finished_stock_ledger completions production_orders
         raw_materials inventory_ledger production_consumptions set_production_orders
         FinishedStockLedger.product FinishedStockLedger.txn_type
         FinishedStockLedger.quantity FinishedStockLedger.reference_id].
    unfold set_production_orders. cbn [production_orders raw_materials inventory_ledger
      production_consumptions].
    split; [reflexivity|]. split; [reflexivity|]. split; [reflexivity|].
    split. { rewrite lookup_alter_eq, Hst. reflexivity. }
    split. { unfold completion_of. cbn [completions]. by rewrite lookup_insert_eq. }
    split. { by rewrite lookup_insert_eq. }
    split. { intros other Hother. by rewrite lookup_insert_ne. }
    repeat split; reflexivity.
Qed.

Lemma round_half_even_small n d :
  0 < d → 2 * n ≤ d → Decimal.round_half_even n d ≤ 0.
Proof.
  intros Hd Hn. destruct (round_half_even_nearest n d Hd) as [Hnear Htie].
  set (q := Decimal.round_half_even n d) in *.
  destruct (decide (q ≤ 0)) as [|Hq]; [done|]. exfalso.
  assert (q = 1) as Hq1 by nia. rewrite Hq1 in *.
  assert (2 * Z.abs (1 * d - n) = d) as Heq by lia.
  specialize (Htie Heq). done.
Qed.

Lemma round_half_even_small_negative n d :
  0 < d → - d ≤ 2 * n → 0 ≤ Decimal.round_half_even n d.
Proof.
  intros Hd Hn. destruct (round_half_even_nearest n d Hd) as [Hnear Htie].
  set (q := Decimal.round_half_even n d) in *.
  destruct (decide (0 ≤ q)) as [|Hq]; [done|]. exfalso.
  assert (q = -1) as Hq1 by nia. rewrite Hq1 in *.
  assert (2 * Z.abs (-1 * d - n) = d) as Heq by lia.
  specialize (Htie Heq). done.
Qed.

(** X18. [complete_production_order] checks the two quantities after
    rounding them to three places and before it looks for the order.
    So a produced quantity of at most half a thousandth is refused even
    when it is positive, and a scrap quantity is refused only from
    below minus half a thousandth.  The failing call writes nothing. *)
Theorem complete_checks_the_rounded_quantities
    p now order produced_qty scrap_qty actor :
  (Decimal.quantize_milli produced_qty ≤ 0 →
     complete_production_order now order produced_qty scrap_qty actor p
     = (inl (ValidationError (Msg "Produced quantity must be greater than zero.")), p))
  ∧ (0 < Decimal.quantize_milli produced_qty →
     Decimal.quantize_milli scrap_qty < 0 →
     complete_production_order now order produced_qty scrap_qty actor p
     = (inl (ValidationError (Msg "Scrap quantity cannot be negative.")), p))
  ∧ (Decimal.exp produced_qty + 3 < 0 →
     2 * Decimal.coef produced_qty ≤ 10 ^ (- (Decimal.exp produced_qty + 3)) →
     Decimal.quantize_milli produced_qty ≤ 0)
  ∧ (Decimal.exp scrap_qty + 3 < 0 →
     - 10 ^ (- (Decimal.exp scrap_qty + 3)) ≤ 2 * Decimal.coef scrap_qty →
     0 ≤ Decimal.quantize_milli scrap_qty).
Proof.
  unfold complete_production_order. cbv zeta. repeat split.
  - intros Hle. by destruct (Z.leb_spec (Decimal.quantize_milli produced_qty) 0); [|lia].
  - intros Hpos Hneg.
    destruct (Z.leb_spec (Decimal.quantize_milli produced_qty) 0); [lia|].
    by destruct (Z.ltb_spec (Decimal.quantize_milli scrap_qty) 0); [|lia].
  - intros Hexp Hsmall. unfold Decimal.quantize_milli.
    destruct (Z.leb_spec 0 (Decimal.exp produced_qty + 3)); [lia|].
    apply round_half_even_small; [apply Z.pow_pos_nonneg; lia | done].
  - intros Hexp Hsmall. unfold Decimal.quantize_milli.
    destruct (Z.leb_spec 0 (Decimal.exp scrap_qty + 3)); [lia|].
    apply round_half_even_small_negative; [apply Z.pow_pos_nonneg; lia | done].
Qed.

(** X19. A completed order is final: after a successful
    [complete_production_order], a second completion fails, so the
    finished stock is credited once, and the order can be neither
    cancelled, so the materials it used are not given back, nor
    released or rejected.  Each of these calls fails without a write. *)
Theorem completed_order_is_final
    p now order stored produced_qty scrap_qty actor order' completion p' :
  production_orders (stock_db p) !! ProductionOrder.id order = Some stored →
  ProductionOrder.id stored = ProductionOrder.id order →
  complete_production_order now order produced_qty scrap_qty actor p
  = (inr (order', completion), p') →
  (∀ now' produced' scrap' again,
     0 < Decimal.quantize_milli produced' →
     0 ≤ Decimal.quantize_milli scrap' →
     complete_production_order now' order produced' scrap' again p'
     = (inl (ValidationError (Msg "Production order is already completed.")), p'))
  ∧ (∀ again,
       cancel_production_order order again (stock_db p')
       = (inl (ValidationError (Msg "Completed production order cannot be cancelled.")),
          stock_db p'))
  ∧ (∀ again,
       release_raw_materials_for_production_order order again (stock_db p')
       = (inl (ValidationError
                 (Msg "This production order is not awaiting raw material release.")),
          stock_db p'))
  ∧ reject_raw_materials_for_production_order order (stock_db p')
    = (inl (ValidationError
              (Msg "This production order is not awaiting raw material release.")),
       stock_db p').
Proof.
  intros Hst Hid Hrun.
  rewrite (complete_run p now order stored produced_qty scrap_qty actor Hst Hid) in Hrun.
  cbv zeta in Hrun. repeat case_match; try done. injection Hrun as _ _ Hp'.
  set (stored' := ProductionOrder.set_status ProductionOrder.COMPLETED stored).
  assert (production_orders (stock_db p') !! ProductionOrder.id order = Some stored') as Hst'.
  { rewrite <- Hp'. unfold set_production_orders. cbn [stock_db production_orders].
    rewrite lookup_alter_eq, Hst. reflexivity. }
  clear Hp'.
  split; [|split; [|split]].
  - intros now' produced' scrap' again Hp Hs.
    rewrite (complete_run p' now' order stored' produced' scrap' again Hst' Hid).
    cbv zeta. destruct (Z.leb_spec (Decimal.quantize_milli produced') 0); [lia|].
    destruct (Z.ltb_spec (Decimal.quantize_milli scrap') 0); [lia|]. reflexivity.
  - intros again.
    by apply (proj2 (cancel_production_guard (stock_db p') order stored' again Hst')).
  - intros again.
    by apply (proj1 (release_guard (stock_db p') order stored' again Hst')).
  - rewrite reject_run, Hst'. reflexivity.
Qed.

(** ** What every call keeps *)

Lemma apply_moves_app moves1 moves2 rows :
  apply_moves (moves1 ++ moves2) rows = apply_moves moves2 (apply_moves moves1 rows).
Proof. unfold apply_moves. apply foldl_app. Qed.

Lemma same_line_refl i : same_line i i.
Proof. unfold same_line. repeat split; lia. Qed.

Lemma same_line_trans i1 i2 i3 : same_line i1 i2 → same_line i2 i3 → same_line i1 i3.
Proof. unfold same_line. intros (?&?&?&?&?&?) (?&?&?&?&?&?). repeat split; congruence || lia. Qed.

Lemma Forall2_chain {A} (R : A → A → Prop) (l1 l2 l3 : list A) :
  (∀ x y z, R x y → R y z → R x z) →
  Forall2 R l1 l2 → Forall2 R l2 l3 → Forall2 R l1 l3.
Proof.
  intros HR H12. revert l3. induction H12 as [|x y l1 l2 Hxy _ IH]; intros l3 H23.
  - by apply Forall2_nil_inv_l in H23 as ->.
  - apply Forall2_cons_inv_l in H23 as (z & l3' & Hyz & H23 & ->).
    constructor; eauto.
Qed.

Lemma step_refl db : step db db.
Proof.
  split; try done.
  - exists [], []. by rewrite app_nil_r.
  - exists []. by rewrite app_nil_r.
  - exists (purchase_order_items db), []. rewrite app_nil_r. split; [done|].
    apply Forall_Forall2_diag, Forall_forall. intros i _. apply same_line_refl.
Qed.

Lemma step_trans db1 db2 db3 : step db1 db2 → step db2 db3 → step db1 db3.
Proof.
  intros [Hp1 Hb1 (m1 & e1 & Hr1 & Hl1 & Hn1) (n1 & Hc1) (k1 & w1 & Hi1 & Hs1)]
         [Hp2 Hb2 (m2 & e2 & Hr2 & Hl2 & Hn2) (n2 & Hc2) (k2 & w2 & Hi2 & Hs2)].
  split.
  - congruence.
  - congruence.
  - exists (m1 ++ m2), (e1 ++ e2). rewrite Hr2, Hr1, Hl2, Hl1, apply_moves_app, app_assoc.
    split; [done|]. split; [done|]. intros pk.
    by rewrite ledger_net_app, total_for_app, Hn1, Hn2.
  - exists (n1 ++ n2). by rewrite Hc2, Hc1, app_assoc.
  - rewrite Hi1 in Hs2. apply Forall2_app_inv_l in Hs2 as (ka & kb & Hka & Hkb & ->).
    exists ka, (kb ++ w2). rewrite Hi2, app_assoc. split; [done|].
    eapply Forall2_chain; [|exact Hs1|exact Hka].
    intros ? ? ?. apply same_line_trans.
Qed.

(** A database that differs from a well-formed one by stock movements
    with their ledger rows, by new consumption lines and by new or
    further received purchase lines is well formed. *)
Lemma wf_step_intro db db' moves entries new_lines kept new_items :
  well_formed db →
  partners db' = partners db →
  bom_items db' = bom_items db →
  raw_materials db' = apply_moves moves (raw_materials db) →
  inventory_ledger db' = inventory_ledger db ++ entries →
  (∀ pk, ledger_net pk entries = total_for pk moves) →
  map_Forall (λ k o, ProductionOrder.id o = k) (production_orders db') →
  production_order_seq db ≤ production_order_seq db' →
  production_consumptions db' = production_consumptions db ++ new_lines →
  Forall (λ c, is_Some (raw_materials db !! ProductionConsumption.material_id c)
               ∧ ProductionConsumption.production_order c ≤ production_order_seq db')
    new_lines →
  map_Forall (λ k o, PurchaseOrder.id o = k) (purchase_orders db') →
  purchase_order_seq db ≤ purchase_order_seq db' →
  purchase_order_item_seq db ≤ purchase_order_item_seq db' →
  purchase_order_items db' = kept ++ new_items →
  Forall2 same_line (purchase_order_items db) kept →
  Forall (λ i, is_Some (raw_materials db !! PurchaseOrderItem.material_id i)
               ∧ purchase_order_item_seq db < PurchaseOrderItem.id i
               ∧ PurchaseOrderItem.id i ≤ purchase_order_item_seq db'
               ∧ PurchaseOrderItem.purchase_order i ≤ purchase_order_seq db') new_items →
  NoDup (PurchaseOrderItem.id <$> new_items) →
  well_formed db' ∧ step db db'.
Proof.
  intros [Hm Hpa Ho Hpo Hb Hl Hi Hnd] Hp' Hb' Hr' Hl' Hnet Ho' Hseq Hc' Hnew Hpo' Hpseq
    Hiseq Hi' Hkept Hnewi Hndn.
  assert (∀ k, is_Some (raw_materials db !! k) → is_Some (raw_materials db' !! k)) as Hkeep.
  { intros k Hk. rewrite Hr'. by apply is_Some_apply_moves. }
  assert (PurchaseOrderItem.id <$> kept = PurchaseOrderItem.id <$> purchase_order_items db)
    as Hids.
  { clear -Hkept. induction Hkept as [|i i' l l' (Hid & _) _ IH]; [done|].
    rewrite !fmap_cons. by rewrite Hid, IH. }
  split; split; try done.
  - rewrite Hr'. by apply pk_consistent_apply_moves.
  - by rewrite Hp'.
  - rewrite Hb'. eapply Forall_impl; [exact Hb|]. intros b. apply Hkeep.
  - rewrite Hc'. apply Forall_app. split.
    + eapply Forall_impl; [exact Hl|]. intros c [Hfk Hle]. split; [by apply Hkeep | lia].
    + eapply Forall_impl; [exact Hnew|]. intros c [Hfk Hle]. split; [by apply Hkeep | done].
  - rewrite Hi'. apply Forall_app. split.
    + eapply (Forall2_Forall_transfer same_line); [exact Hkept | | exact Hi].
      intros i i' (Hid & Hpo1 & Hmat & _) (Hfk & Hle & Hle2).
      rewrite Hid, Hpo1, Hmat. split; [by apply Hkeep | lia].
    + eapply Forall_impl; [exact Hnewi|]. intros i (Hfk & _ & Hle & Hle2).
      split; [by apply Hkeep | done].
  - rewrite Hi', fmap_app, Hids. apply NoDup_app. split; [done|]. split; [|done].
    intros k Hk Hk'. apply list_elem_of_fmap in Hk as (i & -> & Hin).
    apply list_elem_of_fmap in Hk' as (i' & Heq & Hin').
    rewrite Forall_forall in Hi, Hnewi.
    destruct (Hi _ Hin) as (_ & Hle & _). destruct (Hnewi _ Hin') as (_ & Hlt & _). lia.
  - by exists moves, entries.
  - by exists new_lines.
  - by exists kept, new_items.
Qed.

(** The same when nothing but the orders and their sequences changed. *)
Lemma wf_step_orders db db' :
  well_formed db →
  partners db' = partners db →
  bom_items db' = bom_items db →
  raw_materials db' = raw_materials db →
  inventory_ledger db' = inventory_ledger db →
  map_Forall (λ k o, ProductionOrder.id o = k) (production_orders db') →
  production_order_seq db' = production_order_seq db →
  production_consumptions db' = production_consumptions db →
  map_Forall (λ k o, PurchaseOrder.id o = k) (purchase_orders db') →
  purchase_order_seq db' = purchase_order_seq db →
  purchase_order_item_seq db' = purchase_order_item_seq db →
  purchase_order_items db' = purchase_order_items db →
  well_formed db' ∧ step db db'.
Proof.
  intros Hwf Hp Hb Hr Hl Ho Hs Hc Hpo Hps Hpis Hi.
  apply (wf_step_intro db db' [] [] [] (purchase_order_items db) []); try done.
  - by rewrite Hl, app_nil_r.
  - lia.
  - by rewrite Hc, app_nil_r.
  - lia.
  - lia.
  - by rewrite Hi, app_nil_r.
  - apply Forall_Forall2_diag, Forall_forall. intros i _. apply same_line_refl.
  - constructor.
Qed.

Lemma ids_after_alter {A} (key : A → Z) (f : A → A) k (m : gmap Z A) :
  (∀ x, key (f x) = key x) →
  map_Forall (λ k x, key x = k) m → map_Forall (λ k x, key x = k) (alter f k m).
Proof.
  intros Hf Hm k' x' Hl. destruct (decide (k' = k)) as [->|Hne].
  - rewrite lookup_alter_eq in Hl. destruct (m !! k) as [x|] eqn:Hx; [|done].
    injection Hl as <-. rewrite Hf. by apply (Hm k x).
  - rewrite lookup_alter_ne in Hl by done. by apply (Hm k' x').
Qed.

Lemma lines_of_elem_of db pk c :
  c ∈ lines_of db pk → c ∈ production_consumptions db.
Proof. unfold lines_of. intros Hin. by apply list_elem_of_filter in Hin as [_ ?]. Qed.

Lemma bom_of_elem_of db product b : b ∈ bom_of db product → b ∈ bom_items db.
Proof. unfold bom_of. intros Hin. by apply list_elem_of_filter in Hin as [_ ?]. Qed.

Lemma lines_of_purchase_order_elem_of db pk i :
  i ∈ lines_of_purchase_order db pk → i ∈ purchase_order_items db.
Proof.
  unfold lines_of_purchase_order. intros Hin. by apply list_elem_of_filter in Hin as [_ ?].
Qed.

Lemma wf_lines_exist db pk :
  well_formed db →
  Forall (λ c, is_Some (raw_materials db !! ProductionConsumption.material_id c))
    (lines_of db pk).
Proof.
  intros Hwf. apply Forall_forall. intros c Hc. apply lines_of_elem_of in Hc.
  pose proof (wf_lines _ Hwf) as Hl. rewrite Forall_forall in Hl. by apply Hl.
Qed.

Lemma wf_bom_exist db product :
  well_formed db → bom_materials_exist db (bom_of db product).
Proof.
  intros Hwf. apply Forall_forall. intros b Hb. apply bom_of_elem_of in Hb.
  pose proof (wf_bom _ Hwf) as Hl. rewrite Forall_forall in Hl. by apply Hl.
Qed.

Lemma wf_items_exist db pk :
  well_formed db → item_materials_exist db (lines_of_purchase_order db pk).
Proof.
  intros Hwf. apply Forall_forall. intros i Hi. apply lines_of_purchase_order_elem_of in Hi.
  pose proof (wf_items _ Hwf) as Hl. rewrite Forall_forall in Hl. by apply Hl.
Qed.

Lemma total_for_negate_net rows why rt ri actor pk moves :
  ledger_net pk (movement_entry rows InventoryLedger.OUT why rt ri actor <$> moves)
  = total_for pk (negate <$> moves).
Proof. by rewrite ledger_net_out, total_for_negate. Qed.

Ltac wf_side Hwf :=
  cbn [partners bom_items raw_materials inventory_ledger production_orders
       production_order_seq production_consumptions purchase_orders purchase_order_seq
       purchase_order_items purchase_order_item_seq];
  first
    [ exact Hwf | reflexivity | lia | by rewrite app_nil_r
    | apply (wf_purchase_orders _ Hwf) | apply (wf_orders _ Hwf)
    | by (apply ids_after_alter; [done | apply (wf_orders _ Hwf)])
    | by (apply Forall_Forall2_diag, Forall_forall; intros ? _; apply same_line_refl)
    | by constructor | idtac ].

(** *** Production orders *)

Lemma release_sound db order actor :
  well_formed db →
  let db' := (release_raw_materials_for_production_order order actor db).2 in
  well_formed db' ∧ step db db'.
Proof.
  intros Hwf.
  destruct (release_raw_materials_for_production_order order actor db) as [[e|order1] db1]
    eqn:Hrun; cbn [snd].
  { apply atomic_failure_rolls_back in Hrun as ->. split; [done | apply step_refl]. }
  destruct (production_orders db !! ProductionOrder.id order) as [stored|] eqn:Hst; last first.
  { unfold release_raw_materials_for_production_order in Hrun.
    erewrite atomic_err in Hrun; [done|]. by apply ProductionOrder_get_missing. }
  pose proof (wf_orders _ Hwf _ _ Hst) as Hid. cbn in Hid.
  destruct (release_ok_inv db order stored actor order1 db1 Hst Hid (wf_materials _ Hwf) Hrun)
    as (_ & _ & _ & _ & _ & ->).
  eapply wf_step_intro with (new_lines := []) (kept := purchase_order_items db)
    (new_items := []); wf_side Hwf.
  intros pk. apply total_for_negate_net.
Qed.

Lemma reject_sound db order :
  well_formed db →
  let db' := (reject_raw_materials_for_production_order order db).2 in
  well_formed db' ∧ step db db'.
Proof.
  intros Hwf. rewrite reject_run.
  destruct (production_orders db !! ProductionOrder.id order) as [stored|] eqn:Hst;
    [|split; [done | apply step_refl]].
  repeat case_match; cbn [snd]; try (split; [done | apply step_refl]).
  apply wf_step_orders; try done.
  - cbn. apply ids_after_alter; [done | apply (wf_orders _ Hwf)].
  - apply (wf_purchase_orders _ Hwf).
Qed.

Lemma cancel_production_sound db order actor :
  well_formed db →
  let db' := (cancel_production_order order actor db).2 in
  well_formed db' ∧ step db db'.
Proof.
  intros Hwf.
  destruct (cancel_production_order order actor db) as [[e|order1] db1] eqn:Hrun; cbn [snd].
  { apply atomic_failure_rolls_back in Hrun as ->. split; [done | apply step_refl]. }
  destruct (production_orders db !! ProductionOrder.id order) as [stored|] eqn:Hst; last first.
  { unfold cancel_production_order in Hrun.
    erewrite atomic_err in Hrun; [done|]. by apply ProductionOrder_get_missing. }
  pose proof (wf_orders _ Hwf _ _ Hst) as Hid. cbn in Hid.
  destruct (cancel_production_ok_inv db order stored actor order1 db1 Hst Hrun)
    as (Hc & Hd & _ & _).
  destruct (ProductionOrder.raw_material_released stored) eqn:Hrel.
  - rewrite (cancel_released_run db order stored actor Hst Hid Hc Hd Hrel
               (wf_materials _ Hwf) (wf_lines_exist db _ Hwf)) in Hrun.
    cbv zeta in Hrun. injection Hrun as _ <-.
    eapply wf_step_intro with (new_lines := []) (kept := purchase_order_items db)
      (new_items := []); wf_side Hwf.
    intros pk. apply ledger_net_in.
  - rewrite (cancel_unreleased_run db order stored actor Hst Hc Hd Hrel) in Hrun.
    injection Hrun as _ <-. apply wf_step_orders; try done.
    + cbn. apply ids_after_alter; [done | apply (wf_orders _ Hwf)].
    + apply (wf_purchase_orders _ Hwf).
Qed.

(** *** Stock adjustments *)

Lemma adjust_stock_run db material delta reason_ created_by :
  pk_consistent (raw_materials db) →
  adjust_stock material delta reason_ created_by db =
  if bool_decide (delta = 0) then
    (inl (ValueError (Msg "Adjustment quantity cannot be zero.")), db)
  else
    match raw_materials db !! RawMaterial.id material with
    | None => (inl DoesNotExist, db)
    | Some locked =>
      if RawMaterial.current_stock locked + delta <? 0 then
        (inl (ValueError (Msg "Stock cannot become negative.")), db)
      else
        (inr (RawMaterial.set_current_stock (RawMaterial.current_stock locked + delta) locked),
         mkDB (partners db)
           (apply_moves [(RawMaterial.id material, delta)] (raw_materials db))
           (inventory_ledger db ++
              [InventoryLedger.mk (RawMaterial.id material)
                 (if 0 <? delta then InventoryLedger.IN else InventoryLedger.OUT)
                 (Z.abs delta) (RawMaterial.unit locked) (ReasonText reason_)
                 "manual_adjustment" (RawMaterial.id material) created_by])
           (bom_items db) (production_orders db) (production_order_seq db)
           (production_consumptions db) (purchase_orders db) (purchase_order_seq db)
           (purchase_order_items db) (purchase_order_item_seq db))
    end.
Proof.
  intros Hpk. unfold adjust_stock. case_bool_decide as Hd; [done|].
  destruct (raw_materials db !! RawMaterial.id material) as [locked|] eqn:Hl.
  - pose proof (Hpk _ _ Hl) as Hid. simpl in Hid.
    assert (∀ A (k : RawMaterial.t → M A),
              (RawMaterial_get (RawMaterial.id material) ≫= k) db = k locked db) as Hget.
    { intros A k. apply bind_ok. unfold RawMaterial_get. rewrite run_bind.
      change (get_db db) with (inr db : exn + _, db). cbv beta iota. rewrite Hl. reflexivity. }
    destruct (RawMaterial.current_stock locked + delta <? 0) eqn:Hneg.
    + apply (atomic_err _ _ _ db). rewrite Hget. cbv zeta. by rewrite Hneg.
    + apply atomic_ok. rewrite Hget. cbv zeta. rewrite Hneg.
      rewrite !run_bind. mcompute. dbsimpl.
      cbn [RawMaterial.id RawMaterial.unit RawMaterial.current_stock
           RawMaterial.set_current_stock]. rewrite Hid.
      unfold apply_moves, move_stock. cbn [foldl fst snd].
      f_equal. f_equal.
      rewrite !(alter_as_insert _ _ _ _ Hl). reflexivity.
  - apply (atomic_err _ _ _ db). unfold RawMaterial_get. rewrite !run_bind.
    change (get_db db) with (inr db : exn + _, db). cbv beta iota. by rewrite Hl.
Qed.

Lemma adjust_stock_sound db material delta reason_ created_by :
  well_formed db →
  let db' := (adjust_stock material delta reason_ created_by db).2 in
  well_formed db' ∧ step db db'.
Proof.
  intros Hwf. rewrite (adjust_stock_run _ _ _ _ _ (wf_materials _ Hwf)).
  case_bool_decide as Hd; [split; [done | apply step_refl]|].
  destruct (raw_materials db !! RawMaterial.id material) as [locked|] eqn:Hl;
    [|split; [done | apply step_refl]].
  destruct (RawMaterial.current_stock locked + delta <? 0) eqn:Hneg;
    [split; [done | apply step_refl]|].
  cbn [snd].
  eapply wf_step_intro with (new_lines := []) (kept := purchase_order_items db)
    (new_items := []); wf_side Hwf.
  intros pk. cbn [ledger_net total_for InventoryLedger.material]. unfold signed_quantity.
  cbn [InventoryLedger.txn_type InventoryLedger.quantity].
  case_bool_decide; [|done]. destruct (Z.ltb_spec 0 delta); lia.
Qed.

(** *** A failing call leaves every table as it was *)

Lemma raise_clean {A} (e : exn) db (r : exn + A) db' :
  raise e db = (r, db') → db' = db.
Proof. unfold raise. by intros [= _ <-]. Qed.

Lemma atomic_clean {A} (body : M A) db e db' :
  atomic body db = (inl e, db') → db' = db.
Proof. apply atomic_failure_rolls_back. Qed.

Lemma adjust_stock_clean material delta reason_ actor db e db' :
  adjust_stock material delta reason_ actor db = (inl e, db') → db' = db.
Proof.
  unfold adjust_stock. case_bool_decide; [apply raise_clean | apply atomic_clean].
Qed.

Lemma create_immediate_clean product quantity notes actor db e db' :
  create_production_order_and_deduct_stock product quantity notes actor db = (inl e, db') →
  db' = db.
Proof.
  unfold create_production_order_and_deduct_stock. rewrite run_bind.
  change (BOMItem_filter product db) with (inr (bom_of db product) : exn + _, db).
  cbv beta iota. destruct (bom_of db product); [apply raise_clean | apply atomic_clean].
Qed.

Lemma create_rm_request_clean product quantity notes actor db e db' :
  create_production_order_with_rm_request product quantity notes actor db = (inl e, db') →
  db' = db.
Proof.
  unfold create_production_order_with_rm_request. rewrite run_bind.
  change (BOMItem_filter product db) with (inr (bom_of db product) : exn + _, db).
  cbv beta iota. destruct (bom_of db product); [apply raise_clean | apply atomic_clean].
Qed.

Lemma create_purchase_orders_clean order_date notes actor lines vendor db e db' :
  create_grouped_purchase_orders_with_vendor order_date notes actor lines vendor db
  = (inl e, db') → db' = db.
Proof.
  unfold create_grouped_purchase_orders_with_vendor.
  destruct lines as [|line lines]; [apply raise_clean|].
  destruct (existsb _ _); [apply raise_clean|].
  destruct vendor as [vendor|]; [|apply atomic_clean].
  case_bool_decide; [apply raise_clean | apply atomic_clean].
Qed.

Lemma complete_clean now order produced_qty scrap_qty actor p e p' :
  complete_production_order now order produced_qty scrap_qty actor p = (inl e, p') → p' = p.
Proof.
  unfold complete_production_order. cbv zeta.
  destruct (_ <=? 0); [by intros [= _ <-]|].
  destruct (_ <? 0); [by intros [= _ <-]|].
  apply atomicP_failure_rolls_back.
Qed.

Lemma lift_clean {A} (m : M A) p :
  (∀ e db', m (stock_db p) = (inl e, db') → db' = stock_db p) →
  ∀ e, (outcome (lift m) p).1 = Some e → (outcome (lift m) p).2 = p.
Proof.
  intros Hm e. unfold outcome, lift. cbn [fst snd].
  destruct (m (stock_db p)) as [[e'|a] db'] eqn:Hrun; cbn [fst snd failure]; [|done].
  intros _. rewrite (Hm _ _ eq_refl). by destruct p.
Qed.

Lemma run_clean c p e : (run c p).1 = Some e → (run c p).2 = p.
Proof.
  destruct c; cbn [run].
  - apply lift_clean. intros ??. apply adjust_stock_clean.
  - apply lift_clean. intros ??. apply create_immediate_clean.
  - apply lift_clean. intros ??. apply create_rm_request_clean.
  - apply lift_clean. intros ??. apply atomic_clean.
  - apply lift_clean. intros ??. apply atomic_clean.
  - unfold outcome. cbn [fst snd].
    destruct (complete_production_order _ _ _ _ _ p) as [[e'|a] p'] eqn:Hrun;
      cbn [fst snd failure]; [|done].
    intros _. by apply complete_clean in Hrun.
  - apply lift_clean. intros ??. apply atomic_clean.
  - apply lift_clean. intros ??. apply create_purchase_orders_clean.
  - apply lift_clean. intros ??. apply atomic_clean.
  - apply lift_clean. intros ??. apply atomic_clean.
  - apply lift_clean. intros ??. apply atomic_clean.
Qed.

(** *** Creating production orders *)

Lemma bom_lines_sound db seq quantity product :
  well_formed db →
  Forall (λ c, is_Some (raw_materials db !! ProductionConsumption.material_id c)
               ∧ ProductionConsumption.production_order c ≤ seq)
    (consumption_line seq <$> bom_moves quantity (bom_of db product)).
Proof.
  intros Hwf. unfold bom_moves. rewrite <- list_fmap_compose.
  apply Forall_fmap. pose proof (wf_bom_exist db product Hwf) as Hb.
  unfold bom_materials_exist in Hb. eapply Forall_impl; [exact Hb|].
  intros b Hin. cbn. split; [done | lia].
Qed.

Lemma ids_after_insert {A} (key : A → Z) x (m : gmap Z A) :
  map_Forall (λ k x, key x = k) m → map_Forall (λ k x, key x = k) (<[key x := x]> m).
Proof. intros Hm. by apply map_Forall_insert_2. Qed.

Lemma create_immediate_sound db product quantity notes actor :
  well_formed db →
  let db' := (create_production_order_and_deduct_stock product quantity notes actor db).2 in
  well_formed db' ∧ step db db'.
Proof.
  intros Hwf.
  destruct (create_production_order_and_deduct_stock product quantity notes actor db)
    as [[e|order1] db1] eqn:Hrun; cbn [snd].
  { apply create_immediate_clean in Hrun as ->. split; [done | apply step_refl]. }
  destruct (decide (bom_of db product = [])) as [Hnil|Hne].
  { unfold create_production_order_and_deduct_stock in Hrun. rewrite run_bind in Hrun.
    change (BOMItem_filter product db) with (inr (bom_of db product) : exn + _, db) in Hrun.
    cbv beta iota in Hrun. by rewrite Hnil in Hrun. }
  rewrite (create_immediate_run db product quantity notes actor Hne (wf_materials _ Hwf)
             (wf_bom_exist db product Hwf)) in Hrun.
  destruct (omap _ _) in Hrun; [|done]. cbv zeta in Hrun. injection Hrun as _ <-.
  eapply wf_step_intro with (kept := purchase_order_items db) (new_items := []);
    wf_side Hwf.
  - intros pk. apply total_for_negate_net.
  - apply (ids_after_insert ProductionOrder.id (ProductionOrder.mk _ _ _ _ _ _ _ _)),
      (wf_orders _ Hwf).
  - apply bom_lines_sound, Hwf.
Qed.

Lemma create_rm_request_sound db product quantity notes actor :
  well_formed db →
  let db' := (create_production_order_with_rm_request product quantity notes actor db).2 in
  well_formed db' ∧ step db db'.
Proof.
  intros Hwf.
  destruct (create_production_order_with_rm_request product quantity notes actor db)
    as [[e|order1] db1] eqn:Hrun; cbn [snd].
  { apply create_rm_request_clean in Hrun as ->. split; [done | apply step_refl]. }
  destruct (decide (bom_of db product = [])) as [Hnil|Hne].
  { unfold create_production_order_with_rm_request in Hrun. rewrite run_bind in Hrun.
    change (BOMItem_filter product db) with (inr (bom_of db product) : exn + _, db) in Hrun.
    cbv beta iota in Hrun. by rewrite Hnil in Hrun. }
  rewrite (create_rm_request_run db product quantity notes actor Hne) in Hrun.
  cbv zeta in Hrun. injection Hrun as _ <-.
  eapply wf_step_intro with (moves := []) (entries := [])
    (kept := purchase_order_items db) (new_items := []); wf_side Hwf.
  - apply (ids_after_insert ProductionOrder.id (ProductionOrder.mk _ _ _ _ _ _ _ _)),
      (wf_orders _ Hwf).
  - apply bom_lines_sound, Hwf.
Qed.

(** *** Purchase orders: cancel and reopen *)

Lemma cancel_purchase_sound db now order actor :
  well_formed db →
  let db' := (cancel_purchase_order now order actor db).2 in
  well_formed db' ∧ step db db'.
Proof.
  intros Hwf.
  destruct (purchase_orders db !! PurchaseOrder.id order) as [stored|] eqn:Hst.
  - rewrite (cancel_purchase_run db now order stored actor Hst).
    repeat case_bool_decide; cbn [snd]; try (split; [done | apply step_refl]).
    apply wf_step_orders; try done.
    + apply (wf_orders _ Hwf).
    + cbn. apply ids_after_alter; [done | apply (wf_purchase_orders _ Hwf)].
  - unfold cancel_purchase_order.
    erewrite atomic_err; [|by apply PurchaseOrder_get_missing].
    split; [done | apply step_refl].
Qed.

Lemma reopen_sound db order :
  well_formed db →
  let db' := (reopen_purchase_order order db).2 in
  well_formed db' ∧ step db db'.
Proof.
  intros Hwf.
  destruct (purchase_orders db !! PurchaseOrder.id order) as [stored|] eqn:Hst.
  - rewrite (reopen_run db order stored Hst). cbv zeta.
    repeat case_match; cbn [snd]; try (split; [done | apply step_refl]).
    apply wf_step_orders; try done.
    + apply (wf_orders _ Hwf).
    + cbn. apply ids_after_alter; [|apply (wf_purchase_orders _ Hwf)].
      intros o. unfold reopened_order. by destruct o.
  - unfold reopen_purchase_order.
    erewrite atomic_err; [|by apply PurchaseOrder_get_missing].
    split; [done | apply step_refl].
Qed.

(** *** Receipts *)

Lemma receipt_ledger_net rows order_pk actor quantities pk items :
  ledger_net pk (receipt_entry rows order_pk actor quantities <$> items)
  = total_for pk (receipt_move quantities <$> items).
Proof.
  induction items as [|item items IH]; [done|].
  cbn [fmap list_fmap ledger_net total_for receipt_move receipt_entry
       InventoryLedger.material]. unfold signed_quantity.
  cbn [InventoryLedger.txn_type InventoryLedger.quantity].
  f_equal. exact IH.
Qed.

Lemma same_line_receive_line quantities item :
  same_line item (receive_line quantities item).
Proof.
  unfold receive_line. destruct (Z.leb_spec (receive_qty quantities item) 0).
  - apply same_line_refl.
  - destruct item. unfold same_line. cbn. repeat split; lia.
Qed.

Lemma save_rows_same_lines quantities done table :
  Forall2 same_line table (save_rows quantities done table).
Proof.
  unfold save_rows. apply Forall2_fmap_r, Forall_Forall2_diag, Forall_forall.
  intros row _. unfold compose. destruct (bool_decide _); [apply same_line_receive_line | apply same_line_refl].
Qed.

Lemma received_order_id now actor items stored :
  PurchaseOrder.id (received_order now actor items stored) = PurchaseOrder.id stored.
Proof. unfold received_order. cbv zeta. by case_bool_decide; destruct stored. Qed.

Lemma receive_sound db now order actor line_quantities :
  well_formed db →
  let db' := (receive_purchase_order now order actor line_quantities db).2 in
  well_formed db' ∧ step db db'.
Proof.
  intros Hwf.
  destruct (receive_purchase_order now order actor line_quantities db)
    as [[e|order1] db1] eqn:Hrun; cbn [snd].
  { apply atomic_clean in Hrun as ->. split; [done | apply step_refl]. }
  destruct (purchase_orders db !! PurchaseOrder.id order) as [stored|] eqn:Hst; last first.
  { unfold receive_purchase_order in Hrun.
    erewrite atomic_err in Hrun; [done|]. by apply PurchaseOrder_get_missing. }
  pose proof (wf_purchase_orders _ Hwf _ _ Hst) as Hid. cbn in Hid.
  destruct (receive_ok_inv db now order stored actor line_quantities order1 db1 Hst Hid
              (wf_materials _ Hwf) (wf_item_ids _ Hwf) (wf_items_exist db _ Hwf) Hrun)
    as (quantities & _ & _ & _ & _ & -> & _ & ->).
  eapply wf_step_intro with (new_lines := [])
    (kept := save_rows quantities (lines_of_purchase_order db (PurchaseOrder.id order))
               (purchase_order_items db))
    (new_items := []); wf_side Hwf.
  - intros pk. apply receipt_ledger_net.
  - rewrite <- Hid at 1. rewrite <- (received_order_id now actor
      (receive_line quantities <$> lines_of_purchase_order db (PurchaseOrder.id order)) stored).
    apply ids_after_insert, (wf_purchase_orders _ Hwf).
  - apply save_rows_same_lines.
Qed.

(** *** Creating purchase orders *)

Lemma length_new_items item_seq order_pk lines :
  length (new_items item_seq order_pk lines) = length lines.
Proof.
  revert item_seq. induction lines as [|line lines IH]; intros item_seq; [done|].
  cbn [new_items length]. by rewrite IH.
Qed.

Lemma new_items_sound item_seq order_pk lines :
  Forall (λ i, item_seq < PurchaseOrderItem.id i
               ∧ PurchaseOrderItem.id i ≤ item_seq + Z.of_nat (length lines)
               ∧ PurchaseOrderItem.purchase_order i = order_pk
               ∧ ∃ line, line ∈ lines
                   ∧ PurchaseOrderItem.material_id i
                     = RawMaterial.id (PurchaseLineInput.material line))
    (new_items item_seq order_pk lines)
  ∧ NoDup (PurchaseOrderItem.id <$> new_items item_seq order_pk lines).
Proof.
  revert item_seq. induction lines as [|line lines IH]; intros item_seq.
  { split; constructor. }
  destruct (IH (item_seq + 1)) as [Hall Hnd]. cbn [new_items]. split.
  - constructor.
    + cbn [PurchaseOrderItem.id PurchaseOrderItem.purchase_order
           PurchaseOrderItem.material_id length].
      split; [lia|]. split; [lia|]. split; [done|]. exists line. split; [left | done].
    + eapply Forall_impl; [exact Hall|]. intros i (Hlo & Hhi & Hpo & l & Hl & Hm).
      cbn [length]. split; [lia|]. split; [lia|]. split; [done|].
      exists l. split; [by right | done].
  - rewrite fmap_cons. apply NoDup_cons. split; [|exact Hnd].
    cbn [PurchaseOrderItem.id]. intros Hin.
    apply list_elem_of_fmap in Hin as (i & Hid & Hi).
    rewrite Forall_forall in Hall. destruct (Hall i Hi) as (Hlo & _). lia.
Qed.

Lemma grouped_items_sound order_seq item_seq groups :
  Forall (λ i, item_seq < PurchaseOrderItem.id i
               ∧ PurchaseOrderItem.id i
                 ≤ item_seq + Z.of_nat (length (grouped_items order_seq item_seq groups))
               ∧ PurchaseOrderItem.purchase_order i ≤ order_seq + Z.of_nat (length groups)
               ∧ ∃ g line, g ∈ groups ∧ line ∈ g.2
                   ∧ PurchaseOrderItem.material_id i
                     = RawMaterial.id (PurchaseLineInput.material line))
    (grouped_items order_seq item_seq groups)
  ∧ NoDup (PurchaseOrderItem.id <$> grouped_items order_seq item_seq groups).
Proof.
  revert order_seq item_seq. induction groups as [|[v ls] groups IH];
    intros order_seq item_seq.
  { split; constructor. }
  destruct (IH (order_seq + 1) (item_seq + Z.of_nat (length ls))) as [Hall Hnd].
  destruct (new_items_sound item_seq (order_seq + 1) ls) as [Hnew Hnew_nd].
  cbn [grouped_items]. rewrite length_app, length_new_items. split.
  - apply Forall_app. split.
    + eapply Forall_impl; [exact Hnew|]. intros i (Hlo & Hhi & Hpo & l & Hl & Hm).
      cbn [length]. split; [lia|]. split; [lia|]. split; [lia|].
      exists (v, ls), l. split; [left|]. done.
    + eapply Forall_impl; [exact Hall|]. intros i (Hlo & Hhi & Hpo & g & l & Hg & Hl & Hm).
      cbn [length]. split; [lia|]. split; [lia|]. split; [lia|].
      exists g, l. split; [by right | done].
  - rewrite fmap_app. apply NoDup_app. split; [exact Hnew_nd|]. split; [|exact Hnd].
    intros k Hk1 Hk2.
    apply list_elem_of_fmap in Hk1 as (i1 & -> & Hi1).
    apply list_elem_of_fmap in Hk2 as (i2 & Heq & Hi2).
    rewrite Forall_forall in Hnew, Hall.
    destruct (Hnew i1 Hi1) as (_ & Hhi & _). destruct (Hall i2 Hi2) as (Hlo & _). lia.
Qed.

Lemma insert_orders_ids orders (table : gmap Z PurchaseOrder.t) :
  map_Forall (λ k o, PurchaseOrder.id o = k) table →
  map_Forall (λ k o, PurchaseOrder.id o = k) (insert_orders orders table).
Proof.
  unfold insert_orders. revert table.
  induction orders as [|o orders IH]; intros table Htable; [done|].
  cbn [foldl]. apply IH. by apply (ids_after_insert PurchaseOrder.id).
Qed.

Lemma group_lines_lines lines g line :
  g ∈ group_lines lines → line ∈ g.2 → line ∈ lines.
Proof.
  destruct g as [v ls]. intros Hg Hl. apply group_lines_member in Hg. cbn in Hl.
  rewrite Hg in Hl. by apply list_elem_of_filter in Hl as [_ ?].
Qed.

Lemma grouped_orders_bounds order_date notes actor order_seq groups :
  Forall (λ o, order_seq < PurchaseOrder.id o
               ∧ PurchaseOrder.id o ≤ order_seq + Z.of_nat (length groups))
    (grouped_orders order_date notes actor order_seq groups).
Proof.
  revert order_seq. induction groups as [|[v ls] groups IH]; intros order_seq; [constructor|].
  cbn [grouped_orders length]. constructor; [cbn; lia|].
  eapply Forall_impl; [apply IH|]. intros o Ho. cbn in Ho. lia.
Qed.

(** What a successful request for purchase orders writes. *)
Lemma create_purchase_orders_ok_inv db order_date notes actor lines vendor orders db1 :
  well_formed db →
  create_grouped_purchase_orders_with_vendor order_date notes actor lines vendor db
  = (inr orders, db1) →
  ∃ created items order_seq item_seq,
    db1 = mkDB (partners db) (raw_materials db) (inventory_ledger db) (bom_items db)
            (production_orders db) (production_order_seq db) (production_consumptions db)
            (insert_orders created (purchase_orders db)) order_seq
            (purchase_order_items db ++ items) item_seq
    ∧ purchase_order_seq db ≤ order_seq
    ∧ purchase_order_item_seq db ≤ item_seq
    ∧ Forall (λ o, purchase_order_seq db < PurchaseOrder.id o
                   ∧ PurchaseOrder.id o ≤ order_seq) created
    ∧ Forall (λ i, purchase_order_item_seq db < PurchaseOrderItem.id i
                   ∧ PurchaseOrderItem.id i ≤ item_seq
                   ∧ PurchaseOrderItem.purchase_order i ≤ order_seq
                   ∧ ∃ line, line ∈ lines
                       ∧ PurchaseOrderItem.material_id i
                         = RawMaterial.id (PurchaseLineInput.material line)) items
    ∧ NoDup (PurchaseOrderItem.id <$> items).
Proof.
  intros Hwf Hrun.
  assert (lines ≠ []) as Hne.
  { intros ->. done. }
  assert (Forall (λ line, 0 < PurchaseLineInput.quantity line) lines) as Hpos.
  { apply no_bad_quantity. unfold create_grouped_purchase_orders_with_vendor in Hrun.
    rewrite (match_nonempty lines _ _ Hne) in Hrun.
    by destruct (existsb _ lines). }
  destruct vendor as [vendor|].
  - assert (Partner.partner_type vendor ≠ Partner.BUYER) as Hsup.
    { intros Hb. unfold create_grouped_purchase_orders_with_vendor in Hrun.
      rewrite (match_nonempty lines _ _ Hne), (proj2 (no_bad_quantity lines) Hpos),
        supplier_check, bool_decide_eq_true_2 in Hrun by done. done. }
    rewrite (create_with_vendor_run db order_date notes actor lines vendor Hne Hpos Hsup)
      in Hrun.
    cbv zeta in Hrun. injection Hrun as _ <-.
    destruct (new_items_sound (purchase_order_item_seq db) (purchase_order_seq db + 1) lines)
      as [Hnew Hnd].
    exists [PurchaseOrder.mk (purchase_order_seq db + 1) (Partner.id vendor) order_date
              PurchaseOrder.OPEN notes actor None None None None],
      (new_items (purchase_order_item_seq db) (purchase_order_seq db + 1) lines),
      (purchase_order_seq db + 1),
      (purchase_order_item_seq db + Z.of_nat (length lines)).
    split; [reflexivity|]. split; [lia|]. split; [lia|]. split.
    { constructor; [cbn; lia | constructor]. }
    split; [|exact Hnd]. eapply Forall_impl; [exact Hnew|].
    intros i (Hlo & Hhi & Hpo & l & Hl & Hm).
    split; [lia|]. split; [lia|]. split; [lia|]. by exists l.
  - unfold create_grouped_purchase_orders_with_vendor in Hrun.
    rewrite (match_nonempty lines _ _ Hne), (proj2 (no_bad_quantity lines) Hpos) in Hrun.
    fold (group_lines lines) in Hrun.
    assert (Forall (λ g, ∃ p, partners db !! g.1 = Some p ∧ Partner.id p = g.1)
              (group_lines lines)) as Hvendors.
    { destruct (decide (Forall (λ g, is_Some (partners db !! g.1)) (group_lines lines)))
        as [Hall|Hnot].
      - eapply Forall_impl; [exact Hall|]. intros g [p Hp]. exists p. split; [done|].
        apply (wf_partners _ Hwf _ _ Hp).
      - exfalso. apply not_Forall_Exists in Hnot; [|apply _].
        destruct (grouped_loop_missing_vendor order_date notes actor (group_lines lines) [] db)
          as [db' Hloop].
        { eapply Exists_impl; [exact Hnot|]. intros g Hg. cbn in Hg.
          by apply eq_None_not_Some. }
        by pose proof (eq_trans (eq_sym Hrun) (atomic_err _ _ _ db' Hloop)). }
    pose proof (eq_trans (eq_sym Hrun) (atomic_ok _ _ _ _
      (grouped_loop_run order_date notes actor (group_lines lines) [] db Hvendors))) as Heq.
    injection Heq as _ ->.
    destruct (grouped_items_sound (purchase_order_seq db) (purchase_order_item_seq db)
                (group_lines lines)) as [Hnew Hnd].
    eexists _, _, _, _. split; [reflexivity|]. split; [lia|]. split; [lia|]. split.
    { apply grouped_orders_bounds. }
    split; [|exact Hnd]. eapply Forall_impl; [exact Hnew|].
    intros i (Hlo & Hhi & Hpo & g & l & Hg & Hl & Hm).
    split; [lia|]. split; [lia|]. split; [lia|]. exists l. split; [|done].
    eapply group_lines_lines; eassumption.
Qed.

Lemma create_purchase_orders_sound db order_date notes actor lines vendor :
  well_formed db →
  Forall (λ line, is_Some (raw_materials db
                             !! RawMaterial.id (PurchaseLineInput.material line))) lines →
  let db' := (create_grouped_purchase_orders_with_vendor order_date notes actor lines vendor
                db).2 in
  (well_formed db' ∧ step db db')
  ∧ raw_materials db' = raw_materials db ∧ bom_items db' = bom_items db
  ∧ production_consumptions db' = production_consumptions db.
Proof.
  intros Hwf Hlines.
  destruct (create_grouped_purchase_orders_with_vendor order_date notes actor lines vendor db)
    as [[e|orders] db1] eqn:Hrun; cbn [snd].
  { apply create_purchase_orders_clean in Hrun as ->.
    split; [split; [done | apply step_refl] | done]. }
  destruct (create_purchase_orders_ok_inv _ _ _ _ _ _ _ _ Hwf Hrun)
    as (created & items & order_seq & item_seq & -> & Hle & Hle' & Hcreated & Hitems & Hnd).
  split; [|done]. rewrite Forall_forall in Hlines.
  eapply wf_step_intro with (moves := []) (entries := []) (new_lines := []);
    wf_side Hwf.
  - apply insert_orders_ids, (wf_purchase_orders _ Hwf).
  - eapply Forall_impl; [exact Hitems|].
    intros i (Hlo & Hhi & Hpo & l & Hl & Hm).
    split; [rewrite Hm; by apply Hlines|]. split; [lia|]. split; [lia|]. lia.
  - exact Hnd.
Qed.

(** *** Completion, and every call *)

Lemma complete_sound p now order produced_qty scrap_qty actor :
  well_formed (stock_db p) →
  let p' := (complete_production_order now order produced_qty scrap_qty actor p).2 in
  (well_formed (stock_db p') ∧ step (stock_db p) (stock_db p'))
  ∧ raw_materials (stock_db p') = raw_materials (stock_db p)
  ∧ bom_items (stock_db p') = bom_items (stock_db p)
  ∧ production_consumptions (stock_db p') = production_consumptions (stock_db p).
Proof.
  intros Hwf.
  destruct (complete_production_order now order produced_qty scrap_qty actor p)
    as [[e|result] p1] eqn:Hrun; cbn [snd].
  { apply complete_clean in Hrun as ->. split; [split; [done | apply step_refl] | done]. }
  destruct (production_orders (stock_db p) !! ProductionOrder.id order) as [stored|] eqn:Hst.
  - pose proof (wf_orders _ Hwf _ _ Hst) as Hid. cbn in Hid.
    rewrite (complete_run p now order stored produced_qty scrap_qty actor Hst Hid) in Hrun.
    cbv zeta in Hrun. repeat case_match; try done. injection Hrun as _ <-.
    cbn [stock_db]. split; [|done]. apply wf_step_orders; try done.
    + cbn. apply ids_after_alter; [done | apply (wf_orders _ Hwf)].
    + apply (wf_purchase_orders _ Hwf).
  - exfalso. unfold complete_production_order in Hrun. cbv zeta in Hrun.
    destruct (_ <=? 0); [done|]. destruct (_ <? 0); [done|].
    unfold atomicP in Hrun. rewrite runP_bind, lift_run in Hrun.
    unfold ProductionOrder_get in Hrun. rewrite run_bind in Hrun.
    change (get_db (stock_db p)) with (inr (stock_db p) : exn + _, stock_db p) in Hrun.
    cbv beta iota in Hrun. rewrite Hst in Hrun. done.
Qed.

Lemma lift_sound {A} (m : M A) p :
  (let db' := (m (stock_db p)).2 in well_formed db' ∧ step (stock_db p) db') →
  let p' := (outcome (lift m) p).2 in
  well_formed (stock_db p') ∧ step (stock_db p) (stock_db p').
Proof.
  unfold outcome, lift. cbn [snd]. by destruct (m (stock_db p)) as [r db'].
Qed.

Lemma call_sound c p :
  well_formed (stock_db p) → call_ok (stock_db p) c →
  well_formed (stock_db (after c p)) ∧ step (stock_db p) (stock_db (after c p)).
Proof.
  intros Hwf Hok. unfold after. destruct c; cbn [run].
  - by apply lift_sound, adjust_stock_sound.
  - by apply lift_sound, create_immediate_sound.
  - by apply lift_sound, create_rm_request_sound.
  - by apply lift_sound, release_sound.
  - by apply lift_sound, reject_sound.
  - unfold outcome. cbn [snd]. by apply complete_sound.
  - by apply lift_sound, cancel_production_sound.
  - apply lift_sound. by apply create_purchase_orders_sound.
  - by apply lift_sound, receive_sound.
  - by apply lift_sound, cancel_purchase_sound.
  - by apply lift_sound, reopen_sound.
Qed.

Lemma lift_nonneg {A} (m : M A) p :
  stock_sound (m (stock_db p)).2 → stock_sound (stock_db (outcome (lift m) p).2).
Proof. unfold outcome, lift. cbn [snd]. by destruct (m (stock_db p)) as [r db']. Qed.

(** ** Stock is never negative *)

Lemma round_half_even_nonneg n d : 0 ≤ n → 0 < d → 0 ≤ Decimal.round_half_even n d.
Proof.
  intros Hn Hd. unfold Decimal.round_half_even. cbv zeta.
  assert (0 ≤ n `div` d) by (apply Z.div_pos; lia).
  repeat case_match; lia.
Qed.

Lemma required_for_nonneg quantity item :
  0 ≤ Decimal.coef (BOMItem.qty_per_unit item) → 0 ≤ quantity →
  0 ≤ required_for quantity item.
Proof.
  intros Hc Hq. unfold required_for, Decimal.quantize_milli, Decimal.mul, Decimal.of_int.
  cbn [Decimal.coef Decimal.exp].
  assert (0 ≤ Decimal.coef (BOMItem.qty_per_unit item) * quantity) by lia.
  case_match.
  - apply Z.mul_nonneg_nonneg; [done|]. apply Z.pow_nonneg. lia.
  - apply round_half_even_nonneg; [done|]. apply Z.pow_pos_nonneg; lia.
Qed.

Lemma total_for_nonneg pk moves :
  Forall (λ mv, 0 ≤ mv.2) moves → 0 ≤ total_for pk moves.
Proof.
  induction 1 as [|[k q] moves Hq _ IH]; [done|].
  cbn [total_for]. cbn in Hq. case_bool_decide; lia.
Qed.

(** Deductions that the balances cover, of distinct materials, leave
    no balance below zero. *)
Lemma covered_moves_nonneg db moves pk b :
  NoDup moves.*1 → Forall (covered db) moves →
  balance db pk = Some b → 0 ≤ b → 0 ≤ b + total_for pk (negate <$> moves).
Proof.
  intros Hnd Hcov Hb Hpos. rewrite total_for_negate.
  destruct (decide (pk ∈ moves.*1)) as [Hin|Hnot].
  - apply list_elem_of_fmap in Hin as ([k q] & -> & Hin). cbn [fst] in *.
    rewrite (total_for_nodup k q moves Hnd Hin).
    rewrite Forall_forall in Hcov. destruct (Hcov _ Hin) as (b' & Hb' & Hle).
    cbn [fst snd] in *. rewrite Hb in Hb'. injection Hb' as <-. lia.
  - rewrite (total_for_notin pk moves Hnot). lia.
Qed.

Lemma bom_of_unique db product :
  NoDup ((λ b, (BOMItem.product b, BOMItem.material_id b)) <$> bom_items db) →
  NoDup (BOMItem.material_id <$> bom_of db product).
Proof.
  unfold bom_of. induction (bom_items db) as [|b bom IH]; [constructor|].
  rewrite fmap_cons. intros [Hb Hnd]%NoDup_cons.
  destruct (decide (BOMItem.product b = product)) as [Hp|Hp].
  - rewrite filter_cons_True by done. rewrite fmap_cons. apply NoDup_cons.
    split; [|by apply IH]. intros Hin. apply Hb.
    apply list_elem_of_fmap in Hin as (b' & Hm & Hin').
    apply list_elem_of_filter in Hin' as [Hp' Hin'].
    apply list_elem_of_fmap. exists b'. split; [|done]. by rewrite Hm, Hp, Hp'.
  - rewrite filter_cons_False by done. by apply IH.
Qed.

Lemma stock_sound_intro db db' moves new_lines :
  well_formed db → stock_sound db →
  raw_materials db' = apply_moves moves (raw_materials db) →
  (∀ pk b, balance db pk = Some b → 0 ≤ b → 0 ≤ b + total_for pk moves) →
  bom_items db' = bom_items db →
  production_consumptions db' = production_consumptions db ++ new_lines →
  Forall (λ c, 0 ≤ ProductionConsumption.required_qty c
               ∧ ProductionConsumption.production_order c = production_order_seq db + 1)
    new_lines →
  NoDup (ProductionConsumption.material_id <$> new_lines) →
  stock_sound db'.
Proof.
  intros Hwf Hss Hrows Hmoves Hbom Hlines Hnew Hnd. split.
  - intros pk m Hm.
    pose proof (balance_apply_moves db db' moves pk Hrows) as Hb.
    unfold balance in Hb. rewrite Hm in Hb. cbn in Hb.
    destruct (raw_materials db !! pk) as [m0|] eqn:Hm0; [|done].
    cbn in Hb. injection Hb as ->. apply (Hmoves pk); [unfold balance; by rewrite Hm0|].
    apply (ss_balances _ Hss _ _ Hm0).
  - rewrite Hbom. apply (ss_bom_qty _ Hss).
  - rewrite Hbom. apply (ss_bom_unique _ Hss).
  - rewrite Hlines. apply Forall_app. split; [apply (ss_lines_qty _ Hss)|].
    eapply Forall_impl; [exact Hnew|]. by intros c [? _].
  - intros pk. unfold lines_of. rewrite Hlines.
    destruct (decide (pk = production_order_seq db + 1)) as [->|Hne].
    + rewrite (lines_of_app_fresh db).
      * exact Hnd.
      * pose proof (wf_lines _ Hwf) as Hl. eapply Forall_impl; [exact Hl|].
        intros c [_ Hc]. cbn in Hc. lia.
      * eapply Forall_impl; [exact Hnew|]. by intros c [_ ?].
    + rewrite filter_app.
      rewrite (filter_nil_Forall _ new_lines).
      * rewrite app_nil_r. apply (ss_lines_unique _ Hss).
      * eapply Forall_impl; [exact Hnew|]. intros c [_ Hc]. simpl. congruence.
Qed.

(** A call that leaves the stock, the BOMs and the consumption lines
    as they are. *)
Lemma stock_sound_same db db' :
  stock_sound db →
  raw_materials db' = raw_materials db → bom_items db' = bom_items db →
  production_consumptions db' = production_consumptions db →
  stock_sound db'.
Proof.
  intros Hss Hrows Hbom Hlines. split.
  - rewrite Hrows. apply (ss_balances _ Hss).
  - rewrite Hbom. apply (ss_bom_qty _ Hss).
  - rewrite Hbom. apply (ss_bom_unique _ Hss).
  - rewrite Hlines. apply (ss_lines_qty _ Hss).
  - intros pk. unfold lines_of. rewrite Hlines. apply (ss_lines_unique _ Hss).
Qed.

Lemma adjust_stock_nonneg db material delta reason_ created_by :
  well_formed db → stock_sound db →
  stock_sound (adjust_stock material delta reason_ created_by db).2.
Proof.
  intros Hwf Hss. rewrite (adjust_stock_run _ _ _ _ _ (wf_materials _ Hwf)).
  case_bool_decide as Hd; [done|].
  destruct (raw_materials db !! RawMaterial.id material) as [locked|] eqn:Hl; [|done].
  destruct (Z.ltb_spec (RawMaterial.current_stock locked + delta) 0) as [|Hge]; [done|].
  cbn [snd].
  apply (stock_sound_intro db _ [(RawMaterial.id material, delta)] []); try done.
  - intros pk b Hb Hpos. cbn [total_for]. case_bool_decide as Hpk; [|lia].
    subst pk. unfold balance in Hb. rewrite Hl in Hb. injection Hb as <-. lia.
  - cbn [production_consumptions]. by rewrite app_nil_r.
  - constructor.
Qed.

Lemma bom_moves_keys quantity bom : (bom_moves quantity bom).*1 = BOMItem.material_id <$> bom.
Proof. unfold bom_moves. rewrite <- list_fmap_compose. done. Qed.

Lemma bom_lines_materials pk quantity bom :
  ProductionConsumption.material_id <$> (consumption_line pk <$> bom_moves quantity bom)
  = BOMItem.material_id <$> bom.
Proof. unfold bom_moves. rewrite <- !list_fmap_compose. done. Qed.

Lemma bom_lines_nonneg db product quantity :
  stock_sound db → 0 ≤ quantity →
  Forall (λ c, 0 ≤ ProductionConsumption.required_qty c
               ∧ ProductionConsumption.production_order c = production_order_seq db + 1)
    (consumption_line (production_order_seq db + 1)
       <$> bom_moves quantity (bom_of db product)).
Proof.
  intros Hss Hq. unfold bom_moves. rewrite <- list_fmap_compose. apply Forall_fmap.
  apply Forall_forall. intros b Hb. cbn. split; [|done].
  apply required_for_nonneg; [|done]. apply bom_of_elem_of in Hb.
  pose proof (ss_bom_qty _ Hss) as Hall. rewrite Forall_forall in Hall. by apply Hall.
Qed.

Lemma bom_covered db quantity bom :
  bom_materials_exist db bom →
  omap (bom_shortage (raw_materials db) quantity) bom = [] →
  Forall (covered db) (bom_moves quantity bom).
Proof.
  intros Hfk Hsh. apply omap_nil_Forall in Hsh. unfold bom_moves. apply Forall_fmap.
  unfold bom_materials_exist in Hfk. rewrite Forall_forall in Hfk, Hsh.
  apply Forall_forall. intros b Hb. destruct (Hfk b Hb) as [m Hm].
  specialize (Hsh b Hb). unfold bom_shortage in Hsh. rewrite Hm in Hsh. cbn in Hsh.
  exists (RawMaterial.current_stock m). cbn. unfold balance. rewrite Hm. split; [done|].
  destruct (Z.ltb_spec (RawMaterial.current_stock m) (required_for quantity b)); [done | lia].
Qed.

Lemma create_immediate_nonneg db product quantity notes actor :
  well_formed db → stock_sound db → 0 ≤ quantity →
  stock_sound (create_production_order_and_deduct_stock product quantity notes actor db).2.
Proof.
  intros Hwf Hss Hq.
  destruct (create_production_order_and_deduct_stock product quantity notes actor db)
    as [[e|order1] db1] eqn:Hrun; cbn [snd].
  { by apply create_immediate_clean in Hrun as ->. }
  destruct (decide (bom_of db product = [])) as [Hnil|Hne].
  { unfold create_production_order_and_deduct_stock in Hrun. rewrite run_bind in Hrun.
    change (BOMItem_filter product db) with (inr (bom_of db product) : exn + _, db) in Hrun.
    cbv beta iota in Hrun. by rewrite Hnil in Hrun. }
  rewrite (create_immediate_run db product quantity notes actor Hne (wf_materials _ Hwf)
             (wf_bom_exist db product Hwf)) in Hrun.
  destruct (omap _ _) eqn:Hsh in Hrun; [|done]. cbv zeta in Hrun. injection Hrun as _ <-.
  eapply (stock_sound_intro db _ (negate <$> bom_moves quantity (bom_of db product)));
    try done; cbn [raw_materials bom_items production_consumptions].
  - intros pk b Hb Hpos. apply (covered_moves_nonneg db); try done.
    + rewrite bom_moves_keys. apply bom_of_unique, (ss_bom_unique _ Hss).
    + apply bom_covered; [by apply wf_bom_exist | done].
  - by apply bom_lines_nonneg.
  - cbn [ProductionOrder.id]. rewrite bom_lines_materials.
    apply bom_of_unique, (ss_bom_unique _ Hss).
Qed.

Lemma create_rm_request_nonneg db product quantity notes actor :
  well_formed db → stock_sound db → 0 ≤ quantity →
  stock_sound (create_production_order_with_rm_request product quantity notes actor db).2.
Proof.
  intros Hwf Hss Hq.
  destruct (create_production_order_with_rm_request product quantity notes actor db)
    as [[e|order1] db1] eqn:Hrun; cbn [snd].
  { by apply create_rm_request_clean in Hrun as ->. }
  destruct (decide (bom_of db product = [])) as [Hnil|Hne].
  { unfold create_production_order_with_rm_request in Hrun. rewrite run_bind in Hrun.
    change (BOMItem_filter product db) with (inr (bom_of db product) : exn + _, db) in Hrun.
    cbv beta iota in Hrun. by rewrite Hnil in Hrun. }
  rewrite (create_rm_request_run db product quantity notes actor Hne) in Hrun.
  cbv zeta in Hrun. injection Hrun as _ <-.
  eapply (stock_sound_intro db _ []);
    try done; cbn [raw_materials bom_items production_consumptions].
  - intros pk b _ Hpos. cbn. lia.
  - by apply bom_lines_nonneg.
  - cbn [ProductionOrder.id]. rewrite bom_lines_materials.
    apply bom_of_unique, (ss_bom_unique _ Hss).
Qed.

Lemma line_move_keys (lines : list ProductionConsumption.t) :
  (line_move <$> lines).*1 = ProductionConsumption.material_id <$> lines.
Proof. rewrite <- list_fmap_compose. done. Qed.

Lemma release_nonneg db order actor :
  well_formed db → stock_sound db →
  stock_sound (release_raw_materials_for_production_order order actor db).2.
Proof.
  intros Hwf Hss.
  destruct (release_raw_materials_for_production_order order actor db) as [[e|order1] db1]
    eqn:Hrun; cbn [snd].
  { by apply atomic_failure_rolls_back in Hrun as ->. }
  destruct (production_orders db !! ProductionOrder.id order) as [stored|] eqn:Hst; last first.
  { unfold release_raw_materials_for_production_order in Hrun.
    erewrite atomic_err in Hrun; [done|]. by apply ProductionOrder_get_missing. }
  pose proof (wf_orders _ Hwf _ _ Hst) as Hid. cbn in Hid.
  destruct (release_ok_inv db order stored actor order1 db1 Hst Hid (wf_materials _ Hwf) Hrun)
    as (_ & _ & _ & Hsh & _ & ->).
  eapply (stock_sound_intro db _
            (negate <$> (line_move <$> lines_of db (ProductionOrder.id order))) []);
    try done; cbn [raw_materials bom_items production_consumptions].
  - intros pk b Hb Hpos. apply (covered_moves_nonneg db); try done.
    + rewrite line_move_keys. apply (ss_lines_unique _ Hss).
    + apply Forall_fmap. apply omap_nil_Forall in Hsh.
      eapply Forall_impl; [exact Hsh|]. intros c Hc. by apply line_shortage_covered.
  - by rewrite app_nil_r.
  - constructor.
Qed.

Lemma line_moves_nonneg db pk :
  stock_sound db → Forall (λ mv, 0 ≤ mv.2) (line_move <$> lines_of db pk).
Proof.
  intros Hss. apply Forall_fmap, Forall_forall. intros c Hc. cbn.
  apply lines_of_elem_of in Hc. pose proof (ss_lines_qty _ Hss) as Hall.
  rewrite Forall_forall in Hall. by apply Hall.
Qed.

Lemma cancel_production_nonneg db order actor :
  well_formed db → stock_sound db →
  stock_sound (cancel_production_order order actor db).2.
Proof.
  intros Hwf Hss.
  destruct (cancel_production_order order actor db) as [[e|order1] db1] eqn:Hrun; cbn [snd].
  { by apply atomic_failure_rolls_back in Hrun as ->. }
  destruct (production_orders db !! ProductionOrder.id order) as [stored|] eqn:Hst; last first.
  { unfold cancel_production_order in Hrun.
    erewrite atomic_err in Hrun; [done|]. by apply ProductionOrder_get_missing. }
  pose proof (wf_orders _ Hwf _ _ Hst) as Hid. cbn in Hid.
  destruct (cancel_production_ok_inv db order stored actor order1 db1 Hst Hrun)
    as (Hc & Hd & _ & _).
  destruct (ProductionOrder.raw_material_released stored) eqn:Hrel.
  - rewrite (cancel_released_run db order stored actor Hst Hid Hc Hd Hrel
               (wf_materials _ Hwf) (wf_lines_exist db _ Hwf)) in Hrun.
    cbv zeta in Hrun. injection Hrun as _ <-.
    eapply (stock_sound_intro db _ (line_move <$> lines_of db (ProductionOrder.id order)) []);
      try done; cbn [raw_materials bom_items production_consumptions].
    + intros pk b _ Hpos.
      pose proof (total_for_nonneg pk _ (line_moves_nonneg db (ProductionOrder.id order) Hss)).
      lia.
    + by rewrite app_nil_r.
    + constructor.
  - rewrite (cancel_unreleased_run db order stored actor Hst Hc Hd Hrel) in Hrun.
    injection Hrun as _ <-. by apply (stock_sound_same db).
Qed.

Lemma receive_nonneg db now order actor line_quantities :
  well_formed db → stock_sound db →
  stock_sound (receive_purchase_order now order actor line_quantities db).2.
Proof.
  intros Hwf Hss.
  destruct (receive_purchase_order now order actor line_quantities db)
    as [[e|order1] db1] eqn:Hrun; cbn [snd].
  { by apply atomic_clean in Hrun as ->. }
  destruct (purchase_orders db !! PurchaseOrder.id order) as [stored|] eqn:Hst; last first.
  { unfold receive_purchase_order in Hrun.
    erewrite atomic_err in Hrun; [done|]. by apply PurchaseOrder_get_missing. }
  pose proof (wf_purchase_orders _ Hwf _ _ Hst) as Hid. cbn in Hid.
  destruct (receive_ok_inv db now order stored actor line_quantities order1 db1 Hst Hid
              (wf_materials _ Hwf) (wf_item_ids _ Hwf) (wf_items_exist db _ Hwf) Hrun)
    as (quantities & _ & _ & _ & _ & _ & _ & ->).
  eapply (stock_sound_intro db _
            (receipt_move quantities
               <$> accepted quantities (lines_of_purchase_order db (PurchaseOrder.id order)))
            []);
    try done; cbn [raw_materials bom_items production_consumptions].
  - intros pk b _ Hpos.
    assert (0 ≤ total_for pk (receipt_move quantities
              <$> accepted quantities (lines_of_purchase_order db (PurchaseOrder.id order)))).
    { apply total_for_nonneg, Forall_fmap, Forall_forall. intros i Hi.
      unfold accepted in Hi. apply list_elem_of_filter in Hi as [Hi _]. cbn. lia. }
    lia.
  - by rewrite app_nil_r.
  - constructor.
Qed.

Lemma reject_nonneg db order :
  stock_sound db → stock_sound (reject_raw_materials_for_production_order order db).2.
Proof.
  intros Hss. rewrite reject_run.
  destruct (production_orders db !! ProductionOrder.id order) as [stored|]; [|done].
  repeat case_match; cbn [snd]; try done. by apply (stock_sound_same db).
Qed.

Lemma cancel_purchase_nonneg db now order actor :
  stock_sound db → stock_sound (cancel_purchase_order now order actor db).2.
Proof.
  intros Hss.
  destruct (cancel_purchase_order now order actor db) as [[e|order1] db1] eqn:Hrun; cbn [snd].
  { by apply atomic_clean in Hrun as ->. }
  destruct (purchase_orders db !! PurchaseOrder.id order) as [stored|] eqn:Hst; last first.
  { unfold cancel_purchase_order in Hrun.
    erewrite atomic_err in Hrun; [done|]. by apply PurchaseOrder_get_missing. }
  rewrite (cancel_purchase_run db now order stored actor Hst) in Hrun.
  repeat case_bool_decide; try done. injection Hrun as _ <-. by apply (stock_sound_same db).
Qed.

Lemma reopen_nonneg db order :
  stock_sound db → stock_sound (reopen_purchase_order order db).2.
Proof.
  intros Hss.
  destruct (reopen_purchase_order order db) as [[e|order1] db1] eqn:Hrun; cbn [snd].
  { by apply atomic_clean in Hrun as ->. }
  destruct (purchase_orders db !! PurchaseOrder.id order) as [stored|] eqn:Hst; last first.
  { unfold reopen_purchase_order in Hrun.
    erewrite atomic_err in Hrun; [done|]. by apply PurchaseOrder_get_missing. }
  rewrite (reopen_run db order stored Hst) in Hrun. cbv zeta in Hrun.
  repeat case_match; try done. injection Hrun as _ <-. by apply (stock_sound_same db).
Qed.

Lemma complete_nonneg p now order produced_qty scrap_qty actor :
  well_formed (stock_db p) → stock_sound (stock_db p) →
  stock_sound (stock_db (complete_production_order now order produced_qty scrap_qty actor p).2).
Proof.
  intros Hwf Hss.
  destruct (complete_sound p now order produced_qty scrap_qty actor Hwf)
    as (_ & Hrows & Hbom & Hlines).
  by apply (stock_sound_same (stock_db p)).
Qed.

Lemma create_purchase_orders_nonneg db order_date notes actor lines vendor :
  well_formed db → stock_sound db →
  Forall (λ line, is_Some (raw_materials db
                             !! RawMaterial.id (PurchaseLineInput.material line))) lines →
  stock_sound
    (create_grouped_purchase_orders_with_vendor order_date notes actor lines vendor db).2.
Proof.
  intros Hwf Hss Hlines.
  destruct (create_purchase_orders_sound db order_date notes actor lines vendor Hwf Hlines)
    as (_ & Hrows & Hbom & Hcons).
  by apply (stock_sound_same db).
Qed.

Lemma call_nonneg c p :
  well_formed (stock_db p) → stock_sound (stock_db p) →
  call_ok (stock_db p) c → quantity_ok c →
  stock_sound (stock_db (after c p)).
Proof.
  intros Hwf Hss Hok Hq. unfold after. destruct c; cbn [run].
  - by apply lift_nonneg, adjust_stock_nonneg.
  - by apply lift_nonneg, create_immediate_nonneg.
  - by apply lift_nonneg, create_rm_request_nonneg.
  - by apply lift_nonneg, release_nonneg.
  - by apply lift_nonneg, reject_nonneg.
  - unfold outcome. cbn [snd]. by apply complete_nonneg.
  - by apply lift_nonneg, cancel_production_nonneg.
  - by apply lift_nonneg, create_purchase_orders_nonneg.
  - by apply lift_nonneg, receive_nonneg.
  - by apply lift_nonneg, cancel_purchase_nonneg.
  - by apply lift_nonneg, reopen_nonneg.
Qed.

(** The materials of a request are still stored after other calls. *)
Lemma call_ok_step db db' c : step db db' → call_ok db c → call_ok db' c.
Proof.
  intros Hstep. destruct c; try done. cbn [call_ok].
  destruct (step_stock _ _ Hstep) as (moves & entries & Hrows & _).
  intros Hok. eapply Forall_impl; [exact Hok|]. intros line Hl. cbn beta in *.
  rewrite Hrows. by apply is_Some_apply_moves.
Qed.

Lemma after_all_snoc calls c p : after_all (calls ++ [c]) p = after c (after_all calls p).
Proof. unfold after_all. by rewrite foldl_app. Qed.

Lemma after_all_sound calls p :
  well_formed (stock_db p) → Forall (call_ok (stock_db p)) calls →
  well_formed (stock_db (after_all calls p))
  ∧ step (stock_db p) (stock_db (after_all calls p)).
Proof.
  intros Hwf. induction calls as [|c calls IH] using rev_ind; intros Hok.
  { split; [done | apply step_refl]. }
  apply Forall_app in Hok as [Hcalls Hc]. rewrite Forall_singleton in Hc.
  destruct (IH Hcalls) as [Hwf' Hstep]. rewrite after_all_snoc.
  destruct (call_sound c (after_all calls p) Hwf' (call_ok_step _ _ c Hstep Hc))
    as [Hwf'' Hstep'].
  split; [done|]. by apply (step_trans _ (stock_db (after_all calls p))).
Qed.

Lemma after_all_nonneg calls p :
  well_formed (stock_db p) → stock_sound (stock_db p) →
  Forall (call_ok (stock_db p)) calls → Forall quantity_ok calls →
  stock_sound (stock_db (after_all calls p)).
Proof.
  intros Hwf Hss. induction calls as [|c calls IH] using rev_ind; intros Hok Hq; [done|].
  apply Forall_app in Hok as [Hcalls Hc]. rewrite Forall_singleton in Hc.
  apply Forall_app in Hq as [Hqs Hqc]. rewrite Forall_singleton in Hqc.
  destruct (after_all_sound calls p Hwf Hcalls) as [Hwf' Hstep].
  rewrite after_all_snoc. apply call_nonneg; try done.
  - by apply IH.
  - by apply (call_ok_step (stock_db p)).
Qed.

(** X20. The service functions keep the tables consistent.  After any
    list of calls, made one after the other, each succeeding or
    failing: every material, partner, production order and purchase
    order is stored under its own primary key; every BOM line,
    consumption line and purchase line names a stored material; the
    order keys that consumption lines and purchase lines bear, and the
    keys of the purchase lines, are not above the counters that number
    the next order and the next line; and no two purchase lines share a
    key.  The materials named in requests for purchase orders have to
    be stored ones. *)
Theorem service_calls_keep_the_tables_consistent p calls :
  well_formed (stock_db p) → Forall (call_ok (stock_db p)) calls →
  well_formed (stock_db (after_all calls p)).
Proof. intros Hwf Hok. by destruct (after_all_sound calls p Hwf Hok). Qed.


(** X22. What the calls never touch.  Over any list of calls the
    partners and the BOMs stay as they are; consumption lines are only
    added, never changed or removed; and every purchase line stays in
    place with its key, order, material, quantity and unit, its
    received quantity never decreasing, new lines coming after it. *)
Theorem stored_lines_are_kept p calls :
  well_formed (stock_db p) → Forall (call_ok (stock_db p)) calls →
  let db := stock_db p in
  let db' := stock_db (after_all calls p) in
  partners db' = partners db
  ∧ bom_items db' = bom_items db
  ∧ (∃ new, production_consumptions db' = production_consumptions db ++ new)
  ∧ ∃ kept new,
      purchase_order_items db' = kept ++ new
      ∧ Forall2 same_line (purchase_order_items db) kept.
Proof.
  intros Hwf Hok. destruct (after_all_sound calls p Hwf Hok) as [_ Hstep].
  split; [apply (step_partners _ _ Hstep)|]. split; [apply (step_bom _ _ Hstep)|].
  split; [apply (step_lines _ _ Hstep) | apply (step_items _ _ Hstep)].
Qed.

(** X23. A call that fails writes nothing: whichever of the service
    functions raises, and wherever in its body, the stock, the
    ledgers, the orders and their lines are what they were before the
    call. *)
Theorem a_failing_call_writes_nothing c p e :
  (run c p).1 = Some e → after c p = p.
Proof. apply run_clean. Qed.

(** X24. Stock never goes negative.  In a database where no balance is
    negative, BOMs have one line per product and material with no
    negative quantity per unit, and the consumption lines of every
    order ask for non-negative quantities of distinct materials, no
    list of calls brings a balance below zero, provided production
    orders are created for non-negative quantities. *)
Theorem stock_never_goes_negative p calls pk b :
  well_formed (stock_db p) → stock_sound (stock_db p) →
  Forall (call_ok (stock_db p)) calls → Forall quantity_ok calls →
  balance (stock_db (after_all calls p)) pk = Some b → 0 ≤ b.
Proof.
  intros Hwf Hss Hok Hq Hb.
  pose proof (after_all_nonneg calls p Hwf Hss Hok Hq) as Hss'.
  unfold balance in Hb.
  destruct (raw_materials (stock_db (after_all calls p)) !! pk) as [m|] eqn:Hm; [|done].
  injection Hb as <-. apply (ss_balances _ Hss' _ _ Hm).
Qed.

(** ** Finished stock over a list of calls *)

Lemma finished_total_app product l1 l2 :
  finished_total product (l1 ++ l2) = finished_total product l1 + finished_total product l2.
Proof. induction l1 as [|e l1 IH]; cbn [app finished_total]; [done | rewrite IH; lia]. Qed.

(** What a call does to the finished-goods tables. *)
Lemma call_finished c p :
  well_formed (stock_db p) →
  ∃ entries,
    finished_stock_ledger (after c p) = finished_stock_ledger p ++ entries
    ∧ Forall (λ e, FinishedStockLedger.txn_type e = FinishedStockLedger.IN
                   ∧ 0 < FinishedStockLedger.quantity e) entries
    ∧ ∀ product, finished_balance (after c p) product
                 = finished_balance p product + finished_total product entries.
Proof.
  intros Hwf.
  assert (∀ A (m : M A),
            finished_stock_ledger (outcome (lift m) p).2 = finished_stock_ledger p ++ []
            ∧ ∀ product, finished_balance (outcome (lift m) p).2 product
                         = finished_balance p product + finished_total product [])
    as Hlift.
  { intros A m. unfold outcome, lift, finished_balance. cbn [snd].
    destruct (m (stock_db p)) as [r db']. cbn. rewrite app_nil_r.
    split; [done|]. intros product. lia. }
  unfold after.
  destruct c; cbn [run];
    try (exists []; split; [apply Hlift|]; split; [constructor | apply Hlift]).
  unfold outcome. cbn [snd].
  destruct (complete_production_order now order produced_qty scrap_qty actor p)
    as [[e|result] p1] eqn:Hrun; cbn [snd].
  { apply complete_clean in Hrun as ->. exists []. rewrite app_nil_r.
    split; [done|]. split; [constructor|]. intros product. cbn. lia. }
  destruct (production_orders (stock_db p) !! ProductionOrder.id order) as [stored|] eqn:Hst.
  - pose proof (wf_orders _ Hwf _ _ Hst) as Hid. cbn in Hid.
    rewrite (complete_run p now order stored produced_qty scrap_qty actor Hst Hid) in Hrun.
    cbv zeta in Hrun.
    destruct (Z.leb_spec (Decimal.quantize_milli produced_qty) 0) as [|Hpos]; [done|].
    repeat case_match; try done. injection Hrun as _ <-.
    eexists [_]. cbn [finished_stock_ledger]. split; [reflexivity|]. split.
    + constructor; [|constructor]. cbn. split; [done | lia].
    + intros product. unfold finished_balance.
      cbn [finished_stock finished_total FinishedStockLedger.product
           FinishedStockLedger.quantity].
      destruct (decide (ProductionOrder.product stored = product)) as [Hp|Hp].
      * rewrite bool_decide_eq_true_2 by done. rewrite <- Hp, lookup_insert_eq. cbn. lia.
      * rewrite bool_decide_eq_false_2 by done. rewrite lookup_insert_ne by done. lia.
  - exfalso. unfold complete_production_order in Hrun. cbv zeta in Hrun.
    destruct (_ <=? 0); [done|]. destruct (_ <? 0); [done|].
    unfold atomicP in Hrun. rewrite runP_bind, lift_run in Hrun.
    unfold ProductionOrder_get in Hrun. rewrite run_bind in Hrun.
    change (get_db (stock_db p)) with (inr (stock_db p) : exn + _, stock_db p) in Hrun.
    cbv beta iota in Hrun. rewrite Hst in Hrun. done.
Qed.

(** X25. Finished stock only grows, and its ledger explains it.  Over
    any list of calls the finished-stock ledger is only appended to,
    every row added is an IN row of a positive quantity, and the
    finished stock of every product (none, for a product without a row)
    rises by exactly the total of the rows added for it. *)
Theorem finished_ledger_explains_finished_stock p calls :
  well_formed (stock_db p) → Forall (call_ok (stock_db p)) calls →
  ∃ entries,
    finished_stock_ledger (after_all calls p) = finished_stock_ledger p ++ entries
    ∧ Forall (λ e, FinishedStockLedger.txn_type e = FinishedStockLedger.IN
                   ∧ 0 < FinishedStockLedger.quantity e) entries
    ∧ ∀ product, finished_balance (after_all calls p) product
                 = finished_balance p product + finished_total product entries.
Proof.
  intros Hwf. induction calls as [|c calls IH] using rev_ind; intros Hok.
  { exists []. rewrite app_nil_r. split; [done|]. split; [constructor|].
    intros product. cbn. lia. }
  apply Forall_app in Hok as [Hcalls Hc].
  destruct (IH Hcalls) as (entries & Hledger & Hin & Hbal).
  destruct (after_all_sound calls p Hwf Hcalls) as [Hwf' _].
  destruct (call_finished c (after_all calls p) Hwf') as (entries' & Hledger' & Hin' & Hbal').
  rewrite after_all_snoc. exists (entries ++ entries').
  split; [by rewrite Hledger', Hledger, app_assoc|].
  split; [by apply Forall_app|].
  intros product. rewrite Hbal', Hbal, finished_total_app. lia.
Qed.

(** ** Orders that are closed stay as they are *)

Lemma rows_kept_refl {A} (frozen : A → Prop) (m : gmap Z A) : rows_kept frozen m m.
Proof. intros pk o Ho. by exists o. Qed.

Lemma rows_kept_trans {A} (frozen : A → Prop) (m1 m2 m3 : gmap Z A) :
  rows_kept frozen m1 m2 → rows_kept frozen m2 m3 → rows_kept frozen m1 m3.
Proof.
  intros H12 H23 pk o Ho. destruct (H12 pk o Ho) as (o2 & Ho2 & Hf2).
  destruct (H23 pk o2 Ho2) as (o3 & Ho3 & Hf3). exists o3. split; [done|].
  intros Hf. specialize (Hf2 Hf). subst o2. by apply Hf3.
Qed.

Lemma rows_kept_alter {A} (frozen : A → Prop) f k (m : gmap Z A) stored :
  m !! k = Some stored → ¬ frozen stored → rows_kept frozen m (alter f k m).
Proof.
  intros Hst Hnot pk o Ho. destruct (decide (pk = k)) as [->|Hne].
  - rewrite Hst in Ho. injection Ho as <-. exists (f stored).
    rewrite lookup_alter_eq, Hst. done.
  - exists o. by rewrite lookup_alter_ne.
Qed.

Lemma rows_kept_insert {A} (frozen : A → Prop) k x (m : gmap Z A) :
  (∀ stored, m !! k = Some stored → ¬ frozen stored) →
  rows_kept frozen m (<[k := x]> m).
Proof.
  intros Hnot pk o Ho. destruct (decide (pk = k)) as [->|Hne].
  - exists x. rewrite lookup_insert_eq. split; [done|]. intros Hf. by destruct (Hnot o Ho).
  - exists o. by rewrite lookup_insert_ne.
Qed.

Lemma bounded_weaken {A} s s' (m : gmap Z A) :
  s ≤ s' → map_Forall (λ k _, k ≤ s) m → map_Forall (λ k _, k ≤ s') m.
Proof. intros Hle Hm k x Hx. specialize (Hm k x Hx). cbn in *. lia. Qed.

Lemma bounded_alter {A} s f k (m : gmap Z A) :
  map_Forall (λ k _, k ≤ s) m → map_Forall (λ k _, k ≤ s) (alter f k m).
Proof.
  intros Hm k' x' Hx. destruct (decide (k' = k)) as [->|Hne].
  - rewrite lookup_alter_eq in Hx. destruct (m !! k) as [x|] eqn:Hk; [|done].
    apply (Hm k x Hk).
  - rewrite lookup_alter_ne in Hx by done. apply (Hm k' x' Hx).
Qed.

Lemma bounded_insert {A} s k x (m : gmap Z A) :
  k ≤ s → map_Forall (λ k _, k ≤ s) m → map_Forall (λ k _, k ≤ s) (<[k := x]> m).
Proof. intros Hk Hm. by apply map_Forall_insert_2. Qed.

Lemma bounded_fresh {A} s (m : gmap Z A) stored (frozen : A → Prop) :
  map_Forall (λ k _, k ≤ s) m → m !! (s + 1) = Some stored → ¬ frozen stored.
Proof. intros Hm Hst. specialize (Hm _ _ Hst). cbn in Hm. lia. Qed.

Lemma insert_orders_kept (frozen : PurchaseOrder.t → Prop) s s' orders
    (m : gmap Z PurchaseOrder.t) :
  map_Forall (λ k _, k ≤ s) m → s ≤ s' →
  Forall (λ o, s < PurchaseOrder.id o ∧ PurchaseOrder.id o ≤ s') orders →
  map_Forall (λ k _, k ≤ s') (insert_orders orders m)
  ∧ rows_kept frozen m (insert_orders orders m).
Proof.
  intros Hm Hle Hall. unfold insert_orders.
  assert (map_Forall (λ k _, k ≤ s') (foldl (λ t o, <[PurchaseOrder.id o := o]> t) m orders)
          ∧ ∀ pk, pk ≤ s →
              foldl (λ t o, <[PurchaseOrder.id o := o]> t) m orders !! pk = m !! pk)
    as [Hbound Hsame].
  { induction orders as [|o orders IH] using rev_ind.
    - split; [by apply (bounded_weaken s) | done].
    - apply Forall_app in Hall as [Hall Ho]. rewrite Forall_singleton in Ho.
      destruct (IH Hall) as [Hb Hs]. rewrite foldl_app. cbn [foldl]. split.
      + apply bounded_insert; [lia | done].
      + intros pk Hpk. rewrite lookup_insert_ne by lia. by apply Hs. }
  split; [done|]. intros pk o Ho. exists o. split; [|done].
  rewrite Hsame; [done|]. apply (Hm pk o Ho).
Qed.

(** The orders of both kinds at two moments. *)
Lemma orders_same db db' :
  keys_bounded db →
  production_orders db' = production_orders db →
  production_order_seq db' = production_order_seq db →
  purchase_orders db' = purchase_orders db →
  purchase_order_seq db' = purchase_order_seq db →
  keys_bounded db'
  ∧ rows_kept closed (production_orders db) (production_orders db')
  ∧ rows_kept fully_received (purchase_orders db) (purchase_orders db').
Proof.
  unfold keys_bounded. intros Hb H1 H2 H3 H4. rewrite H1, H2, H3, H4.
  split; [exact Hb|]. split; apply rows_kept_refl.
Qed.

Lemma production_orders_altered db db' f k stored :
  keys_bounded db →
  production_orders db !! k = Some stored → ¬ closed stored →
  production_orders db' = alter f k (production_orders db) →
  production_order_seq db' = production_order_seq db →
  purchase_orders db' = purchase_orders db →
  purchase_order_seq db' = purchase_order_seq db →
  keys_bounded db'
  ∧ rows_kept closed (production_orders db) (production_orders db')
  ∧ rows_kept fully_received (purchase_orders db) (purchase_orders db').
Proof.
  unfold keys_bounded. intros [Hb1 Hb2] Hst Hnot H1 H2 H3 H4. rewrite H1, H2, H3, H4.
  split; [split; [by apply bounded_alter | done]|].
  split; [by apply (rows_kept_alter _ _ _ _ stored) | apply rows_kept_refl].
Qed.

Lemma production_order_created db db' order :
  keys_bounded db →
  production_orders db' = <[production_order_seq db + 1 := order]> (production_orders db) →
  production_order_seq db' = production_order_seq db + 1 →
  purchase_orders db' = purchase_orders db →
  purchase_order_seq db' = purchase_order_seq db →
  keys_bounded db'
  ∧ rows_kept closed (production_orders db) (production_orders db')
  ∧ rows_kept fully_received (purchase_orders db) (purchase_orders db').
Proof.
  unfold keys_bounded. intros [Hb1 Hb2] H1 H2 H3 H4. rewrite H1, H2, H3, H4.
  split; [split; [|done]|].
  - apply bounded_insert; [lia|]. apply (bounded_weaken (production_order_seq db)); [lia|done].
  - split; [|apply rows_kept_refl]. apply rows_kept_insert.
    intros stored Hst. by apply (bounded_fresh _ _ _ _ Hb1 Hst).
Qed.

Lemma purchase_orders_altered db db' f k stored :
  keys_bounded db →
  purchase_orders db !! k = Some stored → ¬ fully_received stored →
  purchase_orders db' = alter f k (purchase_orders db) →
  purchase_order_seq db' = purchase_order_seq db →
  production_orders db' = production_orders db →
  production_order_seq db' = production_order_seq db →
  keys_bounded db'
  ∧ rows_kept closed (production_orders db) (production_orders db')
  ∧ rows_kept fully_received (purchase_orders db) (purchase_orders db').
Proof.
  unfold keys_bounded. intros [Hb1 Hb2] Hst Hnot H1 H2 H3 H4. rewrite H1, H2, H3, H4.
  split; [split; [done | by apply bounded_alter]|].
  split; [apply rows_kept_refl | by apply (rows_kept_alter _ _ _ _ stored)].
Qed.

Lemma purchase_orders_created db db' orders :
  keys_bounded db →
  purchase_orders db' = insert_orders orders (purchase_orders db) →
  purchase_order_seq db ≤ purchase_order_seq db' →
  Forall (λ o, purchase_order_seq db < PurchaseOrder.id o
               ∧ PurchaseOrder.id o ≤ purchase_order_seq db') orders →
  production_orders db' = production_orders db →
  production_order_seq db' = production_order_seq db →
  keys_bounded db'
  ∧ rows_kept closed (production_orders db) (production_orders db')
  ∧ rows_kept fully_received (purchase_orders db) (purchase_orders db').
Proof.
  unfold keys_bounded. intros [Hb1 Hb2] H1 Hle Hall H3 H4. rewrite H1, H3, H4.
  destruct (insert_orders_kept fully_received (purchase_order_seq db)
              (purchase_order_seq db') orders (purchase_orders db) Hb2 Hle Hall)
    as [Hbound Hkept].
  split; [by split|]. split; [apply rows_kept_refl | done].
Qed.

Lemma purchase_order_replaced db db' k order stored :
  keys_bounded db →
  purchase_orders db !! k = Some stored → ¬ fully_received stored →
  purchase_orders db' = <[k := order]> (purchase_orders db) →
  purchase_order_seq db' = purchase_order_seq db →
  production_orders db' = production_orders db →
  production_order_seq db' = production_order_seq db →
  keys_bounded db'
  ∧ rows_kept closed (production_orders db) (production_orders db')
  ∧ rows_kept fully_received (purchase_orders db) (purchase_orders db').
Proof.
  unfold keys_bounded. intros [Hb1 Hb2] Hst Hnot H1 H2 H3 H4. rewrite H1, H2, H3, H4.
  split; [split; [done|]|].
  - apply bounded_insert; [apply (Hb2 _ _ Hst) | done].
  - split; [apply rows_kept_refl|]. apply rows_kept_insert.
    intros stored' Hst'. rewrite Hst in Hst'. by injection Hst' as <-.
Qed.

Ltac same_orders Hb := apply orders_same; [exact Hb | reflexivity..].

Lemma adjust_stock_closed db material delta reason_ actor :
  well_formed db → keys_bounded db →
  let db' := (adjust_stock material delta reason_ actor db).2 in
  keys_bounded db'
  ∧ rows_kept closed (production_orders db) (production_orders db')
  ∧ rows_kept fully_received (purchase_orders db) (purchase_orders db').
Proof.
  intros Hwf Hb. rewrite (adjust_stock_run _ _ _ _ _ (wf_materials _ Hwf)).
  repeat case_match; cbn [snd]; same_orders Hb.
Qed.

Lemma create_immediate_closed db product quantity notes actor :
  well_formed db → keys_bounded db →
  let db' := (create_production_order_and_deduct_stock product quantity notes actor db).2 in
  keys_bounded db'
  ∧ rows_kept closed (production_orders db) (production_orders db')
  ∧ rows_kept fully_received (purchase_orders db) (purchase_orders db').
Proof.
  intros Hwf Hb.
  destruct (create_production_order_and_deduct_stock product quantity notes actor db)
    as [[e|order1] db1] eqn:Hrun; cbn [snd].
  { apply create_immediate_clean in Hrun as ->. same_orders Hb. }
  destruct (decide (bom_of db product = [])) as [Hnil|Hne].
  { unfold create_production_order_and_deduct_stock in Hrun. rewrite run_bind in Hrun.
    change (BOMItem_filter product db) with (inr (bom_of db product) : exn + _, db) in Hrun.
    cbv beta iota in Hrun. by rewrite Hnil in Hrun. }
  rewrite (create_immediate_run db product quantity notes actor Hne (wf_materials _ Hwf)
             (wf_bom_exist db product Hwf)) in Hrun.
  destruct (omap _ _) in Hrun; [|done]. cbv zeta in Hrun. injection Hrun as _ <-.
  eapply production_order_created; [exact Hb | reflexivity..].
Qed.

Lemma create_rm_request_closed db product quantity notes actor :
  well_formed db → keys_bounded db →
  let db' := (create_production_order_with_rm_request product quantity notes actor db).2 in
  keys_bounded db'
  ∧ rows_kept closed (production_orders db) (production_orders db')
  ∧ rows_kept fully_received (purchase_orders db) (purchase_orders db').
Proof.
  intros Hwf Hb.
  destruct (create_production_order_with_rm_request product quantity notes actor db)
    as [[e|order1] db1] eqn:Hrun; cbn [snd].
  { apply create_rm_request_clean in Hrun as ->. same_orders Hb. }
  destruct (decide (bom_of db product = [])) as [Hnil|Hne].
  { unfold create_production_order_with_rm_request in Hrun. rewrite run_bind in Hrun.
    change (BOMItem_filter product db) with (inr (bom_of db product) : exn + _, db) in Hrun.
    cbv beta iota in Hrun. by rewrite Hnil in Hrun. }
  rewrite (create_rm_request_run db product quantity notes actor Hne) in Hrun.
  cbv zeta in Hrun. injection Hrun as _ <-.
  eapply production_order_created; [exact Hb | reflexivity..].
Qed.

Lemma release_closed db order actor :
  well_formed db → keys_bounded db →
  let db' := (release_raw_materials_for_production_order order actor db).2 in
  keys_bounded db'
  ∧ rows_kept closed (production_orders db) (production_orders db')
  ∧ rows_kept fully_received (purchase_orders db) (purchase_orders db').
Proof.
  intros Hwf Hb.
  destruct (release_raw_materials_for_production_order order actor db) as [[e|order1] db1]
    eqn:Hrun; cbn [snd].
  { apply atomic_failure_rolls_back in Hrun as ->. same_orders Hb. }
  destruct (production_orders db !! ProductionOrder.id order) as [stored|] eqn:Hst; last first.
  { unfold release_raw_materials_for_production_order in Hrun.
    erewrite atomic_err in Hrun; [done|]. by apply ProductionOrder_get_missing. }
  pose proof (wf_orders _ Hwf _ _ Hst) as Hid. cbn in Hid.
  destruct (release_ok_inv db order stored actor order1 db1 Hst Hid (wf_materials _ Hwf) Hrun)
    as (Hs & _ & _ & _ & _ & ->).
  eapply (production_orders_altered db _ _ _ stored); [exact Hb | exact Hst | | reflexivity..].
  unfold closed. rewrite Hs. by intros [|].
Qed.

Lemma reject_closed db order :
  well_formed db → keys_bounded db →
  let db' := (reject_raw_materials_for_production_order order db).2 in
  keys_bounded db'
  ∧ rows_kept closed (production_orders db) (production_orders db')
  ∧ rows_kept fully_received (purchase_orders db) (purchase_orders db').
Proof.
  intros Hwf Hb. rewrite reject_run.
  destruct (production_orders db !! ProductionOrder.id order) as [stored|] eqn:Hst;
    [|same_orders Hb].
  pose proof (wf_orders _ Hwf _ _ Hst) as Hid. cbn in Hid.
  destruct (decide (ProductionOrder.status stored = ProductionOrder.AWAITING_RM_RELEASE))
    as [Hs|Hs]; [|rewrite bool_decide_eq_true_2 by done; same_orders Hb].
  rewrite bool_decide_eq_false_2 by (intros Hn; by apply Hn).
  destruct (ProductionOrder.raw_material_released stored); [same_orders Hb|]. cbn [snd].
  rewrite Hid.
  eapply (production_orders_altered db _ _ _ stored); [exact Hb | exact Hst | | reflexivity..].
  unfold closed. rewrite Hs. by intros [|].
Qed.

Lemma cancel_production_closed db order actor :
  well_formed db → keys_bounded db →
  let db' := (cancel_production_order order actor db).2 in
  keys_bounded db'
  ∧ rows_kept closed (production_orders db) (production_orders db')
  ∧ rows_kept fully_received (purchase_orders db) (purchase_orders db').
Proof.
  intros Hwf Hb.
  destruct (cancel_production_order order actor db) as [[e|order1] db1] eqn:Hrun; cbn [snd].
  { apply atomic_failure_rolls_back in Hrun as ->. same_orders Hb. }
  destruct (production_orders db !! ProductionOrder.id order) as [stored|] eqn:Hst; last first.
  { unfold cancel_production_order in Hrun.
    erewrite atomic_err in Hrun; [done|]. by apply ProductionOrder_get_missing. }
  pose proof (wf_orders _ Hwf _ _ Hst) as Hid. cbn in Hid.
  destruct (cancel_production_ok_inv db order stored actor order1 db1 Hst Hrun)
    as (Hc & Hd & _ & _).
  assert (¬ closed stored) as Hopen by (by intros [|]).
  destruct (ProductionOrder.raw_material_released stored) eqn:Hrel.
  - rewrite (cancel_released_run db order stored actor Hst Hid Hc Hd Hrel
               (wf_materials _ Hwf) (wf_lines_exist db _ Hwf)) in Hrun.
    cbv zeta in Hrun. injection Hrun as _ <-.
    eapply (production_orders_altered db _ _ _ stored);
      [exact Hb | exact Hst | exact Hopen | reflexivity..].
  - rewrite (cancel_unreleased_run db order stored actor Hst Hc Hd Hrel) in Hrun.
    injection Hrun as _ <-. rewrite Hid.
    eapply (production_orders_altered db _ _ _ stored);
      [exact Hb | exact Hst | exact Hopen | reflexivity..].
Qed.

Lemma complete_closed p now order produced_qty scrap_qty actor :
  well_formed (stock_db p) → keys_bounded (stock_db p) →
  let db := stock_db p in
  let db' := stock_db (complete_production_order now order produced_qty scrap_qty actor p).2 in
  keys_bounded db'
  ∧ rows_kept closed (production_orders db) (production_orders db')
  ∧ rows_kept fully_received (purchase_orders db) (purchase_orders db').
Proof.
  intros Hwf Hb. cbv zeta.
  destruct (complete_production_order now order produced_qty scrap_qty actor p)
    as [[e|result] p1] eqn:Hrun; cbn [snd].
  { apply complete_clean in Hrun as ->. same_orders Hb. }
  destruct (production_orders (stock_db p) !! ProductionOrder.id order) as [stored|] eqn:Hst.
  - pose proof (wf_orders _ Hwf _ _ Hst) as Hid. cbn in Hid.
    rewrite (complete_run p now order stored produced_qty scrap_qty actor Hst Hid) in Hrun.
    cbv zeta in Hrun.
    destruct (_ <=? 0); [done|]. destruct (_ <? 0); [done|].
    destruct (decide (ProductionOrder.status stored = ProductionOrder.CANCELLED)) as [Hc|Hc];
      [by rewrite bool_decide_eq_true_2 in Hrun|].
    rewrite (bool_decide_eq_false_2 _ Hc) in Hrun.
    destruct (decide (ProductionOrder.status stored = ProductionOrder.COMPLETED)) as [Hd|Hd];
      [by rewrite bool_decide_eq_true_2 in Hrun|].
    rewrite (bool_decide_eq_false_2 _ Hd) in Hrun.
    injection Hrun as _ <-. cbn [stock_db].
    eapply (production_orders_altered _ _ _ _ stored);
      [exact Hb | exact Hst | by intros [|] | reflexivity..].
  - exfalso. unfold complete_production_order in Hrun. cbv zeta in Hrun.
    destruct (_ <=? 0); [done|]. destruct (_ <? 0); [done|].
    unfold atomicP in Hrun. rewrite runP_bind, lift_run in Hrun.
    unfold ProductionOrder_get in Hrun. rewrite run_bind in Hrun.
    change (get_db (stock_db p)) with (inr (stock_db p) : exn + _, stock_db p) in Hrun.
    cbv beta iota in Hrun. rewrite Hst in Hrun. done.
Qed.

Lemma receive_closed db now order actor line_quantities :
  well_formed db → keys_bounded db →
  let db' := (receive_purchase_order now order actor line_quantities db).2 in
  keys_bounded db'
  ∧ rows_kept closed (production_orders db) (production_orders db')
  ∧ rows_kept fully_received (purchase_orders db) (purchase_orders db').
Proof.
  intros Hwf Hb.
  destruct (receive_purchase_order now order actor line_quantities db)
    as [[e|order1] db1] eqn:Hrun; cbn [snd].
  { apply atomic_clean in Hrun as ->. same_orders Hb. }
  destruct (purchase_orders db !! PurchaseOrder.id order) as [stored|] eqn:Hst; last first.
  { unfold receive_purchase_order in Hrun.
    erewrite atomic_err in Hrun; [done|]. by apply PurchaseOrder_get_missing. }
  pose proof (wf_purchase_orders _ Hwf _ _ Hst) as Hid. cbn in Hid.
  destruct (receive_ok_inv db now order stored actor line_quantities order1 db1 Hst Hid
              (wf_materials _ Hwf) (wf_item_ids _ Hwf) (wf_items_exist db _ Hwf) Hrun)
    as (quantities & Hs & _ & _ & _ & _ & _ & ->).
  eapply (purchase_order_replaced db _ _ _ stored); [exact Hb | exact Hst | | reflexivity..].
  unfold fully_received. by destruct Hs as [-> | ->].
Qed.

Lemma cancel_purchase_closed db now order actor :
  well_formed db → keys_bounded db →
  let db' := (cancel_purchase_order now order actor db).2 in
  keys_bounded db'
  ∧ rows_kept closed (production_orders db) (production_orders db')
  ∧ rows_kept fully_received (purchase_orders db) (purchase_orders db').
Proof.
  intros Hwf Hb.
  destruct (purchase_orders db !! PurchaseOrder.id order) as [stored|] eqn:Hst.
  - pose proof (wf_purchase_orders _ Hwf _ _ Hst) as Hid. cbn in Hid.
    rewrite (cancel_purchase_run db now order stored actor Hst).
    case_bool_decide as Hr; [same_orders Hb|].
    case_bool_decide as Hc; [same_orders Hb|]. cbn [snd]. rewrite Hid.
    eapply (purchase_orders_altered db _ _ _ stored);
      [exact Hb | exact Hst | exact Hr | reflexivity..].
  - unfold cancel_purchase_order.
    erewrite atomic_err; [|by apply PurchaseOrder_get_missing]. same_orders Hb.
Qed.

Lemma reopen_closed db order :
  well_formed db → keys_bounded db →
  let db' := (reopen_purchase_order order db).2 in
  keys_bounded db'
  ∧ rows_kept closed (production_orders db) (production_orders db')
  ∧ rows_kept fully_received (purchase_orders db) (purchase_orders db').
Proof.
  intros Hwf Hb.
  destruct (purchase_orders db !! PurchaseOrder.id order) as [stored|] eqn:Hst.
  - pose proof (wf_purchase_orders _ Hwf _ _ Hst) as Hid. cbn in Hid.
    rewrite (reopen_run db order stored Hst). cbv zeta.
    destruct (decide (PurchaseOrder.status stored = PurchaseOrder.CANCELLED)) as [Hs|Hs];
      [|rewrite bool_decide_eq_true_2 by done; same_orders Hb].
    rewrite bool_decide_eq_false_2 by (intros Hn; by apply Hn).
    repeat case_match; cbn [snd]; try same_orders Hb.
    all: rewrite Hid.
    all: eapply (purchase_orders_altered db _ _ _ stored);
        [exact Hb | exact Hst | | reflexivity..].
    all: unfold fully_received; by rewrite Hs.
  - unfold reopen_purchase_order.
    erewrite atomic_err; [|by apply PurchaseOrder_get_missing]. same_orders Hb.
Qed.

Lemma create_purchase_orders_closed db order_date notes actor lines vendor :
  well_formed db → keys_bounded db →
  let db' := (create_grouped_purchase_orders_with_vendor order_date notes actor lines vendor
                db).2 in
  keys_bounded db'
  ∧ rows_kept closed (production_orders db) (production_orders db')
  ∧ rows_kept fully_received (purchase_orders db) (purchase_orders db').
Proof.
  intros Hwf Hb.
  destruct (create_grouped_purchase_orders_with_vendor order_date notes actor lines vendor db)
    as [[e|orders] db1] eqn:Hrun; cbn [snd].
  { apply create_purchase_orders_clean in Hrun as ->. same_orders Hb. }
  destruct (create_purchase_orders_ok_inv _ _ _ _ _ _ _ _ Hwf Hrun)
    as (created & items & order_seq & item_seq & -> & Hle & _ & Hcreated & _).
  by eapply (purchase_orders_created db _ created).
Qed.

Lemma lift_closed {A} (m : M A) p :
  (let db' := (m (stock_db p)).2 in
   keys_bounded db'
   ∧ rows_kept closed (production_orders (stock_db p)) (production_orders db')
   ∧ rows_kept fully_received (purchase_orders (stock_db p)) (purchase_orders db')) →
  let db' := stock_db (outcome (lift m) p).2 in
  keys_bounded db'
  ∧ rows_kept closed (production_orders (stock_db p)) (production_orders db')
  ∧ rows_kept fully_received (purchase_orders (stock_db p)) (purchase_orders db').
Proof. unfold outcome, lift. cbn [snd]. by destruct (m (stock_db p)) as [r db']. Qed.

Lemma call_closed c p :
  well_formed (stock_db p) → keys_bounded (stock_db p) →
  let db := stock_db p in
  let db' := stock_db (after c p) in
  keys_bounded db'
  ∧ rows_kept closed (production_orders db) (production_orders db')
  ∧ rows_kept fully_received (purchase_orders db) (purchase_orders db').
Proof.
  intros Hwf Hb. unfold after. destruct c; cbn [run].
  - by apply lift_closed, adjust_stock_closed.
  - by apply lift_closed, create_immediate_closed.
  - by apply lift_closed, create_rm_request_closed.
  - by apply lift_closed, release_closed.
  - by apply lift_closed, reject_closed.
  - unfold outcome. cbn [snd]. by apply complete_closed.
  - by apply lift_closed, cancel_production_closed.
  - by apply lift_closed, create_purchase_orders_closed.
  - by apply lift_closed, receive_closed.
  - by apply lift_closed, cancel_purchase_closed.
  - by apply lift_closed, reopen_closed.
Qed.

Lemma after_all_closed calls p :
  well_formed (stock_db p) → keys_bounded (stock_db p) →
  Forall (call_ok (stock_db p)) calls →
  let db := stock_db p in
  let db' := stock_db (after_all calls p) in
  keys_bounded db'
  ∧ rows_kept closed (production_orders db) (production_orders db')
  ∧ rows_kept fully_received (purchase_orders db) (purchase_orders db').
Proof.
  intros Hwf Hb. cbv zeta. induction calls as [|c calls IH] using rev_ind; intros Hok.
  { split; [done|]. split; apply rows_kept_refl. }
  apply Forall_app in Hok as [Hcalls Hc].
  destruct (IH Hcalls) as (Hb' & Hp & Hu).
  destruct (after_all_sound calls p Hwf Hcalls) as [Hwf' _].
  rewrite after_all_snoc.
  destruct (call_closed c (after_all calls p) Hwf' Hb') as (Hb'' & Hp' & Hu').
  split; [done|]. split.
  - by apply (rows_kept_trans _ _ (production_orders (stock_db (after_all calls p)))).
  - by apply (rows_kept_trans _ _ (purchase_orders (stock_db (after_all calls p)))).
Qed.

(** X26. Closed orders stay closed, and no order is lost.  Over any
    list of calls every stored production order and purchase order is
    still stored under its key; a production order that was CANCELLED
    or COMPLETED and a purchase order that was RECEIVED are exactly the
    rows they were: no call changes them and no new order takes their
    key.  The keys of the stored orders have to be ones that the
    counters handed out. *)
Theorem closed_orders_stay_closed p calls :
  well_formed (stock_db p) → keys_bounded (stock_db p) →
  Forall (call_ok (stock_db p)) calls →
  let db := stock_db p in
  let db' := stock_db (after_all calls p) in
  (∀ pk o, production_orders db !! pk = Some o →
     ∃ o', production_orders db' !! pk = Some o' ∧ (closed o → o' = o))
  ∧ (∀ pk o, purchase_orders db !! pk = Some o →
       ∃ o', purchase_orders db' !! pk = Some o' ∧ (fully_received o → o' = o)).
Proof.
  intros Hwf Hb Hok. by destruct (after_all_closed calls p Hwf Hb Hok) as (_ & Hp & Hu).
Qed.

(** ** MRO items: strings *)

Lemma is_space_upper_char c : is_space (upper_char c) = is_space c.
Proof. by destruct c as [[] [] [] [] [] [] [] []]. Qed.

Lemma upper_char_idemp c : upper_char (upper_char c) = upper_char c.
Proof. by destruct c as [[] [] [] [] [] [] [] []]. Qed.

Lemma upper_idemp s : upper (upper s) = upper s.
Proof. induction s as [|c s IH]; [done|]. cbn [upper]. by rewrite upper_char_idemp, IH. Qed.

Lemma upper_empty s : upper s = EmptyString ↔ s = EmptyString.
Proof. by destruct s. Qed.

Lemma upper_lstrip s : upper (lstrip s) = lstrip (upper s).
Proof.
  induction s as [|c s IH]; [done|]. cbn [lstrip upper]. rewrite is_space_upper_char.
  by destruct (is_space c).
Qed.

Lemma upper_rstrip s : upper (rstrip s) = rstrip (upper s).
Proof.
  induction s as [|c s IH]; [done|]. cbn [rstrip upper]. rewrite <- IH.
  destruct (rstrip s) as [|c' r]; cbn [upper].
  - rewrite is_space_upper_char. by destruct (is_space c).
  - done.
Qed.

Lemma upper_strip s : upper (strip s) = strip (upper s).
Proof. unfold strip. by rewrite upper_rstrip, upper_lstrip. Qed.

Lemma rstrip_idemp s : rstrip (rstrip s) = rstrip s.
Proof.
  induction s as [|c s IH]; [done|]. cbn [rstrip].
  destruct (rstrip s) as [|c' r] eqn:Hr.
  - destruct (is_space c) eqn:Hc; [done|]. cbn [rstrip]. by rewrite Hc.
  - cbn [rstrip]. cbn [rstrip] in IH. by rewrite IH.
Qed.

Lemma lstrip_starts_clean s : starts_clean (lstrip s).
Proof.
  induction s as [|c s IH]; [done|]. cbn [lstrip].
  by destruct (is_space c) eqn:Hc.
Qed.

Lemma lstrip_clean s : starts_clean s → lstrip s = s.
Proof. destruct s as [|c s]; [done|]. cbn. by intros ->. Qed.

Lemma rstrip_starts_clean s : starts_clean s → starts_clean (rstrip s).
Proof.
  destruct s as [|c s]; [done|]. cbn [starts_clean rstrip]. intros Hc. rewrite Hc.
  by destruct (rstrip s).
Qed.

Lemma strip_idemp s : strip (strip s) = strip s.
Proof.
  unfold strip. rewrite (lstrip_clean (rstrip (lstrip s))).
  - apply rstrip_idemp.
  - apply rstrip_starts_clean, lstrip_starts_clean.
Qed.

(** What the functions store as an MRO id is normalised. *)
Lemma normalised_upper_strip s : normalised (upper (strip s)).
Proof. unfold normalised. by rewrite <- upper_strip, upper_idemp, strip_idemp. Qed.

Lemma or_else_empty a b : or_else a b = EmptyString ↔ a = EmptyString ∧ b = EmptyString.
Proof. destruct a; cbn; [|split; [done | by intros [? _]]]. split; [done | by intros [_ ?]]. Qed.

Lemma normalised_or_else a b : normalised a → normalised b → normalised (or_else a b).
Proof. by destruct a. Qed.

(** ** MRO items: what the three functions return and write *)

Ltac wcompute :=
  cbv beta iota zeta delta [mbind MW_bind mret MW_ret raiseW get_workshop modify_workshop
    atomicW MROItem_create MROItem_get MROItem_save_details MROItem_save_current_stock
    MROInventoryLedger_create].

(** The rows that a new item adds to the ledger. *)
Lemma create_mro_item_run w name mro_id code item_type unit_ cost_per_unit vendor location
    opening_stock reorder_level actor :
  create_mro_item_with_opening_stock name mro_id code item_type unit_ cost_per_unit vendor
    location opening_stock reorder_level actor w =
  if not_a_supplier vendor then
    (inl (Exn (ValueError (Msg "Selected partner is not a supplier."))), w)
  else if bool_decide (upper (strip mro_id) = EmptyString) then
    (inl (Exn (ValueError (Msg "MRO ID is required."))), w)
  else if mro_id_taken w (upper (strip mro_id)) None then (inl IntegrityError, w)
  else
    let pk := mro_item_seq w + 1 in
    let item := MROItem.mk pk name (upper (strip mro_id))
                  (or_else (upper (strip code)) (upper (strip mro_id))) item_type unit_
                  cost_per_unit opening_stock reorder_level (strip location)
                  (Partner.id vendor) in
    (inr item,
     mkWorkshop (<[pk := item]> (mro_items w)) pk
       (mro_ledger w ++
          if 0 <? opening_stock
          then [MROInventoryLedger.mk pk MROInventoryLedger.IN opening_stock unit_
                  "Opening stock" "opening_stock" pk actor]
          else [])).
Proof.
  unfold create_mro_item_with_opening_stock. destruct (not_a_supplier vendor); [done|].
  cbv zeta. case_bool_decide as Hid; [done|].
  rewrite bool_decide_eq_false_2; last first.
  { intros Hc. apply or_else_empty in Hc as [_ ?]. done. }
  wcompute. destruct (mro_id_taken w (upper (strip mro_id)) None); [done|].
  destruct (0 <? opening_stock); cbn [MROItem.id MROItem.unit mro_items mro_item_seq
    mro_ledger]; [done|]. by rewrite app_nil_r.
Qed.

Lemma update_mro_item_run w item name mro_id code item_type unit_ cost_per_unit vendor
    location reorder_level :
  update_mro_item_details item name mro_id code item_type unit_ cost_per_unit vendor
    location reorder_level w =
  if not_a_supplier vendor then
    (inl (Exn (ValueError (Msg "Selected partner is not a supplier."))), w)
  else if bool_decide (upper (strip mro_id) = EmptyString) then
    (inl (Exn (ValueError (Msg "MRO ID is required."))), w)
  else
    match mro_items w !! MROItem.id item with
    | None => (inl (Exn DoesNotExist), w)
    | Some stored =>
      if mro_id_taken w (upper (strip mro_id)) (Some (MROItem.id stored))
      then (inl IntegrityError, w)
      else
        let locked := MROItem.mk (MROItem.id stored) name (upper (strip mro_id))
                        (or_else (upper (strip code)) (upper (strip mro_id))) item_type unit_
                        cost_per_unit (MROItem.current_stock stored) reorder_level
                        (strip location) (Partner.id vendor) in
        (inr locked,
         mkWorkshop (alter (MROItem.set_details locked) (MROItem.id stored) (mro_items w))
           (mro_item_seq w) (mro_ledger w))
    end.
Proof.
  unfold update_mro_item_details. destruct (not_a_supplier vendor); [done|].
  cbv zeta. case_bool_decide as Hid; [done|].
  rewrite bool_decide_eq_false_2; last first.
  { intros Hc. apply or_else_empty in Hc as [_ ?]. done. }
  wcompute. destruct (mro_items w !! MROItem.id item) as [stored|]; [|done].
  cbn [MROItem.id MROItem.mro_id].
  destruct (mro_id_taken w (upper (strip mro_id)) (Some (MROItem.id stored))); done.
Qed.

Lemma adjust_mro_stock_run w item delta reason_ actor :
  adjust_mro_stock item delta reason_ actor w =
  if bool_decide (delta = 0) then
    (inl (Exn (ValueError (Msg "Adjustment quantity cannot be zero."))), w)
  else
    match mro_items w !! MROItem.id item with
    | None => (inl (Exn DoesNotExist), w)
    | Some stored =>
      if MROItem.current_stock stored + delta <? 0 then
        (inl (Exn (ValueError (Msg "Stock cannot become negative."))), w)
      else
        let locked := MROItem.set_current_stock (MROItem.current_stock stored + delta)
                        stored in
        (inr locked,
         mkWorkshop
           (alter (MROItem.set_current_stock (MROItem.current_stock stored + delta))
              (MROItem.id stored) (mro_items w))
           (mro_item_seq w)
           (mro_ledger w ++
              [MROInventoryLedger.mk (MROItem.id stored)
                 (if 0 <? delta then MROInventoryLedger.IN else MROInventoryLedger.OUT)
                 (Z.abs delta) (MROItem.unit stored) reason_ "manual_adjustment"
                 (MROItem.id stored) actor]))
    end.
Proof.
  unfold adjust_mro_stock. case_bool_decide; [done|].
  wcompute. destruct (mro_items w !! MROItem.id item) as [stored|]; [|done].
  by destruct (MROItem.current_stock stored + delta <? 0).
Qed.

(** ** MRO items: the tables stay in order *)

Lemma mro_net_app pk l1 l2 : mro_net pk (l1 ++ l2) = mro_net pk l1 + mro_net pk l2.
Proof. induction l1 as [|e l1 IH]; cbn [app mro_net]; [done | rewrite IH; lia]. Qed.

Lemma mro_net_fresh pk seq ledger :
  Forall (λ e, MROInventoryLedger.item e ≤ seq ∧ 0 < MROInventoryLedger.quantity e) ledger →
  seq < pk → mro_net pk ledger = 0.
Proof.
  intros Hall Hlt. induction Hall as [|e ledger [He _] _ IH]; [done|].
  cbn [mro_net]. rewrite bool_decide_eq_false_2 by lia. by rewrite IH.
Qed.

Lemma mro_id_taken_false w resolved pk :
  mro_id_taken w resolved pk = false ↔
  ∀ k i, mro_items w !! k = Some i → MROItem.mro_id i = resolved → Some k = pk.
Proof.
  unfold mro_id_taken. split.
  - intros Hex k i Hi Hid. destruct (decide (Some k = pk)) as [|Hne]; [done|]. exfalso.
    apply not_true_iff_false in Hex. apply Hex. apply existsb_exists.
    exists (k, i). split; [by apply list_elem_of_In, elem_of_map_to_list|]. cbn [fst snd].
    apply andb_true_intro. split; [by apply bool_decide_eq_true_2|].
    apply negb_true_iff. by apply bool_decide_eq_false_2.
  - intros Hall. apply not_true_iff_false. intros Hex.
    apply existsb_exists in Hex as ([k i] & Hin & Hb).
    apply list_elem_of_In, elem_of_map_to_list in Hin. cbn [fst snd] in Hb.
    apply andb_prop in Hb as [Hid Hpk]. apply bool_decide_eq_true in Hid.
    apply negb_true_iff, bool_decide_eq_false in Hpk. apply Hpk. by apply (Hall k i).
Qed.

Lemma create_mro_item_ok w name mro_id code item_type unit_ cost_per_unit vendor location
    opening_stock reorder_level actor :
  workshop_ok w → 0 ≤ opening_stock →
  workshop_ok (create_mro_item_with_opening_stock name mro_id code item_type unit_
                 cost_per_unit vendor location opening_stock reorder_level actor w).2.
Proof.
  intros Hok Hopen. rewrite create_mro_item_run.
  destruct (not_a_supplier vendor); [done|].
  case_bool_decide as Hid; [done|].
  destruct (mro_id_taken w (upper (strip mro_id)) None) eqn:Htaken; [done|].
  cbv zeta. cbn [snd]. rewrite mro_id_taken_false in Htaken.
  set (pk := mro_item_seq w + 1).
  assert (mro_items w !! pk = None) as Hfresh.
  { destruct (mro_items w !! pk) as [i|] eqn:Hi; [|done].
    destruct (wo_keys _ Hok _ _ Hi) as [_ Hle]. unfold pk in Hle. lia. }
  split; cbn [mro_items mro_item_seq mro_ledger].
  - apply map_Forall_insert_2; [cbn; split; [done | lia]|].
    intros k i Hi. destruct (wo_keys _ Hok _ _ Hi) as [? ?]. split; [done | unfold pk; lia].
  - apply map_Forall_insert_2.
    + cbn [MROItem.current_stock]. split; [done|]. rewrite mro_net_app.
      rewrite (mro_net_fresh pk (mro_item_seq w)) by (apply (wo_ledger _ Hok) || (unfold pk; lia)).
      destruct (Z.ltb_spec 0 opening_stock); cbn [mro_net MROInventoryLedger.item].
      * rewrite bool_decide_eq_true_2 by done. unfold mro_signed_quantity. cbn. lia.
      * lia.
    + intros k i Hi. destruct (wo_stock _ Hok _ _ Hi) as [? Hnet].
      destruct (wo_keys _ Hok _ _ Hi) as [_ Hle].
      split; [done|]. rewrite mro_net_app, <- Hnet.
      destruct (0 <? opening_stock); cbn [mro_net MROInventoryLedger.item]; [|lia].
      rewrite bool_decide_eq_false_2 by (unfold pk; lia). lia.
  - apply map_Forall_insert_2; [|apply (wo_ids _ Hok)].
    cbn [MROItem.mro_id MROItem.code]. split; [done|].
    split; [apply normalised_upper_strip|]. split.
    + intros Hc. apply or_else_empty in Hc as [_ ?]. done.
    + apply normalised_or_else; apply normalised_upper_strip.
  - intros k1 k2 i1 i2 H1 H2 Heq.
    destruct (decide (k1 = pk)) as [->|Hne1], (decide (k2 = pk)) as [->|Hne2]; [done|..].
    + rewrite lookup_insert_eq in H1. rewrite lookup_insert_ne in H2 by done.
      injection H1 as <-. cbn in Heq. by specialize (Htaken k2 i2 H2 (eq_sym Heq)).
    + rewrite lookup_insert_eq in H2. rewrite lookup_insert_ne in H1 by done.
      injection H2 as <-. cbn in Heq. by specialize (Htaken k1 i1 H1 Heq).
    + rewrite lookup_insert_ne in H1, H2 by done. by apply (wo_unique _ Hok k1 k2 i1 i2).
  - apply Forall_app. split.
    + eapply Forall_impl; [apply (wo_ledger _ Hok)|]. intros e [? ?]. split; [unfold pk; lia | done].
    + destruct (Z.ltb_spec 0 opening_stock); [|constructor].
      constructor; [|constructor]. cbn. split; [lia | done].
Qed.

Lemma update_mro_item_ok w item name mro_id code item_type unit_ cost_per_unit vendor
    location reorder_level :
  workshop_ok w →
  workshop_ok (update_mro_item_details item name mro_id code item_type unit_ cost_per_unit
                 vendor location reorder_level w).2.
Proof.
  intros Hok. rewrite update_mro_item_run.
  destruct (not_a_supplier vendor); [done|].
  case_bool_decide as Hid; [done|].
  destruct (mro_items w !! MROItem.id item) as [stored|] eqn:Hst; [|done].
  destruct (wo_keys _ Hok _ _ Hst) as [Hkey _].
  destruct (mro_id_taken w (upper (strip mro_id)) (Some (MROItem.id stored))) eqn:Htaken;
    [done|].
  cbv zeta. cbn [snd]. rewrite mro_id_taken_false in Htaken. rewrite Hkey in *.
  set (pk := MROItem.id item) in *.
  set (locked := MROItem.mk pk name _ _ _ _ _ _ _ _ _).
  assert (∀ k i', alter (MROItem.set_details locked) pk (mro_items w) !! k = Some i' →
            ∃ i, mro_items w !! k = Some i
                 ∧ ((k = pk ∧ i' = MROItem.set_details locked i) ∨ (k ≠ pk ∧ i' = i)))
    as Hrow.
  { intros k i' Hi'. destruct (decide (k = pk)) as [->|Hne].
    - rewrite lookup_alter_eq, Hst in Hi'. injection Hi' as <-. exists stored. eauto.
    - rewrite lookup_alter_ne in Hi' by done. exists i'. eauto. }
  split; cbn [mro_items mro_item_seq mro_ledger].
  - intros k i' Hi'. destruct (Hrow k i' Hi') as (i & Hi & [[-> ->] | [_ ->]]);
      apply (wo_keys _ Hok _ _ Hi).
  - intros k i' Hi'. destruct (Hrow k i' Hi') as (i & Hi & [[-> ->] | [_ ->]]);
      apply (wo_stock _ Hok _ _ Hi).
  - intros k i' Hi'. destruct (Hrow k i' Hi') as (i & Hi & [[-> ->] | [_ ->]]);
      [|apply (wo_ids _ Hok _ _ Hi)].
    cbn [MROItem.set_details MROItem.mro_id MROItem.code locked]. split; [done|].
    split; [apply normalised_upper_strip|]. split.
    + intros Hc. apply or_else_empty in Hc as [_ ?]. done.
    + apply normalised_or_else; apply normalised_upper_strip.
  - intros k1 k2 i1' i2' H1 H2 Heq.
    destruct (Hrow k1 i1' H1) as (i1 & Hi1 & [[-> ->] | [Hne1 ->]]),
             (Hrow k2 i2' H2) as (i2 & Hi2 & [[-> ->] | [Hne2 ->]]); [done|..].
    + cbn in Heq. specialize (Htaken k2 i2 Hi2 (eq_sym Heq)). by injection Htaken.
    + cbn in Heq. specialize (Htaken k1 i1 Hi1 Heq). by injection Htaken.
    + by apply (wo_unique _ Hok k1 k2 i1 i2).
  - apply (wo_ledger _ Hok).
Qed.

Lemma adjust_mro_stock_ok w item delta reason_ actor :
  workshop_ok w → workshop_ok (adjust_mro_stock item delta reason_ actor w).2.
Proof.
  intros Hok. rewrite adjust_mro_stock_run.
  case_bool_decide as Hd; [done|].
  destruct (mro_items w !! MROItem.id item) as [stored|] eqn:Hst; [|done].
  destruct (wo_keys _ Hok _ _ Hst) as [Hkey Hle].
  destruct (Z.ltb_spec (MROItem.current_stock stored + delta) 0) as [|Hge]; [done|].
  cbv zeta. cbn [snd]. rewrite Hkey in *.
  set (pk := MROItem.id item) in *.
  set (f := MROItem.set_current_stock (MROItem.current_stock stored + delta)).
  assert (∀ k i', alter f pk (mro_items w) !! k = Some i' →
            ∃ i, mro_items w !! k = Some i
                 ∧ ((k = pk ∧ i = stored ∧ i' = f stored) ∨ (k ≠ pk ∧ i' = i)))
    as Hrow.
  { intros k i' Hi'. destruct (decide (k = pk)) as [->|Hne].
    - rewrite lookup_alter_eq, Hst in Hi'. injection Hi' as <-. exists stored. eauto.
    - rewrite lookup_alter_ne in Hi' by done. exists i'. eauto. }
  split; cbn [mro_items mro_item_seq mro_ledger].
  - intros k i' Hi'. destruct (Hrow k i' Hi') as (i & Hi & [(-> & -> & ->) | [_ ->]]);
      apply (wo_keys _ Hok _ _ Hi).
  - intros k i' Hi'. rewrite mro_net_app. cbn [mro_net MROInventoryLedger.item].
    destruct (Hrow k i' Hi') as (i & Hi & [(-> & -> & ->) | [Hne ->]]);
      destruct (wo_stock _ Hok _ _ Hi) as [Hpos Hnet].
    + rewrite bool_decide_eq_true_2 by done. cbn [f MROItem.set_current_stock
        MROItem.current_stock]. split; [done|]. rewrite <- Hnet.
      unfold mro_signed_quantity. cbn. destruct (Z.ltb_spec 0 delta); lia.
    + rewrite bool_decide_eq_false_2 by done. split; [done | lia].
  - intros k i' Hi'. destruct (Hrow k i' Hi') as (i & Hi & [(-> & -> & ->) | [_ ->]]);
      apply (wo_ids _ Hok _ _ Hi).
  - intros k1 k2 i1' i2' H1 H2 Heq.
    destruct (Hrow k1 i1' H1) as (i1 & Hi1 & [(-> & -> & ->) | [Hne1 ->]]),
             (Hrow k2 i2' H2) as (i2 & Hi2 & [(-> & -> & ->) | [Hne2 ->]]); [done|..];
      exact (wo_unique _ Hok _ _ _ _ Hi1 Hi2 Heq).
  - apply Forall_app. split; [apply (wo_ledger _ Hok)|].
    constructor; [|constructor]. cbn. split; [done | lia].
Qed.

Lemma mro_after_all_snoc calls c w :
  mro_after_all (calls ++ [c]) w = mro_after c (mro_after_all calls w).
Proof. unfold mro_after_all. by rewrite foldl_app. Qed.

(** X27. The MRO tables stay in order.  After any list of calls of
    [create_mro_item_with_opening_stock], [update_mro_item_details] and
    [adjust_mro_stock], each succeeding or failing: every item is
    stored under its key; no stock is negative, and the stock of every
    item is exactly the net of its ledger rows (IN minus OUT), the
    opening stock included; MRO ids and codes are not empty and are
    stripped and in upper case; no two items bear the same MRO id; and
    every ledger row has a positive quantity.  Opening stocks have to
    be non-negative. *)
Theorem mro_tables_stay_in_order w calls :
  workshop_ok w → Forall mro_call_ok calls → workshop_ok (mro_after_all calls w).
Proof.
  intros Hok. induction calls as [|c calls IH] using rev_ind; intros Hcalls; [done|].
  apply Forall_app in Hcalls as [Hcalls Hc]. rewrite Forall_singleton in Hc.
  rewrite mro_after_all_snoc. specialize (IH Hcalls).
  destruct c; cbn [mro_after mro_call_ok] in *.
  - by apply create_mro_item_ok.
  - by apply update_mro_item_ok.
  - by apply adjust_mro_stock_ok.
Qed.

Lemma or_else_upper_strip code resolved :
  or_else (upper (strip code)) resolved
  = if bool_decide (strip code = EmptyString) then resolved else upper (strip code).
Proof.
  by destruct (strip code).
Qed.

(** X28. The code of an MRO item is always resolved.  Neither
    [create_mro_item_with_opening_stock] nor [update_mro_item_details]
    ever raises "Item code could not be resolved.": once the MRO id is
    there, so is the code.  The item that either returns bears the
    stripped, upper-case MRO id, which is not empty, and as its code
    the stripped, upper-case code, or the MRO id where the code is
    blank. *)
Theorem mro_code_always_resolves w item name mro_id code item_type unit_ cost_per_unit vendor
    location opening_stock reorder_level actor :
  let created := create_mro_item_with_opening_stock name mro_id code item_type unit_
                   cost_per_unit vendor location opening_stock reorder_level actor w in
  let updated := update_mro_item_details item name mro_id code item_type unit_
                   cost_per_unit vendor location reorder_level w in
  created.1 ≠ inl (Exn (ValueError (Msg "Item code could not be resolved.")))
  ∧ updated.1 ≠ inl (Exn (ValueError (Msg "Item code could not be resolved.")))
  ∧ ∀ result, created.1 = inr result ∨ updated.1 = inr result →
      MROItem.mro_id result = upper (strip mro_id)
      ∧ MROItem.mro_id result ≠ EmptyString
      ∧ MROItem.code result
        = if bool_decide (strip code = EmptyString) then upper (strip mro_id)
          else upper (strip code).
Proof.
  cbv zeta. rewrite create_mro_item_run, update_mro_item_run.
  destruct (not_a_supplier vendor).
  { split; [done|]. split; [done|]. by intros result [|]. }
  case_bool_decide as Hid.
  { split; [done|]. split; [done|]. by intros result [|]. }
  split; [by destruct (mro_id_taken _ _ None)|]. split.
  { destruct (mro_items w !! MROItem.id item) as [stored|]; [|done].
    by destruct (mro_id_taken _ _ (Some _)). }
  intros result [Hr|Hr].
  - destruct (mro_id_taken _ _ None); [done|]. cbv zeta in Hr. cbn [fst] in Hr.
    injection Hr as <-. cbn [MROItem.mro_id MROItem.code].
    split; [done|]. split; [done|]. apply or_else_upper_strip.
  - destruct (mro_items w !! MROItem.id item) as [stored|]; [|done].
    destruct (mro_id_taken _ _ (Some _)); [done|]. cbv zeta in Hr. cbn [fst] in Hr.
    injection Hr as <-. cbn [MROItem.mro_id MROItem.code].
    split; [done|]. split; [done|]. apply or_else_upper_strip.
Qed.

(** X29. Editing the details of an MRO item moves no stock.  Whatever
    its arguments and whether it succeeds or fails,
    [update_mro_item_details] writes no ledger row, creates and removes
    no item, leaves the stock of every item as it is, and leaves every
    item but the one it is called for untouched. *)
Theorem mro_update_moves_no_stock w item name mro_id code item_type unit_ cost_per_unit vendor
    location reorder_level :
  workshop_ok w →
  let w' := (update_mro_item_details item name mro_id code item_type unit_ cost_per_unit
               vendor location reorder_level w).2 in
  mro_ledger w' = mro_ledger w
  ∧ mro_item_seq w' = mro_item_seq w
  ∧ ∀ k, MROItem.current_stock <$> mro_items w' !! k
         = MROItem.current_stock <$> mro_items w !! k
         ∧ (k ≠ MROItem.id item → mro_items w' !! k = mro_items w !! k).
Proof.
  intros Hok. cbv zeta. rewrite update_mro_item_run.
  destruct (not_a_supplier vendor); [done|].
  case_bool_decide as Hid; [done|].
  destruct (mro_items w !! MROItem.id item) as [stored|] eqn:Hst; [|done].
  destruct (wo_keys _ Hok _ _ Hst) as [Hkey _].
  destruct (mro_id_taken _ _ (Some _)); [done|]. cbv zeta. cbn [snd mro_ledger
    mro_item_seq mro_items]. split; [done|]. split; [done|]. intros k. rewrite Hkey.
  destruct (decide (k = MROItem.id item)) as [->|Hne].
  - rewrite lookup_alter_eq, Hst. done.
  - rewrite lookup_alter_ne by done. done.
Qed.

(** X30. An MRO id is taken once.  Where an item bears an MRO id, a
    request for a new item under any spelling of that id (in another
    case, or with blanks around it) fails with an [IntegrityError], and
    so does the request to give the id to another stored item; neither
    writes anything. *)
Theorem mro_id_is_taken_once w k holder other name mro_id code item_type unit_ cost_per_unit
    vendor location opening_stock reorder_level actor :
  workshop_ok w →
  mro_items w !! k = Some holder →
  upper (strip mro_id) = MROItem.mro_id holder →
  not_a_supplier vendor = false →
  create_mro_item_with_opening_stock name mro_id code item_type unit_ cost_per_unit vendor
    location opening_stock reorder_level actor w = (inl IntegrityError, w)
  ∧ (is_Some (mro_items w !! MROItem.id other) → MROItem.id other ≠ k →
     update_mro_item_details other name mro_id code item_type unit_ cost_per_unit vendor
       location reorder_level w = (inl IntegrityError, w)).
Proof.
  intros Hok Hk Hid Hsup.
  destruct (wo_ids _ Hok _ _ Hk) as (Hne & _).
  assert (∀ pk, pk ≠ Some k → mro_id_taken w (upper (strip mro_id)) pk = true) as Htaken.
  { intros pk Hpk. apply not_false_iff_true. intros Hfalse.
    rewrite mro_id_taken_false in Hfalse. apply Hpk. symmetry.
    by apply (Hfalse k holder). }
  split.
  - rewrite create_mro_item_run, Hsup.
    rewrite bool_decide_eq_false_2 by (by rewrite Hid). by rewrite Htaken.
  - intros [stored Hst] Hother. rewrite update_mro_item_run, Hsup, Hst.
    rewrite bool_decide_eq_false_2 by (by rewrite Hid).
    destruct (wo_keys _ Hok _ _ Hst) as [Hkey _].
    rewrite Htaken; [done|]. rewrite Hkey. congruence.
Qed.

(** * The further properties on the examples *)

(** The requests of the examples are what the service function writes. *)
Example request_for_two :
  create_production_order_with_rm_request 1 2 "batch" 1 Example.db
  = (inr Scenario.requested_order, Scenario.db_requested).
Proof. vm_compute. reflexivity. Qed.

Example request_for_ten :
  create_production_order_with_rm_request 1 10 "batch" 1 Example.db
  = (inr Scenario.large_order, Scenario.db_large_request).
Proof. vm_compute. reflexivity. Qed.

Lemma requested_pk_consistent : pk_consistent (raw_materials Scenario.db_requested).
Proof. exact example_pk_consistent. Defined.

(** Rejecting the request for two units. *)
Lemma reject_witness :
  production_orders Scenario.db_requested !! 1 = Some Scenario.requested_order
  ∧ ∃ order' db',
      reject_raw_materials_for_production_order Scenario.requested_order
        Scenario.db_requested = (inr order', db')
      ∧ ProductionOrder.status order' = ProductionOrder.CANCELLED
      ∧ raw_materials db' = raw_materials Scenario.db_requested.
Proof.
  split; [reflexivity|].
  destruct (reject_cancels_only_a_pending_request Scenario.db_requested
              Scenario.requested_order Scenario.requested_order eq_refl eq_refl)
    as (_ & _ & Hok).
  destruct (Hok eq_refl eq_refl) as (order' & db' & Hrun & Ho & Hdb).
  exists order', db'. split; [exact Hrun|]. rewrite Hdb, Ho. split; reflexivity.
Defined.


(** Cancelling the request for two units before any release. *)
Lemma cancel_before_release_witness :
  production_orders Scenario.db_requested !! 1 = Some Scenario.requested_order
  ∧ ∃ order' db',
      cancel_production_order Scenario.requested_order 1 Scenario.db_requested
      = (inr order', db')
      ∧ ProductionOrder.status order' = ProductionOrder.CANCELLED
      ∧ raw_materials db' = raw_materials Scenario.db_requested
      ∧ inventory_ledger db' = [].
Proof.
  split; [reflexivity|].
  destruct (cancel_before_release_moves_no_stock Scenario.db_requested
              Scenario.requested_order Scenario.requested_order 1
              eq_refl eq_refl eq_refl ltac:(done) ltac:(done))
    as (order' & db' & Hrun & Hs & _ & _ & Hrows & Hledger & _).
  exists order', db'. split; [exact Hrun|]. split; [exact Hs|].
  split; [exact Hrows | exact Hledger].
Defined.

(** Releasing the materials of the request for two units, then
    cancelling the order. *)
Lemma release_then_cancel_witness :
  pk_consistent (raw_materials Scenario.db_requested)
  ∧ ∃ order1 db1 order2 db2,
      release_raw_materials_for_production_order Scenario.requested_order 1
        Scenario.db_requested = (inr order1, db1)
      ∧ balance db1 1 = Some 2000
      ∧ cancel_production_order Scenario.requested_order 1 db1 = (inr order2, db2)
      ∧ balance db2 1 = Some 5000
      ∧ balance db2 2 = Some 2000
      ∧ ledger_net 1 (inventory_ledger db2) = 0.
Proof.
  split; [exact requested_pk_consistent|].
  pose (result := release_raw_materials_for_production_order Scenario.requested_order 1
                    Scenario.db_requested).
  assert (∃ order1 db1, result = (inr order1, db1)) as (order1 & db1 & Hrel).
  { vm_compute. eexists _, _. reflexivity. }
  unfold result in Hrel.
  destruct (release_then_cancel_restores_stock Scenario.db_requested
              Scenario.requested_order Scenario.requested_order 1 1 order1 db1
              eq_refl eq_refl requested_pk_consistent Hrel)
    as (order2 & db2 & entries & Hcancel & _ & _ & Hbal & _ & _ & Hnet).
  exists order1, db1, order2, db2. split; [exact Hrel|].
  split. { vm_compute in Hrel. injection Hrel as _ <-. reflexivity. }
  split; [exact Hcancel|]. rewrite !Hbal, Hnet. repeat split; reflexivity.
Defined.

(** A second release of the request for two units. *)
Lemma release_twice_witness :
  pk_consistent (raw_materials Scenario.db_requested)
  ∧ ∃ order1 db1,
      release_raw_materials_for_production_order Scenario.requested_order 1
        Scenario.db_requested = (inr order1, db1)
      ∧ release_raw_materials_for_production_order Scenario.requested_order 2 db1
        = (inl (ValidationError
                  (Msg "This production order is not awaiting raw material release.")), db1).
Proof.
  split; [exact requested_pk_consistent|].
  pose (result := release_raw_materials_for_production_order Scenario.requested_order 1
                    Scenario.db_requested).
  assert (∃ order1 db1, result = (inr order1, db1)) as (order1 & db1 & Hrel).
  { vm_compute. eexists _, _. reflexivity. }
  unfold result in Hrel. exists order1, db1. split; [exact Hrel|].
  apply (proj1 (release_and_cancel_are_not_repeatable Scenario.db_requested
                  Scenario.requested_order Scenario.requested_order 1 order1 db1
                  eq_refl eq_refl requested_pk_consistent) Hrel).
Defined.

(** Releasing the request for ten units, which needs 15 kg of steel and
    2.5 m of cloth against 5 kg and 2 m. *)
Lemma release_shortages_witness :
  pk_consistent (raw_materials Scenario.db_large_request)
  ∧ ∃ shortages,
      release_raw_materials_for_production_order Scenario.large_order 1
        Scenario.db_large_request
      = (inl (ValidationError (MsgShortages "Insufficient stock for release. " shortages)),
         Scenario.db_large_request)
      ∧ shortages = [Short "steel" 15000 "kg" 5000; Short "cloth" 2500 "m" 2000].
Proof.
  split; [exact example_pk_consistent|].
  destruct (release_lists_every_shortage Scenario.db_large_request Scenario.large_order
              Scenario.large_order 1 eq_refl eq_refl eq_refl eq_refl example_pk_consistent)
    as (shortages & Hrun & _).
  { vm_compute. discriminate. }
  exists shortages. split; [exact Hrun|].
  vm_compute in Hrun. injection Hrun as <-. reflexivity.
Defined.

(** Calls on order 99, which is not stored. *)
Lemma missing_order_witness :
  production_orders Example.db !! 99 = None
  ∧ cancel_production_order (ProductionOrder.mk 99 1 1 1000 true ProductionOrder.PLANNED "" 1)
      1 Example.db = (inl DoesNotExist, Example.db).
Proof.
  split; [reflexivity|].
  apply (proj1 (missing_order_is_reported Example.db)
           (ProductionOrder.mk 99 1 1 1000 true ProductionOrder.PLANNED "" 1) 1 eq_refl).
Defined.

(** Cancelling and reopening the open order of the example. *)
Lemma cancel_then_reopen_witness :
  purchase_orders Example.db !! 1 = Some Example.purchase_order
  ∧ ∃ order1 db1,
      cancel_purchase_order 100 Example.purchase_order 1 Example.db = (inr order1, db1)
      ∧ PurchaseOrder.status order1 = PurchaseOrder.CANCELLED
      ∧ reopen_purchase_order Example.purchase_order db1
        = (inr Example.purchase_order, Example.db).
Proof.
  split; [reflexivity|].
  destruct (cancel_then_reopen_restores_the_order Example.db 100 Example.purchase_order
              Example.purchase_order 1 eq_refl eq_refl eq_refl eq_refl eq_refl ltac:(done))
    as (order1 & db1 & Hcancel & Hs & _ & Hreopen).
  exists order1, db1. split; [exact Hcancel|]. split; [exact Hs | exact Hreopen].
Defined.

(** Steel and cloth ordered from vendor 8, though steel is a material
    of vendor 7. *)
Lemma explicit_vendor_witness :
  [PurchaseLineInput.mk Example.steel 25000; PurchaseLineInput.mk Example.cloth 12500] ≠ []
  ∧ ∃ order db',
      create_grouped_purchase_orders_with_vendor "2026-02-20" "Restock" 1
        [PurchaseLineInput.mk Example.steel 25000; PurchaseLineInput.mk Example.cloth 12500]
        (Some (Partner.mk 8 "B" Partner.BOTH)) Example.db = (inr [order], db')
      ∧ PurchaseOrder.vendor order = 8
      ∧ length (lines_of_purchase_order db' (PurchaseOrder.id order)) = 2%nat.
Proof.
  split; [done|].
  destruct (explicit_vendor_gets_one_order Example.db "2026-02-20" "Restock" 1
              [PurchaseLineInput.mk Example.steel 25000;
               PurchaseLineInput.mk Example.cloth 12500]
              (Partner.mk 8 "B" Partner.BOTH) ltac:(done)
              ltac:(repeat constructor)
              ltac:(apply Forall_cons_2; [cbn; lia | constructor]))
    as [_ Hok].
  destruct (Hok ltac:(done)) as (order & db' & Hrun & Hv & _ & _ & Hlines & _).
  exists order, db'. split; [exact Hrun|]. split; [exact Hv|].
  apply Forall2_length in Hlines. by rewrite <- Hlines.
Defined.

(** A request with a line of quantity zero. *)
Lemma checked_lines_witness :
  [PurchaseLineInput.mk Example.steel 25000; PurchaseLineInput.mk Example.cloth 0] ≠ []
  ∧ create_grouped_purchase_orders_with_vendor "2026-02-20" "Restock" 1
      [PurchaseLineInput.mk Example.steel 25000; PurchaseLineInput.mk Example.cloth 0]
      None Example.db
    = (inl (ValidationError (Msg "Quantity must be greater than zero.")), Example.db).
Proof.
  split; [done|].
  apply (proj2 (purchase_lines_are_checked_first Example.db "2026-02-20" "Restock" 1
                  [PurchaseLineInput.mk Example.steel 25000;
                   PurchaseLineInput.mk Example.cloth 0] None)); [done|].
  apply Exists_cons_tl, Exists_cons_hd. cbn. lia.
Defined.

(** Steel, of vendor 7, and felt, whose vendor 99 is not stored. *)
Lemma unknown_vendor_witness :
  partners Example.db !! 99 = None
  ∧ create_grouped_purchase_orders "2026-02-20" "Restock" 1
      [PurchaseLineInput.mk Example.steel 25000; PurchaseLineInput.mk Scenario.felt 100]
      Example.db
    = (inl DoesNotExist, Example.db).
Proof.
  split; [reflexivity|].
  apply unknown_vendor_leaves_no_order.
  - repeat constructor.
  - apply Exists_cons_tl, Exists_cons_hd. reflexivity.
Defined.

Lemma example_partial_items_nodup :
  NoDup (PurchaseOrderItem.id <$> purchase_order_items Example.db_partial).
Proof. apply NoDup_singleton. Defined.

Lemma example_partial_items_exist :
  item_materials_exist Example.db_partial (lines_of_purchase_order Example.db_partial 1).
Proof. repeat constructor; eexists; reflexivity. Defined.

(** Receiving the remaining 6 kg of the example order. *)
Lemma receive_bound_witness :
  pk_consistent (raw_materials Example.db_partial)
  ∧ ∃ order' db',
      receive_purchase_order 50 Example.partial_order 2 (Some [(1, 6000)]) Example.db_partial
      = (inr order', db')
      ∧ Forall (λ item, PurchaseOrderItem.received_quantity item
                        ≤ PurchaseOrderItem.quantity item)
          (lines_of_purchase_order db' 1).
Proof.
  split; [exact example_partial_pk_consistent|].
  pose (result := receive_purchase_order 50 Example.partial_order 2 (Some [(1, 6000)])
                    Example.db_partial).
  assert (∃ order' db', result = (inr order', db')) as (order' & db' & Hrun).
  { vm_compute. eexists _, _. reflexivity. }
  unfold result in Hrun. exists order', db'. split; [exact Hrun|].
  apply (proj2 (receive_never_over_receives Example.db_partial 50 Example.partial_order
                  Example.partial_order 2 (Some [(1, 6000)]) order' db' eq_refl eq_refl
                  example_partial_pk_consistent example_partial_items_nodup
                  example_partial_items_exist Hrun)).
  repeat constructor. cbn. lia.
Defined.

(** Receiving the example order, of which 4 of 10 kg are in, with no map. *)
Lemma receive_all_witness :
  pk_consistent (raw_materials Example.db_partial)
  ∧ ∃ order' db',
      receive_purchase_order 50 Example.partial_order 2 None Example.db_partial
      = (inr order', db')
      ∧ PurchaseOrder.status order' = PurchaseOrder.RECEIVED
      ∧ PurchaseOrder.received_by order' = Some 2
      ∧ balance db' 1 = Some 15000.
Proof.
  split; [exact example_partial_pk_consistent|].
  destruct (receive_without_a_map_completes_the_order Example.db_partial 50
              Example.partial_order Example.partial_order 2 eq_refl eq_refl
              (or_intror eq_refl) example_partial_pk_consistent example_partial_items_nodup
              example_partial_items_exist) as [_ Hok].
  destruct Hok as (order' & db' & Hrun & Hs & Hby & _ & _ & _ & Hbal).
  { apply Exists_cons_hd. cbn. lia. }
  exists order', db'. split; [exact Hrun|]. split; [exact Hs|]. split; [exact Hby|].
  rewrite Hbal. reflexivity.
Defined.

(** The flags of the cancelled order of the example. *)
Lemma flags_witness :
  purchase_orders Example.db_cancelled !! 1 = Some Example.cancelled_order
  ∧ can_cancel Example.cancelled_order = false
  ∧ can_receive Example.cancelled_order = false
  ∧ (∃ msg, cancel_purchase_order 0 Example.cancelled_order 1 Example.db_cancelled
            = (inl (ValidationError msg), Example.db_cancelled))
  ∧ (∃ msg, receive_purchase_order 0 Example.cancelled_order 1 None Example.db_cancelled
            = (inl (ValidationError msg), Example.db_cancelled)).
Proof.
  split; [reflexivity|]. split; [reflexivity|]. split; [reflexivity|].
  destruct (purchase_order_flags_are_the_guards Example.db_cancelled 0
              Example.cancelled_order Example.cancelled_order 1 None eq_refl)
    as (_ & Hcancel & _ & Hreceive & _).
  split; [apply Hcancel | apply Hreceive]; reflexivity.
Defined.



(** Completing the request for two units, which still awaits its
    materials, with 1.9995 produced and no scrap. *)
Lemma complete_witness :
  production_orders (stock_db Scenario.plant) !! 1 = Some Scenario.requested_order
  ∧ 0 < Decimal.quantize_milli (Decimal.mk 19995 (-4))
  ∧ ∃ order' completion p',
      complete_production_order 70 Scenario.requested_order (Decimal.mk 19995 (-4))
        (Decimal.of_int 0) 3 Scenario.plant = (inr (order', completion), p')
      ∧ ProductionOrder.status order' = ProductionOrder.COMPLETED
      ∧ Completion.produced_qty completion = 2000
      ∧ variance_qty order' completion = 0
      ∧ finished_stock p' !! 1 = Some 2000
      ∧ raw_materials (stock_db p') = raw_materials Scenario.db_requested.
Proof.
  split; [reflexivity|]. split; [reflexivity|].
  destruct (complete_credits_the_finished_stock Scenario.plant 70 Scenario.requested_order
              Scenario.requested_order (Decimal.mk 19995 (-4)) (Decimal.of_int 0) 3
              eq_refl eq_refl ltac:(reflexivity) ltac:(discriminate))
    as (_ & _ & Hok).
  destruct (Hok ltac:(done) ltac:(done))
    as (order' & completion & p' & e & Hrun & Ho & Hc & Hvar & _ & _ & Hfs & _ & _ & _
        & _ & _ & _ & Hrows & _).
  exists order', completion, p'. split; [exact Hrun|].
  change (ProductionOrder.product Scenario.requested_order) with 1 in Hfs.
  rewrite Hvar, Hfs, Hrows, Ho, Hc. repeat split; reflexivity.
Defined.

(** Half a thousandth produced is refused: it rounds to zero. *)
Lemma complete_rounding_witness :
  Decimal.quantize_milli (Decimal.mk 5 (-4)) ≤ 0
  ∧ complete_production_order 70 Scenario.requested_order (Decimal.mk 5 (-4))
      (Decimal.of_int 0) 3 Scenario.plant
    = (inl (ValidationError (Msg "Produced quantity must be greater than zero.")),
       Scenario.plant).
Proof.
  split; [discriminate|].
  apply (proj1 (complete_checks_the_rounded_quantities Scenario.plant 70
                  Scenario.requested_order (Decimal.mk 5 (-4)) (Decimal.of_int 0) 3)).
  discriminate.
Defined.

(** Completing the request for two units, then trying to cancel it. *)
Lemma completed_final_witness :
  production_orders (stock_db Scenario.plant) !! 1 = Some Scenario.requested_order
  ∧ ∃ order' completion p',
      complete_production_order 70 Scenario.requested_order (Decimal.of_int 2)
        (Decimal.of_int 0) 3 Scenario.plant = (inr (order', completion), p')
      ∧ cancel_production_order Scenario.requested_order 1 (stock_db p')
        = (inl (ValidationError (Msg "Completed production order cannot be cancelled.")),
           stock_db p').
Proof.
  split; [reflexivity|].
  pose (result := complete_production_order 70 Scenario.requested_order (Decimal.of_int 2)
                    (Decimal.of_int 0) 3 Scenario.plant).
  assert (∃ order' completion p', result = (inr (order', completion), p'))
    as (order' & completion & p' & Hrun).
  { vm_compute. eexists _, _, _. reflexivity. }
  unfold result in Hrun. exists order', completion, p'. split; [exact Hrun|].
  apply (proj1 (proj2 (completed_order_is_final Scenario.plant 70 Scenario.requested_order
                         Scenario.requested_order (Decimal.of_int 2) (Decimal.of_int 0) 3
                         order' completion p' eq_refl eq_refl Hrun))).
Defined.

(** ** The day of calls *)

Lemma requested_well_formed : well_formed (stock_db Scenario.plant).
Proof.
  split; cbn [stock_db Scenario.plant Scenario.db_requested partners raw_materials
              production_orders purchase_orders bom_items production_consumptions
              purchase_order_items production_order_seq purchase_order_seq
              purchase_order_item_seq Example.db].
  - exact example_pk_consistent.
  - apply map_Forall_insert_2; [reflexivity|].
    apply map_Forall_insert_2; [reflexivity|]. apply map_Forall_empty.
  - apply map_Forall_insert_2; [reflexivity|]. apply map_Forall_empty.
  - apply map_Forall_insert_2; [reflexivity|]. apply map_Forall_empty.
  - repeat constructor; eexists; reflexivity.
  - repeat constructor; try (eexists; reflexivity); cbn; lia.
  - repeat constructor; try (eexists; reflexivity); cbn; lia.
  - apply NoDup_singleton.
Defined.

Lemma requested_stock_sound : stock_sound (stock_db Scenario.plant).
Proof.
  split; cbn [stock_db Scenario.plant Scenario.db_requested raw_materials bom_items
              production_consumptions Example.db].
  - apply map_Forall_insert_2; [cbn; lia|].
    apply map_Forall_insert_2; [cbn; lia|]. apply map_Forall_empty.
  - repeat constructor; cbn; lia.
  - cbn. apply NoDup_cons. split; [|apply NoDup_singleton].
    intros Hin. apply list_elem_of_singleton in Hin. discriminate Hin.
  - repeat constructor; cbn; lia.
  - intros pk. unfold lines_of. cbn [production_consumptions Scenario.db_requested].
    eapply sublist_NoDup; [|apply fmap_sublist, sublist_filter].
    cbn. apply NoDup_cons. split; [|apply NoDup_singleton].
    intros Hin. apply list_elem_of_singleton in Hin. discriminate Hin.
Defined.

Lemma day_calls_ok : Forall (call_ok (stock_db Scenario.plant)) Day.calls.
Proof. repeat constructor; eexists; reflexivity. Defined.

Lemma day_quantities_ok : Forall quantity_ok Day.calls.
Proof. repeat constructor. cbn. lia. Defined.

(** The tables at the end of the day. *)
Lemma consistent_tables_witness :
  well_formed (stock_db (after_all Day.calls Scenario.plant))
  ∧ production_order_seq (stock_db (after_all Day.calls Scenario.plant)) = 2
  ∧ purchase_order_seq (stock_db (after_all Day.calls Scenario.plant)) = 3.
Proof.
  split; [|split; vm_compute; reflexivity].
  apply (service_calls_keep_the_tables_consistent Scenario.plant Day.calls).
  - exact requested_well_formed.
  - exact day_calls_ok.
Defined.


(** The purchase line of the first order at the end of the day, fully
    received, before the two new lines. *)
Lemma stored_lines_witness :
  ∃ kept new,
    purchase_order_items (stock_db (after_all Day.calls Scenario.plant)) = kept ++ new
    ∧ Forall2 same_line [PurchaseOrderItem.mk 1 1 1 10000 0 "kg"] kept
    ∧ length new = 2%nat.
Proof.
  destruct (stored_lines_are_kept Scenario.plant Day.calls requested_well_formed
              day_calls_ok) as (_ & _ & _ & kept & new & Hitems & Hkept).
  exists kept, new. split; [exact Hitems|]. split; [exact Hkept|].
  assert (length (purchase_order_items (stock_db (after_all Day.calls Scenario.plant)))
          = 3%nat) as Hlen by (vm_compute; reflexivity).
  apply Forall2_length in Hkept. rewrite Hitems, length_app, <- Hkept in Hlen.
  change (length (purchase_order_items (stock_db Scenario.plant))) with 1%nat in Hlen. lia.
Defined.

(** The adjustment of the day that the stock cannot cover. *)
Lemma failing_call_witness :
  (run (AdjustStock Example.steel (-9000) "count" 1) Scenario.plant).1
  = Some (ValueError (Msg "Stock cannot become negative."))
  ∧ after (AdjustStock Example.steel (-9000) "count" 1) Scenario.plant = Scenario.plant.
Proof.
  split; [vm_compute; reflexivity|].
  apply (a_failing_call_writes_nothing _ _
           (ValueError (Msg "Stock cannot become negative."))).
  vm_compute. reflexivity.
Defined.

(** The balances at the end of the day. *)
Lemma nonneg_witness :
  balance (stock_db (after_all Day.calls Scenario.plant)) 1 = Some 10500
  ∧ balance (stock_db (after_all Day.calls Scenario.plant)) 2 = Some 1250
  ∧ 0 ≤ 10500 ∧ 0 ≤ 1250.
Proof.
  assert (balance (stock_db (after_all Day.calls Scenario.plant)) 1 = Some 10500) as H1
    by (vm_compute; reflexivity).
  assert (balance (stock_db (after_all Day.calls Scenario.plant)) 2 = Some 1250) as H2
    by (vm_compute; reflexivity).
  split; [exact H1|]. split; [exact H2|]. split.
  - exact (stock_never_goes_negative Scenario.plant Day.calls 1 10500 requested_well_formed
             requested_stock_sound day_calls_ok day_quantities_ok H1).
  - exact (stock_never_goes_negative Scenario.plant Day.calls 2 1250 requested_well_formed
             requested_stock_sound day_calls_ok day_quantities_ok H2).
Defined.

(** The finished stock of product 1 at the end of the day: the 2 units
    of the one completion. *)
Lemma finished_witness :
  ∃ entries,
    finished_stock_ledger (after_all Day.calls Scenario.plant) = [] ++ entries
    ∧ finished_total 1 entries = 2000
    ∧ finished_balance (after_all Day.calls Scenario.plant) 1
      = 0 + finished_total 1 entries.
Proof.
  destruct (finished_ledger_explains_finished_stock Scenario.plant Day.calls
              requested_well_formed day_calls_ok) as (entries & Hledger & _ & Hbalance).
  exists entries. split; [exact Hledger|]. split; [|exact (Hbalance 1)].
  cbn [app finished_stock_ledger Scenario.plant] in Hledger.
  rewrite <- Hledger. vm_compute. reflexivity.
Defined.

Lemma requested_keys_bounded : keys_bounded (stock_db Scenario.plant).
Proof.
  split; cbn [stock_db Scenario.plant Scenario.db_requested production_orders
              production_order_seq purchase_orders purchase_order_seq Example.db].
  - apply map_Forall_insert_2; [lia | apply map_Forall_empty].
  - apply map_Forall_insert_2; [lia | apply map_Forall_empty].
Defined.

Lemma evening_well_formed : well_formed (stock_db Day.evening).
Proof. apply (after_all_sound Day.calls Scenario.plant requested_well_formed day_calls_ok). Defined.

Lemma evening_keys_bounded : keys_bounded (stock_db Day.evening).
Proof.
  apply (after_all_closed Day.calls Scenario.plant requested_well_formed
           requested_keys_bounded day_calls_ok).
Defined.

(** The completed order and the received purchase order of the
    evening, after the calls of the night. *)
Lemma closed_orders_witness :
  closed (ProductionOrder.mk 1 1 2 2000 true ProductionOrder.COMPLETED "batch" 1)
  ∧ production_orders (stock_db (after_all Day.late_calls Day.evening)) !! 1
    = Some (ProductionOrder.mk 1 1 2 2000 true ProductionOrder.COMPLETED "batch" 1)
  ∧ purchase_orders (stock_db (after_all Day.late_calls Day.evening)) !! 1
    = Some (PurchaseOrder.mk 1 7 "2026-02-20" PurchaseOrder.RECEIVED "Restock" 1
              (Some 2) (Some 50) None None).
Proof.
  assert (Forall (call_ok (stock_db Day.evening)) Day.late_calls) as Hok
    by repeat constructor.
  destruct (closed_orders_stay_closed Day.evening Day.late_calls evening_well_formed
              evening_keys_bounded Hok) as [Hproduction Hpurchase].
  split; [by right|]. split.
  - destruct (Hproduction 1
                (ProductionOrder.mk 1 1 2 2000 true ProductionOrder.COMPLETED "batch" 1))
      as (o' & Ho' & Hsame); [vm_compute; reflexivity|].
    rewrite Ho'. f_equal. apply Hsame. by right.
  - destruct (Hpurchase 1
                (PurchaseOrder.mk 1 7 "2026-02-20" PurchaseOrder.RECEIVED "Restock" 1
                   (Some 2) (Some 50) None None))
      as (o' & Ho' & Hsame); [vm_compute; reflexivity|].
    rewrite Ho'. f_equal. by apply Hsame.
Defined.

(** ** The MRO store *)

Lemma empty_workshop_ok : workshop_ok Store.empty.
Proof.
  split; cbn [Store.empty mro_items mro_item_seq mro_ledger];
    try apply map_Forall_empty; [|constructor].
  intros k1 k2 i1 i2 H1. by rewrite lookup_empty in H1.
Defined.

Lemma with_drill_ok : workshop_ok Store.with_drill.
Proof.
  exact (create_mro_item_ok Store.empty "Drill" " dr-1 " "" "tool" "pieces" 2500
           Store.supplier "bin 4 " 3000 1000 1 empty_workshop_ok ltac:(lia)).
Defined.

(** The store after the calls: two items, and two drills left of three. *)
Lemma mro_tables_witness :
  workshop_ok (mro_after_all Store.calls Store.empty)
  ∧ MROItem.current_stock <$> mro_items (mro_after_all Store.calls Store.empty) !! 1
    = Some 2000
  ∧ mro_item_seq (mro_after_all Store.calls Store.empty) = 2.
Proof.
  split; [|split; vm_compute; reflexivity].
  apply (mro_tables_stay_in_order Store.empty Store.calls empty_workshop_ok).
  repeat constructor; cbn; lia.
Defined.

(** Renaming the drill. *)
Lemma mro_update_witness :
  ∃ w',
    (update_mro_item_details Store.drill "Hand drill" "dr-1" "hd" "tool" "pieces" 2600
       Store.supplier "bin 5" 1500 Store.with_drill).2 = w'
    ∧ mro_ledger w' = mro_ledger Store.with_drill
    ∧ MROItem.current_stock <$> mro_items w' !! 1 = Some 3000
    ∧ MROItem.code <$> mro_items w' !! 1 = Some "HD".
Proof.
  eexists. split; [reflexivity|].
  destruct (mro_update_moves_no_stock Store.with_drill Store.drill "Hand drill" "dr-1" "hd"
              "tool" "pieces" 2600 Store.supplier "bin 5" 1500 with_drill_ok)
    as (Hledger & _ & Hstock).
  split; [exact Hledger|]. split; [|vm_compute; reflexivity].
  rewrite (proj1 (Hstock 1)). reflexivity.
Defined.

(** A second item under the MRO id of the drill, spelt in lower case. *)
Lemma mro_id_witness :
  upper (strip " dr-1") = MROItem.mro_id Store.drill
  ∧ create_mro_item_with_opening_stock "Drill bit" " dr-1" "x" "tool" "pieces" 100
      Store.supplier "" 0 0 1 Store.with_drill = (inl IntegrityError, Store.with_drill).
Proof.
  split; [reflexivity|].
  apply (mro_id_is_taken_once Store.with_drill 1 Store.drill Store.belt "Drill bit" " dr-1"
           "x" "tool" "pieces" 100 Store.supplier "" 0 0 1 with_drill_ok);
    reflexivity.
Defined.
